(** * Trakt contribution graph: a shallow embedding of the statistics,
      history normaliser, calendar layout and SVG renderer.

    Source files embedded here:
    - [src/stats.js]       (module [Stats]):     local-day strings, streak,
                                                 days active, grouping;
    - [src/fetcher.js]     (module [Fetcher]):   [processTraktHistory];
    - [src/generator.js]   (module [Generator]): [escapeXml], the layout and
                                                 grid of [generateSvg] and
                                                 [generateMultiYearSvg], the
                                                 rendered document;
    - [standalone.js]      (module [Standalone]): the single-file variant with
                                                 the percentile colour scheme.

    JavaScript numbers that the code only ever uses as integers are modelled
    as [Z] (time values, years, pixel coordinates) or [nat] (counts and array
    lengths); the built-in [Date] operations follow the abstract operations
    of ECMA-262 (module [JSDate]), [TimeClip] included: a date made by
    [Date.UTC] or moved by [setUTCDate] is an [option Z], [None] being the
    Invalid Date, and what is computed from it is [None] for [NaN].  The
    year of a layout is an integer; a year that is [NaN] fares like a year
    beyond the range of [Date]: [Date.UTC] makes [NaN] of it. *)

From Stdlib Require Import ZArith Lia QArith Qround Ascii.
From stdpp Require Import base list gmap strings pretty sorting.

Local Open Scope Z_scope.

(* ===================================================================== *)
(** ** ECMAScript [Date]: time values and the proleptic Gregorian calendar *)
(* ===================================================================== *)

Module JSDate.

(** A valid time value is a number of milliseconds since the epoch,
    1970-01-01T00:00:00Z.  Invalid dates ([NaN]) are [None] wherever the
    code can meet them. *)
Definition msPerDay : Z := 86400000.

Definition Day (t : Z) : Z := t / msPerDay.
Definition TimeWithinDay (t : Z) : Z := t mod msPerDay.

(** 1970-01-01 was a Thursday: [WeekDay] is 0 for Sunday ... 6 for Saturday. *)
Definition WeekDay (t : Z) : Z := (Day t + 4) mod 7.

(** Fields of a calendar date: full year, month 1..12, day of month. *)
Record civil : Type := Civil { c_year : Z; c_month : Z; c_date : Z }.

(** The calendar is computed on years that start on March 1, in eras of 400
    years (146097 days); day 0 of era 0 is 0000-03-01, which is 719468 days
    before the epoch. *)
Definition yoe_of (doe : Z) : Z :=
  (doe - doe / 1460 + doe / 36524 - doe / 146096) / 365.
Definition doy_of (doe : Z) : Z :=
  let yoe := yoe_of doe in doe - (365 * yoe + yoe / 4 - yoe / 100).
Definition mp_of (doy : Z) : Z := (5 * doy + 2) / 153.
Definition dom_of (doy : Z) : Z := doy - (153 * mp_of doy + 2) / 5 + 1.

Definition civil_from_days (z : Z) : civil :=
  let z' := z + 719468 in
  let era := z' / 146097 in
  let doe := z' mod 146097 in
  let yoe := yoe_of doe in
  let doy := doy_of doe in
  let mp := mp_of doy in
  let m := if mp <? 10 then mp + 3 else mp - 9 in
  Civil (yoe + era * 400 + (if m <=? 2 then 1 else 0)) m (dom_of doy).

(** Day number of year [y], month [m] (1..12) and day [d]; linear in [d], so
    that day 0 or day 32 of a month mean what [MakeDay] says they mean. *)
Definition days_from_civil (y m d : Z) : Z :=
  let y' := if m <=? 2 then y - 1 else y in
  let era := y' / 400 in
  let yoe := y' mod 400 in
  let mp := (m + 9) mod 12 in
  let doy := (153 * mp + 2) / 5 + d - 1 in
  let doe := yoe * 365 + yoe / 4 - yoe / 100 + doy in
  era * 146097 + doe - 719468.

(** The same calendar, told by the March-based year of a day number and the
    day within that year: [daysBeforeMarchYear y] days lie between
    0000-03-01 and March 1 of year [y]. *)
Definition daysBeforeMarchYear (y : Z) : Z := 365 * y + y / 4 - y / 100 + y / 400.
Definition marchYear (z : Z) : Z :=
  yoe_of ((z + 719468) mod 146097) + (z + 719468) / 146097 * 400.
Definition marchDoy (z : Z) : Z := doy_of ((z + 719468) mod 146097).

(** Calendar order. *)
Definition civil_lt (a b : civil) : Prop :=
  c_year a < c_year b \/
  (c_year a = c_year b /\
   (c_month a < c_month b \/ (c_month a = c_month b /\ c_date a < c_date b))).

Definition YearFromTime (t : Z) : Z := c_year (civil_from_days (Day t)).
(** Months are 0..11 in ECMAScript. *)
Definition MonthFromTime (t : Z) : Z := c_month (civil_from_days (Day t)) - 1.
Definition DateFromTime (t : Z) : Z := c_date (civil_from_days (Day t)).

(** [MakeDay(year, month, date)]: month overflow is carried into the year,
    and [date] counts from the first of that month. *)
Definition MakeDay (year month date : Z) : Z :=
  let ym := year + month / 12 in
  let mn := month mod 12 in
  days_from_civil ym (mn + 1) 1 + date - 1.

Definition MakeTime (hour min sec ms : Z) : Z :=
  hour * 3600000 + min * 60000 + sec * 1000 + ms.

Definition MakeDate (day time : Z) : Z := day * msPerDay + time.

(** [Date.UTC(year, month, date, hours, minutes, seconds)].  Years 0..99 are
    read as 1900..1999, as ECMA-262 prescribes. *)
Definition fullYear (year : Z) : Z :=
  if (0 <=? year) && (year <=? 99) then 1900 + year else year.

(** [TimeClip]: a time value is at most 8.64e15 milliseconds (100 000 000
    days) away from the epoch; beyond that the result is [NaN], here
    [None], and the [Date] made of it is an Invalid Date. *)
Definition maxTime : Z := 8640000000000000.

Definition TimeClip (t : Z) : option Z :=
  if Z.abs t <=? maxTime then Some t else None.

(** The time that [Date.UTC] makes of its arguments, before [TimeClip]. *)
Definition utcTime (year month date hours minutes seconds : Z) : Z :=
  MakeDate (MakeDay (fullYear year) month date) (MakeTime hours minutes seconds 0).

Definition utcDate (year month date : Z) : Z := utcTime year month date 0 0 0.

Definition Date_UTC6 (year month date hours minutes seconds : Z) : option Z :=
  TimeClip (utcTime year month date hours minutes seconds).

Definition Date_UTC (year month date : Z) : option Z := Date_UTC6 year month date 0 0 0.

(** Accessors of a valid [Date] whose time value is [t]. *)
Definition getTime (t : Z) : Z := t.
Definition getUTCFullYear (t : Z) : Z := YearFromTime t.
Definition getUTCMonth (t : Z) : Z := MonthFromTime t.
Definition getUTCDate (t : Z) : Z := DateFromTime t.
Definition getUTCDay (t : Z) : Z := WeekDay t.

(** [d.setUTCDate(dt)] keeps the year, month and time of day; the new time
    value goes through [TimeClip]. *)
Definition withUTCDate (t dt : Z) : Z :=
  MakeDate (MakeDay (YearFromTime t) (MonthFromTime t) dt) (TimeWithinDay t).

Definition setUTCDate (t dt : Z) : option Z := TimeClip (withUTCDate t dt).

Section LocalTime.
(** The host's local time zone adjustment at UTC time [t], in milliseconds
    (daylight saving included): the only thing the local accessors depend on
    besides the time value. *)
Variable LocalTZA : Z -> Z.

Definition LocalTime (t : Z) : Z := t + LocalTZA t.
Definition getFullYear (t : Z) : Z := YearFromTime (LocalTime t).
Definition getMonth (t : Z) : Z := MonthFromTime (LocalTime t).
Definition getDate (t : Z) : Z := DateFromTime (LocalTime t).
Definition getDay (t : Z) : Z := WeekDay (LocalTime t).

End LocalTime.

(** [a < b] on two dates or numbers, either of which may be [NaN]: a
    comparison with [NaN] is false. *)
Definition ltNaN (a b : option Z) : bool :=
  match a, b with
  | Some x, Some y => x <? y
  | _, _ => false
  end.

(** The host whose local time is UTC, and one that is a fixed number of
    hours ahead of (or behind) UTC. *)
Definition tzUTC : Z -> Z := fun _ => 0.
Definition tzFixed (hours : Z) : Z -> Z := fun _ => hours * 3600000.

End JSDate.

(* ===================================================================== *)
(** ** JavaScript built-ins used by the sources *)
(* ===================================================================== *)

Module JS.

(** Strings are sequences of bytes (UTF-8); every character the code tests
    or produces by itself is ASCII. *)
Definition dq : string := String "034"%char EmptyString.

(** [`${n}`] and [String(n)] for an integer [n]. *)
Definition numToString (n : Z) : string := pretty n.

Fixpoint repeatChar (n : nat) (c : ascii) : string :=
  match n with
  | O => EmptyString
  | S k => String c (repeatChar k c)
  end.

(** [s.padStart(targetLength, c)] for a one-character filler. *)
Definition padStart (targetLength : nat) (c : ascii) (s : string) : string :=
  repeatChar (targetLength - String.length s) c +:+ s.

(** [Array.prototype.sort] is stable; [le a b] says that the comparator does
    not put [b] before [a]. *)
Fixpoint insertSorted {A : Type} (le : A -> A -> bool) (x : A) (l : list A) : list A :=
  match l with
  | [] => [x]
  | y :: l' => if le x y then x :: y :: l' else y :: insertSorted le x l'
  end.

Definition sortBy {A : Type} (le : A -> A -> bool) (l : list A) : list A :=
  foldr (insertSorted le) [] l.

(** [l.sort()] on strings: code-unit order. *)
Definition sortStrings (l : list string) : list string := sortBy String.leb l.

(** The order that [sort()], [<=] and [>=] put on strings. *)
Definition strLe (a b : string) : Prop := String.leb a b = true.
Definition strLt (a b : string) : Prop := String.ltb a b = true.

(** [[...new Set(l)]]: the distinct elements in order of first occurrence. *)
Fixpoint setFrom (seen : list string) (l : list string) : list string :=
  match l with
  | [] => []
  | x :: l' =>
      if bool_decide (x ∈ seen) then setFrom seen l'
      else x :: setFrom (x :: seen) l'
  end.

Definition newSet (l : list string) : list string := setFrom [] l.

(** [Math.ceil(a / b)], [Math.floor(a / b)] and [Math.round(a / b)] for
    integers [a] and [b > 0].  On the magnitudes met here (below 2^53) the
    double-precision quotient rounds to the same integer as the exact one
    whenever the exact quotient is not within 1/b of a rounding boundary it
    does not sit on; the callers below divide time values by [msPerDay] and
    day counts by 7. *)
Definition floorDiv (a b : Z) : Z := a / b.
Definition ceilDiv (a b : Z) : Z := - ((- a) / b).
Definition roundDiv (a b : Z) : Z := (2 * a + b) / (2 * b).

Definition digitValue (c : ascii) : option Z :=
  let n := Z.of_N (N_of_ascii c) in
  if (48 <=? n) && (n <=? 57) then Some (n - 48) else None.

(** The decimal digit [k] as a character, and a number written with two and
    with four digits. *)
Definition digitChar (k : Z) : ascii := ascii_of_N (Z.to_N (48 + k)).
Definition twoDigits (n : Z) : string :=
  String (digitChar (n / 10)) (String (digitChar (n mod 10)) EmptyString).
Definition fourDigits (n : Z) : string := twoDigits (n / 100) +:+ twoDigits (n mod 100).

(** The date-only form [YYYY-MM-DD] of the ECMAScript date-time string
    format; such a string denotes midnight UTC of that day. *)
Definition parseDateOnly (s : string) : option Z :=
  match s with
  | String y1 (String y2 (String y3 (String y4 (String "-"
      (String m1 (String m2 (String "-"
        (String d1 (String d2 EmptyString))))))))) =>
      a ← digitValue y1; b ← digitValue y2; c ← digitValue y3; d ← digitValue y4;
      e ← digitValue m1; f ← digitValue m2;
      g ← digitValue d1; h ← digitValue d2;
      let y := a * 1000 + b * 100 + c * 10 + d in
      let m := e * 10 + f in
      let dd := g * 10 + h in
      if (1 <=? m) && (m <=? 12) && (1 <=? dd) && (dd <=? 31)
      then Some (JSDate.MakeDate (JSDate.MakeDay y (m - 1) dd) 0)
      else None
  | _ => None
  end.

Section DateParse.
(** What the host's [Date.parse] makes of a string that is not in the
    date-only form: date-time strings and the implementation-defined
    fallbacks.  [None] is an invalid date. *)
Variable otherFormats : string -> option Z.

Definition Date_parse (s : string) : option Z :=
  match parseDateOnly s with
  | Some t => Some t
  | None => otherFormats s
  end.

End DateParse.

End JS.

(* ===================================================================== *)
(** ** Data model *)
(* ===================================================================== *)

(** One watched occurrence, as [processTraktHistory] builds it. *)
Module Entry.
Record t : Type := Build {
  date : Z;                    (* a valid Date: its time value *)
  title : string;
  episodeTitle : option string;
  episode : option string;     (* "SxxEyy" for episodes *)
  year : option Z;             (* release year; [None] is null *)
  type : string;               (* 'episode' or 'movie' *)
  rating : option Z
}.
End Entry.

(** An entry watched at time [t], for examples: a film. *)
Definition watchedAt (t : Z) : Entry.t :=
  Entry.Build t "Dune" None None (Some 2021) "movie" None.

(** The result of [calculateStreak]. *)
Module Streak.
Record t : Type := Build {
  length : nat;
  startDate : option string;
  endDate : option string
}.
End Streak.

(** What [groupEntriesByDate] keeps of an entry. *)
Module Item.
Record t : Type := Build {
  title : string;
  year : option Z;
  rating : option Z;
  type : string;
  episode : option string
}.
End Item.

(* ===================================================================== *)
(** ** [src/stats.js] *)
(* ===================================================================== *)

Module Stats.

Section Stats.
Variable LocalTZA : Z -> Z.
Variable otherFormats : string -> option Z.

(** [getLocalDateString(date)]: the local [YYYY-MM-DD] of a date. *)
Definition getLocalDateString (date : Z) : string :=
  let year := JSDate.getFullYear LocalTZA date in
  let month := JS.padStart 2 "0" (JS.numToString (JSDate.getMonth LocalTZA date + 1)) in
  let day := JS.padStart 2 "0" (JS.numToString (JSDate.getDate LocalTZA date)) in
  JS.numToString year +:+ "-" +:+ month +:+ "-" +:+ day.

(** The local day number of a date, and the [YYYY-MM-DD] string of a day
    number: [getLocalDateString] is the second of the first. *)
Definition localDay (date : Z) : Z := JSDate.Day (JSDate.LocalTime LocalTZA date).

Definition dayString (z : Z) : string :=
  let c := JSDate.civil_from_days z in
  JS.numToString (JSDate.c_year c) +:+ "-" +:+
  JS.padStart 2 "0" (JS.numToString (JSDate.c_month c)) +:+ "-" +:+
  JS.padStart 2 "0" (JS.numToString (JSDate.c_date c)).

(** A day whose year is written with four digits. *)
Definition fourDigitDay (z : Z) : Prop :=
  1000 <= JSDate.c_year (JSDate.civil_from_days z) <= 9999.

(** A day on which some entry was watched, on the local calendar. *)
Definition activeDay (entries : list Entry.t) (z : Z) : Prop :=
  exists e, e ∈ entries /\ localDay (Entry.date e) = z.

(** [m] days in a row from day [z], each of them active. *)
Definition activeRun (entries : list Entry.t) (z : Z) (m : nat) : Prop :=
  (1 <= m)%nat /\ forall k, 0 <= k < Z.of_nat m -> activeDay entries (z + k).

Definition noStreak : Streak.t := Streak.Build 0 None None.

(** [Math.round((currDate.getTime() - prevDate.getTime()) / (1000*60*60*24))]
    for [prevDate = new Date(prev)] and [currDate = new Date(curr)]; [None]
    is [NaN]. *)
Definition diffDays (prev curr : string) : option Z :=
  prevDate ← JS.Date_parse otherFormats prev;
  currDate ← JS.Date_parse otherFormats curr;
  let diffTime := JSDate.getTime currDate - JSDate.getTime prevDate in
  Some (JS.roundDiv diffTime (1000 * 60 * 60 * 24)).

(** The variables of the scan over [uniqueDates]. *)
Record scan : Type := Scan {
  maxStreak : nat;
  currentStreak : nat;
  maxStart : string;
  maxEnd : string;
  currentStart : string
}.

(** One iteration of the [for] loop, at [uniqueDates[i - 1] = prev] and
    [uniqueDates[i] = curr]. *)
Definition scanStep (prev curr : string) (s : scan) : scan :=
  if bool_decide (diffDays prev curr = Some 1) then
    let currentStreak' := S (currentStreak s) in
    if (maxStreak s <? currentStreak')%nat then
      Scan currentStreak' currentStreak' (currentStart s) curr (currentStart s)
    else
      Scan (maxStreak s) currentStreak' (maxStart s) (maxEnd s) (currentStart s)
  else
    Scan (maxStreak s) 1 (maxStart s) (maxEnd s) curr.

Fixpoint scanLoop (prev : string) (rest : list string) (s : scan) : scan :=
  match rest with
  | [] => s
  | curr :: rest' => scanLoop curr rest' (scanStep prev curr s)
  end.

(** What the scan takes for consecutive days, and a run of [n] consecutive
    days at index [i] of [uniqueDates]. *)
Definition consecutive (prev curr : string) : Prop := diffDays prev curr = Some 1.

Definition isRun (uniqueDates : list string) (i n : nat) : Prop :=
  (1 <= n)%nat /\ (i + n <= length uniqueDates)%nat /\
  forall k a b, (i <= k)%nat -> (k + 1 < i + n)%nat ->
    uniqueDates !! k = Some a -> uniqueDates !! S k = Some b -> consecutive a b.

(** The invariant of the scan when [n] elements of [uniqueDates] have been
    seen: the current run ends at the last of them and cannot be extended to
    the left; the best run is the first of the longest runs among them. *)
Definition scanInv (uniqueDates : list string) (n : nat) (s : scan) : Prop :=
  (1 <= currentStreak s <= n)%nat /\ (currentStreak s <= maxStreak s)%nat /\
  (n <= length uniqueDates)%nat /\
  isRun uniqueDates (n - currentStreak s) (currentStreak s) /\
  uniqueDates !! (n - currentStreak s)%nat = Some (currentStart s) /\
  (forall a b, (currentStreak s < n)%nat ->
     uniqueDates !! (n - currentStreak s - 1)%nat = Some a ->
     uniqueDates !! (n - currentStreak s)%nat = Some b -> ~ consecutive a b) /\
  exists ms,
    (ms + maxStreak s <= n)%nat /\ isRun uniqueDates ms (maxStreak s) /\
    uniqueDates !! ms = Some (maxStart s) /\
    uniqueDates !! (ms + maxStreak s - 1)%nat = Some (maxEnd s) /\
    forall i m, (i + m <= n)%nat -> isRun uniqueDates i m ->
      (m <= maxStreak s)%nat /\ (m = maxStreak s -> (ms <= i)%nat).

Definition uniqueDatesOf (entries : list Entry.t) : list string :=
  JS.newSet (map (fun e => getLocalDateString (Entry.date e)) entries).

(** [calculateStreak(entries)]. *)
Definition calculateStreak (entries : list Entry.t) : Streak.t :=
  match entries with
  | [] => noStreak
  | _ :: _ =>
      let uniqueDates := JS.sortStrings (uniqueDatesOf entries) in
      match uniqueDates with
      | [] => noStreak
      | first :: rest =>
          let s := scanLoop first rest (Scan 1 1 first first first) in
          Streak.Build (maxStreak s) (Some (maxStart s)) (Some (maxEnd s))
      end
  end.

(** [calculateDaysActive(entries)]. *)
Definition calculateDaysActive (entries : list Entry.t) : nat :=
  match entries with
  | [] => 0%nat
  | _ :: _ => length (uniqueDatesOf entries)
  end.

Definition itemOf (entry : Entry.t) : Item.t :=
  Item.Build (Entry.title entry) (Entry.year entry) (Entry.rating entry)
             (Entry.type entry) (Entry.episode entry).

(** [groupEntriesByDate(entries)]: the [Map] is only ever read with [get]. *)
Definition groupEntriesByDate (entries : list Entry.t) : gmap string (list Item.t) :=
  foldl (fun (grouped : gmap string (list Item.t)) entry =>
           let dateKey := getLocalDateString (Entry.date entry) in
           <[dateKey := default [] (grouped !! dateKey) ++ [itemOf entry]]> grouped)
        ∅ entries.

End Stats.

(** Entries on January 1 (twice), 2, 3 and 5 of 2024, out of order. *)
Definition januaryEntries : list Entry.t :=
  [watchedAt (JSDate.utcTime 2024 0 3 21 15 0);
   watchedAt (JSDate.utcTime 2024 0 1 20 0 0);
   watchedAt (JSDate.utcTime 2024 0 5 9 30 0);
   watchedAt (JSDate.utcTime 2024 0 2 23 59 59);
   watchedAt (JSDate.utcTime 2024 0 1 8 0 0)].


End Stats.

(* ===================================================================== *)
(** ** [src/fetcher.js]: [processTraktHistory] *)
(* ===================================================================== *)

(** Raw history records as the Trakt API delivers them.  A nested object
    that a record does not have is [None] ([undefined] in the source);
    reading a property of it raises a [TypeError]. *)
Module RawEpisode.
Record t : Type := Build {
  season : Z;
  number : Z;
  title : option string;
  rating : option Z
}.
End RawEpisode.

Module RawShow.
Record t : Type := Build { title : string; year : option Z }.
End RawShow.

Module RawMovie.
Record t : Type := Build { title : string; year : option Z; rating : option Z }.
End RawMovie.

Module RawItem.
Record t : Type := Build {
  watched_at : string;
  type : string;
  episode : option RawEpisode.t;
  show : option RawShow.t;
  movie : option RawMovie.t
}.
End RawItem.

Module Fetcher.

(** The outcome of a call: a value, or a thrown [TypeError]. *)
Inductive outcome (A : Type) : Type :=
| Return (a : A)
| TypeError.
Arguments Return {A} a.
Arguments TypeError {A}.

(** What [processTraktHistory] returns. *)
Record processed : Type := Processed {
  entries : list Entry.t;
  year : option Z;              (* [selectedYear]; [None] is [NaN] *)
  totalItemsWatched : nat;
  moviesCount : nat;
  episodesCount : nat
}.

(** [x || null] on a rating: 0 and [undefined] become [null]. *)
Definition orNull (x : option Z) : option Z :=
  match x with
  | Some r => if r =? 0 then None else Some r
  | None => None
  end.

(** [yearCount]: a [Map] from year ([None] is the key [NaN]) to count, in
    insertion order. *)
Definition yearCountGet (yearCount : list (option Z * nat)) (k : option Z) : option nat :=
  (fun found => snd (snd found)) <$> list_find (fun p => fst p = k) yearCount.

Fixpoint yearCountSet (yearCount : list (option Z * nat)) (k : option Z) (v : nat)
  : list (option Z * nat) :=
  match yearCount with
  | [] => [(k, v)]
  | (k', v') :: rest =>
      if bool_decide (k' = k) then (k, v) :: rest
      else (k', v') :: yearCountSet rest k v
  end.

(** [a > b] on counts that may be [undefined]: false unless both are
    numbers. *)
Definition gtCount (a b : option nat) : bool :=
  match a, b with
  | Some x, Some y => (y <? x)%nat
  | _, _ => false
  end.

Section Fetcher.
Variable LocalTZA : Z -> Z.
Variable otherFormats : string -> option Z.
(** The time value of [new Date()] when the function runs. *)
Variable now : Z.

(** [new Date(s).getFullYear()]: [None] is [NaN]. *)
Definition yearOf (s : string) : option Z :=
  JSDate.getFullYear LocalTZA <$> JS.Date_parse otherFormats s.

Definition countYears (history : list RawItem.t) : list (option Z * nat) :=
  foldl (fun yearCount entry =>
           let entryYear := yearOf (RawItem.watched_at entry) in
           yearCountSet yearCount entryYear
             (default 0%nat (yearCountGet yearCount entryYear) + 1)%nat)
        [] history.

(** [Array.from(yearCount.keys()).reduce((a, b) =>
      yearCount.get(a) > yearCount.get(b) ? a : b, new Date().getFullYear())] *)
Definition mostActiveYear (yearCount : list (option Z * nat)) : option Z :=
  foldl (fun a b => if gtCount (yearCountGet yearCount a) (yearCountGet yearCount b)
                    then a else b)
        (Some (JSDate.getFullYear LocalTZA now)) (map fst yearCount).

(** [targetYear || mostActiveYear]: [null] and 0 are falsy. *)
Definition selectYear (targetYear : option Z) (yearCount : list (option Z * nat))
  : option Z :=
  match targetYear with
  | Some y => if y =? 0 then mostActiveYear yearCount else Some y
  | None => mostActiveYear yearCount
  end.

Definition episodeCode (episode : RawEpisode.t) : string :=
  "S" +:+ JS.padStart 2 "0" (JS.numToString (RawEpisode.season episode)) +:+
  "E" +:+ JS.padStart 2 "0" (JS.numToString (RawEpisode.number episode)).

(** The body of the second [history.forEach]. *)
Definition processEntry (selectedYear : option Z) (acc : processed) (entry : RawItem.t)
  : outcome processed :=
  match JS.Date_parse otherFormats (RawItem.watched_at entry) with
  | None => Return acc                      (* NaN !== selectedYear *)
  | Some date =>
      if bool_decide (Some (JSDate.getFullYear LocalTZA date) = selectedYear) then
        if String.eqb (RawItem.type entry) "episode" then
          match RawItem.episode entry, RawItem.show entry with
          | Some episode, Some show =>
              let entryDetails :=
                Entry.Build date (RawShow.title show) (RawEpisode.title episode)
                  (Some (episodeCode episode)) (RawShow.year show) "episode"
                  (orNull (RawEpisode.rating episode)) in
              Return (Processed (entries acc ++ [entryDetails]) (year acc)
                        (S (totalItemsWatched acc)) (moviesCount acc)
                        (S (episodesCount acc)))
          | _, _ => TypeError
          end
        else if String.eqb (RawItem.type entry) "movie" then
          match RawItem.movie entry with
          | Some movie =>
              let entryDetails :=
                Entry.Build date (RawMovie.title movie) None None
                  (RawMovie.year movie) "movie" (orNull (RawMovie.rating movie)) in
              Return (Processed (entries acc ++ [entryDetails]) (year acc)
                        (S (totalItemsWatched acc)) (S (moviesCount acc))
                        (episodesCount acc))
          | None => TypeError
          end
        else Return acc
      else Return acc
  end.

Fixpoint forEachEntry (selectedYear : option Z) (history : list RawItem.t)
  (acc : processed) : outcome processed :=
  match history with
  | [] => Return acc
  | entry :: rest =>
      match processEntry selectedYear acc entry with
      | Return acc' => forEachEntry selectedYear rest acc'
      | TypeError => TypeError
      end
  end.

(** [processTraktHistory(history, targetYear)]. *)
Definition processTraktHistory (history : list RawItem.t) (targetYear : option Z)
  : outcome processed :=
  let yearCount := countYears history in
  let selectedYear := selectYear targetYear yearCount in
  forEachEntry selectedYear history (Processed [] selectedYear 0 0 0).

(** The entry that the specification's normaliser makes of one record:
    none when the date does not parse, when its local year is not the
    selected one, or when the kind is neither episode nor movie. *)
Definition normalized (selectedYear : option Z) (entry : RawItem.t) : option Entry.t :=
  date ← JS.Date_parse otherFormats (RawItem.watched_at entry);
  if bool_decide (Some (JSDate.getFullYear LocalTZA date) = selectedYear) then
    if String.eqb (RawItem.type entry) "episode" then
      episode ← RawItem.episode entry;
      show ← RawItem.show entry;
      Some (Entry.Build date (RawShow.title show) (RawEpisode.title episode)
              (Some (episodeCode episode)) (RawShow.year show) "episode"
              (orNull (RawEpisode.rating episode)))
    else if String.eqb (RawItem.type entry) "movie" then
      movie ← RawItem.movie entry;
      Some (Entry.Build date (RawMovie.title movie) None None
              (RawMovie.year movie) "movie" (orNull (RawMovie.rating movie)))
    else None
  else None.

End Fetcher.

(** A record has the nested objects of its kind: [episode] and [show] for an
    episode, [movie] for a movie. *)
Definition wellShaped (entry : RawItem.t) : Prop :=
  (RawItem.type entry = "episode" ->
     is_Some (RawItem.episode entry) /\ is_Some (RawItem.show entry)) /\
  (RawItem.type entry = "movie" -> is_Some (RawItem.movie entry)).

(** For examples: a date-time string as the API sends it, and a host that
    parses it. *)
Definition march1st2024 : string := "2024-03-01T20:00:00.000Z".
Definition parseMarch1st (s : string) : option Z :=
  if String.eqb s march1st2024 then Some (JSDate.utcTime 2024 2 1 20 0 0) else None.

End Fetcher.

(* ===================================================================== *)
(** ** Template literals *)
(* ===================================================================== *)

Module Template.

(** [s.replace(/[...]/g, f)] for a character class: every character goes
    through [f], which leaves the ones outside the class alone. *)
Fixpoint replaceEach (f : ascii -> string) (s : string) : string :=
  match s with
  | EmptyString => EmptyString
  | String c s' => f c +:+ replaceEach f s'
  end.

(** The characters that XML reserves, and whether a character occurs in a
    string. *)
Definition isReserved (c : ascii) : bool :=
  match c with
  | "<"%char | ">"%char | "&"%char | "'"%char | "034"%char => true
  | _ => false
  end.

Fixpoint hasChar (c : ascii) (s : string) : bool :=
  match s with
  | EmptyString => false
  | String c' s' => Ascii.eqb c c' || hasChar c s'
  end.

(** Static template text is written with a grave accent wherever the source
    has a double quote; [T] puts the double quotes back. *)
Definition T (s : string) : string :=
  replaceEach (fun c => match c with "`"%char => JS.dq | _ => String c EmptyString end) s.

Definition num (n : Z) : string := JS.numToString n.
(** A value in a template literal: the string, [null], [undefined]. *)
Definition str (o : option string) : string := default EmptyString o.
Definition strOrNull (o : option string) : string := default "null" o.
Definition strOrUndefined (o : option string) : string := default "undefined" o.
Definition numOrNull (o : option Z) : string :=
  match o with Some n => num n | None => "null" end.
(** A string option is truthy when it is a non-empty string. *)
Definition truthy (o : option string) : bool :=
  match o with Some s => negb (String.eqb s EmptyString) | None => false end.

Definition joinAll (l : list string) : string := foldr String.app EmptyString l.

(** [part] occurs in [doc]. *)
Definition contains (doc part : string) : Prop :=
  exists pre post, doc = pre +:+ part +:+ post.

(** [l[i]] in a template literal. *)
Definition elt (l : list string) (i : Z) : string :=
  if i <? 0 then "undefined" else default "undefined" (l !! Z.to_nat i).

Definition charAt0 (s : string) : string :=
  match s with String c _ => String c EmptyString | EmptyString => EmptyString end.

(** [s.length]: the number of UTF-16 code units of a UTF-8 string. *)
Fixpoint jsLength (s : string) : Z :=
  match s with
  | EmptyString => 0
  | String c s' =>
      let n := Z.of_N (N_of_ascii c) in
      (if (128 <=? n) && (n <? 192) then 0 else if 240 <=? n then 2 else 1) + jsLength s'
  end.

(** [Math.max(...l)] of a non-empty list. *)
Definition maxOf (l : list Z) : Z :=
  match l with
  | [] => 0
  | x :: l' => foldl Z.max x l'
  end.

(** [n / 2] in a template literal, for an integer [n]: a half prints as
    [.5]. *)
Definition numHalf (n : Z) : string :=
  if Z.even n then num (n / 2)
  else (if n <? 0 then "-" else EmptyString) +:+ num (Z.abs n / 2) +:+ ".5".

(** What a call of a renderer comes to: the document, a thrown
    [TypeError], a thrown [RangeError], or a grid that holds [NaN] (whose
    document is not modelled). *)
Inductive rendered : Type :=
| Document (svg : string)
| Thrown
| RangeError
| GridNaN.

(** [l[i]] in a template literal, for an index that may be [NaN]. *)
Definition eltNaN (l : list string) (i : option Z) : string :=
  match i with Some i => elt l i | None => "undefined" end.

(** A number in a template literal that may be [NaN]. *)
Definition numNaN (n : option Z) : string :=
  match n with Some n => num n | None => "NaN" end.

End Template.

(* ===================================================================== *)
(** ** [src/generator.js] *)
(* ===================================================================== *)

Module Generator.
Import Template.

Definition escapeChar (c : ascii) : string :=
  match c with
  | "<"%char => "&lt;"
  | ">"%char => "&gt;"
  | "&"%char => "&amp;"
  | "'"%char => "&apos;"
  | "034"%char => "&quot;"
  | _ => String c EmptyString
  end.

(** [escapeXml(unsafe)]; [None] is [undefined] or [null]. *)
Definition escapeXml (unsafe : option string) : string :=
  match unsafe with
  | None => EmptyString
  | Some s => replaceEach escapeChar s
  end.

(** *** Calendar layout of one year

    The statements of [generateSvg] from "Setup date range" to the grid,
    which [generateMultiYearSvg] repeats for each of its years. *)
Section Layout.
Variable year : Z.
Variable weekStart : string.

(** [new Date(Date.UTC(displayYear, 0, 1))] and
    [new Date(Date.UTC(displayYear, 11, 31))]; [None] is an Invalid Date. *)
Definition jan1 : option Z := JSDate.Date_UTC year 0 1.
Definition endDate : option Z := JSDate.Date_UTC year 11 31.

(** [startDate.getUTCDay()], [NaN] on an Invalid Date, and [dayShift]. *)
Definition startDay : option Z := JSDate.getUTCDay <$> jan1.

Definition dayShift : option Z :=
  (fun startDay =>
     if String.eqb weekStart "monday" then Z.rem (startDay + 6) 7 else startDay)
    <$> startDay.

(** [startDate] after [if (dayShift > 0) startDate.setUTCDate(...)]; an
    Invalid Date stays one ([NaN > 0] is false). *)
Definition startDate : option Z :=
  t ← jan1;
  dayShift ← dayShift;
  if 0 <? dayShift
  then JSDate.setUTCDate t (JSDate.getUTCDate t - dayShift)
  else Some t.

(** [NaN] as soon as one of the two dates is invalid. *)
Definition totalDays : option Z :=
  e ← endDate;
  s ← startDate;
  Some (JS.ceilDiv (JSDate.getTime e - JSDate.getTime s) (1000 * 60 * 60 * 24) + 1).

Definition totalWeeks : option Z :=
  (fun totalDays => JS.ceilDiv totalDays 7) <$> totalDays.

(** The two numbers that the loops read, [startDate.getTime()] and
    [totalWeeks]; [None] when [totalWeeks] is [NaN], and then
    [Array(totalWeeks)] throws before any loop runs. *)
Definition layout : option (Z * Z) :=
  s ← startDate;
  w ← totalWeeks;
  Some (s, w).

End Layout.

(** [Array(7).fill(0).map(() => Array(totalWeeks).fill(0))].  [Array(n)]
    throws a [RangeError] unless [n] is an integer from 0 to 2^32 - 1, so
    also when [n] is [NaN]; [None] is that error. *)
Definition emptyGrid (totalWeeks : option Z) : option (list (list nat)) :=
  match totalWeeks with
  | Some n =>
      if (0 <=? n) && (n <? 2 ^ 32)
      then Some (replicate 7 (replicate (Z.to_nat n) 0%nat))
      else None
  | None => None
  end.

(** The state of the accumulation: the grid and [maxCount]; or what goes
    wrong: [Array(totalWeeks)] throws a [RangeError]; in
    [grid[dayIndex][weekIndex]++], [grid[dayIndex]] is [undefined] (a
    [TypeError]), or the row has no such cell (the increment would store
    [NaN] there). *)
Inductive accum : Type :=
| Grid (grid : list (list nat)) (maxCount : nat)
| InvalidLength
| NoRow
| NoCell.

Definition increment (grid : list (list nat)) (maxCount : nat) (d w : Z) : accum :=
  if d <? 0 then NoRow else
  match grid !! Z.to_nat d with
  | None => NoRow
  | Some row =>
      if w <? 0 then NoCell else
      match row !! Z.to_nat w with
      | None => NoCell
      | Some c =>
          Grid (<[Z.to_nat d := <[Z.to_nat w := S c]> row]> grid) (Nat.max maxCount (S c))
      end
  end.

(** The accumulation loop, which runs once the grid exists: [startDate] and
    [totalWeeks] are numbers then. *)
Section Accumulate.
Variable weekStart : string.
(** [startDate.getTime()] *)
Variable startDate : Z.
Variable totalWeeks : Z.

Definition daysSinceStart (t : Z) : Z :=
  JS.floorDiv (t - startDate) (1000 * 60 * 60 * 24).

Definition weekIndex (t : Z) : Z := JS.floorDiv (daysSinceStart t) 7.

Definition dayIndex (t : Z) : Z :=
  if String.eqb weekStart "monday"
  then Z.rem (JSDate.getUTCDay t + 6) 7
  else JSDate.getUTCDay t.

(** The body of [sortedEntries.forEach] (of [yearEntries.forEach] in
    [generateMultiYearSvg]). *)
Definition place (a : accum) (entry : Entry.t) : accum :=
  match a with
  | Grid grid maxCount =>
      let t := JSDate.getTime (Entry.date entry) in
      if (0 <=? weekIndex t) && (weekIndex t <? totalWeeks)
      then increment grid maxCount (dayIndex t) (weekIndex t)
      else Grid grid maxCount
  | failed => failed
  end.

End Accumulate.

(** From "Setup date range" to the end of the accumulation loop. *)
Definition buildGrid (year : Z) (weekStart : string) (entries : list Entry.t) : accum :=
  match layout year weekStart with
  | None => InvalidLength                        (* [Array(NaN)] *)
  | Some (startDate, totalWeeks) =>
      match emptyGrid (Some totalWeeks) with
      | None => InvalidLength
      | Some grid => foldl (place weekStart startDate totalWeeks) (Grid grid 0) entries
      end
  end.

(** An entry whose week index passes the test of the accumulation loop. *)
Definition inGrid (startDate totalWeeks : Z) (entry : Entry.t) : Prop :=
  0 <= weekIndex startDate (JSDate.getTime (Entry.date entry)) < totalWeeks.

#[global] Instance inGrid_dec startDate totalWeeks entry :
  Decision (inGrid startDate totalWeeks entry).
Proof. unfold inGrid. apply _. Defined.

(** Day numbers of January 1 and of December 31 of the year laid out. *)
Definition firstDay (year : Z) : Z := JSDate.MakeDay (JSDate.fullYear year) 0 1.
Definition lastDay (year : Z) : Z := JSDate.MakeDay (JSDate.fullYear year) 11 31.

(** The sum of all cells, and the shape of a grid of [7] rows by [weeks]
    columns. *)
Definition gridSum (grid : list (list nat)) : nat := sum_list (sum_list <$> grid).

Definition gridShape (weeks : Z) (grid : list (list nat)) : Prop :=
  length grid = 7%nat /\ Forall (fun row => Z.of_nat (length row) = weeks) grid.

Section Entries.
Variable LocalTZA : Z -> Z.

(** [[...entries].filter(e => e.date.getFullYear() === year)
                  .sort((a, b) => a.date.getTime() - b.date.getTime())] *)
Definition sortedEntries (year : Z) (entries : list Entry.t) : list Entry.t :=
  JS.sortBy (fun a b => Entry.date a <=? Entry.date b)
    (filter (fun entry => JSDate.getFullYear LocalTZA (Entry.date entry) = year) entries).


(** [entries.filter(entry => entry.date.getFullYear() === year)] *)
Definition yearEntries (year : Z) (entries : list Entry.t) : list Entry.t :=
  filter (fun entry => JSDate.getFullYear LocalTZA (Entry.date entry) = year) entries.

(** An entry of the target year, on the local calendar (the filter of
    [generateSvg]) and on the UTC calendar. *)
Definition inTargetYear (year : Z) (entry : Entry.t) : Prop :=
  JSDate.getFullYear LocalTZA (Entry.date entry) = year.

Definition inTargetYearUTC (year : Z) (entry : Entry.t) : Prop :=
  JSDate.getUTCFullYear (Entry.date entry) = year.

#[global] Instance inTargetYear_dec year entry : Decision (inTargetYear year entry).
Proof. unfold inTargetYear. apply _. Defined.

#[global] Instance inTargetYearUTC_dec year entry : Decision (inTargetYearUTC year entry).
Proof. unfold inTargetYearUTC. apply _. Defined.

(** The grid that [generateSvg] builds. *)
Definition generateSvg_grid (entries : list Entry.t) (year : Z) (weekStart : string) : accum :=
  buildGrid year weekStart (sortedEntries year entries).

(** What the pass of [generateMultiYearSvg] for each of its years, newest
    first, makes of that year's grid; a pass that does not end in a grid
    throws, which ends the call. *)
Definition generateMultiYearSvg_grids (entries : list Entry.t) (years : list Z)
  (weekStart : string) : list accum :=
  map (fun year => buildGrid year weekStart (yearEntries year entries))
      (JS.sortBy (fun a b => b <=? a) years).

End Entries.

(** [getColor(count)]: the index into [t.colors].
    [Math.ceil((count / maxCount) * 4)] is taken on exact quotients: for
    counts below 2^51 the double [count / maxCount] is at least as close to
    the exact quotient as to any multiple of 1/4 it is not equal to. *)
Definition colorLevel (maxCount count : nat) : Z :=
  if (count =? 0)%nat then 0
  else if (maxCount =? 0)%nat then 0
  else
    let level := Qceiling (inject_Z (Z.of_nat count) / inject_Z (Z.of_nat maxCount) * 4) in
    Z.min level 4.

(** *** The rendered document *)

(** **** Embedded fonts *)

Record fonts : Type := Fonts {
  regular : option string;
  medium : option string;
  semibold : option string;
  bold : option string
}.

(** What [generateSvg] can read besides its arguments: the clock, the font
    files in [FONTS_DIR] (the base64 text of each file that exists) and the
    module variable [embeddedFonts]. *)
Record world : Type := World {
  clock : Z;
  fontFiles : fonts;
  embeddedFonts : option fonts
}.

(** A first start, with no font files and nothing read yet, and a directory
    that holds the regular face. *)
Definition noFonts : fonts := Fonts None None None None.
Definition regularOnly : fonts := Fonts (Some "d09GMgABAAAAA") None None None.
Definition firstStart (now : Z) : world := World now noFonts None.

Definition loadFontsBase64 (w : world) : fonts :=
  let load (file : option string) :=
    (fun fontData => "data:font/woff2;base64," +:+ fontData) <$> file in
  Fonts (load (regular (fontFiles w))) (load (medium (fontFiles w)))
        (load (semibold (fontFiles w))) (load (bold (fontFiles w))).

Definition getEmbeddedFonts (w : world) : fonts * world :=
  match embeddedFonts w with
  | Some fonts => (fonts, w)
  | None =>
      let fonts := loadFontsBase64 w in
      (fonts, World (clock w) (fontFiles w) (Some fonts))
  end.

Definition noKeys (f : fonts) : bool :=
  match regular f, medium f, semibold f, bold f with
  | None, None, None, None => true
  | _, _, _, _ => false
  end.

Definition generateFontFaceCSS (w : world) : string * world :=
  let '(fonts, w') := getEmbeddedFonts w in
  if noKeys fonts then (EmptyString, w')
  else
   ("
      @font-face {
        font-family: 'Inter';
        font-style: normal;
        font-weight: 400;
        src: url('" +:+
    strOrUndefined (regular fonts) +:+
    "') format('woff2');
      }
      @font-face {
        font-family: 'Inter';
        font-style: normal;
        font-weight: 500;
        src: url('" +:+
    strOrUndefined (medium fonts) +:+
    "') format('woff2');
      }
      @font-face {
        font-family: 'Inter';
        font-style: normal;
        font-weight: 600;
        src: url('" +:+
    strOrUndefined (semibold fonts) +:+
    "') format('woff2');
      }
      @font-face {
        font-family: 'Inter';
        font-style: normal;
        font-weight: 700;
        src: url('" +:+
    strOrUndefined (bold fonts) +:+
    "') format('woff2');
      }
  ",
    w').

(** **** Themes *)

Record theme : Type := Theme {
  bg : string;
  cardBorder : string;
  text : string;
  textMuted : string;
  tooltipBg : string;
  tooltipBorder : string;
  tooltipText : string;
  colors : list string
}.

Definition dark : theme :=
  Theme "#0d1117" "#21262d" "#e6edf3" "#7d8590" "#161b22" "#30363d" "#f0f6fc"
        ["#161b22"; "#5c1015"; "#8b1a22"; "#c41e2a"; "#ed1c24"].

Definition light : theme :=
  Theme "#ffffff" "#d1d9e0" "#1f2328" "#656d76" "#ffffff" "#d1d9e0" "#1f2328"
        ["#ebedf0"; "#ffc9cc"; "#ff8a8f"; "#ed4c55"; "#ed1c24"].

(** Property names that every object literal inherits: [themes[name]] is
    then a function or object without [colors]. *)
Definition inheritedKeys : list string :=
  ["constructor"; "__proto__"; "hasOwnProperty"; "isPrototypeOf";
   "propertyIsEnumerable"; "toLocaleString"; "toString"; "valueOf";
   "__defineGetter__"; "__defineSetter__"; "__lookupGetter__"; "__lookupSetter__"].

(** [themes[theme] || themes.dark]; [None] when the value found has no
    [colors], so that [t.colors[3]] throws. *)
Definition selectTheme (name : string) : option theme :=
  if String.eqb name "dark" then Some dark
  else if String.eqb name "light" then Some light
  else if bool_decide (name ∈ inheritedKeys) then None
  else Some dark.

Definition color (t : theme) (i : nat) : string := strOrUndefined (colors t !! i).

(** [getColor(count)] *)
Definition getColor (t : theme) (maxCount count : nat) : string :=
  color t (Z.to_nat (colorLevel maxCount count)).

(** **** Options of [generateSvg]; [None] is a property left out. *)
Module Options.
Record t : Type := Build {
  theme : option string;
  year : option Z;
  weekStart : option string;
  profileImage : option string;
  displayName : option string;
  username : option string;
  usernameGradient : option bool;
  logoBase64 : option string;
  contentType : option string;
  moviesCount : option Z;
  episodesCount : option Z;
  followers : option Z
}.
End Options.

(** Options that name the year and nothing else. *)
Definition yearOnly (y : Z) : Options.t :=
  Options.Build None (Some y) None None None None None None None None None None.

Definition CELL_SIZE : Z := 14.
Definition CELL_GAP : Z := 3.
Definition SVG_HEIGHT : Z := 290.
Definition GRID_OFFSET_X : Z := 51.
Definition GRID_OFFSET_Y : Z := 165.
Definition DAYS_SUNDAY : list string := ["Sun"; "Mon"; "Tue"; "Wed"; "Thu"; "Fri"; "Sat"].
Definition DAYS_MONDAY : list string := ["Mon"; "Tue"; "Wed"; "Thu"; "Fri"; "Sat"; "Sun"].
Definition MONTHS : list string :=
  ["Jan"; "Feb"; "Mar"; "Apr"; "May"; "Jun"; "Jul"; "Aug"; "Sep"; "Oct"; "Nov"; "Dec"].

(** One line of a tooltip. *)
Definition formatItem (item : Item.t) : string :=
  if String.eqb (Item.type item) "episode" && truthy (Item.episode item)
  then "• " +:+ Item.title item +:+ " " +:+ str (Item.episode item) +:+
       " (" +:+ numOrNull (Item.year item) +:+ ")"
  else "• " +:+ Item.title item +:+ " (" +:+ numOrNull (Item.year item) +:+ ")".

Section Render.
Variable LocalTZA : Z -> Z.
Variable otherFormats : string -> option Z.
(** [Math.round((count / maxWeeklyCount) * 45)], a double-precision
    computation whose value is left open. *)
Variable barHeightOf : nat -> nat -> Z.

(** The date of the cell in row [day] and column [week], [None] when it is
    an Invalid Date; [startDate] is [startDate.getTime()]. *)
Definition cellDateOf (startDate : Z) (day week : Z) : option Z :=
  JSDate.setUTCDate startDate (JSDate.getUTCDate startDate + week * 7 + day).

(** [cellDate < new Date(Date.UTC(displayYear, 0, 1)) ||
     cellDate > new Date(Date.UTC(displayYear, 11, 31))] *)
Definition isOutsideYear (displayYear : Z) (cellDate : option Z) : bool :=
  JSDate.ltNaN cellDate (JSDate.Date_UTC displayYear 0 1) ||
  JSDate.ltNaN (JSDate.Date_UTC displayYear 11 31) cellDate.

(** The body of the two nested [for] loops: what one cell appends to [svg]. *)
Definition cellMarkup (t : theme) (username : string) (displayYear : Z)
  (startDate : Z) (itemsPerDay : gmap string (list Item.t)) (maxCount : nat)
  (streak : Streak.t) (SVG_WIDTH : Z) (day week : Z) : string :=
  let cellDate := cellDateOf startDate day week in
  let year := JSDate.getFullYear LocalTZA <$> cellDate in
  let month :=
    JS.padStart 2 "0" (numNaN ((fun d => JSDate.getMonth LocalTZA d + 1) <$> cellDate)) in
  let dayOfMonth := JS.padStart 2 "0" (numNaN (JSDate.getDate LocalTZA <$> cellDate)) in
  let tooltipDate := numNaN year +:+ "-" +:+ month +:+ "-" +:+ dayOfMonth in
  let itemsForDay := default [] (itemsPerDay !! tooltipDate) in
  let count := length itemsForDay in
  let color_ := getColor t maxCount count in
  let x := week * (CELL_SIZE + CELL_GAP) in
  let y := day * (CELL_SIZE + CELL_GAP) in
  if isOutsideYear displayYear cellDate then EmptyString      (* continue *)
  else
    let historyUrl := "https://trakt.tv/users/" +:+ username +:+ "/history" in
    let dayName := eltNaN ["Sun"; "Mon"; "Tue"; "Wed"; "Thu"; "Fri"; "Sat"]
                          (JSDate.getDay LocalTZA <$> cellDate) in
    let dayNum := JSDate.getDate LocalTZA <$> cellDate in
    let monthName := eltNaN MONTHS (JSDate.getMonth LocalTZA <$> cellDate) in
    let tooltipTitle :=
      dayName +:+ ", " +:+ numNaN dayNum +:+ ". " +:+ monthName +:+ " " +:+ numNaN year +:+
      ": " +:+ num (Z.of_nat count) +:+ " item" +:+
      (if (count =? 1)%nat then EmptyString else "s") +:+ " watched" in
    let lineHeight := 18 in
    let tooltipHeight := 38 + Z.of_nat (length itemsForDay) * lineHeight in
    let formattedItems := map formatItem itemsForDay in
    let tooltipWidth :=
      Z.max 280 (maxOf (map (fun s => jsLength s * 7) (tooltipTitle :: formattedItems))) in
    let tooltipX := Z.min x (SVG_WIDTH - GRID_OFFSET_X - tooltipWidth - 10) in
    let isStreakCell :=
      (0 <? Streak.length streak)%nat && truthy (Streak.startDate streak) &&
      truthy (Streak.endDate streak) &&
      String.leb (str (Streak.startDate streak)) tooltipDate &&
      String.leb tooltipDate (str (Streak.endDate streak)) in
    let cellClass := if isStreakCell then "cell streak-cell" else "cell" in
    T "
    <g class=`cell-group`>
      <a href=`" +:+
    historyUrl +:+
    T "` target=`_blank`>
        <rect class=`" +:+
    cellClass +:+
    T "`
          x=`" +:+
    num x +:+
    T "`
          y=`" +:+
    num y +:+
    T "`
          width=`" +:+
    num CELL_SIZE +:+
    T "`
          height=`" +:+
    num CELL_SIZE +:+
    T "`
          rx=`2`
          fill=`" +:+
    color_ +:+
    T "`
        />
        <g class=`tooltip-group` transform=`translate(" +:+
    num tooltipX +:+
    ", " +:+
    num (y - tooltipHeight - 8) +:+
    T ")`>
          <rect x=`0` y=`0` width=`" +:+
    num tooltipWidth +:+
    T "` height=`" +:+
    num tooltipHeight +:+
    T "` rx=`6` fill=`" +:+
    tooltipBg t +:+
    T "` stroke=`" +:+
    tooltipBorder t +:+
    T "` stroke-width=`1`/>
          <text font-family=`'Segoe UI', Inter, Arial, sans-serif` font-size=`12` fill=`" +:+
    tooltipText t +:+
    T "`>
            <tspan x=`10` dy=`22` font-weight=`600`>" +:+
    escapeXml (Some tooltipTitle) +:+
    "</tspan>" +:+
    joinAll (map (fun item =>
      let displayText := formatItem item in
      T "
            <tspan x=`10` dy=`" +:+
      num lineHeight +:+
      T "`>" +:+
      escapeXml (Some displayText) +:+
      "</tspan>") itemsForDay) +:+
    "
          </text>
        </g>
      </a>
    </g>".

(** [for (day ...) for (week ...)]: all cells, row by row. *)
Definition cellsMarkup (t : theme) (username : string) (displayYear : Z)
  (startDate totalWeeks : Z) (itemsPerDay : gmap string (list Item.t)) (maxCount : nat)
  (streak : Streak.t) (SVG_WIDTH : Z) : string :=
  joinAll (map (fun day =>
    joinAll (map (fun week =>
      cellMarkup t username displayYear startDate itemsPerDay maxCount streak
                 SVG_WIDTH day week)
      (seqZ 0 totalWeeks)))
    (seqZ 0 7)).

(** [generateSvg(entries, options)] in the world [w]. *)
Definition generateSvg (entries : list Entry.t) (options : Options.t) (w : world)
  : rendered * world :=
  let theme := default "dark" (Options.theme options) in
  let year := default (JSDate.getFullYear LocalTZA (clock w)) (Options.year options) in
  let weekStart := default "sunday" (Options.weekStart options) in
  let profileImage := Options.profileImage options in
  let displayName := default EmptyString (Options.displayName options) in
  let username := default EmptyString (Options.username options) in
  let usernameGradient := default true (Options.usernameGradient options) in
  let logoBase64 := Options.logoBase64 options in
  let contentType := default "all" (Options.contentType options) in
  let moviesCount := default 0 (Options.moviesCount options) in
  let episodesCount := default 0 (Options.episodesCount options) in
  let followers := default 0 (Options.followers options) in
  let sortedEntries := sortedEntries LocalTZA year entries in
  let streak := Stats.calculateStreak LocalTZA otherFormats sortedEntries in
  let daysActive := Stats.calculateDaysActive LocalTZA sortedEntries in
  let totalItems := length sortedEntries in
  let itemsPerDay := Stats.groupEntriesByDate LocalTZA sortedEntries in
  let itemLabel :=
    if String.eqb contentType "movies" then "Movies"
    else if String.eqb contentType "shows" then "Episodes"
    else "Items" in
  let weeklyDistribution :=
    foldl (fun wd entry =>
             alter S (Z.to_nat (JSDate.getDay LocalTZA (Entry.date entry))) wd)
          [0; 0; 0; 0; 0; 0; 0]%nat sortedEntries in
  let maxWeeklyCount := max_list weeklyDistribution in
  (* [ratingDistribution] and [maxRatingCount], which the source computes
     here, are not read again. *)
  let displayYear := year in
  match layout displayYear weekStart with
  | None => (RangeError, w)                      (* [Array(NaN)] *)
  | Some (startDate, totalWeeks) =>
  match buildGrid displayYear weekStart sortedEntries with
  | InvalidLength => (RangeError, w)
  | NoRow => (Thrown, w)
  | NoCell => (GridNaN, w)
  | Grid grid maxCount =>
      let GRID_WIDTH := totalWeeks * (CELL_SIZE + CELL_GAP) in
      let SVG_WIDTH := Z.max 1000 (GRID_WIDTH + 100) in
      let DAYS := if String.eqb weekStart "monday" then DAYS_MONDAY else DAYS_SUNDAY in
      let '(fontFaceCSS, w') := generateFontFaceCSS w in
      match selectTheme theme with
      | None => (Thrown, w')
      | Some t =>
          let weeklyBars :=
            joinAll (imap (fun (i : nat) (day : string) =>
              let i := Z.of_nat i in
              let dayIndex := if String.eqb weekStart "monday" then Z.rem (i + 1) 7 else i in
              let count := default 0%nat (weeklyDistribution !! Z.to_nat dayIndex) in
              let barHeight :=
                if (0 <? maxWeeklyCount)%nat then barHeightOf count maxWeeklyCount else 0 in
              let x := 20 + i * 24 in
              T "
        <text x=`" +:+
     num (x + 7) +:+
     T "` y=`" +:+
     num (80 - barHeight - 3) +:+
     T "` font-size=`9` fill=`" +:+
     tooltipText t +:+
     T "` text-anchor=`middle`>" +:+
     num (Z.of_nat count) +:+
     T "</text>
        <rect x=`" +:+
     num x +:+
     T "` y=`" +:+
     num (80 - barHeight) +:+
     T "` width=`14` height=`" +:+
     num barHeight +:+
     T "` rx=`2` fill=`" +:+
     color t 3 +:+
     T "`/>
        <text x=`" +:+
     num (x + 7) +:+
     T "` y=`100` font-size=`9` fill=`" +:+
     text t +:+
     T "` text-anchor=`middle`>" +:+
     day +:+
     "</text>")
              (if String.eqb weekStart "monday"
               then ["M"; "T"; "W"; "T"; "F"; "S"; "S"]
               else ["S"; "M"; "T"; "W"; "T"; "F"; "S"])) in
          let svg0 :=
  T "<svg width=`" +:+
  num SVG_WIDTH +:+
  T "` height=`" +:+
  num SVG_HEIGHT +:+
  T "` viewBox=`0 0 " +:+
  num SVG_WIDTH +:+
  " " +:+
  num SVG_HEIGHT +:+
  T "` fill=`none` xmlns=`http://www.w3.org/2000/svg`>
  <defs>
    <filter id=`shadow` x=`-20%` y=`-20%` width=`140%` height=`140%`>
      <feDropShadow dx=`0` dy=`2` stdDeviation=`4` flood-color=`#000000` flood-opacity=`0.1`/>
    </filter>
    <clipPath id=`profileClip`>
      <circle cx=`40` cy=`40` r=`40`/>
    </clipPath>
    <linearGradient id=`usernameGradient` x1=`0%` y1=`0%` x2=`100%` y2=`0%`>
      <stop offset=`0%` stop-color=`#ED1C24`/>
      <stop offset=`100%` stop-color=`#FF6B6B`/>
    </linearGradient>
    <style type=`text/css`>
      <![CDATA[
      " +:+
  fontFaceCSS +:+
  T "
      .tooltip-group {
        opacity: 0;
        transition: opacity 0.2s ease;
        pointer-events: none;
      }
      .cell-group:hover .tooltip-group {
        opacity: 1;
      }
      .cell-group:hover .cell {
        filter: brightness(1.3);
      }
      .cell {
        transition: filter 0.2s ease;
      }
      .streak-tooltip {
        opacity: 0;
        transition: opacity 0.2s ease;
        pointer-events: none;
      }
      .streak-group:hover .streak-tooltip {
        opacity: 1;
      }
      .streak-group:hover {
        cursor: pointer;
      }
      .streak-cell {
        transition: filter 0.2s ease, stroke 0.2s ease, stroke-width 0.2s ease;
      }
      svg:has(.streak-group:hover) .streak-cell {
        filter: brightness(1.4) saturate(1.2);
        stroke: #ed1c24;
        stroke-width: 2;
      }
      .days-active-tooltip {
        opacity: 0;
        transition: opacity 0.2s ease;
        pointer-events: none;
      }
      .days-active-group:hover .days-active-tooltip {
        opacity: 1;
      }
      .days-active-group:hover {
        cursor: pointer;
      }
      .items-tooltip {
        opacity: 0;
        transition: opacity 0.2s ease;
        pointer-events: none;
      }
      .items-group:hover .items-tooltip {
        opacity: 1;
      }
      .items-group:hover {
        cursor: pointer;
      }
      ]]>
    </style>
  </defs>
  
  <!-- Main Card -->
  <rect width=`100%` height=`100%` rx=`12` fill=`" +:+
  bg t +:+
  T "` stroke=`" +:+
  cardBorder t +:+
  T "` stroke-width=`1` filter=`url(#shadow)`/>

  <!-- Header Section -->
  <g transform=`translate(25, 20)`>
    <!-- Profile Image (clickable) -->
    <a href=`https://trakt.tv/users/" +:+
  username +:+
  T "` target=`_blank`>
      <circle cx=`40` cy=`40` r=`42` fill=`" +:+
  cardBorder t +:+
  T "`/>
      " +:+
  (if truthy profileImage
   then T "<image href=`" +:+
     str profileImage +:+
     T "` x=`0` y=`0` width=`80` height=`80` clip-path=`url(#profileClip)` style=`cursor: pointer;`/>"
   else T "<circle cx=`40` cy=`40` r=`40` fill=`" +:+
     color t 2 +:+
     T "`/>") +:+
  T "
    </a>

    <!-- Name and Info (clickable) -->
    <a href=`https://trakt.tv/users/" +:+
  username +:+
  T "` target=`_blank`>
      <text x=`100` y=`35` font-family=`'Segoe UI', Inter, Arial, sans-serif` font-size=`28` font-weight=`600` fill=`" +:+
  (if usernameGradient then "url(#usernameGradient)" else text t) +:+
  T "` style=`cursor: pointer;`>" +:+
  escapeXml (Some displayName) +:+
  T "</text>
    </a>

    <text x=`100` y=`60` font-family=`'Segoe UI', Inter, Arial, sans-serif` font-size=`14` font-weight=`500`>
      <a href=`https://trakt.tv/users/" +:+
  username +:+
  T "` target=`_blank` style=`cursor: pointer;`>
        <tspan fill=`" +:+
  textMuted t +:+
  T "`>@" +:+
  escapeXml (Some username) +:+
  "</tspan>
      </a>
      " +:+
  (if 0 <? moviesCount
   then T "
      <tspan dx=`5` fill=`" +:+
     textMuted t +:+
     T "`>•</tspan>
      <tspan dx=`5` fill=`" +:+
     text t +:+
     T "`>" +:+
     num moviesCount +:+
     T "</tspan>
      <tspan fill=`" +:+
     textMuted t +:+
     T "`> Movies</tspan>"
   else "") +:+
  "
      " +:+
  (if 0 <? episodesCount
   then T "
      <tspan dx=`5` fill=`" +:+
     textMuted t +:+
     T "`>•</tspan>
      <tspan dx=`5` fill=`" +:+
     text t +:+
     T "`>" +:+
     num episodesCount +:+
     T "</tspan>
      <tspan fill=`" +:+
     textMuted t +:+
     T "`> Episodes</tspan>"
   else "") +:+
  "
      " +:+
  (if 0 <? followers
   then T "
      <tspan dx=`5` fill=`" +:+
     textMuted t +:+
     T "`>•</tspan>
      <tspan dx=`5` fill=`" +:+
     text t +:+
     T "`>" +:+
     num followers +:+
     T "</tspan>
      <tspan fill=`" +:+
     textMuted t +:+
     T "`> Followers</tspan>"
   else "") +:+
  "
    </text>

    <!-- Trakt Logo (clickable, links to main site) -->
    " +:+
  (if truthy logoBase64
   then T "<a href=`https://trakt.tv/` target=`_blank`>
      <g transform=`translate(" +:+
     num (SVG_WIDTH - 117) +:+
     T ", 0)`>
        <image href=`" +:+
     str logoBase64 +:+
     T "` x=`0` y=`4` width=`72` height=`72` style=`cursor: pointer;`/>
      </g>
    </a>"
   else "") +:+
  T "
  </g>

  <!-- Stats Row -->
  <g transform=`translate(25, 115)` font-family=`'Segoe UI', Inter, Arial, sans-serif`>
    <text x=`0` y=`20` font-size=`16` font-weight=`600` fill=`" +:+
  text t +:+
  T "`>" +:+
  num displayYear +:+
  T "</text>
    

    <!-- Items count (static, no tooltip) -->
    <g transform=`translate(60, 5)`>
      <text x=`0` y=`15` font-size=`14` font-weight=`500` fill=`" +:+
  textMuted t +:+
  T "`>" +:+
  num (Z.of_nat totalItems) +:+
  " " +:+
  itemLabel +:+
  T "</text>
    </g>
    
    <!-- Days Active with hover tooltip -->
    <g class=`days-active-group` transform=`translate(180, 5)`>
      <text x=`0` y=`15` font-size=`14` font-weight=`500` fill=`" +:+
  textMuted t +:+
  T "`>" +:+
  num (Z.of_nat daysActive) +:+
  T " Days Active</text>
      <g class=`days-active-tooltip` transform=`translate(-20, -115)`>
        <rect x=`0` y=`0` width=`200` height=`105` rx=`6` fill=`" +:+
  tooltipBg t +:+
  T "` stroke=`" +:+
  tooltipBorder t +:+
  T "` stroke-width=`1`/>
        <text x=`100` y=`18` font-size=`11` font-weight=`600` fill=`" +:+
  tooltipText t +:+
  T "` text-anchor=`middle`>Weekly Distribution</text>
        " +:+
  weeklyBars +:+
  T "
      </g>
    </g>
    
    <!-- Streak with hover tooltip -->
    <g class=`streak-group` transform=`translate(320, 5)`>
      <path d=`M8.5 14.5A2.5 2.5 0 0 0 11 12c0-1.38-.5-2-1-3-1.072-2.143-.224-4.054 2-6 .5 2.5 2 4.9 4 6.5 2 1.6 3 3.5 3 5.5a7 7 0 1 1-14 0c0-1.153.433-2.294 1-3a2.5 2.5 0 0 0 2.5 2.5z`
            stroke=`" +:+
  (if (0 <? Streak.length streak)%nat then "#ed1c24" else textMuted t) +:+
  T "` stroke-width=`1.5` stroke-linecap=`round` stroke-linejoin=`round` fill=`" +:+
  (if (0 <? Streak.length streak)%nat then "#ed1c24" else "none") +:+
  T "` fill-opacity=`0.2` transform=`scale(0.75)`/>
      <text x=`18` y=`13` font-size=`14` font-weight=`500` fill=`" +:+
  textMuted t +:+
  T "`>" +:+
  num (Z.of_nat (Streak.length streak)) +:+
  " Day Streak</text>
      " +:+
  (if (0 <? Streak.length streak)%nat
   then T "<g class=`streak-tooltip` transform=`translate(0, -45)`>
        <rect x=`-10` y=`0` width=`180` height=`36` rx=`6` fill=`" +:+
     tooltipBg t +:+
     T "` stroke=`" +:+
     tooltipBorder t +:+
     T "` stroke-width=`1`/>
        <text x=`5` y=`23` font-size=`12` fill=`" +:+
     tooltipText t +:+
     T "`>" +:+
     strOrNull (Streak.startDate streak) +:+
     " → " +:+
     strOrNull (Streak.endDate streak) +:+
     "</text>
      </g>"
   else "") +:+
  T "
    </g>

    <!-- Legend (right side) -->
    <g transform=`translate(" +:+
  num (SVG_WIDTH - 200) +:+
  T ", 0)`>
      <text x=`0` y=`20` font-size=`12` fill=`" +:+
  textMuted t +:+
  T "`>Less</text>" in
          let svg1 := svg0 +:+
            joinAll (map (fun i =>
    T "
      <rect x=`" +:+
    num (35 + i * 18) +:+
    T "` y=`7` width=`13` height=`13` rx=`2` fill=`" +:+
    color t (Z.to_nat i) +:+
    T "`/>") (seqZ 0 5)) in
          let svg2 := svg1 +:+
  T "
      <text x=`" +:+
  num (35 + 5 * 18 + 5) +:+
  T "` y=`20` font-size=`12` fill=`" +:+
  textMuted t +:+
  T "`>More</text>
    </g>
  </g>

  <!-- Month Labels -->
  <g transform=`translate(" +:+
  num GRID_OFFSET_X +:+
  ", " +:+
  num (GRID_OFFSET_Y - 8) +:+
  T ")` font-family=`'Segoe UI', Inter, Arial, sans-serif`>" in
          let svg3 := svg2 +:+
            joinAll (map (fun i =>
              let firstDayOfMonth := JSDate.Date_UTC displayYear i 1 in
              let daysSinceStart :=
                (fun d => JS.floorDiv (JSDate.getTime d - startDate) (1000 * 60 * 60 * 24))
                  <$> firstDayOfMonth in
              if JSDate.ltNaN daysSinceStart (Some 0) then EmptyString
              else
                let weekIndex := (fun d => JS.floorDiv d 7) <$> daysSinceStart in
                let x := (fun w => w * (CELL_SIZE + CELL_GAP)) <$> weekIndex in
    T "<text x=`" +:+
    numNaN x +:+
    T "` y=`0` font-size=`11` fill=`" +:+
    textMuted t +:+
    T "` font-weight=`500`>" +:+
    elt MONTHS i +:+
    "</text>") (seqZ 0 12)) in
          let svg4 := svg3 +:+
  T "
  </g>

  <!-- Day Labels -->
  <g transform=`translate(26, " +:+
  num GRID_OFFSET_Y +:+
  T ")` font-family=`'Segoe UI', Inter, Arial, sans-serif`>
    <text x=`0` y=`" +:+
  num (0 * (CELL_SIZE + CELL_GAP) + 11) +:+
  T "` font-size=`10` fill=`" +:+
  textMuted t +:+
  T "` text-anchor=`end`>" +:+
  charAt0 (elt DAYS 0) +:+
  T "</text>
    <text x=`0` y=`" +:+
  num (1 * (CELL_SIZE + CELL_GAP) + 11) +:+
  T "` font-size=`10` fill=`" +:+
  textMuted t +:+
  T "` text-anchor=`end`>" +:+
  charAt0 (elt DAYS 1) +:+
  T "</text>
    <text x=`0` y=`" +:+
  num (2 * (CELL_SIZE + CELL_GAP) + 11) +:+
  T "` font-size=`10` fill=`" +:+
  textMuted t +:+
  T "` text-anchor=`end`>" +:+
  charAt0 (elt DAYS 2) +:+
  T "</text>
    <text x=`0` y=`" +:+
  num (3 * (CELL_SIZE + CELL_GAP) + 11) +:+
  T "` font-size=`10` fill=`" +:+
  textMuted t +:+
  T "` text-anchor=`end`>" +:+
  charAt0 (elt DAYS 3) +:+
  T "</text>
    <text x=`0` y=`" +:+
  num (4 * (CELL_SIZE + CELL_GAP) + 11) +:+
  T "` font-size=`10` fill=`" +:+
  textMuted t +:+
  T "` text-anchor=`end`>" +:+
  charAt0 (elt DAYS 4) +:+
  T "</text>
    <text x=`0` y=`" +:+
  num (5 * (CELL_SIZE + CELL_GAP) + 11) +:+
  T "` font-size=`10` fill=`" +:+
  textMuted t +:+
  T "` text-anchor=`end`>" +:+
  charAt0 (elt DAYS 5) +:+
  T "</text>
    <text x=`0` y=`" +:+
  num (6 * (CELL_SIZE + CELL_GAP) + 11) +:+
  T "` font-size=`10` fill=`" +:+
  textMuted t +:+
  T "` text-anchor=`end`>" +:+
  charAt0 (elt DAYS 6) +:+
  T "</text>
  </g>

  <!-- Activity Grid -->
  <g transform=`translate(" +:+
  num GRID_OFFSET_X +:+
  ", " +:+
  num GRID_OFFSET_Y +:+
  T ")`>" in
          let svg5 := svg4 +:+
            cellsMarkup t username displayYear startDate totalWeeks itemsPerDay maxCount
                        streak SVG_WIDTH in
          (Document (svg5 +:+
  "
  </g>
</svg>"), w')
      end
  end
  end.

End Render.

End Generator.

(* ===================================================================== *)
(** ** [standalone.js]: the single-file variant *)
(* ===================================================================== *)

(** What [itemsPerDay] holds for a day in this variant. *)
Module DayItem.
Record t : Type := Build {
  title : string;
  episode : option string;
  year : option Z
}.
End DayItem.

Module Standalone.
Import Template.

(** Percentiles of the per-day counts, as [calculateDayCountStats] returns
    them. *)
Record dayCountStats : Type := DayCountStats {
  p25 : nat;
  p50 : nat;
  p75 : nat;
  p90 : nat
}.

(** [calculateColorIntensity(dayCount, stats)] *)
Definition calculateColorIntensity (dayCount : nat) (stats : dayCountStats) : nat :=
  if (dayCount =? 0)%nat then 0%nat
  else if (dayCount <=? p25 stats)%nat then 1%nat
  else if (dayCount <=? p50 stats)%nat then 2%nat
  else if (dayCount <=? p75 stats)%nat then 3%nat
  else if (dayCount <=? p90 stats)%nat then 4%nat
  else 4%nat.

(** The same call when [dayCountStats] is the default [{}]: every
    comparison with [undefined] is false. *)
Definition colorIntensity (dayCount : nat) (stats : option dayCountStats) : nat :=
  match stats with
  | Some s => calculateColorIntensity dayCount s
  | None => if (dayCount =? 0)%nat then 0%nat else 4%nat
  end.

Definition escapeChar (c : ascii) : string :=
  match c with
  | "<"%char => "&lt;"
  | ">"%char => "&gt;"
  | "&"%char => "&amp;"
  | "'"%char => "&#39;"
  | "034"%char => "&quot;"
  | _ => String c EmptyString
  end.

(** [escapeXml(unsafe)]: [String(unsafe || '')] and the replacement. *)
Definition escapeXml (unsafe : option string) : string :=
  replaceEach escapeChar (str unsafe).

(** [d.toISOString().split('T')[0]] *)
Definition isoDate (t : Z) : string :=
  let y := JSDate.getUTCFullYear t in
  (if (0 <=? y) && (y <=? 9999) then JS.padStart 4 "0" (num y)
   else (if y <? 0 then "-" else "+") +:+ JS.padStart 6 "0" (num (Z.abs y))) +:+
  "-" +:+ JS.padStart 2 "0" (num (JSDate.getUTCMonth t + 1)) +:+
  "-" +:+ JS.padStart 2 "0" (num (JSDate.getUTCDate t)).

(** *** [processTraktHistory] *)

(** [itemsPerDay]: a [Map] from the day string to the items of the day, in
    insertion order. *)
Definition hasDay (itemsPerDay : list (string * list DayItem.t)) (dateStr : string) : bool :=
  existsb (fun p => String.eqb (fst p) dateStr) itemsPerDay.

(** [if (!itemsPerDay.has(dateStr)) itemsPerDay.set(dateStr, [])] *)
Definition ensureDay (itemsPerDay : list (string * list DayItem.t)) (dateStr : string)
  : list (string * list DayItem.t) :=
  if hasDay itemsPerDay dateStr then itemsPerDay else itemsPerDay ++ [(dateStr, [])].

(** [itemsPerDay.get(dateStr).push(item)] *)
Fixpoint pushItem (itemsPerDay : list (string * list DayItem.t)) (dateStr : string)
  (item : DayItem.t) : list (string * list DayItem.t) :=
  match itemsPerDay with
  | [] => []
  | (k, dayItems) :: rest =>
      if String.eqb k dateStr then (k, dayItems ++ [item]) :: rest
      else (k, dayItems) :: pushItem rest dateStr item
  end.

(** [sortedCounts[Math.floor(sortedCounts.length * q)] || 0] for the
    fraction [q = n / d]; the index is that of the exact product for the
    four fractions used. *)
Definition countAt (sortedCounts : list nat) (n d : nat) : nat :=
  default 0%nat (sortedCounts !! (length sortedCounts * n / d)%nat).

(** [calculateDayCountStats(itemsPerDay)] *)
Definition calculateDayCountStats (itemsPerDay : list (string * list DayItem.t))
  : dayCountStats :=
  let dayCounts := map (fun p => length (snd p)) itemsPerDay in
  let sortedCounts := JS.sortBy Nat.leb dayCounts in
  DayCountStats (countAt sortedCounts 1 4) (countAt sortedCounts 1 2)
                (countAt sortedCounts 3 4) (countAt sortedCounts 9 10).

(** The variables of the second [history.forEach], and what
    [processTraktHistory] returns. *)
Module Loop.
Record t : Type := Build {
  entries : list Entry.t;
  itemsPerDay : list (string * list DayItem.t);
  totalItemsWatched : nat
}.
End Loop.

Module Processed.
Record t : Type := Build {
  entries : list Entry.t;
  itemsPerDay : list (string * list DayItem.t);
  year : option Z;              (* [selectedYear]; [None] is [NaN] *)
  totalItemsWatched : nat;
  dayCountStats : dayCountStats
}.
End Processed.

Section History.
Variable LocalTZA : Z -> Z.
Variable otherFormats : string -> option Z.
(** The time value of [new Date()] when the function runs. *)
Variable now : Z.

(** The body of the second [history.forEach]; an entry of this program has
    a date, a title, a year and a type. *)
Definition processEntry (selectedYear : option Z) (acc : Loop.t) (entry : RawItem.t)
  : Fetcher.outcome Loop.t :=
  match JS.Date_parse otherFormats (RawItem.watched_at entry) with
  | None => Fetcher.Return acc              (* NaN !== selectedYear *)
  | Some date =>
      if bool_decide (Some (JSDate.getFullYear LocalTZA date) = selectedYear) then
        let dateStr := isoDate date in
        let itemsPerDay := ensureDay (Loop.itemsPerDay acc) dateStr in
        if String.eqb (RawItem.type entry) "episode" then
          match RawItem.episode entry, RawItem.show entry with
          | Some episode, Some show =>
              let entryDetails :=
                Entry.Build date
                  (RawShow.title show +:+ " - " +:+ Fetcher.episodeCode episode)
                  None None (RawShow.year show) "episode" None in
              let dayItem :=
                DayItem.Build (RawShow.title show) (Some (Fetcher.episodeCode episode))
                              (RawShow.year show) in
              Fetcher.Return
                (Loop.Build (Loop.entries acc ++ [entryDetails])
                            (pushItem itemsPerDay dateStr dayItem)
                            (S (Loop.totalItemsWatched acc)))
          | _, _ => Fetcher.TypeError
          end
        else if String.eqb (RawItem.type entry) "movie" then
          match RawItem.movie entry with
          | Some movie =>
              let entryDetails :=
                Entry.Build date (RawMovie.title movie) None None
                  (RawMovie.year movie) "movie" None in
              let dayItem := DayItem.Build (RawMovie.title movie) None (RawMovie.year movie) in
              Fetcher.Return
                (Loop.Build (Loop.entries acc ++ [entryDetails])
                            (pushItem itemsPerDay dateStr dayItem)
                            (S (Loop.totalItemsWatched acc)))
          | None => Fetcher.TypeError
          end
        else
          Fetcher.Return
            (Loop.Build (Loop.entries acc) itemsPerDay (Loop.totalItemsWatched acc))
      else Fetcher.Return acc
  end.

Fixpoint forEachEntry (selectedYear : option Z) (history : list RawItem.t) (acc : Loop.t)
  : Fetcher.outcome Loop.t :=
  match history with
  | [] => Fetcher.Return acc
  | entry :: rest =>
      match processEntry selectedYear acc entry with
      | Fetcher.Return acc' => forEachEntry selectedYear rest acc'
      | Fetcher.TypeError => Fetcher.TypeError
      end
  end.

(** [processTraktHistory(history, targetYear)]; the year is selected by the
    code of [src/fetcher.js]. *)
Definition processTraktHistory (history : list RawItem.t) (targetYear : option Z)
  : Fetcher.outcome Processed.t :=
  let yearCount := Fetcher.countYears LocalTZA otherFormats history in
  let selectedYear := Fetcher.selectYear LocalTZA now targetYear yearCount in
  match forEachEntry selectedYear history (Loop.Build [] [] 0) with
  | Fetcher.Return acc =>
      Fetcher.Return
        (Processed.Build (Loop.entries acc) (Loop.itemsPerDay acc) selectedYear
           (Loop.totalItemsWatched acc) (calculateDayCountStats (Loop.itemsPerDay acc)))
  | Fetcher.TypeError => Fetcher.TypeError
  end.

(** The entry that the specification's normaliser makes of one record. *)
Definition normalized (selectedYear : option Z) (entry : RawItem.t) : option Entry.t :=
  date ← JS.Date_parse otherFormats (RawItem.watched_at entry);
  if bool_decide (Some (JSDate.getFullYear LocalTZA date) = selectedYear) then
    if String.eqb (RawItem.type entry) "episode" then
      episode ← RawItem.episode entry;
      show ← RawItem.show entry;
      Some (Entry.Build date
              (RawShow.title show +:+ " - " +:+ Fetcher.episodeCode episode)
              None None (RawShow.year show) "episode" None)
    else if String.eqb (RawItem.type entry) "movie" then
      movie ← RawItem.movie entry;
      Some (Entry.Build date (RawMovie.title movie) None None
              (RawMovie.year movie) "movie" None)
    else None
  else None.

End History.

(** *** Calendar layout *)
Section Layout.
Variable year : Z.
Variable weekStart : string.

(** [new Date(Date.UTC(year, 0, 1, 0, 0, 0))] and
    [new Date(Date.UTC(year, 11, 31, 23, 59, 59))]; [None] is an Invalid
    Date. *)
Definition jan1 : option Z := JSDate.Date_UTC6 year 0 1 0 0 0.
Definition endDate : option Z := JSDate.Date_UTC6 year 11 31 23 59 59.

Definition startDay : option Z := JSDate.getUTCDay <$> jan1.

Definition dayShift : option Z :=
  (fun startDay =>
     if String.eqb weekStart "monday" then Z.rem (startDay + 6) 7 else startDay)
    <$> startDay.

Definition startDate : option Z :=
  t ← jan1;
  dayShift ← dayShift;
  if 0 <? dayShift
  then JSDate.setUTCDate t (JSDate.getUTCDate t - dayShift)
  else Some t.

Definition totalDays : option Z :=
  e ← endDate;
  s ← startDate;
  Some (JS.ceilDiv (JSDate.getTime e - JSDate.getTime s) (1000 * 60 * 60 * 24) + 1).

Definition totalWeeks : option Z :=
  (fun totalDays => JS.ceilDiv totalDays 7) <$> totalDays.

(** [startDate.getTime()] and [totalWeeks]; [None] when [totalWeeks] is
    [NaN], and then [Array(totalWeeks)] throws before any loop runs. *)
Definition layout : option (Z * Z) :=
  s ← startDate;
  w ← totalWeeks;
  Some (s, w).

End Layout.

(** [Array(7).fill().map(() => Array(totalWeeks).fill(0))]; [None] is the
    [RangeError] of [Array(n)] for an [n] that is no array length, as [NaN]
    is. *)
Definition emptyGrid (totalWeeks : option Z) : option (list (list nat)) :=
  match totalWeeks with
  | Some n =>
      if (0 <=? n) && (n <? 2 ^ 32)
      then Some (replicate 7 (replicate (Z.to_nat n) 0%nat))
      else None
  | None => None
  end.

(** [new Date(Date.UTC(d.getUTCFullYear(), d.getUTCMonth(), d.getUTCDate()))] *)
Definition entryDate (t : Z) : option Z :=
  JSDate.Date_UTC (JSDate.getUTCFullYear t) (JSDate.getUTCMonth t) (JSDate.getUTCDate t).

(** The accumulation loop, which runs once the grid exists: [startDate] and
    [totalWeeks] are numbers then. *)
Section Accumulate.
Variable weekStart : string.
(** [startDate.getTime()] *)
Variable startDate : Z.
Variable totalWeeks : Z.

Definition daysSinceStart (t : Z) : option Z :=
  (fun entryDate =>
     JS.floorDiv (JSDate.getTime entryDate - startDate) (1000 * 60 * 60 * 24))
    <$> entryDate t.

Definition weekIndex (t : Z) : option Z :=
  (fun daysSinceStart => JS.floorDiv daysSinceStart 7) <$> daysSinceStart t.

Definition dayIndex (t : Z) : option Z :=
  (fun entryDate =>
     if String.eqb weekStart "monday"
     then Z.rem (JSDate.getUTCDay entryDate + 6) 7
     else JSDate.getUTCDay entryDate)
    <$> entryDate t.

(** The test of the loop; it fails when an index is [NaN]. *)
Definition inRange (t : Z) : bool :=
  match weekIndex t, dayIndex t with
  | Some weekIndex, Some dayIndex =>
      (0 <=? weekIndex) && (weekIndex <? totalWeeks) &&
      (0 <=? dayIndex) && (dayIndex <? 7)
  | _, _ => false
  end.

(** The body of [sortedEntries.forEach]; [None] is a grid that the
    increment could not update (it never is, given the test). *)
Definition place (g : option (list (list nat))) (entry : Entry.t) : option (list (list nat)) :=
  grid ← g;
  let t := Entry.date entry in
  if inRange t
  then
    dayIndex ← dayIndex t;
    weekIndex ← weekIndex t;
    row ← grid !! Z.to_nat dayIndex;
    c ← row !! Z.to_nat weekIndex;
    Some (<[Z.to_nat dayIndex := <[Z.to_nat weekIndex := S c]> row]> grid)
  else Some grid.

End Accumulate.

(** What the layout and the accumulation loop leave: the grid; the
    [RangeError] of [Array(totalWeeks)]; or a grid that the increment could
    not update. *)
Inductive built : Type :=
| Built (grid : list (list nat))
| InvalidLength
| NoCell.

Definition buildGrid (year : Z) (weekStart : string) (entries : list Entry.t) : built :=
  match layout year weekStart with
  | None => InvalidLength                        (* [Array(NaN)] *)
  | Some (startDate, totalWeeks) =>
      match emptyGrid (Some totalWeeks) with
      | None => InvalidLength
      | Some grid =>
          match foldl (place weekStart startDate totalWeeks) (Some grid)
                      (JS.sortBy (fun a b => Entry.date a <=? Entry.date b) entries) with
          | Some grid => Built grid
          | None => NoCell
          end
      end
  end.

(** The date of the cell in row [day] and column [week], [None] when it is
    an Invalid Date. *)
Definition cellDateOf (startDate : Z) (day week : Z) : option Z :=
  JSDate.setUTCDate startDate (JSDate.getUTCDate startDate + week * 7 + day).

(** [cellDate < new Date(Date.UTC(year, 0, 1)) ||
     cellDate > new Date(Date.UTC(year, 11, 31))] *)
Definition isOutsideYear (year : Z) (cellDate : option Z) : bool :=
  JSDate.ltNaN cellDate (JSDate.Date_UTC year 0 1) ||
  JSDate.ltNaN (JSDate.Date_UTC year 11 31) cellDate.

(** An entry that passes the test of the accumulation loop. *)
Definition inGrid (weekStart : string) (startDate totalWeeks : Z) (entry : Entry.t) : Prop :=
  inRange weekStart startDate totalWeeks (Entry.date entry) = true.

#[global] Instance inGrid_decision weekStart startDate totalWeeks entry :
  Decision (inGrid weekStart startDate totalWeeks entry).
Proof. unfold inGrid. apply _. Defined.

(** *** The rendered document *)

Record theme : Type := Theme {
  bg : string;
  text : string;
  title : string;
  subtitle : string;
  tooltipBg : string;
  tooltipText : string;
  tooltipBorder : string;
  colors : list string
}.

Definition dark : theme :=
  Theme "#0d1117" "#c9d1d9" "#e6edf3" "#8b949e" "#21262d" "#ffffff" "#ffffff"
        ["#161b22"; "#0e4429"; "#006d32"; "#26a641"; "#39d353"].

Definition light : theme :=
  Theme "#ffffff" "#24292e" "#000000" "#6a737d" "#f6f8fa" "#24292e" "#d1d5da"
        ["#ebedf0"; "#9be9a8"; "#40c463"; "#30a14e"; "#216e39"].

(** [themes[theme] || themes.dark]; [None] when the name is one that every
    object literal inherits: the value found has no [colors], so that
    [currentTheme.colors[...]] throws. *)
Definition selectTheme (name : string) : option theme :=
  if String.eqb name "dark" then Some dark
  else if String.eqb name "light" then Some light
  else if bool_decide (name ∈ Generator.inheritedKeys) then None
  else Some dark.

Definition color (t : theme) (i : nat) : string := strOrUndefined (colors t !! i).

Module Options.
Record t : Type := Build {
  theme : option string;
  year : option Z;
  weekStart : option string;
  username : option string;
  profileImage : option string;
  displayName : option string;
  logoBase64 : option string;
  totalItemsWatched : option Z;
  dayCountStats : option dayCountStats;
  watchedLabel : option string
}.
End Options.

(** Options that name the user and the year and nothing else. *)
Definition forUser (username : string) (y : Z) : Options.t :=
  Options.Build None (Some y) None (Some username) None None None None None None.

Definition CELL_SIZE : Z := 11.
Definition CELL_MARGIN : Z := 2.
Definition MONTHS : list string :=
  ["Jan"; "Feb"; "Mar"; "Apr"; "May"; "Jun"; "Jul"; "Aug"; "Sep"; "Oct"; "Nov"; "Dec"].

(** [seriesCount.set(title, (seriesCount.get(title) || 0) + 1)] on a [Map]
    kept in insertion order. *)
Fixpoint countSeries (seriesCount : list (string * nat)) (title : string)
  : list (string * nat) :=
  match seriesCount with
  | [] => [(title, 1%nat)]
  | (k, v) :: rest =>
      if String.eqb k title then (k, S v) :: rest
      else (k, v) :: countSeries rest title
  end.

(** The lines of a cell's tooltip. *)
Definition tooltipLinesOf (tooltipDate : string) (count : nat)
  (itemsForDay : list DayItem.t) : list string :=
  let first :=
    tooltipDate +:+ ": " +:+ num (Z.of_nat count) +:+ " item" +:+
    (if (count =? 1)%nat then EmptyString else "s") +:+ " watched" in
  let seriesCount :=
    foldl (fun sc item => if truthy (DayItem.episode item)
                          then countSeries sc (DayItem.title item) else sc)
          [] itemsForDay in
  let movies := filter (fun item => truthy (DayItem.episode item) = false) itemsForDay in
  first ::
  map (fun '(title, count) =>
         let year :=
           match list_find (fun item => DayItem.title item = title) itemsForDay with
           | Some (_, item) => numOrNull (DayItem.year item)
           | None => "undefined"
           end in
         "• " +:+ num (Z.of_nat count) +:+ "x " +:+ title +:+ " (" +:+ year +:+ ")")
      seriesCount ++
  map (fun movie => "• " +:+ DayItem.title movie +:+
                    " (" +:+ numOrNull (DayItem.year movie) +:+ ")") movies.

(** The [<rect>] of a cell. *)
Definition cellRect (x y : Z) (color_ opacity tooltipDate : string) (count : nat) : string :=
  T "
        <rect x=`" +:+
  num x +:+
  T "` y=`" +:+
  num y +:+
  T "` width=`" +:+
  num CELL_SIZE +:+
  T "` height=`" +:+
  num CELL_SIZE +:+
  T "` rx=`2` ry=`2` fill=`" +:+
  color_ +:+
  T "` opacity=`" +:+
  opacity +:+
  T "` data-date=`" +:+
  tooltipDate +:+
  T "` data-count=`" +:+
  num (Z.of_nat count) +:+
  T "`/>".

(** The body of the two nested [for] loops: what one cell appends to [svg];
    [None] is the [RangeError] that [cellDate.toISOString()] throws on an
    Invalid Date. *)
Definition cellMarkup (currentTheme : theme) (year : Z) (startDate : Z)
  (itemsPerDay : gmap string (list DayItem.t)) (stats : option dayCountStats)
  (grid : list (list nat)) (day week : Z) : option string :=
  let count :=
    default 0%nat (grid !! Z.to_nat day ≫= fun row => row !! Z.to_nat week) in
  let color_ := color currentTheme (colorIntensity count stats) in
  let cellDate := cellDateOf startDate day week in
  tooltipDate ← isoDate <$> cellDate;
  let x := week * (CELL_SIZE + CELL_MARGIN) in
  let y := day * (CELL_SIZE + CELL_MARGIN) in
  let opacity := if isOutsideYear year cellDate then "0" else "1" in
  let itemsForDay := default [] (itemsPerDay !! tooltipDate) in
  let tooltipLines := tooltipLinesOf tooltipDate count itemsForDay in
  let lineHeight := 18 in
  let padding := 10 in
  let tooltipHeight := Z.of_nat (length tooltipLines) * lineHeight + padding * 2 in
  let maxLineLength := maxOf (map jsLength tooltipLines) in
  let tooltipWidth := Z.min (Z.max (maxLineLength * 7) 150) 300 in
  Some (
  cellRect x y color_ opacity tooltipDate count +:+
  T "
        <g class=`tooltip` transform=`translate(" +:+
    numHalf (2 * x - tooltipWidth + CELL_SIZE) +:+
    ", " +:+
    num (y - tooltipHeight - 10) +:+
    T ")`>
          <rect x=`0` y=`0` width=`" +:+
    num tooltipWidth +:+
    T "` height=`" +:+
    num tooltipHeight +:+
    T "` rx=`4` fill=`" +:+
    tooltipBg currentTheme +:+
    T "` stroke=`" +:+
    tooltipBorder currentTheme +:+
    T "` stroke-width=`0.5` opacity=`0.95`/>
          <text x=`" +:+
    num padding +:+
    T "` y=`" +:+
    num (padding + 12) +:+
    T "`>" +:+
  joinAll (imap (fun (i : nat) (line : string) =>
    T "<tspan x=`" +:+
      num padding +:+
      T "` dy=`" +:+
      (if (i =? 0)%nat then "0" else num lineHeight) +:+
      T "`>" +:+
      escapeXml (Some line) +:+
      "</tspan>") tooltipLines) +:+
  "</text></g>").

Definition cellsMarkup (currentTheme : theme) (year : Z) (startDate totalWeeks : Z)
  (itemsPerDay : gmap string (list DayItem.t)) (stats : option dayCountStats)
  (grid : list (list nat)) : option string :=
  joinAll <$> mapM (fun day =>
    joinAll <$> mapM (fun week =>
      cellMarkup currentTheme year startDate itemsPerDay stats grid day week)
      (seqZ 0 totalWeeks))
    (seqZ 0 7).

Section Render.
Variable LocalTZA : Z -> Z.

(** [generateSvg(entries, itemsPerDay, options)] when [new Date()] has the
    time value [clock]. *)
Definition generateSvg (entries : list Entry.t)
  (itemsPerDay : gmap string (list DayItem.t)) (options : Options.t) (clock : Z)
  : rendered :=
  let theme := default "dark" (Options.theme options) in
  let year := default (JSDate.getFullYear LocalTZA clock) (Options.year options) in
  let weekStart := default "sunday" (Options.weekStart options) in
  let username := Options.username options in
  let profileImage := Options.profileImage options in
  let displayName :=
    match Options.displayName options with Some n => Some n | None => username end in
  let logoBase64 := Options.logoBase64 options in
  let totalItemsWatched := default 0 (Options.totalItemsWatched options) in
  let watchedLabel := Options.watchedLabel options in
  match layout year weekStart with
  | None => RangeError                      (* [Array(NaN)] *)
  | Some (startDate, totalWeeks) =>
  match buildGrid year weekStart entries with
  | InvalidLength => RangeError
  | NoCell => GridNaN
  | Built grid =>
      match selectTheme theme with
      | None => Thrown                      (* currentTheme.colors[...] *)
      | Some currentTheme =>
      let GRID_WIDTH := totalWeeks * (CELL_SIZE + CELL_MARGIN) in
      let GRID_HEIGHT := 7 * (CELL_SIZE + CELL_MARGIN) in
      let SVG_WIDTH := GRID_WIDTH + 60 in
      let SVG_HEIGHT := GRID_HEIGHT + 70 in
      let DAYS :=
        if String.eqb weekStart "monday"
        then ["Mon"; "Tue"; "Wed"; "Thu"; "Fri"; "Sat"; "Sun"]
        else ["Sun"; "Mon"; "Tue"; "Wed"; "Thu"; "Fri"; "Sat"] in
      match displayName with
      | None => Thrown                      (* displayName.length *)
      | Some displayName =>
          let svg0 :=
  T "<svg width=`" +:+
  num SVG_WIDTH +:+
  T "` height=`" +:+
  num SVG_HEIGHT +:+
  T "` viewBox=`0 0 " +:+
  num SVG_WIDTH +:+
  " " +:+
  num SVG_HEIGHT +:+
  T "` xmlns=`http://www.w3.org/2000/svg`>
    <style>
      text { font-family: -apple-system, BlinkMacSystemFont, `Segoe UI`, Helvetica, Arial, sans-serif; font-size: 11px; fill: " +:+
  text currentTheme +:+
  "; }
      .title-text { font-size: 13px; font-weight: bold; fill: " +:+
  title currentTheme +:+
  "; }
      .username-text { font-size: 13px; font-weight: bold; fill: " +:+
  title currentTheme +:+
  "; }
      .subtitle-text { font-size: 11px; fill: " +:+
  subtitle currentTheme +:+
  "; }
      .tooltip { opacity: 0; pointer-events: none; }
      .tooltip text { font-size: 12px; fill: " +:+
  tooltipText currentTheme +:+
  T "; }
      rect[opacity=`1`]:hover + .tooltip { opacity: 1; }
    </style>
    <rect width=`" +:+
  num SVG_WIDTH +:+
  T "` height=`" +:+
  num SVG_HEIGHT +:+
  T "` fill=`" +:+
  bg currentTheme +:+
  T "` rx=`6` ry=`6`/>
    <g transform=`translate(" +:+
  numHalf (SVG_WIDTH - (if truthy profileImage then 18 + jsLength displayName * 8 else jsLength displayName * 8)) +:+
  T ", 10)`>
      " +:+
  (if truthy profileImage
   then T "<image href=`" +:+
     str profileImage +:+
     T "` x=`0` y=`0` width=`13` height=`13` preserveAspectRatio=`xMidYMid slice` clip-path=`circle(6.5px at 6.5px 6.5px)`/>"
   else "") +:+
  T "
      <text x=`" +:+
  (if truthy profileImage then "18" else "0") +:+
  T "` y=`11` class=`username-text`>" +:+
  escapeXml (Some displayName) +:+
  T "</text>
    </g>
    <g transform=`translate(10, 17)`>
      " +:+
  (if truthy logoBase64
   then T "<image href=`" +:+
     str logoBase64 +:+
     T "` x=`0` y=`-12` width=`15` height=`15`/>"
   else "") +:+
  T "
      <text x=`" +:+
  (if truthy logoBase64 then "20" else "0") +:+
  T "` y=`0` class=`title-text`>Trakt " +:+
  num year +:+
  T "</text>
    </g>
    <text x=`30` y=`30` class=`subtitle-text`>" +:+
  num totalItemsWatched +:+
  " " +:+
  (if truthy watchedLabel then str watchedLabel else "items") +:+
  T " watched</text>
    <g transform=`translate(" +:+
  num (SVG_WIDTH - 160) +:+
  T ", 10)`>
      <text x=`0` y=`10`>Less</text>" in
          let svg1 := svg0 +:+
            joinAll (map (fun i =>
    T "<rect x=`" +:+
    num (40 + i * 15) +:+
    T "` y=`2` width=`10` height=`10` rx=`2` ry=`2` fill=`" +:+
    color currentTheme (Z.to_nat i) +:+
    T "`/>") (seqZ 0 5)) in
          let svg2 := svg1 +:+
  T "<text x=`" +:+
  num (40 + 5 * 15 + 5) +:+
  T "` y=`10`>More</text></g>
    <g transform=`translate(30, 50)`>" in
          let svg3 := svg2 +:+
            joinAll (map (fun i =>
              let firstDayOfMonth := JSDate.Date_UTC year i 1 in
              let daysSinceStart :=
                (fun d => JS.floorDiv (JSDate.getTime d - startDate) (1000 * 60 * 60 * 24))
                  <$> firstDayOfMonth in
              if JSDate.ltNaN daysSinceStart (Some 0) then EmptyString
              else
                let weekIndex := (fun d => JS.floorDiv d 7) <$> daysSinceStart in
    T "<text x=`" +:+
    numNaN ((fun w => w * (CELL_SIZE + CELL_MARGIN)) <$> weekIndex) +:+
    T "` y=`0`>" +:+
    elt MONTHS i +:+
    "</text>") (seqZ 0 12)) in
          let svg4 := svg3 +:+
  T "</g><g transform=`translate(10, 60)`>" in
          let svg5 := svg4 +:+
            joinAll (map (fun i =>
    T "<text x=`0` y=`" +:+
    numHalf (2 * (i * (CELL_SIZE + CELL_MARGIN)) + CELL_SIZE + 8) +:+
    T "`>" +:+
    charAt0 (elt DAYS i) +:+
    "</text>") (seqZ 0 7)) in
          let svg6 := svg5 +:+
  T "</g><g transform=`translate(30, 60)`>" in
          match cellsMarkup currentTheme year startDate totalWeeks itemsPerDay
                            (Options.dayCountStats options) grid with
          | None => RangeError                (* [cellDate.toISOString()] *)
          | Some cells =>
              let svg7 := svg6 +:+ cells in
              Document (svg7 +:+
  "</g></svg>")
          end
      end
      end
  end
  end.

End Render.

End Standalone.

(* ===================================================================== *)
(** ** Years in the Date range *)
(* ===================================================================== *)

(** The years whose January 1 and December 31 are dates: time values reach
    100 000 000 days to either side of 1970, from April 20 of -271821 to
    September 13 of 275760. *)
Definition validYear (year : Z) : Prop := -271820 <= year <= 275759.

#[global] Instance validYear_dec year : Decision (validYear year).
Proof. unfold validYear. apply _. Defined.

(** For such a year no step of the layout meets an Invalid Date, and the
    layout is the arithmetic below, in which nothing is clipped.  The proofs
    go through these numbers; [RangeFacts.layout_valid] and
    [StandaloneRangeFacts.standalone_layout_valid] show that they are what
    [Generator.layout] and [Standalone.layout] compute, [RangeFacts.layout_invalid]
    and [StandaloneRangeFacts.standalone_layout_invalid] that for any other
    year there is no layout. *)
Module Calendar.
Import Generator.

Section Layout.
Variable year : Z.
Variable weekStart : string.

Definition jan1 : Z := JSDate.utcDate year 0 1.
Definition endDate : Z := JSDate.utcDate year 11 31.

Definition startDay : Z := JSDate.getUTCDay jan1.

Definition dayShift : Z :=
  if String.eqb weekStart "monday" then Z.rem (startDay + 6) 7 else startDay.

Definition startDate : Z :=
  if 0 <? dayShift
  then JSDate.withUTCDate jan1 (JSDate.getUTCDate jan1 - dayShift)
  else jan1.

Definition totalDays : Z :=
  JS.ceilDiv (JSDate.getTime endDate - JSDate.getTime startDate) (1000 * 60 * 60 * 24) + 1.

Definition totalWeeks : Z := JS.ceilDiv totalDays 7.

Definition emptyGrid : list (list nat) :=
  replicate 7 (replicate (Z.to_nat totalWeeks) 0%nat).

Definition daysSinceStart (t : Z) : Z :=
  JS.floorDiv (t - JSDate.getTime startDate) (1000 * 60 * 60 * 24).

Definition weekIndex (t : Z) : Z := JS.floorDiv (daysSinceStart t) 7.

Definition place (a : accum) (entry : Entry.t) : accum :=
  match a with
  | Grid grid maxCount =>
      let t := JSDate.getTime (Entry.date entry) in
      if (0 <=? weekIndex t) && (weekIndex t <? totalWeeks)
      then increment grid maxCount (dayIndex weekStart t) (weekIndex t)
      else Grid grid maxCount
  | failed => failed
  end.

Definition buildGrid (entries : list Entry.t) : accum :=
  foldl place (Grid emptyGrid 0) entries.

Definition cellDateOf (day week : Z) : Z :=
  JSDate.withUTCDate startDate (JSDate.getUTCDate startDate + week * 7 + day).

Definition isOutsideYear (cellDate : Z) : bool :=
  (cellDate <? JSDate.utcDate year 0 1) || (JSDate.utcDate year 11 31 <? cellDate).

End Layout.

Definition inGrid (year : Z) (weekStart : string) (entry : Entry.t) : Prop :=
  0 <= weekIndex year weekStart (JSDate.getTime (Entry.date entry))
    < totalWeeks year weekStart.

#[global] Instance calendar_inGrid_dec year weekStart entry : Decision (inGrid year weekStart entry).
Proof. unfold inGrid. apply _. Defined.

End Calendar.

Module StandaloneCalendar.

Section Layout.
Variable year : Z.
Variable weekStart : string.

Definition jan1 : Z := JSDate.utcTime year 0 1 0 0 0.
Definition endDate : Z := JSDate.utcTime year 11 31 23 59 59.
Definition startDay : Z := JSDate.getUTCDay jan1.

Definition dayShift : Z :=
  if String.eqb weekStart "monday" then Z.rem (startDay + 6) 7 else startDay.

Definition startDate : Z :=
  if 0 <? dayShift
  then JSDate.withUTCDate jan1 (JSDate.getUTCDate jan1 - dayShift)
  else jan1.

Definition totalDays : Z :=
  JS.ceilDiv (JSDate.getTime endDate - JSDate.getTime startDate) (1000 * 60 * 60 * 24) + 1.

Definition totalWeeks : Z := JS.ceilDiv totalDays 7.

Definition emptyGrid : list (list nat) :=
  replicate 7 (replicate (Z.to_nat totalWeeks) 0%nat).

Definition entryDate (t : Z) : Z :=
  JSDate.utcDate (JSDate.getUTCFullYear t) (JSDate.getUTCMonth t) (JSDate.getUTCDate t).

Definition daysSinceStart (t : Z) : Z :=
  JS.floorDiv (JSDate.getTime (entryDate t) - JSDate.getTime startDate)
              (1000 * 60 * 60 * 24).

Definition weekIndex (t : Z) : Z := JS.floorDiv (daysSinceStart t) 7.

Definition dayIndex (t : Z) : Z :=
  if String.eqb weekStart "monday"
  then Z.rem (JSDate.getUTCDay (entryDate t) + 6) 7
  else JSDate.getUTCDay (entryDate t).

Definition place (g : option (list (list nat))) (entry : Entry.t) : option (list (list nat)) :=
  grid ← g;
  let t := Entry.date entry in
  if (0 <=? weekIndex t) && (weekIndex t <? totalWeeks) &&
     (0 <=? dayIndex t) && (dayIndex t <? 7)
  then
    row ← grid !! Z.to_nat (dayIndex t);
    c ← row !! Z.to_nat (weekIndex t);
    Some (<[Z.to_nat (dayIndex t) := <[Z.to_nat (weekIndex t) := S c]> row]> grid)
  else Some grid.

Definition buildGrid (entries : list Entry.t) : option (list (list nat)) :=
  foldl place (Some emptyGrid) (JS.sortBy (fun a b => Entry.date a <=? Entry.date b) entries).

Definition cellDateOf (day week : Z) : Z :=
  JSDate.withUTCDate startDate (JSDate.getUTCDate startDate + week * 7 + day).

Definition isOutsideYear (cellDate : Z) : bool :=
  (cellDate <? JSDate.utcDate year 0 1) || (JSDate.utcDate year 11 31 <? cellDate).

End Layout.

Definition inGrid (year : Z) (weekStart : string) (entry : Entry.t) : Prop :=
  0 <= weekIndex year weekStart (Entry.date entry) < totalWeeks year weekStart /\
  0 <= dayIndex weekStart (Entry.date entry) < 7.

#[global] Instance calendar_inGrid_decision year weekStart entry : Decision (inGrid year weekStart entry).
Proof. unfold inGrid. apply _. Defined.

End StandaloneCalendar.

(* ===================================================================== *)
(** * Further parts of the sources

    - [src/fetcher.js], [standalone.js] (module [Paging]): the pagination
      loop of [fetchTraktHistory], against a server given as a function from
      page numbers to responses;
    - the records that make [processTraktHistory] throw (module
      [HistoryErrors]);
    - reading the activity grids (modules [GridRead], [StandaloneRead]);
    - the month labels of both renderers (module [Labels]);
    - the days of [itemsPerDay] in [standalone.js] (module
      [StandaloneDays]);
    - the items that a cell of [src/generator.js] shows (module
      [CellItems]). *)
(* ===================================================================== *)

(* ===================================================================== *)
(** ** Records on which [processTraktHistory] throws *)
(* ===================================================================== *)

Module HistoryErrors.
Section HistoryErrors.
Variable LocalTZA : Z -> Z.
Variable otherFormats : string -> option Z.

(** A record of the selected year whose kind names a nested object that the
    record does not have: [episode] or [show] for an episode, [movie] for a
    movie. *)
Definition unreadable (selectedYear : option Z) (item : RawItem.t) : Prop :=
  exists date,
    JS.Date_parse otherFormats (RawItem.watched_at item) = Some date /\
    Some (JSDate.getFullYear LocalTZA date) = selectedYear /\
    ((RawItem.type item = "episode" /\
      (RawItem.episode item = None \/ RawItem.show item = None)) \/
     (RawItem.type item = "movie" /\ RawItem.movie item = None)).

End HistoryErrors.
End HistoryErrors.

(* ===================================================================== *)
(** ** [fetchTraktHistory]: the pagination loop *)
(* ===================================================================== *)

Module Paging.

(** What one request comes to: an exception inside the [try] (the request
    fails, the status is not OK, the body is not an array of records), or
    the array [data] together with the value of
    [parseInt(headers.get('x-pagination-page-count'), 10)], where [None] is
    [NaN]. *)
Inductive response : Type :=
| Failed
| Page (data : list RawItem.t) (pageCount : option Z).

Section Paging.
Variable LocalTZA : Z -> Z.
Variable otherFormats : string -> option Z.
(** The response to the request for page [page]; the loop asks for every
    page once. *)
Variable server : Z -> response.
Variable targetYear : option Z.

(** [new Date(item.watched_at).getFullYear() < targetYear]; a comparison
    with [NaN] is false. *)
Definition before (y : Z) (item : RawItem.t) : bool :=
  match Fetcher.yearOf LocalTZA otherFormats (RawItem.watched_at item) with
  | Some entryYear => entryYear <? y
  | None => false
  end.

(** [targetYear && data.every(item => ... < targetYear)]; [null] and 0 are
    falsy. *)
Definition allBefore (data : list RawItem.t) : bool :=
  match targetYear with
  | None => false
  | Some y => if y =? 0 then false else forallb (before y) data
  end.

(** [page >= pageCount || data.length === 0] *)
Definition lastPage (page : Z) (data : list RawItem.t) (pageCount : option Z) : bool :=
  match pageCount with Some n => n <=? page | None => false end ||
  (length data =? 0)%nat.

(** The [while (true)] loop from [page] on, run for at most [fuel]
    requests; [None] when the loop is still running after them.  A failure
    ends the loop in the [catch], which logs it. *)
Fixpoint fetchLoop (fuel : nat) (page : Z) (allHistory : list RawItem.t)
  : option (list RawItem.t) :=
  match fuel with
  | O => None
  | S fuel' =>
      match server page with
      | Failed => Some allHistory
      | Page data pageCount =>
          if allBefore data then Some allHistory
          else
            let allHistory' := allHistory ++ data in
            if lastPage page data pageCount then Some allHistory'
            else fetchLoop fuel' (page + 1) allHistory'
      end
  end.

(** [fetchTraktHistory(username, type, targetYear)] against [server]. *)
Definition fetchTraktHistory (fuel : nat) : option (list RawItem.t) :=
  fetchLoop fuel 1 [].

(** The records that a page delivers, and a page after which the loop asks
    for the next one. *)
Definition dataOf (page : Z) : list RawItem.t :=
  match server page with Page data _ => data | Failed => [] end.

Definition continues (page : Z) : Prop :=
  match server page with
  | Page data pageCount => allBefore data = false /\ lastPage page data pageCount = false
  | Failed => False
  end.

(** A page on which the loop ends with the page's records taken in. *)
Definition includedLast (page : Z) : Prop :=
  match server page with
  | Page data pageCount => allBefore data = false /\ lastPage page data pageCount = true
  | Failed => False
  end.

#[global] Instance continues_dec page : Decision (continues page).
Proof. unfold continues. destruct (server page); apply _. Defined.

#[global] Instance includedLast_dec page : Decision (includedLast page).
Proof. unfold includedLast. destruct (server page); apply _. Defined.

End Paging.

(** For examples: a history of two pages, the newest records first, with
    date-only time stamps. *)
Definition watchedOn (day : string) : RawItem.t :=
  RawItem.Build day "movie" None None None.

Definition twoPages (page : Z) : response :=
  if page =? 1 then Page [watchedOn "2024-03-01"; watchedOn "2024-01-15"] (Some 2)
  else if page =? 2 then Page [watchedOn "2023-12-31"] (Some 2)
  else Failed.

Definition noOtherFormats (s : string) : option Z := None.

End Paging.

(* ===================================================================== *)
(** ** Reading the activity grid *)
(* ===================================================================== *)

Module GridRead.

(** [grid[day][week]], for indices that are natural numbers; [None] is
    [undefined]. *)
Definition cellAt (grid : list (list nat)) (day week : Z) : option nat :=
  if (0 <=? day) && (0 <=? week)
  then grid !! Z.to_nat day ≫= (fun row => row !! Z.to_nat week)
  else None.

(** The UTC day of a time value, as the time value of its midnight. *)
Definition utcMidnight (t : Z) : Z := JSDate.Day t * JSDate.msPerDay.

(** What the accumulation loop keeps true of [maxCount]: no cell exceeds
    it, and it is 0 or the count of some cell. *)
Definition maxInv (grid : list (list nat)) (maxCount : nat) : Prop :=
  (forall day week c, cellAt grid day week = Some c -> (c <= maxCount)%nat) /\
  (maxCount = 0%nat \/ exists day week, cellAt grid day week = Some maxCount).

(** The entries counted in a cell, for the [startDate.getTime()] and the
    [totalWeeks] of the layout. *)
Definition placedAt (weekStart : string) (startDate totalWeeks : Z) (day week : Z)
  (e : Entry.t) : Prop :=
  Generator.inGrid startDate totalWeeks e /\
  Generator.dayIndex weekStart (JSDate.getTime (Entry.date e)) = day /\
  Generator.weekIndex startDate (JSDate.getTime (Entry.date e)) = week.

#[global] Instance placedAt_dec weekStart startDate totalWeeks day week e :
  Decision (placedAt weekStart startDate totalWeeks day week e).
Proof. unfold placedAt. apply _. Defined.

End GridRead.

(* ===================================================================== *)
(** ** Reading the grid of [standalone.js] *)
(* ===================================================================== *)

Module StandaloneRead.

(** The entries counted in a cell of the grid of [standalone.js], for the
    [startDate.getTime()] and the [totalWeeks] of the layout. *)
Definition placedAt (weekStart : string) (startDate totalWeeks : Z) (day week : Z)
  (e : Entry.t) : Prop :=
  Standalone.inGrid weekStart startDate totalWeeks e /\
  Standalone.dayIndex weekStart (Entry.date e) = Some day /\
  Standalone.weekIndex startDate (Entry.date e) = Some week.

#[global] Instance standalone_placedAt_dec weekStart startDate totalWeeks day week e :
  Decision (placedAt weekStart startDate totalWeeks day week e).
Proof. unfold placedAt. apply _. Defined.

(** An entry whose UTC year [Date.UTC] takes as it is: not one of 0 .. 99,
    which it reads as 1900 .. 1999. *)
Definition plainYear (e : Entry.t) : Prop :=
  ~ (0 <= JSDate.getUTCFullYear (Entry.date e) <= 99).

End StandaloneRead.

(* ===================================================================== *)
(** ** Month labels *)
(* ===================================================================== *)

Module Labels.

(** The body of the loop over the months, up to the markup: the column
    [weekIndex] at which the label of month [i] is drawn ([x] is that column
    times the cell pitch), [Some None] when it is [NaN]; or [None] when the
    loop [continue]s.  [startDate] is [startDate.getTime()]. *)
Definition monthLabelColumn (displayYear : Z) (startDate : Z) (i : Z) : option (option Z) :=
  let firstDayOfMonth := JSDate.Date_UTC displayYear i 1 in
  let daysSinceStart :=
    (fun d => JS.floorDiv (JSDate.getTime d - startDate) (1000 * 60 * 60 * 24))
      <$> firstDayOfMonth in
  if JSDate.ltNaN daysSinceStart (Some 0) then None
  else Some ((fun d => JS.floorDiv d 7) <$> daysSinceStart).

End Labels.

(* ===================================================================== *)
(** ** Cells and labels of a year in the Date range *)
(* ===================================================================== *)

(** What the three definitions above are in the numbers of [Calendar] and
    [StandaloneCalendar]. *)
Module CalendarRead.

Definition placedAt (year : Z) (weekStart : string) (day week : Z) (e : Entry.t) : Prop :=
  Calendar.inGrid year weekStart e /\
  Generator.dayIndex weekStart (JSDate.getTime (Entry.date e)) = day /\
  Calendar.weekIndex year weekStart (JSDate.getTime (Entry.date e)) = week.

#[global] Instance calendar_placedAt_dec year weekStart day week e :
  Decision (placedAt year weekStart day week e).
Proof. unfold placedAt. apply _. Defined.

Definition standalone_placedAt (year : Z) (weekStart : string) (day week : Z)
  (e : Entry.t) : Prop :=
  StandaloneCalendar.inGrid year weekStart e /\
  StandaloneCalendar.dayIndex weekStart (Entry.date e) = day /\
  StandaloneCalendar.weekIndex year weekStart (Entry.date e) = week.

#[global] Instance calendar_standalone_placedAt_dec year weekStart day week e :
  Decision (standalone_placedAt year weekStart day week e).
Proof. unfold standalone_placedAt. apply _. Defined.

Definition monthLabelColumn (displayYear : Z) (weekStart : string) (i : Z) : option Z :=
  let firstDayOfMonth := JSDate.utcDate displayYear i 1 in
  let daysSinceStart :=
    JS.floorDiv (JSDate.getTime firstDayOfMonth
                 - JSDate.getTime (Calendar.startDate displayYear weekStart))
                (1000 * 60 * 60 * 24) in
  if daysSinceStart <? 0 then None
  else Some (JS.floorDiv daysSinceStart 7).

End CalendarRead.

(* ===================================================================== *)
(** ** The days of [processTraktHistory] in [standalone.js] *)
(* ===================================================================== *)

Module StandaloneDays.

(** [itemsPerDay.get(dateStr)]; [None] is [undefined]. *)
Fixpoint getDay (itemsPerDay : list (string * list DayItem.t)) (dateStr : string)
  : option (list DayItem.t) :=
  match itemsPerDay with
  | [] => None
  | (k, dayItems) :: rest => if String.eqb k dateStr then Some dayItems else getDay rest dateStr
  end.

Section Days.
Variable LocalTZA : Z -> Z.
Variable otherFormats : string -> option Z.

(** The key under which a record is filed: the UTC day of its time stamp,
    for a record whose local year is the selected year. *)
Definition dayOf (selectedYear : option Z) (entry : RawItem.t) : option string :=
  date ← JS.Date_parse otherFormats (RawItem.watched_at entry);
  if bool_decide (Some (JSDate.getFullYear LocalTZA date) = selectedYear)
  then Some (Standalone.isoDate date) else None.

End Days.

(** The item that a record adds to its day: that of an episode, that of a
    movie, none for a record of another type. *)
Definition dayItemOf (entry : RawItem.t) : option DayItem.t :=
  if String.eqb (RawItem.type entry) "episode" then
    episode ← RawItem.episode entry;
    show ← RawItem.show entry;
    Some (DayItem.Build (RawShow.title show) (Some (Fetcher.episodeCode episode))
                        (RawShow.year show))
  else if String.eqb (RawItem.type entry) "movie" then
    movie ← RawItem.movie entry;
    Some (DayItem.Build (RawMovie.title movie) None (RawMovie.year movie))
  else None.

(** What a day holds after further records: nothing if it did not exist and
    no record fell on it, and otherwise its items followed by theirs. *)
Definition extended (dayItems : option (list DayItem.t)) (records : list RawItem.t)
  : option (list DayItem.t) :=
  match dayItems, records with
  | None, [] => None
  | _, _ => Some (default [] dayItems ++ omap dayItemOf records)
  end.

End StandaloneDays.

(* ===================================================================== *)
(** ** The items that a cell of [src/generator.js] shows *)
(* ===================================================================== *)

Module CellItems.
Import Template.

Section CellItems.
Variable LocalTZA : Z -> Z.

(** [tooltipDate]: the local calendar date of [cellDate], the key under
    which the cell loop looks up the items of the cell. *)
Definition tooltipDateOf (cellDate : Z) : string :=
  let year := JSDate.getFullYear LocalTZA cellDate in
  let month := JS.padStart 2 "0" (num (JSDate.getMonth LocalTZA cellDate + 1)) in
  let dayOfMonth := JS.padStart 2 "0" (num (JSDate.getDate LocalTZA cellDate)) in
  num year +:+ "-" +:+ month +:+ "-" +:+ dayOfMonth.

(** [itemsPerDay.get(tooltipDate) || []] *)
Definition itemsForDay (itemsPerDay : gmap string (list Item.t)) (cellDate : Z)
  : list Item.t :=
  default [] (itemsPerDay !! tooltipDateOf cellDate).

(** The entries watched on the local day [z]. *)
Definition watchedOnLocalDay (entries : list Entry.t) (z : Z) : list Entry.t :=
  filter (fun e => Stats.localDay LocalTZA (Entry.date e) = z) entries.

End CellItems.

End CellItems.


(* ===================================================================== *)
(** * Properties *)
(* ===================================================================== *)

(** ** The calendar *)

Module JSDateFacts.
Import JSDate.

Lemma yoe_of_range doe : 0 <= doe < 146097 -> 0 <= yoe_of doe <= 399.
Proof. unfold yoe_of. intros. Z.div_mod_to_equations; lia. Qed.

Lemma doy_of_range doe :
  0 <= doe < 146097 ->
  let y := yoe_of doe in
  0 <= doy_of doe /\
  doy_of doe < 365 + ((y + 1) / 4 - y / 4) - ((y + 1) / 100 - y / 100)
                   + ((y + 1) / 400 - y / 400).
Proof.
  intros H y. pose proof (yoe_of_range doe H) as Hy. fold y in Hy.
  unfold doy_of. fold y. unfold y, yoe_of in *. clear y.
  Z.div_mod_to_equations; lia.
Qed.

Lemma daysBeforeMarchYear_era y e :
  0 <= y <= 400 -> daysBeforeMarchYear (y + e * 400) = daysBeforeMarchYear y + e * 146097.
Proof. unfold daysBeforeMarchYear. intros. Z.div_mod_to_equations; lia. Qed.

Lemma daysBeforeMarchYear_mono a b :
  a <= b -> daysBeforeMarchYear a + 365 * (b - a) <= daysBeforeMarchYear b.
Proof. unfold daysBeforeMarchYear. intros. Z.div_mod_to_equations; lia. Qed.

Lemma daysBeforeMarchYear_succ y :
  365 <= daysBeforeMarchYear (y + 1) - daysBeforeMarchYear y <= 366.
Proof. unfold daysBeforeMarchYear. Z.div_mod_to_equations; lia. Qed.

(** Every day number is a March-based year plus a day within that year. *)
Lemma march_decomp z :
  z + 719468 = daysBeforeMarchYear (marchYear z) + marchDoy z /\
  0 <= marchDoy z < daysBeforeMarchYear (marchYear z + 1) - daysBeforeMarchYear (marchYear z).
Proof.
  unfold marchYear, marchDoy.
  pose proof (Z.mod_pos_bound (z + 719468) 146097 ltac:(lia)) as Hb.
  pose proof (Z.div_mod (z + 719468) 146097 ltac:(lia)) as Hd.
  set (doe := (z + 719468) mod 146097) in *.
  set (era := (z + 719468) / 146097) in *.
  pose proof (yoe_of_range doe Hb) as Hy.
  pose proof (doy_of_range doe Hb) as Hdoy. cbn zeta in Hdoy.
  rewrite <- Z.add_assoc, (Z.add_comm (era * 400) 1), Z.add_assoc.
  rewrite !daysBeforeMarchYear_era by lia.
  assert (Hdoe : doe = daysBeforeMarchYear (yoe_of doe) + doy_of doe).
  { unfold doy_of, daysBeforeMarchYear. cbn zeta.
    assert (yoe_of doe / 400 = 0) by (apply Z.div_small; lia). lia. }
  split; [lia|].
  unfold daysBeforeMarchYear. unfold daysBeforeMarchYear in Hdoe. lia.
Qed.

Lemma mp_dom_range a : 0 <= a <= 365 -> 0 <= mp_of a <= 11 /\ 1 <= dom_of a <= 31.
Proof. unfold dom_of, mp_of. intros. Z.div_mod_to_equations; lia. Qed.

Lemma mp_dom_mono a b :
  0 <= a < b -> b <= 365 ->
  mp_of a < mp_of b \/ (mp_of a = mp_of b /\ dom_of a < dom_of b).
Proof. unfold dom_of, mp_of. intros. Z.div_mod_to_equations; lia. Qed.

Lemma mp_of_306 a : 0 <= a <= 365 -> (10 <= mp_of a <-> 306 <= a).
Proof. unfold mp_of. intros. Z.div_mod_to_equations; lia. Qed.

Lemma marchDoy_range z : 0 <= marchDoy z <= 365.
Proof.
  pose proof (march_decomp z) as [_ H].
  pose proof (daysBeforeMarchYear_succ (marchYear z)). lia.
Qed.

(** [civil_from_days] in terms of the March-based year. *)
Lemma civil_from_days_march z :
  civil_from_days z =
  let mp := mp_of (marchDoy z) in
  let m := if mp <? 10 then mp + 3 else mp - 9 in
  Civil (marchYear z + (if m <=? 2 then 1 else 0)) m (dom_of (marchDoy z)).
Proof. reflexivity. Qed.

Lemma civil_range z :
  let c := civil_from_days z in 1 <= c_month c <= 12 /\ 1 <= c_date c <= 31.
Proof.
  rewrite civil_from_days_march. cbn zeta. simpl.
  pose proof (mp_dom_range _ (marchDoy_range z)).
  destruct (_ <? 10) eqn:E; [apply Z.ltb_lt in E | apply Z.ltb_ge in E]; lia.
Qed.

(** Day number to calendar date and back. *)
Lemma days_civil z :
  let c := civil_from_days z in
  days_from_civil (c_year c) (c_month c) (c_date c) = z.
Proof.
  rewrite civil_from_days_march. cbn zeta. simpl.
  pose proof (march_decomp z) as [Hz Hd].
  pose proof (mp_dom_range _ (marchDoy_range z)) as [Hmp Hdom].
  set (Y := marchYear z) in *. set (doy := marchDoy z) in *.
  unfold days_from_civil.
  assert (Hy' : forall m, (if m <=? 2 then Y + (if m <=? 2 then 1 else 0) - 1
                      else Y + (if m <=? 2 then 1 else 0)) = Y).
  { intros m. destruct (m <=? 2); lia. }
  rewrite Hy'.
  assert (Hmp' : ((if mp_of doy <? 10 then mp_of doy + 3 else mp_of doy - 9) + 9) mod 12
                 = mp_of doy).
  { destruct (_ <? 10) eqn:E; [apply Z.ltb_lt in E | apply Z.ltb_ge in E].
    - replace (mp_of doy + 3 + 9) with (mp_of doy + 1 * 12) by lia.
      rewrite Z.mod_add by lia. apply Z.mod_small; lia.
    - replace (mp_of doy - 9 + 9) with (mp_of doy) by lia. apply Z.mod_small; lia. }
  rewrite Hmp'.
  assert (Hdoy : (153 * mp_of doy + 2) / 5 + dom_of doy - 1 = doy) by (unfold dom_of; lia).
  rewrite Hdoy.
  assert (HF : Y / 400 * 146097 + (Y mod 400 * 365 + Y mod 400 / 4 - Y mod 400 / 100)
               = daysBeforeMarchYear Y).
  { unfold daysBeforeMarchYear. Z.div_mod_to_equations; lia. }
  lia.
Qed.

Lemma days_from_civil_jan1 y :
  days_from_civil y 1 1 = daysBeforeMarchYear (y - 1) + 306 - 719468.
Proof.
  unfold days_from_civil, daysBeforeMarchYear.
  change (1 <=? 2) with true. change ((1 + 9) mod 12) with 10.
  change ((153 * 10 + 2) / 5) with 306. cbn iota.
  Z.div_mod_to_equations; lia.
Qed.

Lemma c_year_march z :
  c_year (civil_from_days z) = marchYear z + (if 306 <=? marchDoy z then 1 else 0).
Proof.
  rewrite civil_from_days_march. cbn zeta. simpl.
  pose proof (mp_of_306 _ (marchDoy_range z)) as H306.
  pose proof (mp_dom_range _ (marchDoy_range z)) as [Hmp _].
  destruct (mp_of (marchDoy z) <? 10) eqn:E; [apply Z.ltb_lt in E | apply Z.ltb_ge in E];
    destruct (_ <=? 2) eqn:E2; [apply Z.leb_le in E2 | apply Z.leb_gt in E2 |
                                 apply Z.leb_le in E2 | apply Z.leb_gt in E2];
    destruct (306 <=? marchDoy z) eqn:E3;
      try apply Z.leb_le in E3; try apply Z.leb_gt in E3; lia.
Qed.

(** The days of calendar year [y] are those from its January 1 up to the
    next January 1. *)
Lemma c_year_iff z y :
  c_year (civil_from_days z) = y <->
  days_from_civil y 1 1 <= z < days_from_civil (y + 1) 1 1.
Proof.
  rewrite c_year_march, !days_from_civil_jan1.
  replace (y + 1 - 1) with y by lia.
  pose proof (march_decomp z) as [Hz Hd].
  set (Y := marchYear z) in *. set (doy := marchDoy z) in *.
  pose proof (daysBeforeMarchYear_succ (y - 1)) as Hs.
  replace (y - 1 + 1) with y in Hs by lia.
  destruct (306 <=? doy) eqn:E; [apply Z.leb_le in E | apply Z.leb_gt in E].
  - split.
    + intros <-. replace (Y + 1 - 1) with Y in * by lia. lia.
    + intros [H1 H2].
      destruct (Z.lt_trichotomy Y (y - 1)) as [Hlt | [-> | Hgt]]; [| lia |].
      * pose proof (daysBeforeMarchYear_mono (Y + 1) (y - 1) ltac:(lia)). lia.
      * pose proof (daysBeforeMarchYear_mono y Y ltac:(lia)). lia.
  - split.
    + intros <-. replace (Y + 0) with Y in * by lia. lia.
    + intros [H1 H2].
      destruct (Z.lt_trichotomy Y y) as [Hlt | [-> | Hgt]]; [| lia |].
      * pose proof (daysBeforeMarchYear_mono Y (y - 1) ltac:(lia)). lia.
      * pose proof (daysBeforeMarchYear_mono (y + 1) Y ltac:(lia)).
        pose proof (daysBeforeMarchYear_succ y). lia.
Qed.

(** Later days have later calendar dates. *)
Lemma civil_mono z1 z2 :
  z1 < z2 -> civil_lt (civil_from_days z1) (civil_from_days z2).
Proof.
  intros Hlt. unfold civil_lt. rewrite !c_year_march.
  rewrite !civil_from_days_march. cbn zeta. simpl.
  pose proof (march_decomp z1) as [Hz1 Hd1]. pose proof (march_decomp z2) as [Hz2 Hd2].
  pose proof (marchDoy_range z1) as Hr1. pose proof (marchDoy_range z2) as Hr2.
  pose proof (mp_of_306 _ Hr1) as H1. pose proof (mp_of_306 _ Hr2) as H2.
  pose proof (mp_dom_range _ Hr1) as [Hmp1 _]. pose proof (mp_dom_range _ Hr2) as [Hmp2 _].
  set (Y1 := marchYear z1) in *. set (Y2 := marchYear z2) in *.
  set (a := marchDoy z1) in *. set (b := marchDoy z2) in *.
  assert (HY : Y1 < Y2 \/ (Y1 = Y2 /\ a < b)).
  { destruct (Z.lt_trichotomy Y1 Y2) as [? | [-> | Hgt]]; [lia | lia |].
    pose proof (daysBeforeMarchYear_mono (Y2 + 1) Y1 ltac:(lia)). lia. }
  assert (Hmono : Y1 = Y2 -> mp_of a < mp_of b \/ (mp_of a = mp_of b /\ dom_of a < dom_of b)).
  { intros ->. apply mp_dom_mono; lia. }
  destruct (306 <=? a) eqn:Ea; [apply Z.leb_le in Ea | apply Z.leb_gt in Ea];
  destruct (306 <=? b) eqn:Eb; [apply Z.leb_le in Eb | apply Z.leb_gt in Eb |
                                apply Z.leb_le in Eb | apply Z.leb_gt in Eb];
  destruct (mp_of a <? 10) eqn:Ma; [apply Z.ltb_lt in Ma | apply Z.ltb_ge in Ma |
                                    apply Z.ltb_lt in Ma | apply Z.ltb_ge in Ma |
                                    apply Z.ltb_lt in Ma | apply Z.ltb_ge in Ma |
                                    apply Z.ltb_lt in Ma | apply Z.ltb_ge in Ma];
  destruct (mp_of b <? 10) eqn:Mb; try apply Z.ltb_lt in Mb; try apply Z.ltb_ge in Mb;
  lia.
Qed.

Lemma civil_lt_irrefl c : ~ civil_lt c c.
Proof. unfold civil_lt. lia. Qed.

(** *** Time values *)

Lemma Day_MakeDate d t : 0 <= t < msPerDay -> Day (MakeDate d t) = d.
Proof.
  intros H. unfold Day, MakeDate. symmetry. apply Z.div_unique with t; unfold msPerDay in *; lia.
Qed.

Lemma Day_mul k : Day (k * msPerDay) = k.
Proof. unfold Day. apply Z.div_mul. discriminate. Qed.

Lemma TimeWithinDay_range t : 0 <= TimeWithinDay t < msPerDay.
Proof. apply Z.mod_pos_bound. reflexivity. Qed.

Lemma Day_TimeWithinDay t : t = MakeDate (Day t) (TimeWithinDay t).
Proof.
  unfold MakeDate, Day, TimeWithinDay. rewrite Z.mul_comm. apply Z.div_mod. discriminate.
Qed.

Lemma WeekDay_range t : 0 <= WeekDay t < 7.
Proof. apply Z.mod_pos_bound. reflexivity. Qed.

Lemma MonthFromTime_range t : 0 <= MonthFromTime t <= 11.
Proof. unfold MonthFromTime. pose proof (civil_range (Day t)) as [? _]. cbn zeta in *. lia. Qed.

Lemma DateFromTime_range t : 1 <= DateFromTime t <= 31.
Proof. unfold DateFromTime. pose proof (civil_range (Day t)) as [_ ?]. cbn zeta in *. lia. Qed.

(** [MakeDay] of the calendar fields of a day, with another day of month. *)
Lemma MakeDay_fields z dt :
  let c := civil_from_days z in
  MakeDay (c_year c) (c_month c - 1) dt = z + (dt - c_date c).
Proof.
  cbn zeta. pose proof (days_civil z) as Hrt. pose proof (civil_range z) as [Hm _].
  cbn zeta in *. unfold MakeDay.
  rewrite Z.div_small, Z.mod_small by lia.
  replace (c_month (civil_from_days z) - 1 + 1) with (c_month (civil_from_days z)) by lia.
  rewrite Z.add_0_r.
  unfold days_from_civil in *. lia.
Qed.

(** [withUTCDate] moves a date by whole days. *)
Lemma withUTCDate_shift t dt : withUTCDate t dt = t + (dt - getUTCDate t) * msPerDay.
Proof.
  unfold withUTCDate, YearFromTime, MonthFromTime, getUTCDate, DateFromTime.
  rewrite MakeDay_fields. rewrite (Day_TimeWithinDay t) at 4.
  unfold MakeDate. lia.
Qed.


End JSDateFacts.

(** ** Sorting *)

Module SortFacts.
Import JS.

Lemma insertSorted_Permutation {A} (le : A -> A -> bool) x l :
  insertSorted le x l ≡ₚ x :: l.
Proof.
  induction l as [|y l IH]; simpl; [done|].
  destruct (le x y); [done|]. rewrite IH. apply Permutation_swap.
Qed.

Lemma sortBy_Permutation {A} (le : A -> A -> bool) l : sortBy le l ≡ₚ l.
Proof.
  induction l as [|x l IH]; simpl; [done|].
  unfold sortBy in *. simpl. rewrite insertSorted_Permutation. by rewrite IH.
Qed.

End SortFacts.

(** ** The calendar layout of [generateSvg] *)

Module LayoutFacts.
Import JSDate JSDateFacts Generator Calendar.

Lemma rem_mod_nonneg a b : 0 <= a -> 0 < b -> Z.rem a b = a mod b.
Proof. intros. apply Z.rem_mod_nonneg; lia. Qed.

Lemma startDay_range year : 0 <= startDay year < 7.
Proof. apply WeekDay_range. Qed.

Lemma dayShift_eq year weekStart :
  dayShift year weekStart =
  if String.eqb weekStart "monday" then (startDay year + 6) mod 7 else startDay year.
Proof.
  unfold dayShift. pose proof (startDay_range year).
  destruct (String.eqb _ _); [|done]. apply rem_mod_nonneg; lia.
Qed.

Lemma dayShift_range year weekStart : 0 <= dayShift year weekStart < 7.
Proof.
  rewrite dayShift_eq. pose proof (startDay_range year).
  destruct (String.eqb _ _); [|done]. apply Z.mod_pos_bound. lia.
Qed.

Lemma startDate_eq year weekStart :
  startDate year weekStart = jan1 year - dayShift year weekStart * msPerDay.
Proof.
  unfold startDate. pose proof (dayShift_range year weekStart).
  destruct (0 <? _) eqn:E; [apply Z.ltb_lt in E | apply Z.ltb_ge in E].
  - rewrite withUTCDate_shift. unfold msPerDay. lia.
  - unfold msPerDay. lia.
Qed.

Lemma dayIndex_range weekStart t : 0 <= dayIndex weekStart t < 7.
Proof.
  unfold dayIndex. pose proof (WeekDay_range t) as H. unfold getUTCDay.
  destruct (String.eqb _ _); [|done].
  rewrite rem_mod_nonneg by lia. apply Z.mod_pos_bound. lia.
Qed.

Lemma jan1_eq year : jan1 year = firstDay year * msPerDay.
Proof. unfold jan1, utcDate, utcTime, MakeDate, MakeTime, firstDay. lia. Qed.

Lemma endDate_eq year : endDate year = lastDay year * msPerDay.
Proof. unfold endDate, utcDate, utcTime, MakeDate, MakeTime, lastDay. lia. Qed.

Lemma MakeDay_jan1 y : MakeDay y 0 1 = days_from_civil y 1 1.
Proof.
  unfold MakeDay. change (0 / 12) with 0. change (0 mod 12 + 1) with 1.
  rewrite Z.add_0_r. lia.
Qed.

Lemma lastDay_next year : lastDay year + 1 = MakeDay (fullYear year + 1) 0 1.
Proof.
  unfold lastDay. rewrite MakeDay_jan1, days_from_civil_jan1.
  unfold MakeDay. change (11 / 12) with 0. change (11 mod 12 + 1) with 12.
  unfold days_from_civil, daysBeforeMarchYear.
  change (12 <=? 2) with false. change ((12 + 9) mod 12) with 9.
  change ((153 * 9 + 2) / 5) with 275. cbn iota.
  replace (fullYear year + 1 - 1) with (fullYear year + 0) by lia.
  Z.div_mod_to_equations; lia.
Qed.

Lemma year_length year : 364 <= lastDay year - firstDay year <= 365.
Proof.
  pose proof (lastDay_next year) as H. rewrite MakeDay_jan1 in H.
  unfold firstDay. rewrite MakeDay_jan1. rewrite !days_from_civil_jan1 in *.
  pose proof (daysBeforeMarchYear_succ (fullYear year - 1)) as Hs.
  replace (fullYear year - 1 + 1) with (fullYear year + 1 - 1) in Hs by lia. lia.
Qed.

Lemma ceilDiv_mul a b : 0 < b -> JS.ceilDiv (a * b) b = a.
Proof.
  intros. unfold JS.ceilDiv. replace (- (a * b)) with ((- a) * b) by lia.
  rewrite Z.div_mul by lia. lia.
Qed.

Lemma totalDays_eq year weekStart :
  totalDays year weekStart = lastDay year - firstDay year + dayShift year weekStart + 1.
Proof.
  unfold totalDays, getTime. rewrite startDate_eq, jan1_eq, endDate_eq.
  change (1000 * 60 * 60 * 24) with msPerDay.
  replace (lastDay year * msPerDay - (firstDay year * msPerDay - dayShift year weekStart * msPerDay))
    with ((lastDay year - firstDay year + dayShift year weekStart) * msPerDay) by lia.
  rewrite ceilDiv_mul by reflexivity. lia.
Qed.

Lemma ceilDiv_bounds a b : 0 < b -> a <= JS.ceilDiv a b * b < a + b.
Proof.
  intros. unfold JS.ceilDiv.
  pose proof (Z.div_mod (- a) b ltac:(lia)). pose proof (Z.mod_pos_bound (- a) b ltac:(lia)).
  nia.
Qed.

Lemma totalWeeks_bounds year weekStart :
  totalDays year weekStart <= totalWeeks year weekStart * 7 < totalDays year weekStart + 7.
Proof. apply ceilDiv_bounds. lia. Qed.

Lemma totalWeeks_pos year weekStart : 53 <= totalWeeks year weekStart <= 54.
Proof.
  pose proof (totalWeeks_bounds year weekStart). rewrite totalDays_eq in *.
  pose proof (year_length year). pose proof (dayShift_range year weekStart). lia.
Qed.

(** *** The accumulation of the grid *)

#[global] Arguments Calendar.startDate : simpl never.
#[global] Arguments Calendar.totalDays : simpl never.
#[global] Arguments Calendar.totalWeeks : simpl never.
#[global] Arguments Calendar.weekIndex : simpl never.
#[global] Arguments Generator.dayIndex : simpl never.
#[global] Arguments Calendar.emptyGrid : simpl never.

Lemma sum_list_bump (row : list nat) (w c : nat) :
  row !! w = Some c -> sum_list (<[w := S c]> row) = S (sum_list row).
Proof.
  revert w. induction row as [|x row IH]; intros [|w] H; simplify_eq/=; [done|].
  rewrite (IH w H). lia.
Qed.

Lemma gridSum_bump (grid : list (list nat)) (d : nat) (row row' : list nat) :
  grid !! d = Some row -> sum_list row' = S (sum_list row) ->
  gridSum (<[d := row']> grid) = S (gridSum grid).
Proof.
  unfold gridSum. revert d. induction grid as [|r grid IH]; intros [|d] H Hs;
    simplify_eq/=; [lia|].
  rewrite (IH d H Hs). lia.
Qed.

Lemma gridShape_bump weeks (grid : list (list nat)) (d : nat) (row row' : list nat) :
  gridShape weeks grid -> grid !! d = Some row -> length row' = length row ->
  gridShape weeks (<[d := row']> grid).
Proof.
  intros [Hlen Hrows] Hd Hl. split; [by rewrite length_insert|].
  apply Forall_insert; [done|].
  rewrite Hl. eapply (proj1 (Forall_lookup _ _) Hrows); eauto.
Qed.

Lemma emptyGrid_shape year weekStart :
  gridShape (totalWeeks year weekStart) (emptyGrid year weekStart).
Proof.
  pose proof (totalWeeks_pos year weekStart).
  unfold emptyGrid. split; [by rewrite length_replicate|].
  apply Forall_replicate. rewrite length_replicate. lia.
Qed.

Lemma emptyGrid_sum year weekStart : gridSum (emptyGrid year weekStart) = 0%nat.
Proof.
  unfold gridSum, emptyGrid.
  rewrite fmap_replicate, !sum_list_replicate. lia.
Qed.

(** A write at a row in 0..6 and a column that passed the range test
    succeeds, keeps the shape and adds one to the sum. *)
Lemma increment_ok weeks grid maxCount d w :
  gridShape weeks grid -> 0 <= d < 7 -> 0 <= w < weeks ->
  exists grid' maxCount',
    increment grid maxCount d w = Grid grid' maxCount' /\
    gridShape weeks grid' /\ gridSum grid' = S (gridSum grid).
Proof.
  intros Hshape Hd Hw. pose proof Hshape as [Hlen Hrows]. unfold increment.
  destruct (d <? 0) eqn:E; [apply Z.ltb_lt in E; lia|]. clear E.
  destruct (grid !! Z.to_nat d) as [row|] eqn:Hrow;
    [| apply lookup_ge_None in Hrow; lia].
  assert (Hrl : Z.of_nat (length row) = weeks).
  { eapply (proj1 (Forall_lookup _ _) Hrows); eauto. }
  destruct (w <? 0) eqn:E; [apply Z.ltb_lt in E; lia|]. clear E.
  destruct (row !! Z.to_nat w) as [c|] eqn:Hc;
    [| apply lookup_ge_None in Hc; lia].
  eexists _, _. split; [reflexivity|]. split.
  - eapply gridShape_bump; eauto. by rewrite length_insert.
  - eapply gridSum_bump; eauto. by apply sum_list_bump.
Qed.

Lemma place_Grid year weekStart grid maxCount e :
  place year weekStart (Grid grid maxCount) e =
  if bool_decide (inGrid year weekStart e)
  then increment grid maxCount (dayIndex weekStart (getTime (Entry.date e)))
                 (weekIndex year weekStart (getTime (Entry.date e)))
  else Grid grid maxCount.
Proof.
  unfold place, inGrid. case_bool_decide as H.
  - destruct H as [H1 H2]. apply Z.leb_le in H1. apply Z.ltb_lt in H2.
    by rewrite H1, H2.
  - destruct (0 <=? _) eqn:E1; [|done]. destruct (_ <? _) eqn:E2; [|done].
    apply Z.leb_le in E1. apply Z.ltb_lt in E2. exfalso. apply H. lia.
Qed.

Lemma foldl_cons {A B} (f : A -> B -> A) a x l : foldl f a (x :: l) = foldl f (f a x) l.
Proof. reflexivity. Qed.

(** The loop never fails: from a well-shaped grid it yields a well-shaped
    grid whose sum has grown by the number of entries that passed the test. *)
Lemma foldl_place_ok year weekStart entries grid maxCount :
  gridShape (totalWeeks year weekStart) grid ->
  exists grid' maxCount',
    foldl (place year weekStart) (Grid grid maxCount) entries = Grid grid' maxCount' /\
    gridShape (totalWeeks year weekStart) grid' /\
    gridSum grid' = (gridSum grid + length (filter (inGrid year weekStart) entries))%nat.
Proof.
  revert grid maxCount. induction entries as [|e entries IH]; intros grid maxCount Hshape.
  - exists grid, maxCount. simpl. split; [done|]. split; [done|]. lia.
  - rewrite foldl_cons, filter_cons, place_Grid.
    destruct (decide (inGrid year weekStart e)) as [Hin|Hout].
    + rewrite bool_decide_eq_true_2 by done.
      destruct (increment_ok _ grid maxCount
                  (dayIndex weekStart (getTime (Entry.date e)))
                  (weekIndex year weekStart (getTime (Entry.date e)))
                  Hshape (dayIndex_range _ _) Hin)
        as (g1 & m1 & -> & Hs1 & Hsum1).
      destruct (IH g1 m1 Hs1) as (g2 & m2 & -> & Hs2 & Hsum2).
      exists g2, m2. split; [done|]. split; [done|]. simpl. lia.
    + rewrite bool_decide_eq_false_2 by done.
      destruct (IH grid maxCount Hshape) as (g2 & m2 & -> & Hs2 & Hsum2).
      exists g2, m2. split; [done|]. split; [done|]. lia.
Qed.

Lemma buildGrid_ok year weekStart entries :
  exists grid maxCount,
    buildGrid year weekStart entries = Grid grid maxCount /\
    gridShape (totalWeeks year weekStart) grid /\
    gridSum grid = length (filter (inGrid year weekStart) entries).
Proof.
  destruct (foldl_place_ok year weekStart entries (emptyGrid year weekStart) 0%nat
              (emptyGrid_shape _ _)) as (g & m & H & Hs & Hsum).
  exists g, m. split; [done|]. split; [done|]. rewrite Hsum, emptyGrid_sum. done.
Qed.

(** In UTC terms, the grid spans the whole of the year laid out. *)
Lemma year_inGrid year weekStart t :
  firstDay year * msPerDay <= t < (lastDay year + 1) * msPerDay ->
  0 <= weekIndex year weekStart t < totalWeeks year weekStart.
Proof.
  intros Ht. unfold weekIndex, daysSinceStart, JS.floorDiv, getTime.
  rewrite startDate_eq, jan1_eq. change (1000 * 60 * 60 * 24) with msPerDay.
  pose proof (dayShift_range year weekStart) as Hs.
  pose proof (totalWeeks_bounds year weekStart) as Hw. rewrite totalDays_eq in Hw.
  set (s := dayShift year weekStart) in *.
  set (W := totalWeeks year weekStart) in *.
  set (n := (t - (firstDay year * msPerDay - s * msPerDay)) / msPerDay).
  assert (Hn : 0 <= n <= lastDay year - firstDay year + s).
  { subst n. split.
    - apply Z.div_pos; unfold msPerDay in *; lia.
    - apply Z.lt_succ_r. apply Z.div_lt_upper_bound; unfold msPerDay in *; lia. }
  split.
  - apply Z.div_pos; lia.
  - apply Z.div_lt_upper_bound; lia.
Qed.

End LayoutFacts.

(** ** The matrix of [standalone.js] *)
(** ** The Date range *)

(** What [TimeClip] lets through, and that the layout of a year in the Date
    range is the one of [Calendar]. *)
Module RangeFacts.
Import JSDate JSDateFacts Generator LayoutFacts.

Lemma TimeClip_Some t : Z.abs t <= maxTime -> TimeClip t = Some t.
Proof. intros H. unfold TimeClip. apply Z.leb_le in H. rewrite H. done. Qed.

Lemma TimeClip_None t : maxTime < Z.abs t -> TimeClip t = None.
Proof. intros H. unfold TimeClip. apply Z.leb_gt in H. rewrite H. done. Qed.

Lemma TimeClip_inv t v : TimeClip t = Some v -> v = t /\ Z.abs t <= maxTime.
Proof.
  unfold TimeClip. destruct (Z.abs t <=? maxTime) eqn:E; [|done].
  intros [= <-]. apply Z.leb_le in E. done.
Qed.

(** A time within a day whose number is less than 100 000 000 in absolute
    value is a time value. *)
Lemma TimeClip_day d t :
  -100000000 <= d < 100000000 -> 0 <= t < msPerDay ->
  TimeClip (MakeDate d t) = Some (MakeDate d t).
Proof.
  intros Hd Ht. apply TimeClip_Some. unfold MakeDate, maxTime, msPerDay in *. lia.
Qed.

Lemma jan1_mono a b :
  a <= b -> days_from_civil a 1 1 + 365 * (b - a) <= days_from_civil b 1 1.
Proof.
  intros H. rewrite !days_from_civil_jan1.
  pose proof (daysBeforeMarchYear_mono (a - 1) (b - 1)). lia.
Qed.

Lemma fullYear_valid year : validYear year -> validYear (fullYear year).
Proof.
  unfold validYear, fullYear. intros H.
  destruct ((0 <=? year) && (year <=? 99)) eqn:E; [|done].
  apply andb_true_iff in E as [E1 E2]. apply Z.leb_le in E1, E2. lia.
Qed.

Lemma fullYear_invalid year : ~ validYear year -> fullYear year = year.
Proof.
  unfold validYear, fullYear. intros H.
  destruct ((0 <=? year) && (year <=? 99)) eqn:E; [|done].
  apply andb_true_iff in E as [E1 E2]. apply Z.leb_le in E1, E2. lia.
Qed.

Lemma firstDay_eq year : firstDay year = days_from_civil (fullYear year) 1 1.
Proof. unfold firstDay. apply MakeDay_jan1. Qed.

Lemma lastDay_eq year : lastDay year = days_from_civil (fullYear year + 1) 1 1 - 1.
Proof. pose proof (lastDay_next year) as H. rewrite MakeDay_jan1 in H. lia. Qed.

(** January 1 of -271820 is day -99 999 744 and December 31 of 275759 is
    day 99 999 743. *)
Lemma valid_days year :
  validYear year -> -99999744 <= firstDay year /\ lastDay year <= 99999743.
Proof.
  intros H. apply fullYear_valid in H. rewrite firstDay_eq, lastDay_eq.
  unfold validYear in H.
  pose proof (jan1_mono (-271820) (fullYear year) ltac:(lia)) as H1.
  pose proof (jan1_mono (fullYear year + 1) 275760 ltac:(lia)) as H2.
  assert (E1 : days_from_civil (-271820) 1 1 = -99999744) by (vm_compute; reflexivity).
  assert (E2 : days_from_civil 275760 1 1 = 99999744) by (vm_compute; reflexivity).
  lia.
Qed.

Lemma invalid_days year :
  ~ validYear year -> firstDay year < -100000000 \/ 100000000 < lastDay year.
Proof.
  intros H. rewrite firstDay_eq, lastDay_eq, (fullYear_invalid _ H).
  unfold validYear in H.
  assert (E1 : days_from_civil (-271821) 1 1 = -100000109) by (vm_compute; reflexivity).
  assert (E2 : days_from_civil 275761 1 1 = 100000110) by (vm_compute; reflexivity).
  destruct (decide (year < -271820)).
  - left. pose proof (jan1_mono year (-271821) ltac:(lia)). lia.
  - right. pose proof (jan1_mono 275761 (year + 1) ltac:(lia)). lia.
Qed.

(** A day between 200 days before January 1 and 200 days after December 31
    of a year in the Date range is a date, at any time of the day. *)
Lemma TimeClip_near year d t :
  validYear year -> firstDay year - 200 <= d <= lastDay year + 200 -> 0 <= t < msPerDay ->
  TimeClip (MakeDate d t) = Some (MakeDate d t).
Proof.
  intros Hy Hd Ht. pose proof (valid_days year Hy). apply TimeClip_day; lia.
Qed.

Lemma TimeClip_near_day year d :
  validYear year -> firstDay year - 200 <= d <= lastDay year + 200 ->
  TimeClip (d * msPerDay) = Some (d * msPerDay).
Proof.
  intros Hy Hd. pose proof (TimeClip_near year d 0 Hy Hd ltac:(unfold msPerDay; lia)) as H.
  unfold MakeDate in H. rewrite Z.add_0_r in H. exact H.
Qed.

Lemma Date_UTC_jan1 year :
  validYear year -> Date_UTC year 0 1 = Some (Calendar.jan1 year).
Proof.
  intros Hy. unfold Date_UTC, Date_UTC6. fold (utcDate year 0 1). fold (Calendar.jan1 year).
  rewrite jan1_eq. pose proof (year_length year).
  apply (TimeClip_near_day year); [done|lia].
Qed.

Lemma Date_UTC_dec31 year :
  validYear year -> Date_UTC year 11 31 = Some (Calendar.endDate year).
Proof.
  intros Hy. unfold Date_UTC, Date_UTC6. fold (utcDate year 11 31).
  fold (Calendar.endDate year).
  rewrite endDate_eq. pose proof (year_length year).
  apply (TimeClip_near_day year); [done|lia].
Qed.

Lemma Date_UTC_jan1_invalid year :
  ~ validYear year -> Date_UTC year 0 1 = None \/ Date_UTC year 11 31 = None.
Proof.
  intros Hy. destruct (invalid_days year Hy) as [H|H]; [left|right].
  - unfold Date_UTC, Date_UTC6. fold (utcDate year 0 1). fold (Calendar.jan1 year).
    rewrite jan1_eq. apply TimeClip_None. unfold maxTime, msPerDay. lia.
  - unfold Date_UTC, Date_UTC6. fold (utcDate year 11 31). fold (Calendar.endDate year).
    rewrite endDate_eq. apply TimeClip_None. unfold maxTime, msPerDay. lia.
Qed.

Lemma jan1_valid year : validYear year -> jan1 year = Some (Calendar.jan1 year).
Proof. apply Date_UTC_jan1. Qed.

Lemma endDate_valid year : validYear year -> endDate year = Some (Calendar.endDate year).
Proof. apply Date_UTC_dec31. Qed.

Lemma dayShift_valid year weekStart :
  validYear year -> dayShift year weekStart = Some (Calendar.dayShift year weekStart).
Proof. intros Hy. unfold dayShift, startDay. rewrite (jan1_valid _ Hy). done. Qed.

Lemma startDate_valid year weekStart :
  validYear year -> startDate year weekStart = Some (Calendar.startDate year weekStart).
Proof.
  intros Hy. unfold startDate. rewrite (jan1_valid _ Hy), (dayShift_valid _ _ Hy).
  cbn [mbind option_bind].
  pose proof (startDate_eq year weekStart) as Hs.
  pose proof (dayShift_range year weekStart) as Hr.
  unfold Calendar.startDate in *.
  destruct (0 <? Calendar.dayShift year weekStart); [|done].
  unfold setUTCDate. rewrite Hs, jan1_eq.
  replace (firstDay year * msPerDay - Calendar.dayShift year weekStart * msPerDay)
    with ((firstDay year - Calendar.dayShift year weekStart) * msPerDay) by lia.
  pose proof (year_length year).
  apply (TimeClip_near_day year); [done|lia].
Qed.

Lemma totalDays_valid year weekStart :
  validYear year -> totalDays year weekStart = Some (Calendar.totalDays year weekStart).
Proof.
  intros Hy. unfold totalDays.
  rewrite (endDate_valid _ Hy), (startDate_valid _ _ Hy). done.
Qed.

Lemma totalWeeks_valid year weekStart :
  validYear year -> totalWeeks year weekStart = Some (Calendar.totalWeeks year weekStart).
Proof.
  intros Hy. unfold totalWeeks, totalDays.
  rewrite (endDate_valid _ Hy), (startDate_valid _ _ Hy). done.
Qed.

(** The layout of a year in the Date range. *)
Lemma layout_valid year weekStart :
  validYear year ->
  layout year weekStart =
  Some (Calendar.startDate year weekStart, Calendar.totalWeeks year weekStart).
Proof.
  intros Hy. unfold layout. rewrite (startDate_valid _ _ Hy), (totalWeeks_valid _ _ Hy). done.
Qed.

(** Outside the Date range [totalWeeks] is [NaN]. *)
Lemma layout_invalid year weekStart : ~ validYear year -> layout year weekStart = None.
Proof.
  intros Hy. unfold layout, totalWeeks, totalDays, startDate, endDate, dayShift, startDay, jan1.
  destruct (Date_UTC_jan1_invalid year Hy) as [-> | ->]; [done|].
  cbn. destruct (Date_UTC year 0 1); cbn; [|done].
  destruct (if 0 <? _ then _ else _); done.
Qed.

Lemma layout_Some year weekStart s w :
  layout year weekStart = Some (s, w) <->
  validYear year /\ s = Calendar.startDate year weekStart /\
  w = Calendar.totalWeeks year weekStart.
Proof.
  split.
  - intros H. destruct (decide (validYear year)) as [Hy|Hy].
    + rewrite (layout_valid _ _ Hy) in H. injection H as <- <-. done.
    + rewrite (layout_invalid _ _ Hy) in H. done.
  - intros (Hy & -> & ->). apply layout_valid, Hy.
Qed.

Lemma emptyGrid_valid year weekStart :
  emptyGrid (Some (Calendar.totalWeeks year weekStart)) =
  Some (Calendar.emptyGrid year weekStart).
Proof.
  pose proof (totalWeeks_pos year weekStart) as H. unfold emptyGrid.
  destruct (0 <=? _) eqn:E1; [|apply Z.leb_gt in E1; lia].
  destruct (_ <? 2 ^ 32) eqn:E2; [done|]. apply Z.ltb_ge in E2.
  assert (2 ^ 32 = 4294967296) by (vm_compute; reflexivity). lia.
Qed.

Lemma place_valid year weekStart :
  place weekStart (Calendar.startDate year weekStart) (Calendar.totalWeeks year weekStart) =
  Calendar.place year weekStart.
Proof. reflexivity. Qed.

Lemma inGrid_valid year weekStart e :
  inGrid (Calendar.startDate year weekStart) (Calendar.totalWeeks year weekStart) e <->
  Calendar.inGrid year weekStart e.
Proof. reflexivity. Qed.

Lemma buildGrid_valid year weekStart entries :
  validYear year ->
  buildGrid year weekStart entries = Calendar.buildGrid year weekStart entries.
Proof.
  intros Hy. unfold buildGrid. rewrite (layout_valid _ _ Hy), emptyGrid_valid, place_valid.
  reflexivity.
Qed.

Lemma buildGrid_invalid year weekStart entries :
  ~ validYear year -> buildGrid year weekStart entries = InvalidLength.
Proof. intros Hy. unfold buildGrid. rewrite (layout_invalid _ _ Hy). done. Qed.

(** The cells of the grid are dates. *)
Lemma cellDateOf_valid year weekStart day week :
  validYear year -> 0 <= day < 7 -> 0 <= week < Calendar.totalWeeks year weekStart ->
  cellDateOf (Calendar.startDate year weekStart) day week =
  Some (Calendar.cellDateOf year weekStart day week).
Proof.
  intros Hy Hd Hw. unfold cellDateOf, Calendar.cellDateOf, setUTCDate.
  rewrite withUTCDate_shift, startDate_eq, jan1_eq.
  pose proof (dayShift_range year weekStart) as Hs.
  pose proof (totalWeeks_bounds year weekStart) as Hb. rewrite totalDays_eq in Hb.
  set (s := Calendar.dayShift year weekStart) in *.
  set (g := getUTCDate _).
  replace (firstDay year * msPerDay - s * msPerDay + (g + week * 7 + day - g) * msPerDay)
    with ((firstDay year - s + week * 7 + day) * msPerDay) by lia.
  apply (TimeClip_near_day year); [done|lia].
Qed.

Lemma isOutsideYear_valid year c :
  validYear year -> isOutsideYear year (Some c) = Calendar.isOutsideYear year c.
Proof.
  intros Hy. unfold isOutsideYear. rewrite (Date_UTC_jan1 _ Hy), (Date_UTC_dec31 _ Hy).
  reflexivity.
Qed.

End RangeFacts.

Module StandaloneGridFacts.
Import JSDate Standalone StandaloneCalendar SortFacts LayoutFacts.

(** A step of the loop never fails: from a well-shaped grid it yields a
    well-shaped grid, whose sum has grown by one if the entry passed the
    test. *)
Lemma standalone_place_ok year weekStart weeks grid entry :
  weeks = Z.of_nat (Z.to_nat (totalWeeks year weekStart)) ->
  Generator.gridShape weeks grid ->
  exists grid', place year weekStart (Some grid) entry = Some grid' /\
                Generator.gridShape weeks grid' /\
                Generator.gridSum grid' =
                  (Generator.gridSum grid +
                   if bool_decide (inGrid year weekStart entry) then 1 else 0)%nat.
Proof.
  intros Hw Hshape. unfold place. cbn [mbind option_bind].
  destruct (_ && _) eqn:E.
  - apply andb_prop in E as [E E4]. apply andb_prop in E as [E E3].
    apply andb_prop in E as [E1 E2].
    apply Z.leb_le in E1, E3. apply Z.ltb_lt in E2, E4.
    rewrite bool_decide_eq_true_2 by (unfold inGrid; lia).
    pose proof Hshape as [Hlen Hrows].
    destruct (lookup_lt_is_Some_2 grid (Z.to_nat (dayIndex weekStart (Entry.date entry))))
      as [row Hrow]; [lia|].
    pose proof (proj1 (Forall_lookup _ _) Hrows _ _ Hrow) as Hrl. cbn beta in Hrl.
    destruct (lookup_lt_is_Some_2 row (Z.to_nat (weekIndex year weekStart (Entry.date entry))))
      as [c Hc]; [lia|].
    rewrite Hrow. cbn [mbind option_bind]. rewrite Hc. cbn [mbind option_bind].
    eexists. split; [reflexivity|]. split.
    + eapply gridShape_bump; [done|done|]. by rewrite length_insert.
    + rewrite Nat.add_1_r. eapply gridSum_bump; [done|]. by apply sum_list_bump.
  - rewrite bool_decide_eq_false_2.
    + exists grid. split; [done|]. split; [done|]. lia.
    + unfold inGrid. intros [[H1 H2] [H3 H4]].
      apply Z.leb_le in H1, H3. apply Z.ltb_lt in H2, H4.
      by rewrite H1, H2, H3, H4 in E.
Qed.

Lemma standalone_foldl_place_ok year weekStart weeks entries grid :
  weeks = Z.of_nat (Z.to_nat (totalWeeks year weekStart)) ->
  Generator.gridShape weeks grid ->
  exists grid', foldl (place year weekStart) (Some grid) entries = Some grid' /\
                Generator.gridShape weeks grid' /\
                Generator.gridSum grid' =
                  (Generator.gridSum grid +
                   length (filter (inGrid year weekStart) entries))%nat.
Proof.
  intros Hw. revert grid. induction entries as [|e entries IH]; intros grid Hshape.
  - exists grid. split; [done|]. split; [done|]. simpl. lia.
  - rewrite foldl_cons, filter_cons.
    destruct (standalone_place_ok year weekStart weeks grid e Hw Hshape) as (g1 & -> & Hs1 & Hsum1).
    destruct (IH g1 Hs1) as (g2 & -> & Hs2 & Hsum2).
    exists g2. split; [done|]. split; [done|]. rewrite Hsum2, Hsum1.
    destruct (decide (inGrid year weekStart e)).
    + rewrite bool_decide_eq_true_2 by done. simpl. lia.
    + rewrite bool_decide_eq_false_2 by done. lia.
Qed.

(** The matrix of [standalone.js] has seven rows of [totalWeeks] cells, and
    the sum of its cells is the number of entries that passed the test. *)
Lemma standalone_buildGrid_ok year weekStart entries :
  exists grid,
    buildGrid year weekStart entries = Some grid /\
    Generator.gridShape (Z.of_nat (Z.to_nat (totalWeeks year weekStart))) grid /\
    Generator.gridSum grid = length (filter (inGrid year weekStart) entries).
Proof.
  unfold buildGrid.
  destruct (standalone_foldl_place_ok year weekStart _
              (JS.sortBy (fun a b => Entry.date a <=? Entry.date b) entries)
              (emptyGrid year weekStart) eq_refl) as (grid & Hgrid & Hshape & Hsum).
  - unfold emptyGrid. split; [by rewrite length_replicate|].
    apply Forall_replicate. by rewrite length_replicate.
  - exists grid. split; [done|]. split; [done|]. rewrite Hsum.
    assert (Hempty : Generator.gridSum (emptyGrid year weekStart) = 0%nat).
    { unfold Generator.gridSum, emptyGrid.
      rewrite fmap_replicate, !sum_list_replicate. lia. }
    rewrite Hempty, (sortBy_Permutation _ entries). done.
Qed.

Lemma standalone_buildGrid_shape year weekStart entries :
  exists grid,
    buildGrid year weekStart entries = Some grid /\
    Generator.gridShape (Z.of_nat (Z.to_nat (totalWeeks year weekStart))) grid.
Proof.
  destruct (standalone_buildGrid_ok year weekStart entries) as (grid & H1 & H2 & _). by exists grid.
Qed.


End StandaloneGridFacts.

(* ===================================================================== *)
(** * Layout, grid, colours, escaping and history *)
(* ===================================================================== *)
(** ** The Date range in [standalone.js] *)

Module StandaloneRangeFacts.
Import JSDate JSDateFacts Generator Standalone LayoutFacts RangeFacts StandaloneGridFacts.

Lemma standalone_jan1_eq year : StandaloneCalendar.jan1 year = Calendar.jan1 year.
Proof. reflexivity. Qed.

Lemma standalone_dayShift_eq year weekStart :
  StandaloneCalendar.dayShift year weekStart = Calendar.dayShift year weekStart.
Proof. reflexivity. Qed.

Lemma standalone_startDate_eq year weekStart :
  StandaloneCalendar.startDate year weekStart = Calendar.startDate year weekStart.
Proof.
  unfold StandaloneCalendar.startDate, Calendar.startDate.
  rewrite standalone_dayShift_eq, standalone_jan1_eq. reflexivity.
Qed.

Lemma standalone_endDate_eq year :
  StandaloneCalendar.endDate year = MakeDate (lastDay year) 86399000.
Proof. reflexivity. Qed.

(** The last second of December 31 counts as one more day. *)
Lemma standalone_totalDays_eq year weekStart :
  StandaloneCalendar.totalDays year weekStart = Calendar.totalDays year weekStart + 1.
Proof.
  rewrite totalDays_eq. unfold StandaloneCalendar.totalDays, getTime.
  rewrite standalone_startDate_eq, startDate_eq, jan1_eq, standalone_endDate_eq.
  unfold JS.ceilDiv, MakeDate. change (1000 * 60 * 60 * 24) with msPerDay.
  unfold msPerDay. Z.div_mod_to_equations. lia.
Qed.

Lemma standalone_totalWeeks_bounds year weekStart :
  StandaloneCalendar.totalDays year weekStart
    <= StandaloneCalendar.totalWeeks year weekStart * 7
    < StandaloneCalendar.totalDays year weekStart + 7.
Proof. apply ceilDiv_bounds. lia. Qed.

Lemma standalone_totalWeeks_pos year weekStart :
  53 <= StandaloneCalendar.totalWeeks year weekStart <= 54.
Proof.
  pose proof (standalone_totalWeeks_bounds year weekStart).
  rewrite standalone_totalDays_eq, totalDays_eq in *.
  pose proof (year_length year). pose proof (dayShift_range year weekStart). lia.
Qed.

Lemma standalone_jan1_valid year :
  validYear year -> jan1 year = Some (StandaloneCalendar.jan1 year).
Proof. apply Date_UTC_jan1. Qed.

Lemma standalone_endDate_valid year :
  validYear year -> endDate year = Some (StandaloneCalendar.endDate year).
Proof.
  intros Hy. unfold endDate, Date_UTC6.
  fold (StandaloneCalendar.endDate year). rewrite standalone_endDate_eq.
  pose proof (year_length year).
  apply (TimeClip_near year); [done|lia|unfold msPerDay; lia].
Qed.

Lemma standalone_startDate_valid year weekStart :
  validYear year -> startDate year weekStart = Some (StandaloneCalendar.startDate year weekStart).
Proof.
  intros Hy. rewrite standalone_startDate_eq. apply (startDate_valid _ weekStart Hy).
Qed.

Lemma standalone_totalDays_valid year weekStart :
  validYear year ->
  totalDays year weekStart = Some (StandaloneCalendar.totalDays year weekStart).
Proof.
  intros Hy. unfold totalDays.
  rewrite (standalone_endDate_valid _ Hy), (standalone_startDate_valid _ _ Hy). done.
Qed.

Lemma standalone_totalWeeks_valid year weekStart :
  validYear year ->
  totalWeeks year weekStart = Some (StandaloneCalendar.totalWeeks year weekStart).
Proof.
  intros Hy. unfold totalWeeks, totalDays.
  rewrite (standalone_endDate_valid _ Hy), (standalone_startDate_valid _ _ Hy). done.
Qed.

Lemma standalone_layout_valid year weekStart :
  validYear year ->
  layout year weekStart =
  Some (StandaloneCalendar.startDate year weekStart,
        StandaloneCalendar.totalWeeks year weekStart).
Proof.
  intros Hy. unfold layout.
  rewrite (standalone_startDate_valid _ _ Hy), (standalone_totalWeeks_valid _ _ Hy). done.
Qed.

Lemma endDate_invalid year : 100000000 < lastDay year -> endDate year = None.
Proof.
  intros H. unfold endDate, Date_UTC6. fold (StandaloneCalendar.endDate year).
  rewrite standalone_endDate_eq. apply TimeClip_None.
  unfold MakeDate, maxTime, msPerDay. lia.
Qed.

Lemma standalone_layout_invalid year weekStart :
  ~ validYear year -> layout year weekStart = None.
Proof.
  intros Hy. unfold layout, totalWeeks, totalDays, startDate, dayShift, startDay.
  destruct (invalid_days year Hy) as [H|H].
  - assert (E : jan1 year = None).
    { unfold jan1, Date_UTC6. fold (utcDate year 0 1). fold (Calendar.jan1 year).
      rewrite jan1_eq. apply TimeClip_None. unfold maxTime, msPerDay. lia. }
    rewrite E. done.
  - rewrite (endDate_invalid _ H). cbn.
    destruct (jan1 year); cbn; [|done].
    destruct (if 0 <? _ then _ else _); done.
Qed.

Lemma standalone_layout_Some year weekStart s w :
  layout year weekStart = Some (s, w) <->
  validYear year /\ s = StandaloneCalendar.startDate year weekStart /\
  w = StandaloneCalendar.totalWeeks year weekStart.
Proof.
  split.
  - intros H. destruct (decide (validYear year)) as [Hy|Hy].
    + rewrite (standalone_layout_valid _ _ Hy) in H. injection H as <- <-. done.
    + rewrite (standalone_layout_invalid _ _ Hy) in H. done.
  - intros (Hy & -> & ->). apply standalone_layout_valid, Hy.
Qed.

Lemma standalone_emptyGrid_valid year weekStart :
  emptyGrid (Some (StandaloneCalendar.totalWeeks year weekStart)) =
  Some (StandaloneCalendar.emptyGrid year weekStart).
Proof.
  pose proof (standalone_totalWeeks_pos year weekStart) as H. unfold emptyGrid.
  destruct (0 <=? _) eqn:E1; [|apply Z.leb_gt in E1; lia].
  destruct (_ <? 2 ^ 32) eqn:E2; [done|]. apply Z.ltb_ge in E2.
  assert (2 ^ 32 = 4294967296) by (vm_compute; reflexivity). lia.
Qed.

(** The midnight that [entryDate] is made of. *)
Lemma entryDate_midnight t :
  exists d, StandaloneCalendar.entryDate t = d * msPerDay.
Proof.
  exists (MakeDay (fullYear (getUTCFullYear t)) (getUTCMonth t) (getUTCDate t)).
  unfold StandaloneCalendar.entryDate, utcDate, utcTime, MakeDate, MakeTime. lia.
Qed.

Lemma entryDate_clip t : entryDate t = TimeClip (StandaloneCalendar.entryDate t).
Proof.
  unfold entryDate, StandaloneCalendar.entryDate, Date_UTC, Date_UTC6, utcDate.
  reflexivity.
Qed.

(** The test of the loop, as a function of the entry's midnight. *)
Lemma inRange_clip weekStart startDate totalWeeks t :
  inRange weekStart startDate totalWeeks t =
  match TimeClip (StandaloneCalendar.entryDate t) with
  | Some v =>
      (0 <=? JS.floorDiv (JS.floorDiv (v - startDate) (1000 * 60 * 60 * 24)) 7) &&
      (JS.floorDiv (JS.floorDiv (v - startDate) (1000 * 60 * 60 * 24)) 7 <? totalWeeks) &&
      (0 <=? (if String.eqb weekStart "monday"
              then Z.rem (getUTCDay v + 6) 7 else getUTCDay v)) &&
      ((if String.eqb weekStart "monday"
        then Z.rem (getUTCDay v + 6) 7 else getUTCDay v) <? 7)
  | None => false
  end.
Proof.
  unfold inRange, weekIndex, dayIndex, daysSinceStart. rewrite entryDate_clip.
  destruct (TimeClip _); reflexivity.
Qed.

Lemma standalone_weekIndex_eq year weekStart t :
  StandaloneCalendar.weekIndex year weekStart t =
  JS.floorDiv (JS.floorDiv (StandaloneCalendar.entryDate t
                            - StandaloneCalendar.startDate year weekStart)
                           (1000 * 60 * 60 * 24)) 7.
Proof. reflexivity. Qed.

Lemma standalone_dayIndex_eq weekStart t :
  StandaloneCalendar.dayIndex weekStart t =
  if String.eqb weekStart "monday"
  then Z.rem (getUTCDay (StandaloneCalendar.entryDate t) + 6) 7
  else getUTCDay (StandaloneCalendar.entryDate t).
Proof. reflexivity. Qed.

Lemma weekIndex_clip startDate t :
  weekIndex startDate t =
  (fun v => JS.floorDiv (JS.floorDiv (v - startDate) (1000 * 60 * 60 * 24)) 7)
    <$> TimeClip (StandaloneCalendar.entryDate t).
Proof.
  unfold weekIndex, daysSinceStart. rewrite entryDate_clip.
  destruct (TimeClip _); reflexivity.
Qed.

Lemma dayIndex_clip weekStart t :
  dayIndex weekStart t =
  (fun v => if String.eqb weekStart "monday"
            then Z.rem (getUTCDay v + 6) 7 else getUTCDay v)
    <$> TimeClip (StandaloneCalendar.entryDate t).
Proof. unfold dayIndex. rewrite entryDate_clip. reflexivity. Qed.

(** An entry whose day is no date fails the test of the loop in either
    reading: its column is far outside the grid. *)
Lemma standalone_inRange_valid year weekStart t :
  validYear year ->
  inRange weekStart (StandaloneCalendar.startDate year weekStart)
          (StandaloneCalendar.totalWeeks year weekStart) t =
  (0 <=? StandaloneCalendar.weekIndex year weekStart t) &&
  (StandaloneCalendar.weekIndex year weekStart t
     <? StandaloneCalendar.totalWeeks year weekStart) &&
  (0 <=? StandaloneCalendar.dayIndex weekStart t) &&
  (StandaloneCalendar.dayIndex weekStart t <? 7).
Proof.
  intros Hy. rewrite inRange_clip, standalone_weekIndex_eq, standalone_dayIndex_eq.
  destruct (entryDate_midnight t) as [d Hd].
  generalize dependent (StandaloneCalendar.entryDate t). intros v ->.
  destruct (TimeClip (d * msPerDay)) as [v|] eqn:E.
  { apply TimeClip_inv in E as [-> _]. reflexivity. }
  unfold TimeClip in E. destruct (Z.abs _ <=? maxTime) eqn:E'; [done|]. clear E.
  apply Z.leb_gt in E'.
  symmetry. apply andb_false_intro1, andb_false_intro1.
  unfold JS.floorDiv. change (1000 * 60 * 60 * 24) with msPerDay.
  rewrite standalone_startDate_eq, startDate_eq, jan1_eq.
  pose proof (dayShift_range year weekStart) as Hs.
  pose proof (standalone_totalWeeks_bounds year weekStart) as Hb.
  rewrite standalone_totalDays_eq, totalDays_eq in Hb.
  pose proof (valid_days year Hy) as Hv. pose proof (year_length year) as Hl.
  set (s := Calendar.dayShift year weekStart) in *.
  set (W := StandaloneCalendar.totalWeeks year weekStart) in *.
  replace (d * msPerDay - (firstDay year * msPerDay - s * msPerDay))
    with ((d - firstDay year + s) * msPerDay) by lia.
  rewrite Z.div_mul by (unfold msPerDay; lia).
  apply andb_false_iff.
  destruct (decide (0 <= d)).
  - right. apply Z.ltb_ge. unfold maxTime, msPerDay in E'.
    assert (100000000 < d) by lia.
    apply Z.div_le_lower_bound; lia.
  - left. apply Z.leb_gt. unfold maxTime, msPerDay in E'.
    assert (d < -100000000) by lia.
    apply Z.div_lt_upper_bound; lia.
Qed.

Lemma standalone_place_valid year weekStart g e :
  validYear year ->
  place weekStart (StandaloneCalendar.startDate year weekStart)
        (StandaloneCalendar.totalWeeks year weekStart) g e =
  StandaloneCalendar.place year weekStart g e.
Proof.
  intros Hy. unfold place, StandaloneCalendar.place. destruct g as [grid|]; [|done].
  cbn [mbind option_bind]. rewrite (standalone_inRange_valid _ _ _ Hy).
  destruct (_ && _) eqn:E; [|done].
  rewrite <- (standalone_inRange_valid _ _ _ Hy), inRange_clip in E.
  rewrite weekIndex_clip, dayIndex_clip, standalone_weekIndex_eq, standalone_dayIndex_eq.
  destruct (TimeClip (StandaloneCalendar.entryDate (Entry.date e))) as [v|] eqn:Ev; [|done].
  apply TimeClip_inv in Ev as [-> _]. reflexivity.
Qed.

Lemma standalone_foldl_place_valid year weekStart entries g :
  validYear year ->
  foldl (place weekStart (StandaloneCalendar.startDate year weekStart)
               (StandaloneCalendar.totalWeeks year weekStart)) g entries =
  foldl (StandaloneCalendar.place year weekStart) g entries.
Proof.
  intros Hy. revert g. induction entries as [|e entries IH]; intros g; [done|].
  rewrite !foldl_cons, (standalone_place_valid _ _ _ _ Hy). apply IH.
Qed.


(** For a year in the Date range the loop of [standalone.js] builds its
    grid, and no step of it fails. *)
Lemma standalone_buildGrid_valid year weekStart entries :
  validYear year ->
  exists grid,
    buildGrid year weekStart entries = Built grid /\
    StandaloneCalendar.buildGrid year weekStart entries = Some grid.
Proof.
  intros Hy. unfold buildGrid.
  rewrite (standalone_layout_valid _ _ Hy), standalone_emptyGrid_valid,
    (standalone_foldl_place_valid _ _ _ _ Hy).
  destruct (standalone_buildGrid_ok year weekStart entries) as (grid & Hg & _).
  unfold StandaloneCalendar.buildGrid in *. rewrite Hg. by exists grid.
Qed.

Lemma standalone_buildGrid_invalid year weekStart entries :
  ~ validYear year -> buildGrid year weekStart entries = InvalidLength.
Proof. intros Hy. unfold buildGrid. rewrite (standalone_layout_invalid _ _ Hy). done. Qed.

(** The cells of the grid are dates. *)
Lemma standalone_cellDateOf_valid year weekStart day week :
  validYear year -> 0 <= day < 7 ->
  0 <= week < StandaloneCalendar.totalWeeks year weekStart ->
  cellDateOf (StandaloneCalendar.startDate year weekStart) day week =
  Some (StandaloneCalendar.cellDateOf year weekStart day week).
Proof.
  intros Hy Hd Hw. unfold cellDateOf, StandaloneCalendar.cellDateOf, setUTCDate.
  rewrite withUTCDate_shift, standalone_startDate_eq, startDate_eq, jan1_eq.
  pose proof (dayShift_range year weekStart) as Hs.
  pose proof (standalone_totalWeeks_bounds year weekStart) as Hb.
  rewrite standalone_totalDays_eq, totalDays_eq in Hb.
  set (s := Calendar.dayShift year weekStart) in *.
  set (g := getUTCDate _).
  replace (firstDay year * msPerDay - s * msPerDay + (g + week * 7 + day - g) * msPerDay)
    with ((firstDay year - s + week * 7 + day) * msPerDay) by lia.
  apply (TimeClip_near_day year); [done|lia].
Qed.

Lemma standalone_isOutsideYear_valid year c :
  validYear year -> isOutsideYear year (Some c) = StandaloneCalendar.isOutsideYear year c.
Proof.
  intros Hy. unfold isOutsideYear. rewrite (Date_UTC_jan1 _ Hy), (Date_UTC_dec31 _ Hy).
  reflexivity.
Qed.

End StandaloneRangeFacts.

Section LayoutClaims.
Import JSDate JSDateFacts LayoutFacts Generator.

Lemma jan1_fields y :
  civil_from_days (days_from_civil y 1 1) = Civil y 1 1.
Proof.
  pose proof (c_year_march (days_from_civil y 1 1)) as Hy.
  assert (Hyear : c_year (civil_from_days (days_from_civil y 1 1)) = y).
  { apply c_year_iff. rewrite !days_from_civil_jan1.
    pose proof (daysBeforeMarchYear_succ (y - 1)) as Hs.
    replace (y - 1 + 1) with (y + 1 - 1) in Hs by lia. lia. }
  rewrite Hyear in Hy.
  pose proof (march_decomp (days_from_civil y 1 1)) as [Hz Hd].
  rewrite days_from_civil_jan1 in Hz at 1.
  assert (Hdoy : marchDoy (days_from_civil y 1 1) = 306).
  { destruct (306 <=? marchDoy _) eqn:E; [apply Z.leb_le in E | apply Z.leb_gt in E].
    - replace (marchYear (days_from_civil y 1 1)) with (y - 1) in Hz by lia. lia.
    - replace (marchYear (days_from_civil y 1 1)) with (y - 1 + 1) in Hz by lia.
      pose proof (daysBeforeMarchYear_succ (y - 1)). lia. }
  rewrite civil_from_days_march. cbn zeta. rewrite Hdoy.
  change (mp_of 306) with 10. change (dom_of 306) with 1. simpl.
  f_equal. rewrite Hdoy in Hy. simpl in Hy. lia.
Qed.

(** The fields of the date that [Date.UTC(year, 0, 1)] denotes. *)
Lemma calendar_jan1_fields year :
  YearFromTime (Calendar.jan1 year) = fullYear year /\
  MonthFromTime (Calendar.jan1 year) = 0 /\
  DateFromTime (Calendar.jan1 year) = 1 /\
  TimeWithinDay (Calendar.jan1 year) = 0.
Proof.
  rewrite jan1_eq.
  unfold YearFromTime, MonthFromTime, DateFromTime, TimeWithinDay.
  rewrite Day_mul. unfold firstDay. rewrite MakeDay_jan1, jan1_fields. simpl.
  repeat split; try reflexivity. apply Z.mod_mul. discriminate.
Qed.

Lemma calendar_startDate_weekday year weekStart :
  getUTCDay (Calendar.startDate year weekStart) =
  if String.eqb weekStart "monday" then 1 else 0.
Proof.
  rewrite startDate_eq, dayShift_eq, jan1_eq.
  unfold getUTCDay, WeekDay.
  rewrite <- Z.mul_sub_distr_r, Day_mul.
  unfold Calendar.startDay, getUTCDay, WeekDay. rewrite jan1_eq, Day_mul.
  destruct (String.eqb weekStart "monday"); Z.div_mod_to_equations; lia.
Qed.

Lemma standalone_startDate_same year weekStart :
  Standalone.startDate year weekStart = startDate year weekStart.
Proof.
  unfold Standalone.startDate, startDate, Standalone.dayShift, dayShift,
    Standalone.startDay, startDay, Standalone.jan1, jan1, Date_UTC.
  reflexivity.
Qed.

(** C2 (as amended).  For a year in the Date range (-271820 .. 275759), the grid starts
    on the day that [Date.UTC(year, 0, 1)] denotes, moved back by
    [(startDow + 6) % 7] days for a Monday week start and by [startDow] days
    otherwise, where [startDow] is the day of the week of that day
    (0 = Sunday); the start is a Monday or a Sunday accordingly.  The day
    that [Date.UTC(year, 0, 1)] denotes has the calendar fields (January, 1)
    at midnight UTC; its year is the given one unless that is one of
    0 .. 99, which [Date.UTC] reads as 1900 + year.  For 2024 the grid
    starts on 2024-01-01 with a Monday week start and on 2023-12-31 with a
    Sunday one.  The standalone variant computes the same date. *)
Theorem startDate_spec (year : Z) (weekStart : string) :
  validYear year ->
  exists january1 start,
    Date_UTC year 0 1 = Some january1 /\
    startDate year weekStart = Some start /\
    (let startDow := getUTCDay january1 in
     start = january1 - (if String.eqb weekStart "monday"
                         then (startDow + 6) mod 7 else startDow) * msPerDay) /\
    getUTCDay start = (if String.eqb weekStart "monday" then 1 else 0) /\
    (MonthFromTime january1 = 0 /\ DateFromTime january1 = 1 /\
     TimeWithinDay january1 = 0) /\
    (year < 0 \/ 99 < year -> YearFromTime january1 = year) /\
    (0 <= year <= 99 -> YearFromTime january1 = 1900 + year) /\
    Standalone.startDate year weekStart = Some start /\
    (startDate 2024 "monday" = Date_UTC 2024 0 1 /\
     Standalone.isoDate <$> startDate 2024 "monday" = Some "2024-01-01") /\
    (startDate 2024 "sunday" = Date_UTC 2023 11 31 /\
     Standalone.isoDate <$> startDate 2024 "sunday" = Some "2023-12-31").
Proof.
  intros Hy. exists (Calendar.jan1 year), (Calendar.startDate year weekStart).
  destruct (calendar_jan1_fields year) as (Hyear & Hmonth & Hdate & Htime).
  split; [apply (RangeFacts.Date_UTC_jan1 _ Hy)|].
  split; [apply (RangeFacts.startDate_valid _ _ Hy)|].
  split; [|split; [|split; [|split; [|split; [|split; [|split]]]]]].
  - cbn zeta. rewrite startDate_eq, dayShift_eq. reflexivity.
  - apply calendar_startDate_weekday.
  - done.
  - intros Hyear'. rewrite Hyear. unfold fullYear.
    destruct (0 <=? year) eqn:E1; [|done]. destruct (year <=? 99) eqn:E2; [|done].
    apply Z.leb_le in E1, E2. lia.
  - intros Hyear'. rewrite Hyear. unfold fullYear.
    destruct (0 <=? year) eqn:E1; [|apply Z.leb_gt in E1; lia].
    destruct (year <=? 99) eqn:E2; [|apply Z.leb_gt in E2; lia]. done.
  - rewrite standalone_startDate_same. apply (RangeFacts.startDate_valid _ _ Hy).
  - split; vm_compute; reflexivity.
  - split; vm_compute; reflexivity.
Qed.

Lemma startDate_spec_witness :
  validYear 2024 /\
  exists january1 start,
    Date_UTC 2024 0 1 = Some january1 /\ startDate 2024 "monday" = Some start /\
    getUTCDay start = 1 /\ YearFromTime january1 = 2024.
Proof.
  assert (Hy : validYear 2024) by (unfold validYear; lia).
  split; [exact Hy|].
  destruct (startDate_spec 2024 "monday" Hy)
    as (january1 & start & H1 & H2 & _ & Hday & _ & Hyear & _).
  exists january1, start. repeat split; [exact H1 | exact H2 | exact Hday |].
  apply Hyear. right. lia.
Defined.

(** With year 50 the grid starts on 1950-01-01, a Sunday, and not in the
    year 50; with year 300000, whose January 1 is no date, there is no
    start date and [Array(totalWeeks)] throws. *)
Lemma startDate_spec_counterexample :
  (Standalone.isoDate <$> startDate 50 "sunday" = Some "1950-01-01" /\
   Standalone.isoDate <$> Standalone.startDate 50 "sunday" = Some "1950-01-01") /\
  (startDate 300000 "sunday" = None /\ layout 300000 "sunday" = None /\
   Standalone.startDate 300000 "sunday" = None /\
   Standalone.layout 300000 "sunday" = None).
Proof. split; [split|repeat split]; vm_compute; reflexivity. Qed.

(** C10.  The row index of the accumulation loops is always one of 0..6,
    whatever the week start; so a write whose week index passed the range
    test finds its row and its cell, and the accumulation loops of
    [generateSvg] and of [generateMultiYearSvg] never fail.  For a year in
    the Date range the grid is built, with seven rows of [totalWeeks]
    cells; for any other year [totalWeeks] is [NaN] and [Array(totalWeeks)]
    throws before the loop is entered. *)
Theorem grid_write_in_bounds (LocalTZA : Z -> Z) (entries : list Entry.t)
  (year : Z) (years : list Z) (weekStart : string) :
  (forall t, 0 <= dayIndex weekStart t < 7) /\
  (forall startDate totalWeeks grid maxCount t,
      gridShape totalWeeks grid ->
      0 <= weekIndex startDate t < totalWeeks ->
      exists grid' maxCount',
        increment grid maxCount (dayIndex weekStart t) (weekIndex startDate t)
          = Grid grid' maxCount' /\
        gridShape totalWeeks grid') /\
  (generateSvg_grid LocalTZA entries year weekStart <> NoRow /\
   generateSvg_grid LocalTZA entries year weekStart <> NoCell) /\
  (validYear year ->
   exists startDate totalWeeks grid maxCount,
     layout year weekStart = Some (startDate, totalWeeks) /\
     generateSvg_grid LocalTZA entries year weekStart = Grid grid maxCount /\
     gridShape totalWeeks grid) /\
  (~ validYear year ->
   generateSvg_grid LocalTZA entries year weekStart = InvalidLength) /\
  Forall (fun a => a <> NoRow /\ a <> NoCell)
         (generateMultiYearSvg_grids LocalTZA entries years weekStart) /\
  (Forall validYear years ->
   Forall (fun a => exists grid maxCount, a = Grid grid maxCount)
          (generateMultiYearSvg_grids LocalTZA entries years weekStart)).
Proof.
  assert (Hbuild : forall y es,
             (validYear y ->
              exists grid maxCount,
                buildGrid y weekStart es = Grid grid maxCount /\
                gridShape (Calendar.totalWeeks y weekStart) grid) /\
             (~ validYear y -> buildGrid y weekStart es = InvalidLength)).
  { intros y es. split; intros Hy.
    - rewrite (RangeFacts.buildGrid_valid _ _ _ Hy).
      destruct (buildGrid_ok y weekStart es) as (g & m & H & Hs & _). eauto.
    - apply (RangeFacts.buildGrid_invalid _ _ _ Hy). }
  assert (Hsafe : forall y es,
             buildGrid y weekStart es <> NoRow /\ buildGrid y weekStart es <> NoCell).
  { intros y es. destruct (Hbuild y es) as [H1 H2].
    destruct (decide (validYear y)) as [Hy|Hy].
    - destruct (H1 Hy) as (g & m & -> & _). done.
    - rewrite (H2 Hy). done. }
  split; [|split; [|split; [|split; [|split; [|split]]]]].
  - apply dayIndex_range.
  - intros startDate totalWeeks grid maxCount t Hshape Hw.
    destruct (increment_ok _ grid maxCount _ _ Hshape (dayIndex_range weekStart t) Hw)
      as (g & m & H & Hs & _).
    eauto.
  - apply Hsafe.
  - intros Hy. unfold generateSvg_grid.
    destruct (proj1 (Hbuild year (sortedEntries LocalTZA year entries)) Hy)
      as (g & m & H & Hs).
    exists (Calendar.startDate year weekStart), (Calendar.totalWeeks year weekStart), g, m.
    split; [apply (RangeFacts.layout_valid _ _ Hy)|]. done.
  - intros Hy. apply (proj2 (Hbuild year (sortedEntries LocalTZA year entries)) Hy).
  - unfold generateMultiYearSvg_grids. apply Forall_fmap, Forall_forall.
    intros y _. apply Hsafe.
  - intros Hys. unfold generateMultiYearSvg_grids. apply Forall_fmap, Forall_forall.
    intros y Hin. cbn beta.
    assert (Hy : validYear y).
    { apply (proj1 (Forall_forall _ _) Hys).
      rewrite <- (SortFacts.sortBy_Permutation (fun a b => b <=? a) years). exact Hin. }
    destruct (proj1 (Hbuild y (yearEntries LocalTZA y entries)) Hy) as (g & m & H & _).
    eauto.
Qed.

Lemma grid_write_in_bounds_witness :
  exists startDate totalWeeks grid,
    layout 2024 "monday" = Some (startDate, totalWeeks) /\
    emptyGrid (Some totalWeeks) = Some grid /\
    exists grid' maxCount',
      increment grid 0 (dayIndex "monday" (utcDate 2024 5 15))
                (weekIndex startDate (utcDate 2024 5 15))
        = Grid grid' maxCount' /\
      gridShape totalWeeks grid'.
Proof.
  exists (Calendar.startDate 2024 "monday"), (Calendar.totalWeeks 2024 "monday"),
         (Calendar.emptyGrid 2024 "monday").
  split; [vm_compute; reflexivity|]. split; [vm_compute; reflexivity|].
  apply (proj1 (proj2 (grid_write_in_bounds tzUTC [] 2024 [] "monday"))).
  - split; [reflexivity|]. vm_compute. repeat constructor.
  - vm_compute. split; [discriminate | reflexivity].
Defined.

End LayoutClaims.
Section GridSum.
Import JSDate JSDateFacts SortFacts LayoutFacts Generator.

Lemma filter_length_Permutation {A} (P : A -> Prop) `{!forall x, Decision (P x)} (l k : list A) :
  l ≡ₚ k -> length (filter P l) = length (filter P k).
Proof. intros Hp. by rewrite Hp. Qed.






(** In [src/generator.js] the entries are chosen by their local year and
    placed by their UTC time.  One hour east of UTC, of two entries watched
    half an hour before midnight UTC on the last day of 2022 and of 2023,
    the first belongs to 2023 on the local calendar and the second on the
    UTC calendar, and the grid of 2023 (which starts on Sunday, January 1)
    counts neither. *)
Lemma generateSvg_grid_local_year_example :
  let tz := tzFixed 1 in
  let entries := [watchedAt (utcDate 2023 0 1 - 1800000);
                  watchedAt (utcDate 2024 0 1 - 1800000)] in
  exists grid maxCount,
    generateSvg_grid tz entries 2023 "sunday" = Grid grid maxCount /\
    gridSum grid = 0%nat /\
    length (filter (inTargetYear tz 2023) entries) = 1%nat /\
    length (filter (inTargetYearUTC 2023) entries) = 1%nat.
Proof.
  cbn zeta. eexists _, _. split; [vm_compute; reflexivity|].
  repeat split; vm_compute; congruence.
Qed.

End GridSum.
Section ColorClaims.
Import Generator Standalone.

Lemma Qceiling_ratio4 (c m : Z) :
  0 < m -> Qceiling (inject_Z c / inject_Z m * 4) = JS.ceilDiv (4 * c) m.
Proof.
  intros Hm. destruct m as [|p|p]; try lia.
  unfold JS.ceilDiv, Qceiling, Qfloor, Qdiv, Qmult, Qinv, Qopp, inject_Z. simpl.
  rewrite Pos.mul_1_r. f_equal. f_equal; lia.
Qed.

(** C4.  Both colour schemes give a level in 0..4, and level 0 for a count
    of 0.  The percentile scheme gives 1, 2, 3 or 4 as a positive count is at
    most [p25], at most [p50], at most [p75], or above all three.  The
    linear scheme gives 0 when [maxCount] is 0 and otherwise the least
    integer that is at least [4 * count / maxCount], capped at 4. *)
Theorem colorBucket_spec (count maxCount : nat) (stats : dayCountStats) :
  ((calculateColorIntensity count stats <= 4)%nat /\
   calculateColorIntensity 0 stats = 0%nat /\
   ((0 < count <= p25 stats)%nat -> calculateColorIntensity count stats = 1%nat) /\
   ((0 < count)%nat -> (p25 stats < count <= p50 stats)%nat ->
      calculateColorIntensity count stats = 2%nat) /\
   ((0 < count)%nat -> (p25 stats < count)%nat -> (p50 stats < count <= p75 stats)%nat ->
      calculateColorIntensity count stats = 3%nat) /\
   ((0 < count)%nat -> (p25 stats < count)%nat -> (p50 stats < count)%nat ->
    (p75 stats < count)%nat -> calculateColorIntensity count stats = 4%nat)) /\
  (0 <= colorLevel maxCount count <= 4 /\
   colorLevel maxCount 0 = 0 /\
   colorLevel 0 count = 0 /\
   ((0 < count)%nat -> (0 < maxCount)%nat ->
      colorLevel maxCount count
        = Z.min (JS.ceilDiv (4 * Z.of_nat count) (Z.of_nat maxCount)) 4 /\
      1 <= colorLevel maxCount count)).
Proof.
  split.
  - unfold calculateColorIntensity.
    repeat split; intros;
      repeat match goal with
      | |- context [(?a =? ?b)%nat] => destruct (Nat.eqb_spec a b)
      | |- context [(?a <=? ?b)%nat] => destruct (Nat.leb_spec a b)
      end; lia.
  - assert (Hpos : (0 < count)%nat -> (0 < maxCount)%nat ->
        colorLevel maxCount count
          = Z.min (JS.ceilDiv (4 * Z.of_nat count) (Z.of_nat maxCount)) 4 /\
        1 <= colorLevel maxCount count).
    { intros Hc Hm. unfold colorLevel.
      destruct (Nat.eqb_spec count 0); [lia|]. destruct (Nat.eqb_spec maxCount 0); [lia|].
      rewrite Qceiling_ratio4 by lia. split; [done|].
      pose proof (LayoutFacts.ceilDiv_bounds (4 * Z.of_nat count) (Z.of_nat maxCount) ltac:(lia)).
      assert (1 <= JS.ceilDiv (4 * Z.of_nat count) (Z.of_nat maxCount)) by nia. lia. }
    assert (Hrange : 0 <= colorLevel maxCount count <= 4).
    { destruct (Nat.eq_dec count 0%nat) as [->|]; [by vm_compute|].
      destruct (Nat.eq_dec maxCount 0%nat) as [->|]; [destruct count; by vm_compute|].
      destruct (Hpos ltac:(lia) ltac:(lia)) as [H1 H2]. lia. }
    split; [exact Hrange|]. split; [reflexivity|]. split; [destruct count; reflexivity|].
    exact Hpos.
Qed.

Lemma colorBucket_spec_witness :
  calculateColorIntensity 3 (DayCountStats 1 2 4 6) = 3%nat /\
  colorLevel 5 2 = 2.
Proof.
  split.
  - apply (proj1 (colorBucket_spec 3 5 (DayCountStats 1 2 4 6))); simpl; lia.
  - rewrite (proj1 (proj2 (proj2 (proj2 (proj2 (colorBucket_spec 2 5 (DayCountStats 1 2 4 6))))) ltac:(lia) ltac:(lia))).
    reflexivity.
Defined.

End ColorClaims.

Section EscapeClaims.
Import Template.

Lemma hasChar_app c s1 s2 : hasChar c (s1 +:+ s2) = hasChar c s1 || hasChar c s2.
Proof. induction s1 as [|c' s1 IH]; simpl; [done|]. by rewrite IH, orb_assoc. Qed.

(** Where a character of a concatenation comes from. *)
Lemma app_split_char (a b pre suf : string) (x : ascii) :
  a +:+ b = pre +:+ String x suf ->
  (exists a2, a = pre +:+ String x a2 /\ suf = a2 +:+ b) \/
  (exists pre2, pre = a +:+ pre2 /\ b = pre2 +:+ String x suf).
Proof.
  revert pre. induction a as [|c a IH]; intros pre H; simpl in *.
  - right. by exists pre.
  - destruct pre as [|p pre]; simpl in *.
    + injection H as -> <-. left. by exists a.
    + injection H as -> H. destruct (IH _ H) as [(a2 & -> & ->) | (pre2 & -> & ->)].
      * left. by exists a2.
      * right. by exists pre2.
Qed.

Lemma prefix_app (n rest : string) : String.prefix n (n +:+ rest) = true.
Proof.
  induction n as [|x n IH]; simpl.
  - by destruct rest.
  - destruct (ascii_dec x x); [exact IH|done].
Qed.

Section Generic.
(** An escaping function given by the name each reserved character gets
    after the ampersand. *)
Variable esc : ascii -> string.
Variable names : list string.
Hypothesis esc_cases : forall c,
  (isReserved c = true /\ exists n, n ∈ names /\ esc c = String "&" n) \/
  (isReserved c = false /\ esc c = String c EmptyString).
Hypothesis names_clean : forall n c, n ∈ names -> isReserved c = true -> hasChar c n = false.

Lemma replaceEach_clean s c :
  isReserved c = true -> c <> "&"%char -> hasChar c (replaceEach esc s) = false.
Proof.
  intros Hr Hamp. induction s as [|c' s IH]; simpl; [done|].
  rewrite hasChar_app, IH, orb_false_r.
  destruct (esc_cases c') as [[_ (n & Hn & ->)] | [Hc' ->]]; simpl.
  - rewrite (names_clean n c Hn Hr), orb_false_r. by apply Ascii.eqb_neq.
  - rewrite orb_false_r. apply Ascii.eqb_neq. intros ->. congruence.
Qed.

Lemma replaceEach_amp s pre suf :
  replaceEach esc s = pre +:+ String "&" suf ->
  exists n, n ∈ names /\ String.prefix n suf = true.
Proof.
  revert pre. induction s as [|c s IH]; intros pre H; simpl in H.
  - destruct pre; discriminate.
  - apply app_split_char in H as [(a2 & Ha & ->) | (pre2 & -> & Hrest)]; [|by eapply IH].
    destruct (esc_cases c) as [[_ (n & Hn & Hc)] | [Hc' Hc]]; rewrite Hc in Ha.
    + destruct pre as [|p pre]; simpl in Ha.
      * injection Ha as ->. exists a2. split; [done|]. apply prefix_app.
      * injection Ha as <- Ha.
        assert (Hhas : hasChar "&" n = true).
        { rewrite Ha, hasChar_app. cbn [hasChar]. rewrite Ascii.eqb_refl. apply orb_true_r. }
        rewrite (names_clean n "&"%char Hn eq_refl) in Hhas. discriminate.
    + destruct pre as [|p pre]; simpl in Ha.
      * injection Ha as -> _. discriminate.
      * injection Ha as _ Ha. destruct pre; discriminate.
Qed.

(** A string without reserved characters is left as it is. *)
Lemma replaceEach_unreserved s :
  (forall c, isReserved c = true -> hasChar c s = false) -> replaceEach esc s = s.
Proof.
  induction s as [|c s IH]; intros H; simpl; [done|].
  destruct (esc_cases c) as [[Hc _] | [_ ->]].
  - specialize (H c Hc). simpl in H. rewrite Ascii.eqb_refl in H. discriminate.
  - simpl. f_equal. apply IH. intros c' Hc'. specialize (H c' Hc'). simpl in H.
    apply orb_false_iff in H as [_ H]. exact H.
Qed.

End Generic.
End EscapeClaims.

Section EscapeXml.
Import Template.

Lemma generator_escapeChar_cases c :
  (isReserved c = true /\
   exists n, n ∈ ["lt;"; "gt;"; "amp;"; "apos;"; "quot;"] /\
             Generator.escapeChar c = String "&" n) \/
  (isReserved c = false /\ Generator.escapeChar c = String c EmptyString).
Proof.
  destruct c as [[] [] [] [] [] [] [] []];
    first [ right; split; reflexivity
          | left; split; [reflexivity|]; eexists; split; [|reflexivity];
            apply list_elem_of_In; simpl; tauto ].
Qed.

Lemma standalone_escapeChar_cases c :
  (isReserved c = true /\
   exists n, n ∈ ["lt;"; "gt;"; "amp;"; "#39;"; "quot;"] /\
             Standalone.escapeChar c = String "&" n) \/
  (isReserved c = false /\ Standalone.escapeChar c = String c EmptyString).
Proof.
  destruct c as [[] [] [] [] [] [] [] []];
    first [ right; split; reflexivity
          | left; split; [reflexivity|]; eexists; split; [|reflexivity];
            apply list_elem_of_In; simpl; tauto ].
Qed.

Lemma isReserved_cases c :
  isReserved c = true ->
  c = "<"%char \/ c = ">"%char \/ c = "&"%char \/ c = "'"%char \/ c = "034"%char.
Proof. destruct c as [[] [] [] [] [] [] [] []]; simpl; intros; try discriminate; tauto. Qed.

Lemma names_clean (names : list string) n c :
  names = ["lt;"; "gt;"; "amp;"; "apos;"; "quot;"] \/
  names = ["lt;"; "gt;"; "amp;"; "#39;"; "quot;"] ->
  n ∈ names -> isReserved c = true -> hasChar c n = false.
Proof.
  intros Hnames Hn Hc. apply isReserved_cases in Hc.
  destruct Hnames as [-> | ->]; apply list_elem_of_In in Hn; simpl in Hn;
    decompose [or] Hn; decompose [or] Hc; subst; try reflexivity; contradiction.
Qed.

(** C5.  [escapeXml] goes through its argument character by character: the
    result for the empty string is empty, and the result for a string is
    the image of its first character followed by the result for the rest.
    The image of each of the five reserved characters is its entity, and of
    any other character the character itself.  So the result holds no [<],
    [>], ['] or double quote, every [&] in it starts one of the entities,
    and a string without reserved characters is returned as it is.  The
    same holds of the standalone variant, whose entity for the apostrophe is
    [&#39;]. *)
Theorem escapeXml_spec (s : string) :
  let reserved c := isReserved c = true in
  (Generator.escapeXml (Some EmptyString) = EmptyString /\
   (forall c rest, Generator.escapeXml (Some (String c rest)) =
                   Generator.escapeChar c +:+ Generator.escapeXml (Some rest)) /\
   Generator.escapeChar "<" = "&lt;" /\ Generator.escapeChar ">" = "&gt;" /\
   Generator.escapeChar "&" = "&amp;" /\ Generator.escapeChar "'" = "&apos;" /\
   Generator.escapeChar "034" = "&quot;" /\
   (forall c, ~ reserved c -> Generator.escapeChar c = String c EmptyString) /\
   (forall c, reserved c -> c <> "&"%char ->
      hasChar c (Generator.escapeXml (Some s)) = false) /\
   (forall pre suf, Generator.escapeXml (Some s) = pre +:+ String "&" suf ->
      exists n, n ∈ ["lt;"; "gt;"; "amp;"; "apos;"; "quot;"] /\
                String.prefix n suf = true) /\
   ((forall c, reserved c -> hasChar c s = false) ->
    Generator.escapeXml (Some s) = s)) /\
  (Standalone.escapeXml (Some EmptyString) = EmptyString /\
   (forall c rest, Standalone.escapeXml (Some (String c rest)) =
                   Standalone.escapeChar c +:+ Standalone.escapeXml (Some rest)) /\
   Standalone.escapeChar "<" = "&lt;" /\ Standalone.escapeChar ">" = "&gt;" /\
   Standalone.escapeChar "&" = "&amp;" /\ Standalone.escapeChar "'" = "&#39;" /\
   Standalone.escapeChar "034" = "&quot;" /\
   (forall c, ~ reserved c -> Standalone.escapeChar c = String c EmptyString) /\
   (forall c, reserved c -> c <> "&"%char ->
      hasChar c (Standalone.escapeXml (Some s)) = false) /\
   (forall pre suf, Standalone.escapeXml (Some s) = pre +:+ String "&" suf ->
      exists n, n ∈ ["lt;"; "gt;"; "amp;"; "#39;"; "quot;"] /\
                String.prefix n suf = true) /\
   ((forall c, reserved c -> hasChar c s = false) ->
    Standalone.escapeXml (Some s) = s)).
Proof.
  cbn zeta. split.
  - split; [reflexivity|]. split; [reflexivity|]. do 5 (split; [reflexivity|]).
    split; [|split; [|split]].
    + intros c Hc. destruct (generator_escapeChar_cases c) as [[? _] | [_ ?]]; [done|done].
    + intros c Hc Hamp. simpl.
      apply (replaceEach_clean _ _ generator_escapeChar_cases); [|done|done].
      intros n c'. apply names_clean. by left.
    + intros pre suf H. simpl in H.
      apply (replaceEach_amp _ _ generator_escapeChar_cases) with (s := s) (pre := pre); [|done].
      intros n c'. apply names_clean. by left.
    + intros H. simpl.
      apply (replaceEach_unreserved _ _ generator_escapeChar_cases), H.
  - split; [reflexivity|]. split; [reflexivity|]. do 5 (split; [reflexivity|]).
    split; [|split; [|split]].
    + intros c Hc. destruct (standalone_escapeChar_cases c) as [[? _] | [_ ?]]; [done|done].
    + intros c Hc Hamp. unfold Standalone.escapeXml. simpl.
      apply (replaceEach_clean _ _ standalone_escapeChar_cases); [|done|done].
      intros n c'. apply names_clean. by right.
    + intros pre suf H. unfold Standalone.escapeXml in H. simpl in H.
      apply (replaceEach_amp _ _ standalone_escapeChar_cases) with (s := s) (pre := pre); [|done].
      intros n c'. apply names_clean. by right.
    + intros H. unfold Standalone.escapeXml. simpl.
      apply (replaceEach_unreserved _ _ standalone_escapeChar_cases), H.
Qed.

Lemma escapeXml_spec_witness :
  hasChar "<" (Generator.escapeXml (Some ("<script>&" +:+ JS.dq +:+ "'"))) = false /\
  Generator.escapeXml (Some ("<script>&" +:+ JS.dq +:+ "'"))
    = "&lt;script&gt;&amp;&quot;&apos;".
Proof.
  split; [|reflexivity].
  destruct (escapeXml_spec ("<script>&" +:+ JS.dq +:+ "'"))
    as [(_ & _ & _ & _ & _ & _ & _ & _ & H & _) _].
  apply H; [reflexivity|discriminate].
Defined.

End EscapeXml.

Section FetcherClaims.
Import Fetcher.
Variable LocalTZA : Z -> Z.
Variable otherFormats : string -> option Z.
Variable now : Z.

Lemma processEntry_normalized selectedYear acc item :
  wellShaped item ->
  processEntry LocalTZA otherFormats selectedYear acc item =
  match normalized LocalTZA otherFormats selectedYear item with
  | Some e =>
      Return (Processed (entries acc ++ [e]) (year acc) (S (totalItemsWatched acc))
                (if String.eqb (Entry.type e) "movie" then S (moviesCount acc)
                 else moviesCount acc)
                (if String.eqb (Entry.type e) "movie" then episodesCount acc
                 else S (episodesCount acc)))
  | None => Return acc
  end.
Proof.
  intros [Hep Hmv]. unfold processEntry, normalized.
  destruct (JS.Date_parse _ _) as [date|]; simpl; [|done].
  case_bool_decide; [|done].
  destruct (String.eqb_spec (RawItem.type item) "episode") as [He|He].
  - destruct (Hep He) as [[ep ->] [sh ->]]. reflexivity.
  - destruct (String.eqb_spec (RawItem.type item) "movie") as [Hm|Hm]; [|done].
    destruct (Hmv Hm) as [mv ->]. reflexivity.
Qed.

Lemma omap_cons {A B} (f : A -> option B) x l :
  omap f (x :: l) = match f x with Some y => y :: omap f l | None => omap f l end.
Proof. reflexivity. Qed.

Lemma forEachEntry_normalized selectedYear history acc :
  Forall wellShaped history ->
  exists r,
    forEachEntry LocalTZA otherFormats selectedYear history acc = Return r /\
    entries r = entries acc ++ omap (normalized LocalTZA otherFormats selectedYear) history /\
    year r = year acc /\
    (totalItemsWatched r
       = totalItemsWatched acc
         + length (omap (normalized LocalTZA otherFormats selectedYear) history))%nat /\
    (moviesCount r + episodesCount r
       = moviesCount acc + episodesCount acc
         + length (omap (normalized LocalTZA otherFormats selectedYear) history))%nat.
Proof.
  intros Hall. revert acc. induction Hall as [|item history Hitem Hall IH]; intros acc.
  - exists acc. simpl. rewrite app_nil_r. repeat split; lia.
  - cbn [forEachEntry]. rewrite (processEntry_normalized _ _ _ Hitem), !omap_cons.
    destruct (normalized _ _ _ item) as [e|].
    + destruct (IH (Processed (entries acc ++ [e]) (year acc) (S (totalItemsWatched acc))
                (if String.eqb (Entry.type e) "movie" then S (moviesCount acc)
                 else moviesCount acc)
                (if String.eqb (Entry.type e) "movie" then episodesCount acc
                 else S (episodesCount acc)))) as (r & -> & He & Hy & Ht & Hc).
      exists r. cbn [entries year totalItemsWatched moviesCount episodesCount] in *.
      split; [done|]. rewrite He, <- app_assoc. split; [done|].
      split; [done|]. cbn [length].
      destruct (String.eqb _ _); lia.
    + destruct (IH acc) as (r & -> & He & Hy & Ht & Hc). exists r. done.
Qed.

Lemma normalized_Some selectedYear item e :
  normalized LocalTZA otherFormats selectedYear item = Some e ->
  JS.Date_parse otherFormats (RawItem.watched_at item) = Some (Entry.date e) /\
  Some (JSDate.getFullYear LocalTZA (Entry.date e)) = selectedYear /\
  (RawItem.type item = "episode" \/ RawItem.type item = "movie") /\
  Entry.type e = RawItem.type item.
Proof.
  unfold normalized. destruct (JS.Date_parse _ _) as [date|]; simpl; [|done].
  case_bool_decide as Hy; [|done].
  destruct (String.eqb_spec (RawItem.type item) "episode") as [He|He].
  - destruct (RawItem.episode item); simpl; [|done].
    destruct (RawItem.show item); simpl; [|done].
    intros [= <-]. simpl. rewrite He. auto.
  - destruct (String.eqb_spec (RawItem.type item) "movie") as [Hm|Hm]; [|done].
    destruct (RawItem.movie item); simpl; [|done].
    intros [= <-]. simpl. rewrite Hm. auto.
Qed.

(** The same for [processTraktHistory] of [standalone.js]. *)
Lemma standalone_processEntry_normalized selectedYear acc item :
  wellShaped item ->
  exists itemsPerDay',
    Standalone.processEntry LocalTZA otherFormats selectedYear acc item =
    match Standalone.normalized LocalTZA otherFormats selectedYear item with
    | Some e =>
        Return (Standalone.Loop.Build (Standalone.Loop.entries acc ++ [e]) itemsPerDay'
                  (S (Standalone.Loop.totalItemsWatched acc)))
    | None =>
        Return (Standalone.Loop.Build (Standalone.Loop.entries acc) itemsPerDay'
                  (Standalone.Loop.totalItemsWatched acc))
    end.
Proof.
  intros [Hep Hmv]. unfold Standalone.processEntry, Standalone.normalized.
  destruct (JS.Date_parse _ _) as [date|]; cbn [mbind option_bind];
    [|exists (Standalone.Loop.itemsPerDay acc); by destruct acc].
  case_bool_decide; [|exists (Standalone.Loop.itemsPerDay acc); by destruct acc].
  cbv zeta.
  destruct (String.eqb_spec (RawItem.type item) "episode") as [He|He].
  - destruct (Hep He) as [[ep ->] [sh ->]]. eexists. reflexivity.
  - destruct (String.eqb_spec (RawItem.type item) "movie") as [Hm|Hm].
    + destruct (Hmv Hm) as [mv ->]. eexists. reflexivity.
    + eexists. reflexivity.
Qed.

Lemma standalone_forEachEntry_normalized selectedYear history acc :
  Forall wellShaped history ->
  exists r,
    Standalone.forEachEntry LocalTZA otherFormats selectedYear history acc = Return r /\
    Standalone.Loop.entries r =
      Standalone.Loop.entries acc ++
      omap (Standalone.normalized LocalTZA otherFormats selectedYear) history /\
    (Standalone.Loop.totalItemsWatched r
       = Standalone.Loop.totalItemsWatched acc
         + length (omap (Standalone.normalized LocalTZA otherFormats selectedYear) history))%nat.
Proof.
  intros Hall. revert acc. induction Hall as [|item history Hitem Hall IH]; intros acc.
  - exists acc. simpl. rewrite app_nil_r. split; [done|]. split; [done|]. lia.
  - cbn [Standalone.forEachEntry].
    destruct (standalone_processEntry_normalized selectedYear acc item Hitem) as [items ->].
    rewrite !omap_cons.
    destruct (Standalone.normalized _ _ _ item) as [e|].
    + destruct (IH (Standalone.Loop.Build (Standalone.Loop.entries acc ++ [e]) items
                      (S (Standalone.Loop.totalItemsWatched acc)))) as (r & -> & He & Ht).
      exists r. cbn [Standalone.Loop.entries Standalone.Loop.totalItemsWatched] in *.
      split; [done|]. rewrite He, <- app_assoc. split; [done|]. cbn [length]. lia.
    + destruct (IH (Standalone.Loop.Build (Standalone.Loop.entries acc) items
                      (Standalone.Loop.totalItemsWatched acc))) as (r & -> & He & Ht).
      exists r. done.
Qed.

Lemma standalone_normalized_Some selectedYear item e :
  Standalone.normalized LocalTZA otherFormats selectedYear item = Some e ->
  JS.Date_parse otherFormats (RawItem.watched_at item) = Some (Entry.date e) /\
  Some (JSDate.getFullYear LocalTZA (Entry.date e)) = selectedYear /\
  (RawItem.type item = "episode" \/ RawItem.type item = "movie") /\
  Entry.type e = RawItem.type item.
Proof.
  unfold Standalone.normalized. destruct (JS.Date_parse _ _) as [date|]; simpl; [|done].
  case_bool_decide as Hy; [|done].
  destruct (String.eqb_spec (RawItem.type item) "episode") as [He|He].
  - destruct (RawItem.episode item); simpl; [|done].
    destruct (RawItem.show item); simpl; [|done].
    intros [= <-]. simpl. rewrite He. auto.
  - destruct (String.eqb_spec (RawItem.type item) "movie") as [Hm|Hm]; [|done].
    destruct (RawItem.movie item); simpl; [|done].
    intros [= <-]. simpl. rewrite Hm. auto.
Qed.

(** C6.  On a history as the fetch layer delivers it, each record with the
    nested objects of its kind, [processTraktHistory] returns, in
    [src/fetcher.js] and in [standalone.js]: its entries are, in order, the
    normalised records; so a record whose [watched_at] does not parse, or
    whose type is neither ['episode'] nor ['movie'], yields no entry, every
    entry comes from a record with a parsed date and one of the two types,
    and every entry's local calendar year is the selected year. *)
Theorem processTraktHistory_spec (history : list RawItem.t) (targetYear : option Z) :
  Forall wellShaped history ->
  (exists r,
    processTraktHistory LocalTZA otherFormats now history targetYear = Return r /\
    entries r = omap (normalized LocalTZA otherFormats (year r)) history /\
    (forall item,
        JS.Date_parse otherFormats (RawItem.watched_at item) = None \/
        (RawItem.type item <> "episode" /\ RawItem.type item <> "movie") ->
        normalized LocalTZA otherFormats (year r) item = None) /\
    (forall e, e ∈ entries r ->
        Some (JSDate.getFullYear LocalTZA (Entry.date e)) = year r /\
        exists item, item ∈ history /\
          JS.Date_parse otherFormats (RawItem.watched_at item) = Some (Entry.date e) /\
          (RawItem.type item = "episode" \/ RawItem.type item = "movie") /\
          Entry.type e = RawItem.type item) /\
    totalItemsWatched r = length (entries r) /\
    (moviesCount r + episodesCount r)%nat = length (entries r)) /\
  (exists r,
    Standalone.processTraktHistory LocalTZA otherFormats now history targetYear = Return r /\
    Standalone.Processed.entries r =
      omap (Standalone.normalized LocalTZA otherFormats (Standalone.Processed.year r)) history /\
    (forall item,
        JS.Date_parse otherFormats (RawItem.watched_at item) = None \/
        (RawItem.type item <> "episode" /\ RawItem.type item <> "movie") ->
        Standalone.normalized LocalTZA otherFormats (Standalone.Processed.year r) item = None) /\
    (forall e, e ∈ Standalone.Processed.entries r ->
        Some (JSDate.getFullYear LocalTZA (Entry.date e)) = Standalone.Processed.year r /\
        exists item, item ∈ history /\
          JS.Date_parse otherFormats (RawItem.watched_at item) = Some (Entry.date e) /\
          (RawItem.type item = "episode" \/ RawItem.type item = "movie") /\
          Entry.type e = RawItem.type item) /\
    Standalone.Processed.totalItemsWatched r = length (Standalone.Processed.entries r)).
Proof.
  intros Hall. split.
  - unfold processTraktHistory.
    set (selectedYear := selectYear LocalTZA now targetYear _).
    destruct (forEachEntry_normalized selectedYear history
                (Processed [] selectedYear 0 0 0) Hall) as (r & Hr & He & Hy & Ht & Hc).
    simpl in *. exists r. rewrite Hy. split; [done|]. split; [done|]. split; [|split].
    + intros item [Hparse | [Hne Hnm]]; unfold normalized.
      * by rewrite Hparse.
      * destruct (JS.Date_parse _ _); simpl; [|done]. case_bool_decide; [|done].
        destruct (String.eqb_spec (RawItem.type item) "episode"); [done|].
        destruct (String.eqb_spec (RawItem.type item) "movie"); done.
    + intros e Hin. rewrite He in Hin. apply list_elem_of_omap in Hin as (item & Hitem & Hn).
      destruct (normalized_Some _ _ _ Hn) as (Hp & Hyear & Hty & Hte).
      split; [done|]. exists item. done.
    + rewrite He. split; lia.
  - unfold Standalone.processTraktHistory.
    set (selectedYear := selectYear LocalTZA now targetYear _).
    destruct (standalone_forEachEntry_normalized selectedYear history
                (Standalone.Loop.Build [] [] 0) Hall) as (r & Hr & He & Ht).
    cbv zeta. rewrite Hr.
    cbn [Standalone.Loop.entries Standalone.Loop.totalItemsWatched app] in He, Ht.
    eexists. split; [reflexivity|].
    cbn [Standalone.Processed.entries Standalone.Processed.year
         Standalone.Processed.totalItemsWatched].
    split; [done|]. split; [|split].
    + intros item [Hparse | [Hne Hnm]]; unfold Standalone.normalized.
      * by rewrite Hparse.
      * destruct (JS.Date_parse _ _); simpl; [|done]. case_bool_decide; [|done].
        destruct (String.eqb_spec (RawItem.type item) "episode"); [done|].
        destruct (String.eqb_spec (RawItem.type item) "movie"); done.
    + intros e Hin. rewrite He in Hin. apply list_elem_of_omap in Hin as (item & Hitem & Hn).
      destruct (standalone_normalized_Some _ _ _ Hn) as (Hp & Hyear & Hty & Hte).
      split; [done|]. exists item. done.
    + rewrite Ht, He. lia.
Qed.

End FetcherClaims.

Lemma processTraktHistory_spec_witness :
  exists r,
    Fetcher.processTraktHistory JSDate.tzUTC Fetcher.parseMarch1st 0
      [RawItem.Build Fetcher.march1st2024 "movie" None None
         (Some (RawMovie.Build "Dune" (Some 2021) None));
       RawItem.Build "yesterday" "movie" None None
         (Some (RawMovie.Build "Alien" (Some 1979) None));
       RawItem.Build Fetcher.march1st2024 "person" None None None]
      (Some 2024) = Fetcher.Return r /\
    Fetcher.totalItemsWatched r = 1%nat.
Proof.
  destruct (processTraktHistory_spec JSDate.tzUTC Fetcher.parseMarch1st 0
      [RawItem.Build Fetcher.march1st2024 "movie" None None
         (Some (RawMovie.Build "Dune" (Some 2021) None));
       RawItem.Build "yesterday" "movie" None None
         (Some (RawMovie.Build "Alien" (Some 1979) None));
       RawItem.Build Fetcher.march1st2024 "person" None None None]
      (Some 2024)) as [(r & Hr & He & _ & _ & Ht & _) _].
  - repeat constructor; simpl; intros; try discriminate; by eexists.
  - exists r. split; [exact Hr|]. rewrite Ht, He.
    assert (Hy : Fetcher.year r = Some 2024).
    { vm_compute in Hr. by injection Hr as <-. }
    rewrite Hy. vm_compute. reflexivity.
Defined.

(** A record of type ['episode'] that lacks its [episode] object is not one
    the fetch layer delivers; on it reading [episode.season] throws, in both
    programs. *)
Lemma processTraktHistory_missing_object :
  Fetcher.processTraktHistory JSDate.tzUTC Fetcher.parseMarch1st 0
    [RawItem.Build Fetcher.march1st2024 "episode" None None None] (Some 2024)
  = Fetcher.TypeError /\
  Standalone.processTraktHistory JSDate.tzUTC Fetcher.parseMarch1st 0
    [RawItem.Build Fetcher.march1st2024 "episode" None None None] (Some 2024)
  = Fetcher.TypeError.
Proof. split; vm_compute; reflexivity. Qed.

(** ** Strings in code-unit order, sets and sorting *)

Module StringFacts.
Import JS.

Lemma ascii_compare_lt_trans a b c :
  Ascii.compare a b = Lt -> Ascii.compare b c = Lt -> Ascii.compare a c = Lt.
Proof.
  unfold Ascii.compare. rewrite !N.compare_lt_iff. apply N.lt_trans.
Qed.

Lemma ascii_compare_refl a : Ascii.compare a a = Eq.
Proof. unfold Ascii.compare. apply N.compare_refl. Qed.

Lemma compare_refl s : String.compare s s = Eq.
Proof. induction s as [|c s IH]; simpl; [done|]. by rewrite ascii_compare_refl. Qed.

Lemma compare_lt_trans s1 s2 s3 :
  String.compare s1 s2 = Lt -> String.compare s2 s3 = Lt -> String.compare s1 s3 = Lt.
Proof.
  revert s2 s3. induction s1 as [|c1 s1 IH]; intros [|c2 s2] [|c3 s3]; simpl; try done.
  destruct (Ascii.compare c1 c2) eqn:E12; try done;
    destruct (Ascii.compare c2 c3) eqn:E23; try done; intros H12 H23.
  - apply Ascii.compare_eq_iff in E12 as ->. apply Ascii.compare_eq_iff in E23 as ->.
    rewrite ascii_compare_refl. by eapply IH.
  - apply Ascii.compare_eq_iff in E12 as ->. by rewrite E23.
  - apply Ascii.compare_eq_iff in E23 as ->. by rewrite E12.
  - by rewrite (ascii_compare_lt_trans _ _ _ E12 E23).
Qed.

Lemma strLe_iff a b : strLe a b <-> strLt a b \/ a = b.
Proof.
  unfold strLe, strLt, String.leb, String.ltb.
  destruct (String.compare a b) eqn:E.
  - apply String.compare_eq_iff in E. naive_solver.
  - naive_solver.
  - split; [done|]. intros [?| ->]; [done|]. by rewrite compare_refl in E.
Qed.

Lemma strLt_irrefl a : ~ strLt a a.
Proof. unfold strLt, String.ltb. by rewrite compare_refl. Qed.

Lemma strLt_trans a b c : strLt a b -> strLt b c -> strLt a c.
Proof.
  unfold strLt, String.ltb. intros H1 H2.
  destruct (String.compare a b) eqn:E1; try done.
  destruct (String.compare b c) eqn:E2; try done.
  by rewrite (compare_lt_trans _ _ _ E1 E2).
Qed.

#[global] Instance strLe_trans : Transitive strLe.
Proof.
  intros a b c. rewrite !strLe_iff. intros [H1 | ->] [H2 | ->]; eauto using strLt_trans.
Qed.

#[global] Instance strLe_antisym : AntiSymm (=) strLe.
Proof. intros a b. apply String.leb_antisym. Qed.

#[global] Instance strLe_total : Total strLe.
Proof. intros a b. apply String.leb_total. Qed.

#[global] Instance strLe_refl : Reflexive strLe.
Proof. intros a. apply strLe_iff. by right. Qed.

#[global] Instance strLe_dec a b : Decision (strLe a b).
Proof. unfold strLe. apply _. Defined.

(** *** [new Set] *)

Lemma setFrom_elem_of seen l x : x ∈ setFrom seen l <-> x ∈ l /\ x ∉ seen.
Proof.
  revert seen. induction l as [|y l IH]; intros seen; simpl.
  - rewrite elem_of_nil. tauto.
  - case_bool_decide as Hy.
    + rewrite IH, elem_of_cons. split; [tauto|].
      intros [[-> | Hx] Hns]; [done|tauto].
    + rewrite !elem_of_cons, IH, not_elem_of_cons.
      destruct (decide (x = y)) as [->|Hne]; tauto.
Qed.

Lemma setFrom_NoDup seen l : NoDup (setFrom seen l).
Proof.
  revert seen. induction l as [|y l IH]; intros seen; simpl; [constructor|].
  case_bool_decide; [apply IH|].
  constructor; [|apply IH]. rewrite setFrom_elem_of, not_elem_of_cons. tauto.
Qed.

Lemma newSet_elem_of l x : x ∈ newSet l <-> x ∈ l.
Proof.
  unfold newSet. rewrite setFrom_elem_of. pose proof (not_elem_of_nil x). tauto.
Qed.

Lemma newSet_NoDup l : NoDup (newSet l).
Proof. apply setFrom_NoDup. Qed.

Lemma newSet_nonempty l : l <> [] -> newSet l <> [].
Proof.
  destruct l as [|x l]; [done|]. intros _ H.
  assert (Hx : x ∈ newSet (x :: l)) by (apply newSet_elem_of, elem_of_cons; by left).
  rewrite H in Hx. by apply not_elem_of_nil in Hx.
Qed.

(** *** [sort] *)

Section Sort.
Context {A : Type} (le : A -> A -> bool).
Let R (a b : A) : Prop := le a b = true.
Hypothesis le_total : forall a b, le a b = true \/ le b a = true.

Lemma insertSorted_Sorted x l : Sorted R l -> Sorted R (insertSorted le x l).
Proof.
  induction 1 as [|y l Hl IH Hhd]; simpl.
  - repeat constructor.
  - destruct (le x y) eqn:E.
    + constructor; [by constructor|]. by constructor.
    + constructor; [done|].
      assert (Hyx : R y x) by (destruct (le_total x y); [congruence|done]).
      destruct Hhd as [|z l Hz]; simpl; [by constructor|].
      destruct (le x z); by constructor.
Qed.

Lemma sortBy_Sorted l : Sorted R (sortBy le l).
Proof.
  induction l as [|x l IH]; simpl; [constructor|]. by apply insertSorted_Sorted.
Qed.

End Sort.

Lemma sortStrings_Permutation l : sortStrings l ≡ₚ l.
Proof. apply SortFacts.sortBy_Permutation. Qed.

Lemma sortStrings_StronglySorted l : StronglySorted strLe (sortStrings l).
Proof.
  apply Sorted_StronglySorted; [apply _|].
  apply (sortBy_Sorted String.leb). apply String.leb_total.
Qed.

Lemma sortStrings_elem_of l x : x ∈ sortStrings l <-> x ∈ l.
Proof. by rewrite sortStrings_Permutation. Qed.

Lemma sortStrings_NoDup l : NoDup l -> NoDup (sortStrings l).
Proof. by rewrite sortStrings_Permutation. Qed.

Lemma sortStrings_length l : length (sortStrings l) = length l.
Proof. by rewrite sortStrings_Permutation. Qed.

(** In a sorted list, earlier elements are below later ones. *)
Lemma StronglySorted_lookup (l : list string) i j a b :
  StronglySorted strLe l -> l !! i = Some a -> l !! j = Some b -> (i <= j)%nat ->
  strLe a b.
Proof.
  intros Hs. revert i j. induction Hs as [|x l Hs IH Hall]; intros i j Hi Hj Hij.
  - by rewrite lookup_nil in Hi.
  - destruct i as [|i], j as [|j]; simplify_eq/=; try lia.
    + reflexivity.
    + eapply (proj1 (Forall_lookup _ _) Hall); eauto.
    + eapply IH; eauto. lia.
Qed.

(** A sorted list without duplicates is given by its elements. *)
Lemma sorted_elements_eq (l1 l2 : list string) :
  StronglySorted strLe l1 -> StronglySorted strLe l2 -> NoDup l1 -> NoDup l2 ->
  (forall x, x ∈ l1 <-> x ∈ l2) -> l1 = l2.
Proof.
  intros Hs1 Hs2 Hn1 Hn2 Hel. apply (StronglySorted_unique strLe); try done.
  by apply NoDup_Permutation.
Qed.

End StringFacts.

(** ** The scan of [calculateStreak] *)

Module ScanFacts.
Import Stats.

Section Scan.
Variable otherFormats : string -> option Z.
#[local] Abbreviation consecutive := (Stats.consecutive otherFormats).
#[local] Abbreviation isRun := (Stats.isRun otherFormats).
#[local] Abbreviation scanInv := (Stats.scanInv otherFormats).
#[local] Abbreviation scanStep := (Stats.scanStep otherFormats).
#[local] Abbreviation scanLoop := (Stats.scanLoop otherFormats).

#[local] Instance consecutive_dec a b : Decision (consecutive a b).
Proof. unfold Stats.consecutive. apply _. Defined.

Lemma scanInv_init (L : list string) first :
  L !! 0%nat = Some first -> scanInv L 1 (Scan 1 1 first first first).
Proof.
  intros H0. pose proof (lookup_lt_Some _ _ _ H0) as Hlen.
  assert (Hrun : isRun L 0 1).
  { split; [lia|]. split; [simpl; lia|]. intros; lia. }
  unfold Stats.scanInv. simpl.
  split; [lia|]. split; [lia|]. split; [lia|]. split; [exact Hrun|].
  split; [done|]. split; [intros; lia|].
  exists 0%nat. split; [simpl; lia|]. split; [exact Hrun|]. split; [done|]. split; [done|].
  intros i m Him (Hm & _ & _). lia.
Qed.

Lemma scanInv_step (L : list string) n s prev curr :
  scanInv L n s -> L !! (n - 1)%nat = Some prev -> L !! n = Some curr ->
  scanInv L (S n) (scanStep prev curr s).
Proof.
  intros (Hc & Hcm & Hn & Hrun & Hstart & Hleft & ms & Hms & Hmrun & Hmstart & Hmend & Hmax)
         Hprev Hcurr.
  pose proof (lookup_lt_Some _ _ _ Hcurr) as Hlt.
  destruct Hrun as (_ & _ & Hrun).
  unfold Stats.scanStep.
  assert (Hext : consecutive prev curr -> isRun L (n - currentStreak s) (S (currentStreak s))).
  { intros Hadj. split; [lia|]. split; [lia|].
    intros k a b Hk1 Hk2 Ha Hb.
    destruct (decide (k + 1 < n)%nat) as [Hk|Hk].
    - eapply Hrun; eauto; lia.
    - assert (k = n - 1)%nat as -> by lia.
      replace (S (n - 1)) with n in Hb by lia. by simplify_eq. }
  assert (Hend : forall i m, (i + m = S n)%nat -> isRun L i m ->
                 (if bool_decide (consecutive prev curr)
                  then (m <= S (currentStreak s))%nat
                  else m = 1%nat)).
  { intros i m Him (Hm1 & _ & Hr). case_bool_decide as Hadj.
    - destruct (decide (m <= S (currentStreak s))%nat) as [|Hbig]; [done|]. exfalso.
      assert (Hlt' : (currentStreak s < n)%nat) by lia.
      destruct (lookup_lt_is_Some_2 L (n - currentStreak s - 1)) as [a Ha]; [lia|].
      destruct (lookup_lt_is_Some_2 L (n - currentStreak s)) as [b Hb]; [lia|].
      apply (Hleft a b Hlt' Ha Hb).
      apply (Hr (n - currentStreak s - 1)%nat); try done; try lia.
      by replace (S (n - currentStreak s - 1)) with (n - currentStreak s)%nat by lia.
    - destruct (decide (m = 1%nat)) as [|Hbig]; [done|]. exfalso. apply Hadj.
      apply (Hr (n - 1)%nat); try done; try lia.
      by replace (S (n - 1)) with n by lia. }
  destruct (decide (consecutive prev curr)) as [Hadj|Hadj].
  - rewrite bool_decide_eq_true_2 in Hend by done.
    rewrite (bool_decide_eq_true_2 (diffDays otherFormats prev curr = Some 1) Hadj).
    destruct (Nat.ltb_spec (maxStreak s) (S (currentStreak s))) as [Hnew|Hold];
      unfold Stats.scanInv; simpl.
    + replace (n - currentStreak s)%nat with (S n - S (currentStreak s))%nat in Hext by lia.
      split; [lia|]. split; [lia|]. split; [lia|]. split; [by apply Hext|].
      replace (n - currentStreak s)%nat with (S n - S (currentStreak s))%nat in * by lia.
      split; [done|]. split.
      { intros a b Hlt' Ha Hb. apply (Hleft a b); [lia| |done].
        by replace (n - currentStreak s - 1)%nat
             with (S n - S (currentStreak s) - 1)%nat by lia. }
      exists (S n - S (currentStreak s))%nat.
      split; [lia|]. split; [by apply Hext|]. split; [done|]. split.
      { by replace (S n - S (currentStreak s) + S (currentStreak s) - 1)%nat with n by lia. }
      intros i m Him Hr.
      destruct (decide (i + m <= n)%nat) as [Hold|Hnow].
      * destruct (Hmax i m Hold Hr). lia.
      * pose proof (Hend i m ltac:(lia) Hr). lia.
    + replace (n - currentStreak s)%nat with (S n - S (currentStreak s))%nat in * by lia.
      split; [lia|]. split; [lia|]. split; [lia|]. split; [by apply Hext|].
      split; [done|]. split.
      { intros a b Hlt' Ha Hb. apply (Hleft a b); [lia| |done].
        by replace (S n - S (currentStreak s) - 1)%nat
             with (S n - S (currentStreak s) - 1)%nat by lia. }
      exists ms. split; [lia|]. split; [done|]. split; [done|]. split; [done|].
      intros i m Him Hr.
      destruct (decide (i + m <= n)%nat) as [Hold'|Hnow].
      * by apply Hmax.
      * pose proof (Hend i m ltac:(lia) Hr). lia.
  - rewrite bool_decide_eq_false_2 in Hend by done.
    rewrite (bool_decide_eq_false_2 (diffDays otherFormats prev curr = Some 1) Hadj).
    unfold Stats.scanInv; simpl. rewrite ?Nat.sub_0_r.
    split; [lia|]. split; [lia|]. split; [lia|].
    split. { split; [lia|]. split; [lia|]. intros; lia. }
    split; [done|]. split.
    { intros a b _ Ha Hb. by simplify_eq. }
    exists ms. split; [lia|]. split; [done|]. split; [done|]. split; [done|].
    intros i m Him Hr.
    destruct (decide (i + m <= n)%nat) as [Hold'|Hnow].
    * by apply Hmax.
    * pose proof (Hend i m ltac:(lia) Hr). lia.
Qed.

Lemma scanLoop_inv (L : list string) rest :
  forall n prev s,
    drop n L = rest -> L !! (n - 1)%nat = Some prev -> scanInv L n s ->
    scanInv L (length L) (scanLoop prev rest s).
Proof.
  induction rest as [|curr rest IH]; intros n prev s Hdrop Hprev Hinv; simpl.
  - assert (length L <= n)%nat.
    { apply drop_nil_inv in Hdrop. done. }
    pose proof Hinv as (_ & _ & Hn & _).
    replace (length L) with n by lia. exact Hinv.
  - assert (Hcurr : L !! n = Some curr).
    { rewrite <- (Nat.add_0_r n), <- lookup_drop, Hdrop. done. }
    apply (IH (S n)).
    + rewrite (drop_S _ _ _ Hcurr) in Hdrop. by injection Hdrop.
    + by replace (S n - 1)%nat with n by lia.
    + by apply scanInv_step.
Qed.

End Scan.
End ScanFacts.

(** ** Local date strings *)

Module DayStringFacts.
Import JSDate JS Stats JSDateFacts StringFacts.

Lemma numToString_fourDigits_check :
  forallb (fun y => String.eqb (numToString y) (fourDigits y)) (seqZ 1000 9000) = true.
Proof. vm_compute. reflexivity. Qed.

Lemma numToString_fourDigits y : 1000 <= y <= 9999 -> numToString y = fourDigits y.
Proof.
  intros Hy. pose proof numToString_fourDigits_check as H. rewrite forallb_forall in H.
  apply String.eqb_eq, H. apply list_elem_of_In, elem_of_seqZ. lia.
Qed.

Lemma padStart_twoDigits_check :
  forallb (fun n => String.eqb (padStart 2 "0" (numToString n)) (twoDigits n)) (seqZ 0 100) = true.
Proof. vm_compute. reflexivity. Qed.

Lemma padStart_twoDigits n : 0 <= n <= 99 -> padStart 2 "0" (numToString n) = twoDigits n.
Proof.
  intros Hn. pose proof padStart_twoDigits_check as H. rewrite forallb_forall in H.
  apply String.eqb_eq, H. apply list_elem_of_In, elem_of_seqZ. lia.
Qed.

Lemma digitValue_digitChar k : 0 <= k <= 9 -> digitValue (digitChar k) = Some k.
Proof.
  intros Hk.
  assert (k = 0 \/ k = 1 \/ k = 2 \/ k = 3 \/ k = 4 \/ k = 5 \/ k = 6 \/ k = 7 \/ k = 8 \/ k = 9)
    as Hcases by lia.
  repeat destruct Hcases as [-> | Hcases]; try subst k; reflexivity.
Qed.

Lemma digitChar_compare a b :
  0 <= a <= 9 -> 0 <= b <= 9 -> Ascii.compare (digitChar a) (digitChar b) = (a ?= b).
Proof.
  intros Ha Hb. unfold Ascii.compare, digitChar. rewrite !N_ascii_embedding by lia.
  rewrite Z2N.inj_compare by lia. apply Z.add_compare_mono_l.
Qed.

(** Numbers written with two digits compare as strings the way they compare
    as numbers, whatever follows them. *)
Lemma twoDigits_compare a b s t :
  0 <= a <= 99 -> 0 <= b <= 99 ->
  String.compare (twoDigits a +:+ s) (twoDigits b +:+ t) =
  match a ?= b with Eq => String.compare s t | r => r end.
Proof.
  intros Ha Hb. unfold twoDigits.
  change (String.compare (String (digitChar (a / 10)) (String (digitChar (a mod 10)) s))
                         (String (digitChar (b / 10)) (String (digitChar (b mod 10)) t)) =
          match a ?= b with Eq => String.compare s t | r => r end).
  cbn [String.compare].
  rewrite !digitChar_compare by (Z.div_mod_to_equations; lia).
  destruct (Z.compare_spec (a / 10) (b / 10)) as [H1|H1|H1];
    destruct (Z.compare_spec (a mod 10) (b mod 10)) as [H2|H2|H2];
    destruct (Z.compare_spec a b) as [H|H|H]; try reflexivity;
    exfalso; Z.div_mod_to_equations; lia.
Qed.

Lemma dayString_digits z :
  fourDigitDay z ->
  let c := civil_from_days z in
  dayString z =
  twoDigits (c_year c / 100) +:+ twoDigits (c_year c mod 100) +:+ "-" +:+
  twoDigits (c_month c) +:+ "-" +:+ twoDigits (c_date c).
Proof.
  intros Hy. cbn zeta. pose proof (civil_range z) as [Hm Hd]. cbn zeta in *.
  unfold dayString. rewrite numToString_fourDigits by exact Hy.
  rewrite !padStart_twoDigits by lia. reflexivity.
Qed.

Lemma hyphen_compare s t : String.compare ("-" +:+ s) ("-" +:+ t) = String.compare s t.
Proof. reflexivity. Qed.

(** For years of four digits the strings are ordered like the days. *)
Lemma dayString_mono z1 z2 :
  fourDigitDay z1 -> fourDigitDay z2 -> z1 < z2 -> strLt (dayString z1) (dayString z2).
Proof.
  intros H1 H2 Hlt. pose proof (civil_mono _ _ Hlt) as Hc.
  pose proof (civil_range z1) as [Hm1 Hd1]. pose proof (civil_range z2) as [Hm2 Hd2].
  cbn zeta in *. unfold fourDigitDay in *.
  rewrite !dayString_digits by done. cbn zeta.
  change (twoDigits (c_date (civil_from_days z1)))
    with (twoDigits (c_date (civil_from_days z1)) +:+ EmptyString).
  change (twoDigits (c_date (civil_from_days z2)))
    with (twoDigits (c_date (civil_from_days z2)) +:+ EmptyString).
  unfold strLt, String.ltb, civil_lt in *.
  rewrite twoDigits_compare by (Z.div_mod_to_equations; lia).
  rewrite twoDigits_compare by (Z.div_mod_to_equations; lia).
  rewrite hyphen_compare, twoDigits_compare by lia.
  rewrite hyphen_compare, twoDigits_compare by lia.
  destruct (Z.compare_spec (c_year (civil_from_days z1) / 100)
                           (c_year (civil_from_days z2) / 100));
    destruct (Z.compare_spec (c_year (civil_from_days z1) mod 100)
                             (c_year (civil_from_days z2) mod 100));
    destruct (Z.compare_spec (c_month (civil_from_days z1)) (c_month (civil_from_days z2)));
    destruct (Z.compare_spec (c_date (civil_from_days z1)) (c_date (civil_from_days z2)));
    try reflexivity; exfalso; Z.div_mod_to_equations; lia.
Qed.

Lemma dayString_lt_iff z1 z2 :
  fourDigitDay z1 -> fourDigitDay z2 -> strLt (dayString z1) (dayString z2) <-> z1 < z2.
Proof.
  intros H1 H2. split; [|by apply dayString_mono].
  intros Hlt. destruct (Z.lt_trichotomy z1 z2) as [?|[->|Hgt]]; [done| |].
  - by apply strLt_irrefl in Hlt.
  - apply (dayString_mono _ _ H2 H1) in Hgt.
    exfalso. by apply (strLt_irrefl (dayString z1)), (strLt_trans _ (dayString z2)).
Qed.

Lemma dayString_inj z1 z2 :
  fourDigitDay z1 -> fourDigitDay z2 -> dayString z1 = dayString z2 -> z1 = z2.
Proof.
  intros H1 H2 Heq. destruct (Z.lt_trichotomy z1 z2) as [Hlt|[?|Hlt]]; [|done|].
  - apply (dayString_mono _ _ H1 H2) in Hlt. rewrite Heq in Hlt. by apply strLt_irrefl in Hlt.
  - apply (dayString_mono _ _ H2 H1) in Hlt. rewrite Heq in Hlt. by apply strLt_irrefl in Hlt.
Qed.

(** [new Date] reads such a string as midnight UTC of the day. *)
Lemma parseDateOnly_dayString z :
  fourDigitDay z -> parseDateOnly (dayString z) = Some (z * msPerDay).
Proof.
  intros Hy. pose proof (civil_range z) as [Hm Hd]. cbn zeta in *.
  pose proof (MakeDay_fields z (c_date (civil_from_days z))) as HM. cbn zeta in HM.
  rewrite dayString_digits by done. cbn zeta. unfold fourDigitDay in Hy.
  set (y := c_year (civil_from_days z)) in *.
  set (m := c_month (civil_from_days z)) in *.
  set (d := c_date (civil_from_days z)) in *.
  unfold twoDigits.
  change (parseDateOnly
    (String (digitChar (y / 100 / 10)) (String (digitChar (y / 100 mod 10))
    (String (digitChar (y mod 100 / 10)) (String (digitChar (y mod 100 mod 10))
    (String "-" (String (digitChar (m / 10)) (String (digitChar (m mod 10))
    (String "-" (String (digitChar (d / 10)) (String (digitChar (d mod 10))
      EmptyString)))))))))) = Some (z * msPerDay)).
  cbn [parseDateOnly].
  rewrite !digitValue_digitChar by (Z.div_mod_to_equations; lia).
  cbn [mbind option_bind].
  replace (y / 100 / 10 * 1000 + y / 100 mod 10 * 100 + y mod 100 / 10 * 10 + y mod 100 mod 10)
    with y by (Z.div_mod_to_equations; lia).
  replace (m / 10 * 10 + m mod 10) with m by (Z.div_mod_to_equations; lia).
  replace (d / 10 * 10 + d mod 10) with d by (Z.div_mod_to_equations; lia).
  replace (1 <=? m) with true by (symmetry; apply Z.leb_le; lia).
  replace (m <=? 12) with true by (symmetry; apply Z.leb_le; lia).
  replace (1 <=? d) with true by (symmetry; apply Z.leb_le; lia).
  replace (d <=? 31) with true by (symmetry; apply Z.leb_le; lia).
  cbn [andb]. rewrite HM. unfold MakeDate. f_equal. lia.
Qed.

Section Parse.
Variable LocalTZA : Z -> Z.
Variable otherFormats : string -> option Z.

Lemma Date_parse_dayString z :
  fourDigitDay z -> Date_parse otherFormats (dayString z) = Some (z * msPerDay).
Proof. intros Hy. unfold Date_parse. by rewrite parseDateOnly_dayString. Qed.

Lemma diffDays_dayString z1 z2 :
  fourDigitDay z1 -> fourDigitDay z2 ->
  diffDays otherFormats (dayString z1) (dayString z2) = Some (z2 - z1).
Proof.
  intros H1 H2. unfold diffDays. rewrite !Date_parse_dayString by done.
  cbn [mbind option_bind]. f_equal. unfold roundDiv, getTime, msPerDay.
  symmetry. apply Z.div_unique with 86400000; lia.
Qed.

(** On such days the scan's test is: the next calendar day. *)
Lemma consecutive_dayString z1 z2 :
  fourDigitDay z1 -> fourDigitDay z2 ->
  consecutive otherFormats (dayString z1) (dayString z2) <-> z2 = z1 + 1.
Proof.
  intros H1 H2. unfold consecutive. rewrite diffDays_dayString by done.
  split; [intros [= ?]; lia | intros ->; f_equal; lia].
Qed.

Lemma getLocalDateString_dayString t :
  getLocalDateString LocalTZA t = dayString (localDay LocalTZA t).
Proof.
  unfold getLocalDateString, dayString, localDay, getFullYear, getMonth, getDate,
    YearFromTime, MonthFromTime, DateFromTime.
  by replace (c_month (civil_from_days (Day (LocalTime LocalTZA t))) - 1 + 1)
    with (c_month (civil_from_days (Day (LocalTime LocalTZA t)))) by lia.
Qed.

End Parse.

End DayStringFacts.

(** ** The longest streak *)

Module StreakFacts.
Import JSDate JS Stats StringFacts ScanFacts DayStringFacts.

Lemma sorted_strict (l : list string) i j a b :
  StronglySorted strLe l -> NoDup l -> (i < j)%nat ->
  l !! i = Some a -> l !! j = Some b -> strLt a b.
Proof.
  intros Hs Hn Hij Hi Hj.
  destruct (proj1 (strLe_iff a b)) as [?| ->]; [|done|].
  - eapply StronglySorted_lookup; eauto; lia.
  - pose proof (NoDup_lookup _ _ _ _ Hn Hi Hj). lia.
Qed.

Section Streak.
Variable LocalTZA : Z -> Z.
Variable otherFormats : string -> option Z.

#[local] Abbreviation sortedDates entries := (sortStrings (uniqueDatesOf LocalTZA entries)).
#[local] Abbreviation isRun := (Stats.isRun otherFormats).
#[local] Abbreviation activeDay := (Stats.activeDay LocalTZA).
#[local] Abbreviation activeRun := (Stats.activeRun LocalTZA).

Lemma sortedDates_elem_of entries x :
  x ∈ sortedDates entries <-> exists z, activeDay entries z /\ x = dayString z.
Proof.
  unfold uniqueDatesOf. rewrite sortStrings_elem_of, newSet_elem_of, list_elem_of_In, in_map_iff.
  split.
  - intros (e & <- & He). exists (localDay LocalTZA (Entry.date e)). split.
    + exists e. by rewrite list_elem_of_In.
    + apply getLocalDateString_dayString.
  - intros (z & (e & He & <-) & ->). exists e. split.
    + apply getLocalDateString_dayString.
    + by rewrite <- list_elem_of_In.
Qed.

Lemma sortedDates_sorted entries : StronglySorted strLe (sortedDates entries).
Proof. apply sortStrings_StronglySorted. Qed.

Lemma sortedDates_NoDup entries : NoDup (sortedDates entries).
Proof. apply sortStrings_NoDup, newSet_NoDup. Qed.

Lemma sortedDates_length entries :
  entries <> [] -> length (sortedDates entries) = calculateDaysActive LocalTZA entries.
Proof. intros Hne. rewrite sortStrings_length. by destruct entries. Qed.

(** The scan ends in a state that satisfies the invariant on the whole of
    the sorted dates. *)
Lemma calculateStreak_scan entries :
  entries <> [] ->
  exists s,
    calculateStreak LocalTZA otherFormats entries =
      Streak.Build (maxStreak s) (Some (maxStart s)) (Some (maxEnd s)) /\
    scanInv otherFormats (sortedDates entries) (length (sortedDates entries)) s.
Proof.
  intros Hne. unfold calculateStreak.
  destruct entries as [|e entries]; [done|].
  destruct (sortedDates (e :: entries)) as [|first rest] eqn:EL.
  - exfalso. apply (newSet_nonempty (map (fun e => getLocalDateString LocalTZA (Entry.date e))
                                         (e :: entries))); [done|].
    apply length_zero_iff_nil. fold (uniqueDatesOf LocalTZA (e :: entries)).
    by rewrite <- sortStrings_length, EL.
  - eexists. split; [reflexivity|].
    apply (scanLoop_inv otherFormats (first :: rest) rest 1); [done|done|].
    by apply scanInv_init.
Qed.

(** *** On the calendar *)

Section Calendar.
Variable entries : list Entry.t.
Hypothesis fourDigitYears :
  forall e, e ∈ entries -> fourDigitDay (localDay LocalTZA (Entry.date e)).

Lemma activeDay_fourDigit z : activeDay entries z -> fourDigitDay z.
Proof. intros (e & He & <-). by apply fourDigitYears. Qed.

Lemma dayString_le z1 z2 :
  activeDay entries z1 -> activeDay entries z2 ->
  strLe (dayString z1) (dayString z2) -> z1 <= z2.
Proof.
  intros H1%activeDay_fourDigit H2%activeDay_fourDigit [Hlt|Heq]%strLe_iff.
  - apply dayString_lt_iff in Hlt; [lia|done|done].
  - apply dayString_inj in Heq; [lia|done|done].
Qed.

(** A run of the sorted dates is a run of days. *)
Lemma run_days i m z :
  isRun (sortedDates entries) i m ->
  sortedDates entries !! i = Some (dayString z) -> activeDay entries z ->
  forall k, (k < m)%nat ->
    sortedDates entries !! (i + k)%nat = Some (dayString (z + Z.of_nat k)) /\
    activeDay entries (z + Z.of_nat k).
Proof.
  intros (Hm & Hlen & Hrun) Hi Hz. induction k as [|k IH]; intros Hk.
  - rewrite Nat.add_0_r, Z.add_0_r. done.
  - destruct IH as [Hk1 Hk2]; [lia|].
    destruct (lookup_lt_is_Some_2 (sortedDates entries) (i + S k)) as [b Hb]; [lia|].
    assert (Hin : b ∈ sortedDates entries) by (by eapply list_elem_of_lookup_2).
    apply sortedDates_elem_of in Hin as (w & Hw & ->).
    assert (w = z + Z.of_nat k + 1) as ->.
    { apply (consecutive_dayString otherFormats (z + Z.of_nat k) w);
        [by apply activeDay_fourDigit | by apply activeDay_fourDigit |].
      apply (Hrun (i + k)%nat); [lia|lia|done|].
      by replace (S (i + k)) with (i + S k)%nat by lia. }
    replace (z + Z.of_nat (S k)) with (z + Z.of_nat k + 1) by lia. done.
Qed.

(** A run of active days is a run of the sorted dates. *)
Lemma days_run z m :
  activeRun entries z m ->
  exists i, isRun (sortedDates entries) i m /\ sortedDates entries !! i = Some (dayString z).
Proof.
  intros [Hm Hact].
  assert (Hz : dayString z ∈ sortedDates entries).
  { apply sortedDates_elem_of. exists z. split; [|done].
    replace z with (z + 0) by lia. apply Hact. lia. }
  apply list_elem_of_lookup_1 in Hz as [i Hi]. exists i.
  assert (Hall : forall k, (k < m)%nat ->
            sortedDates entries !! (i + k)%nat = Some (dayString (z + Z.of_nat k))).
  { induction k as [|k IH]; intros Hk.
    - by rewrite Nat.add_0_r, Z.add_0_r.
    - specialize (IH ltac:(lia)).
      assert (Ha : activeDay entries (z + Z.of_nat k)) by (apply Hact; lia).
      assert (Hb : activeDay entries (z + Z.of_nat (S k))) by (apply Hact; lia).
      assert (Hlt : strLt (dayString (z + Z.of_nat k)) (dayString (z + Z.of_nat (S k)))).
      { apply dayString_mono; [by apply activeDay_fourDigit..|lia]. }
      assert (Hin : dayString (z + Z.of_nat (S k)) ∈ sortedDates entries).
      { apply sortedDates_elem_of. by exists (z + Z.of_nat (S k)). }
      apply list_elem_of_lookup_1 in Hin as [j Hj].
      destruct (decide (j <= i + k)%nat) as [Hle|Hgt].
      { exfalso. pose proof (StronglySorted_lookup _ _ _ _ _
                               (sortedDates_sorted entries) Hj IH Hle) as Hle'.
        apply dayString_le in Hle'; [lia|done..]. }
      destruct (decide (j = i + S k)%nat) as [->|Hne]; [done|]. exfalso.
      destruct (lookup_lt_is_Some_2 (sortedDates entries) (i + S k)) as [c Hc].
      { apply lookup_lt_Some in Hj. lia. }
      assert (Hcin : c ∈ sortedDates entries) by (by eapply list_elem_of_lookup_2).
      apply sortedDates_elem_of in Hcin as (w & Hw & ->).
      pose proof (sorted_strict _ (i + k) (i + S k) _ _ (sortedDates_sorted entries)
                    (sortedDates_NoDup entries) ltac:(lia) IH Hc) as H1.
      pose proof (sorted_strict _ (i + S k) j _ _ (sortedDates_sorted entries)
                    (sortedDates_NoDup entries) ltac:(lia) Hc Hj) as H2.
      apply dayString_lt_iff in H1; [|by apply activeDay_fourDigit..].
      apply dayString_lt_iff in H2; [|by apply activeDay_fourDigit..].
      lia. }
  split; [|done]. split; [done|]. split.
  - pose proof (Hall (m - 1)%nat ltac:(lia)) as Hlast. apply lookup_lt_Some in Hlast. lia.
  - intros k a b Hk1 Hk2 Ha Hb.
    pose proof (Hall (k - i)%nat ltac:(lia)) as Ha'.
    pose proof (Hall (S k - i)%nat ltac:(lia)) as Hb'.
    replace (i + (k - i))%nat with k in Ha' by lia.
    replace (i + (S k - i))%nat with (S k) in Hb' by lia.
    simplify_eq.
    apply consecutive_dayString; [apply activeDay_fourDigit, Hact; lia..|lia].
Qed.

(** The streak is the longest run of active days, the earliest of them. *)
Lemma calculateStreak_calendar :
  entries <> [] ->
  exists z m,
    calculateStreak LocalTZA otherFormats entries =
      Streak.Build m (Some (dayString z)) (Some (dayString (z + Z.of_nat m - 1))) /\
    activeRun entries z m /\
    forall z' m', activeRun entries z' m' -> (m' <= m)%nat /\ (m' = m -> z <= z').
Proof.
  intros Hne.
  destruct (calculateStreak_scan entries Hne)
    as (s & -> & _ & _ & _ & _ & _ & _ & ms & Hms & Hmrun & Hmstart & Hmend & Hmax).
  assert (Hin : maxStart s ∈ sortedDates entries) by (by eapply list_elem_of_lookup_2).
  apply sortedDates_elem_of in Hin as (z & Hz & Hstart).
  rewrite Hstart in Hmstart.
  pose proof (run_days _ _ _ Hmrun Hmstart Hz) as Hdays.
  pose proof Hmrun as (Hm1 & _ & _).
  exists z, (maxStreak s). split; [|split].
  - rewrite Hstart. do 2 f_equal.
    destruct (Hdays (maxStreak s - 1)%nat ltac:(lia)) as [Hlast _].
    replace (ms + (maxStreak s - 1))%nat with (ms + maxStreak s - 1)%nat in Hlast by lia.
    rewrite Hmend in Hlast. injection Hlast as ->. f_equal. lia.
  - split; [done|]. intros k Hk.
    destruct (Hdays (Z.to_nat k) ltac:(lia)) as [_ Hact].
    by replace (Z.of_nat (Z.to_nat k)) with k in Hact by lia.
  - intros z' m' Hrun'. pose proof Hrun' as [Hm' Hact'].
    destruct (days_run _ _ Hrun') as (i & Hirun & Hi).
    pose proof Hirun as (_ & Hilen & _).
    destruct (Hmax i m' Hilen Hirun) as [Hle Hfirst]. split; [done|].
    intros ->. specialize (Hfirst eq_refl).
    apply dayString_le; [done| |].
    + replace z' with (z' + 0) by lia. apply Hact'. lia.
    + by eapply (StronglySorted_lookup _ ms i); [apply sortedDates_sorted|..].
Qed.

End Calendar.

End Streak.

End StreakFacts.

(** ** Claims on the streak *)

Section StreakClaims.
Import JSDate JS Stats StringFacts ScanFacts DayStringFacts StreakFacts.





(** C9.  On a non-empty entry list the result of [calculateStreak] has a
    length of at least 1 and non-null start and end dates, the start date is
    not after the end date, and the length is at most
    [calculateDaysActive] of the same entries.  When the entries' local
    years have four digits, the two dates are the strings of two days that
    are [length - 1] calendar days apart, which is also the day difference
    that the code itself computes between them. *)
Theorem calculateStreak_invariants (LocalTZA : Z -> Z) (otherFormats : string -> option Z)
    (entries : list Entry.t) :
  entries <> [] ->
  exists m s e,
    calculateStreak LocalTZA otherFormats entries = Streak.Build m (Some s) (Some e) /\
    (1 <= m)%nat /\ strLe s e /\
    (m <= calculateDaysActive LocalTZA entries)%nat /\
    ((forall x, x ∈ entries -> fourDigitDay (localDay LocalTZA (Entry.date x))) ->
     exists z1 z2,
       s = dayString z1 /\ e = dayString z2 /\
       Date_parse otherFormats s = Some (z1 * msPerDay) /\
       Date_parse otherFormats e = Some (z2 * msPerDay) /\
       z1 <= z2 /\ z2 - z1 = Z.of_nat m - 1 /\
       diffDays otherFormats s e = Some (Z.of_nat m - 1)).
Proof.
  intros Hne.
  destruct (calculateStreak_scan LocalTZA otherFormats entries Hne)
    as (s & Hres & _ & _ & _ & _ & _ & _ & ms & Hms & Hmrun & Hmstart & Hmend & Hmax).
  pose proof Hmrun as (Hm1 & _ & _).
  exists (maxStreak s), (maxStart s), (maxEnd s).
  split; [done|]. split; [done|]. split; [|split].
  - eapply (StronglySorted_lookup _ ms (ms + maxStreak s - 1));
      [apply sortedDates_sorted|done|done|lia].
  - rewrite <- sortedDates_length by done. lia.
  - intros Hyears.
    destruct (calculateStreak_calendar LocalTZA otherFormats entries Hyears Hne)
      as (z & m & Hcal & [Hm Hact] & _).
    rewrite Hres in Hcal. injection Hcal as Em Es Ee. subst m. rewrite Es, Ee.
    assert (H1 : fourDigitDay z).
    { apply (activeDay_fourDigit LocalTZA entries Hyears).
      replace z with (z + 0) by lia. apply Hact. lia. }
    assert (H2 : fourDigitDay (z + Z.of_nat (maxStreak s) - 1)).
    { apply (activeDay_fourDigit LocalTZA entries Hyears).
      replace (z + Z.of_nat (maxStreak s) - 1) with (z + (Z.of_nat (maxStreak s) - 1)) by lia.
      apply Hact. lia. }
    exists z, (z + Z.of_nat (maxStreak s) - 1).
    split; [done|]. split; [done|].
    split; [by apply Date_parse_dayString|]. split; [by apply Date_parse_dayString|].
    split; [lia|]. split; [lia|].
    rewrite diffDays_dayString by done. f_equal. lia.
Qed.

Lemma calculateStreak_invariants_witness :
  (forall x, x ∈ januaryEntries -> fourDigitDay (localDay tzUTC (Entry.date x))) /\
  exists m s e,
    calculateStreak tzUTC (fun _ => None) januaryEntries = Streak.Build m (Some s) (Some e) /\
    (1 <= m)%nat /\ strLe s e /\
    (m <= calculateDaysActive tzUTC januaryEntries)%nat /\
    diffDays (fun _ => None) s e = Some (Z.of_nat m - 1).
Proof.
  assert (Hyears : forall x, x ∈ januaryEntries -> fourDigitDay (localDay tzUTC (Entry.date x))).
  { intros e He. unfold januaryEntries in He. rewrite !elem_of_cons in He.
    destruct He as [->|[->|[->|[->|[->|He]]]]];
      [..|by apply not_elem_of_nil in He]; vm_compute; split; discriminate. }
  split; [exact Hyears|].
  destruct (calculateStreak_invariants tzUTC (fun _ => None) januaryEntries)
    as (m & s & e & H1 & H2 & H3 & H4 & H5); [discriminate|].
  destruct (H5 Hyears) as (z1 & z2 & _ & _ & _ & _ & _ & _ & H6).
  exists m, s, e. exact (conj H1 (conj H2 (conj H3 (conj H4 H6)))).
Defined.

End StreakClaims.

(** ** Rendering twice *)

Section RenderClaims.
Import Template.

Lemma generateFontFaceCSS_fonts w1 w2 :
  fst (Generator.getEmbeddedFonts w1) = fst (Generator.getEmbeddedFonts w2) ->
  fst (Generator.generateFontFaceCSS w1) = fst (Generator.generateFontFaceCSS w2).
Proof.
  unfold Generator.generateFontFaceCSS.
  destruct (Generator.getEmbeddedFonts w1) as [f1 w1'].
  destruct (Generator.getEmbeddedFonts w2) as [f2 w2'].
  cbn [fst]. intros ->. by destruct (Generator.noKeys f2).
Qed.

Lemma generateFontFaceCSS_world w :
  snd (Generator.generateFontFaceCSS w) = snd (Generator.getEmbeddedFonts w).
Proof.
  unfold Generator.generateFontFaceCSS.
  destruct (Generator.getEmbeddedFonts w) as [f w']. by destruct (Generator.noKeys f).
Qed.

(** Once read, the fonts stay in the module variable. *)
Lemma getEmbeddedFonts_cached w :
  Generator.embeddedFonts (snd (Generator.getEmbeddedFonts w)) =
  Some (fst (Generator.getEmbeddedFonts w)).
Proof.
  unfold Generator.getEmbeddedFonts.
  destruct (Generator.embeddedFonts w) as [f|] eqn:E; [exact E|reflexivity].
Qed.

Lemma generateFontFaceCSS_later w clock' fontFiles' :
  fst (Generator.generateFontFaceCSS
         (Generator.World clock' fontFiles'
            (Generator.embeddedFonts (snd (Generator.generateFontFaceCSS w))))) =
  fst (Generator.generateFontFaceCSS w).
Proof.
  apply generateFontFaceCSS_fonts.
  rewrite generateFontFaceCSS_world, getEmbeddedFonts_cached. reflexivity.
Qed.

Section Generator.
Variable LocalTZA : Z -> Z.
Variable otherFormats : string -> option Z.
Variable barHeightOf : nat -> nat -> Z.

#[local] Abbreviation generateSvg := (Generator.generateSvg LocalTZA otherFormats barHeightOf).

(** With an explicit year, the document depends on the world through the
    font CSS only. *)
Lemma generateSvg_css entries options y w1 w2 :
  Generator.Options.year options = Some y ->
  fst (Generator.generateFontFaceCSS w1) = fst (Generator.generateFontFaceCSS w2) ->
  fst (generateSvg entries options w1) = fst (generateSvg entries options w2).
Proof.
  intros Hy Hcss. unfold Generator.generateSvg. rewrite Hy. cbn [default from_option id].
  destruct (Generator.layout _ _) as [[startDate totalWeeks]|]; [|done].
  destruct (Generator.buildGrid _ _ _); [|done|done|done].
  destruct (Generator.generateFontFaceCSS w1) as [css1 w1'].
  destruct (Generator.generateFontFaceCSS w2) as [css2 w2'].
  cbn [fst] in Hcss. subst css2.
  destruct (Generator.selectTheme _); done.
Qed.

(** What a call leaves behind: the world with the fonts read when the grid
    was built; the world as it was when the call ended before, with an
    outcome that does not depend on the world. *)
Lemma generateSvg_world entries options y :
  Generator.Options.year options = Some y ->
  (forall w, snd (generateSvg entries options w) = snd (Generator.generateFontFaceCSS w)) \/
  (exists r, forall w, generateSvg entries options w = (r, w)).
Proof.
  intros Hy. unfold Generator.generateSvg. rewrite Hy. cbn [default from_option id].
  destruct (Generator.layout _ _) as [[startDate totalWeeks]|]; [|right; by eexists].
  destruct (Generator.buildGrid _ _ _); [|right; by eexists..].
  left. intros w.
  destruct (Generator.generateFontFaceCSS w) as [css w'].
  destruct (Generator.selectTheme _); done.
Qed.

Lemma generateSvg_again entries options y w clock' fontFiles' :
  Generator.Options.year options = Some y ->
  fst (generateSvg entries options
         (Generator.World clock' fontFiles'
            (Generator.embeddedFonts (snd (generateSvg entries options w))))) =
  fst (generateSvg entries options w).
Proof.
  intros Hy.
  destruct (generateSvg_world entries options y Hy) as [H | [r H]].
  - rewrite H. apply (generateSvg_css _ _ y); [done|]. apply generateFontFaceCSS_later.
  - by rewrite !H.
Qed.

End Generator.

(** C7.  With an explicit year in the options, [generateSvg] of
    [src/generator.js] returns the same document when it is called a second
    time on the same entries and options, whatever the clock shows by then
    and whatever has become of the font files, since the fonts are read once;
    two runs that find the same font files return the same document at any
    two times; and [generateSvg] of [standalone.js] returns the same
    document at any two times.  Nothing of the clock gets into the
    document. *)
Theorem generateSvg_deterministic
    (LocalTZA : Z -> Z) (otherFormats : string -> option Z) (barHeightOf : nat -> nat -> Z)
    (entries : list Entry.t) (options : Generator.Options.t) (y : Z)
    (itemsPerDay : gmap string (list DayItem.t)) (options' : Standalone.Options.t) (y' : Z) :
  Generator.Options.year options = Some y ->
  Standalone.Options.year options' = Some y' ->
  (forall w clock' fontFiles',
     fst (Generator.generateSvg LocalTZA otherFormats barHeightOf entries options
            (Generator.World clock' fontFiles'
               (Generator.embeddedFonts
                  (snd (Generator.generateSvg LocalTZA otherFormats barHeightOf
                          entries options w))))) =
     fst (Generator.generateSvg LocalTZA otherFormats barHeightOf entries options w)) /\
  (forall w1 w2,
     Generator.fontFiles w1 = Generator.fontFiles w2 ->
     Generator.embeddedFonts w1 = Generator.embeddedFonts w2 ->
     fst (Generator.generateSvg LocalTZA otherFormats barHeightOf entries options w1) =
     fst (Generator.generateSvg LocalTZA otherFormats barHeightOf entries options w2)) /\
  (forall clock1 clock2,
     Standalone.generateSvg LocalTZA entries itemsPerDay options' clock1 =
     Standalone.generateSvg LocalTZA entries itemsPerDay options' clock2).
Proof.
  intros Hy Hy'. split; [|split].
  - intros w clock' fontFiles'. by apply (generateSvg_again _ _ _ _ _ y).
  - intros w1 w2 Hfiles Hfonts. apply (generateSvg_css _ _ _ _ _ y); [done|].
    apply generateFontFaceCSS_fonts.
    unfold Generator.getEmbeddedFonts, Generator.loadFontsBase64.
    rewrite Hfonts, Hfiles. by destruct (Generator.embeddedFonts w2).
  - intros clock1 clock2. unfold Standalone.generateSvg. by rewrite Hy'.
Qed.

Lemma generateSvg_deterministic_witness :
  fst (Generator.generateSvg JSDate.tzUTC (fun _ => None) (fun _ _ => 0)
         Stats.januaryEntries (Generator.yearOnly 2024)
         (Generator.World 1735689600000 Generator.regularOnly
            (Generator.embeddedFonts
               (snd (Generator.generateSvg JSDate.tzUTC (fun _ => None) (fun _ _ => 0)
                       Stats.januaryEntries (Generator.yearOnly 2024)
                       (Generator.firstStart 1704067200000)))))) =
  fst (Generator.generateSvg JSDate.tzUTC (fun _ => None) (fun _ _ => 0)
         Stats.januaryEntries (Generator.yearOnly 2024)
         (Generator.firstStart 1704067200000)) /\
  Standalone.generateSvg JSDate.tzUTC Stats.januaryEntries ∅ (Standalone.forUser "sean" 2024)
    1704067200000 =
  Standalone.generateSvg JSDate.tzUTC Stats.januaryEntries ∅ (Standalone.forUser "sean" 2024)
    1735689600000.
Proof.
  destruct (generateSvg_deterministic JSDate.tzUTC (fun _ => None) (fun _ _ => 0)
              Stats.januaryEntries (Generator.yearOnly 2024) 2024
              ∅ (Standalone.forUser "sean" 2024) 2024 eq_refl eq_refl) as (H1 & _ & H3).
  split.
  - exact (H1 (Generator.firstStart 1704067200000) 1735689600000 Generator.regularOnly).
  - exact (H3 1704067200000 1735689600000).
Defined.

End RenderClaims.

(** ** Cells outside the year *)

Module ContainsFacts.
Import Template.

Lemma append_assoc (a b c : string) : (a +:+ b) +:+ c = a +:+ (b +:+ c).
Proof.
  induction a as [|x a IH]; [reflexivity|].
  change (String x ((a +:+ b) +:+ c) = String x (a +:+ (b +:+ c))). by rewrite IH.
Qed.

Lemma append_nil_r (a : string) : a +:+ EmptyString = a.
Proof.
  induction a as [|x a IH]; [reflexivity|].
  change (String x (a +:+ EmptyString) = String x a). by rewrite IH.
Qed.

Lemma contains_refl a : contains a a.
Proof. exists EmptyString, EmptyString. by rewrite append_nil_r. Qed.

Lemma contains_trans a b c : contains a b -> contains b c -> contains a c.
Proof.
  intros (p1 & q1 & ->) (p2 & q2 & ->). exists (p1 +:+ p2), (q2 +:+ q1).
  by rewrite !append_assoc.
Qed.

Lemma contains_app_l a b c : contains a c -> contains (a +:+ b) c.
Proof.
  intros (p & q & ->). exists p, (q +:+ b). by rewrite !append_assoc.
Qed.

Lemma contains_app_r a b c : contains b c -> contains (a +:+ b) c.
Proof.
  intros (p & q & ->). exists (a +:+ p), q. by rewrite !append_assoc.
Qed.

Lemma joinAll_contains (l : list string) x : x ∈ l -> contains (joinAll l) x.
Proof.
  induction l as [|y l IH]; [by intros ?%not_elem_of_nil|].
  intros [->|Hin]%elem_of_cons;
    change (joinAll (y :: l)) with (y +:+ joinAll l).
  - apply contains_app_l, contains_refl.
  - by apply contains_app_r, IH.
Qed.

End ContainsFacts.

Module StandaloneFacts.
Import JSDate Template Standalone LayoutFacts ContainsFacts StandaloneGridFacts.
Import StandaloneRangeFacts.

(** What a loop that may throw has appended when it did not throw. *)
Lemma mapM_joinAll_contains {A} (f : A -> option string) (l : list A) :
  Forall (fun x => is_Some (f x)) l ->
  exists s, joinAll <$> mapM f l = Some s /\
            forall x m, x ∈ l -> f x = Some m -> contains s m.
Proof.
  induction l as [|x l IH]; intros Hall.
  - exists EmptyString. split; [reflexivity|]. by intros x m ?%not_elem_of_nil.
  - apply Forall_cons in Hall as [[y Hy] Hall]. destruct (IH Hall) as (s & Hs & Hin).
    destruct (mapM f l) as [k|] eqn:Hk; [|done]. injection Hs as <-.
    exists (y +:+ joinAll k). split.
    + cbn. rewrite Hy. cbn. rewrite Hk. reflexivity.
    + intros x' m [->|Hx']%elem_of_cons Hm.
      * rewrite Hy in Hm. injection Hm as <-. apply contains_app_l, contains_refl.
      * apply contains_app_r. by apply (Hin x').
Qed.

(** What a cell appends starts with its rectangle. *)
Lemma cellMarkup_rect currentTheme year startDate itemsPerDay stats grid day week cellDate :
  cellDateOf startDate day week = Some cellDate ->
  exists rest,
    cellMarkup currentTheme year startDate itemsPerDay stats grid day week =
    Some (cellRect (week * (CELL_SIZE + CELL_MARGIN)) (day * (CELL_SIZE + CELL_MARGIN))
      (color currentTheme
         (colorIntensity
            (default 0%nat (grid !! Z.to_nat day ≫= fun row => row !! Z.to_nat week)) stats))
      (if isOutsideYear year (Some cellDate) then "0" else "1")
      (isoDate cellDate)
      (default 0%nat (grid !! Z.to_nat day ≫= fun row => row !! Z.to_nat week)) +:+ rest).
Proof. intros H. eexists. unfold cellMarkup. rewrite H. reflexivity. Qed.

(** When every cell of the grid is a date the loops append every cell. *)
Lemma cellsMarkup_contains currentTheme year startDate totalWeeks itemsPerDay stats grid :
  (forall day week, 0 <= day < 7 -> 0 <= week < totalWeeks ->
                    is_Some (cellDateOf startDate day week)) ->
  exists cells,
    cellsMarkup currentTheme year startDate totalWeeks itemsPerDay stats grid = Some cells /\
    forall day week m,
      0 <= day < 7 -> 0 <= week < totalWeeks ->
      cellMarkup currentTheme year startDate itemsPerDay stats grid day week = Some m ->
      contains cells m.
Proof.
  intros Hdates. unfold cellsMarkup.
  assert (Hrow : forall day, 0 <= day < 7 ->
            exists s,
              joinAll <$> mapM (fun week =>
                cellMarkup currentTheme year startDate itemsPerDay stats grid day week)
                (seqZ 0 totalWeeks) = Some s /\
              forall week m, 0 <= week < totalWeeks ->
                cellMarkup currentTheme year startDate itemsPerDay stats grid day week = Some m ->
                contains s m).
  { intros day Hd.
    destruct (mapM_joinAll_contains (fun week =>
                cellMarkup currentTheme year startDate itemsPerDay stats grid day week)
                (seqZ 0 totalWeeks)) as (s & Hs & Hin).
    - apply Forall_forall. intros week Hw%elem_of_seqZ.
      destruct (Hdates day week Hd ltac:(lia)) as [c Hc].
      destruct (cellMarkup_rect currentTheme year startDate itemsPerDay stats grid
                  day week c Hc) as [rest ->]. by eexists.
    - exists s. split; [exact Hs|]. intros week m Hw Hm. apply (Hin week); [|done].
      apply elem_of_seqZ. lia. }
  destruct (mapM_joinAll_contains (fun day =>
              joinAll <$> mapM (fun week =>
                cellMarkup currentTheme year startDate itemsPerDay stats grid day week)
                (seqZ 0 totalWeeks)) (seqZ 0 7)) as (cells & Hcells & Hin).
  - apply Forall_forall. intros day Hd%elem_of_seqZ.
    destruct (Hrow day ltac:(lia)) as (s & -> & _). by eexists.
  - exists cells. split; [exact Hcells|]. intros day week m Hd Hw Hm.
    destruct (Hrow day Hd) as (s & Hs & Hs').
    eapply contains_trans.
    + apply (Hin day); [apply elem_of_seqZ; lia | exact Hs].
    + by apply (Hs' week).
Qed.



End StandaloneFacts.

Section OutsideYearClaims.
Import JSDate Template LayoutFacts ContainsFacts StandaloneGridFacts StandaloneFacts.





End OutsideYearClaims.

(* ===================================================================== *)
(** * Further properties of the sources *)
(* ===================================================================== *)

(** ** [src/stats.js]: days active, grouping, and what the streak depends on *)

Module StatsFacts.
Import JSDate JS Stats StringFacts StreakFacts.

Lemma newSet_size (l : list string) :
  length (newSet l) = size (list_to_set l : gset string).
Proof.
  rewrite <- (size_list_to_set (C := gset string) (newSet l)) by apply newSet_NoDup.
  f_equal. apply set_eq. intros x. rewrite !elem_of_list_to_set. apply newSet_elem_of.
Qed.

Section Grouping.
Variable LocalTZA : Z -> Z.

#[local] Abbreviation dayKey := (fun e : Entry.t => getLocalDateString LocalTZA (Entry.date e)).

Lemma groupEntriesByDate_get entries k :
  groupEntriesByDate LocalTZA entries !! k =
  match filter (fun e => dayKey e = k) entries with
  | [] => None
  | e :: l => Some (map itemOf (e :: l))
  end.
Proof.
  unfold groupEntriesByDate.
  induction entries as [|e entries IH] using rev_ind; [done|].
  rewrite foldl_app, filter_app. cbn [foldl].
  set (grouped := foldl _ ∅ entries) in *.
  rewrite filter_cons, filter_nil.
  destruct (decide (dayKey e = k)) as [Hk|Hk].
  - rewrite Hk, lookup_insert_eq, IH.
    destruct (filter _ entries) as [|e' l]; [done|].
    cbn [default from_option id app]. f_equal. symmetry. apply (map_app itemOf (e' :: l) [e]).
  - rewrite lookup_insert_ne by done. rewrite IH, app_nil_r. done.
Qed.

End Grouping.

End StatsFacts.

Section StatsProperties.
Import JSDate JS Stats StringFacts StreakFacts StatsFacts.
Variable LocalTZA : Z -> Z.
Variable otherFormats : string -> option Z.

#[local] Abbreviation dayKey := (fun e : Entry.t => getLocalDateString LocalTZA (Entry.date e)).

(** X1.  [calculateDaysActive] counts every local day once: it is the number of
    distinct local-day strings of the entries, at most the number of
    entries, and 0 only for the empty list. *)
Theorem calculateDaysActive_distinct (entries : list Entry.t) :
  calculateDaysActive LocalTZA entries =
    size (list_to_set (map dayKey entries) : gset string) /\
  (calculateDaysActive LocalTZA entries <= length entries)%nat /\
  (calculateDaysActive LocalTZA entries = 0%nat <-> entries = []).
Proof.
  destruct entries as [|e entries]; [done|].
  unfold calculateDaysActive, uniqueDatesOf. split; [apply newSet_size|]. split.
  - rewrite <- (length_map dayKey (e :: entries)).
    apply submseteq_length, NoDup_submseteq; [apply newSet_NoDup|].
    intros x. by rewrite newSet_elem_of.
  - split; [|done]. intros H0. apply length_zero_iff_nil in H0.
    by apply newSet_nonempty in H0.
Qed.

(** X2.  [groupEntriesByDate(entries).get(k)] is undefined when no entry falls on
    the local day [k]; otherwise it is the list of the items of the entries
    of that day, in the order of the entries. *)
Theorem groupEntriesByDate_lookup (entries : list Entry.t) (k : string) :
  let onDay := filter (fun e => dayKey e = k) entries in
  (onDay = [] -> groupEntriesByDate LocalTZA entries !! k = None) /\
  (onDay <> [] -> groupEntriesByDate LocalTZA entries !! k = Some (map itemOf onDay)).
Proof.
  cbn zeta. rewrite groupEntriesByDate_get.
  destruct (filter _ entries) as [|e l]; split; done.
Qed.

(** X3.  The keys of [groupEntriesByDate(entries)] are the local days of the
    entries, so the map has [calculateDaysActive(entries)] keys. *)
Theorem groupEntriesByDate_days (entries : list Entry.t) :
  dom (groupEntriesByDate LocalTZA entries) = list_to_set (map dayKey entries) /\
  size (groupEntriesByDate LocalTZA entries) = calculateDaysActive LocalTZA entries.
Proof.
  assert (Hdom : dom (groupEntriesByDate LocalTZA entries)
                 = (list_to_set (map dayKey entries) : gset string)).
  { apply set_eq. intros k. rewrite elem_of_dom, elem_of_list_to_set, groupEntriesByDate_get.
    rewrite list_elem_of_In, in_map_iff. split.
    - destruct (filter _ entries) as [|e l] eqn:E; [by intros [? ?]|]. intros _.
      assert (He : e ∈ filter (fun e => dayKey e = k) entries) by (rewrite E; left).
      apply list_elem_of_filter in He as [Hk He]. exists e. by rewrite <- list_elem_of_In.
    - intros (e & Hk & He). apply list_elem_of_In in He.
      assert (He' : e ∈ filter (fun e => dayKey e = k) entries)
        by (by apply list_elem_of_filter).
      destruct (filter _ entries); [by apply not_elem_of_nil in He'|by eexists]. }
  split; [exact Hdom|].
  rewrite <- size_dom, Hdom.
  destruct entries as [|e entries]; [done|].
  unfold calculateDaysActive, uniqueDatesOf. symmetry. apply newSet_size.
Qed.

(** X4.  The streak and the number of active days depend on the set of local
    days only: two entry lists with the same days, in whatever order and
    number, have the same streak. *)
Theorem calculateStreak_days_only (entries1 entries2 : list Entry.t) :
  (forall x, x ∈ map dayKey entries1 <-> x ∈ map dayKey entries2) ->
  calculateStreak LocalTZA otherFormats entries1 =
    calculateStreak LocalTZA otherFormats entries2 /\
  calculateDaysActive LocalTZA entries1 = calculateDaysActive LocalTZA entries2.
Proof.
  intros Hdays.
  assert (HL : sortStrings (uniqueDatesOf LocalTZA entries1)
               = sortStrings (uniqueDatesOf LocalTZA entries2)).
  { apply sorted_elements_eq; try apply sortedDates_sorted; try apply sortedDates_NoDup.
    intros x. unfold uniqueDatesOf. by rewrite !sortStrings_elem_of, !newSet_elem_of. }
  destruct entries1 as [|e1 l1], entries2 as [|e2 l2].
  - done.
  - exfalso. apply (not_elem_of_nil (dayKey e2)), Hdays. simpl. left.
  - exfalso. apply (not_elem_of_nil (dayKey e1)), Hdays. simpl. left.
  - split.
    + unfold calculateStreak. by rewrite HL.
    + unfold calculateDaysActive.
      by rewrite <- (sortStrings_length (uniqueDatesOf _ (e1 :: l1))), HL, sortStrings_length.
Qed.

End StatsProperties.

Lemma calculateStreak_days_only_witness :
  Stats.calculateStreak JSDate.tzUTC (fun _ => None) Stats.januaryEntries =
    Stats.calculateStreak JSDate.tzUTC (fun _ => None)
      (rev Stats.januaryEntries ++ Stats.januaryEntries).
Proof.
  apply (calculateStreak_days_only JSDate.tzUTC (fun _ => None)).
  intros x. rewrite !list_elem_of_In, map_app, map_rev, in_app_iff, <- in_rev. tauto.
Defined.

(** ** [src/fetcher.js]: the selected year, the counters and the errors of
       [processTraktHistory] *)

Module YearCountFacts.
Import Fetcher.

Lemma yearCountGet_cons k0 v0 yc k' :
  yearCountGet ((k0, v0) :: yc) k' =
  if decide (k0 = k') then Some v0 else yearCountGet yc k'.
Proof.
  unfold yearCountGet. cbn [list_find]. cbn [fst].
  destruct (decide (k0 = k')); [done|].
  by destruct (list_find _ yc) as [[i p]|].
Qed.

Lemma yearCountGet_set yc k v k' :
  yearCountGet (yearCountSet yc k v) k' =
  if decide (k = k') then Some v else yearCountGet yc k'.
Proof.
  induction yc as [|[k0 v0] yc IH]; cbn [yearCountSet].
  - rewrite yearCountGet_cons. by destruct (decide (k = k')).
  - case_bool_decide as H0; rewrite !yearCountGet_cons.
    + subst k0. by destruct (decide (k = k')).
    + rewrite IH. destruct (decide (k0 = k')) as [->|]; [|done].
      by rewrite decide_False by congruence.
Qed.

Lemma yearCountSet_keys yc k v :
  map fst (yearCountSet yc k v) =
  if bool_decide (k ∈ map fst yc) then map fst yc else map fst yc ++ [k].
Proof.
  induction yc as [|[k0 v0] yc IH]; [done|]. cbn [yearCountSet map fst].
  destruct (decide (k0 = k)) as [->|Hne].
  - rewrite !bool_decide_eq_true_2; [done|left|done].
  - rewrite (bool_decide_eq_false_2 (k0 = k)) by done. cbn [map fst]. rewrite IH.
    destruct (decide (k ∈ map fst yc)) as [Hin|Hin].
    + rewrite !bool_decide_eq_true_2; [done|by right|done].
    + rewrite !bool_decide_eq_false_2; [done| |done].
      intros [?|?]%elem_of_cons; congruence.
Qed.

Lemma yearCountGet_keys yc k : is_Some (yearCountGet yc k) <-> k ∈ map fst yc.
Proof.
  unfold yearCountGet. rewrite fmap_is_Some. split.
  - intros [[i p] Hf]. apply list_find_Some in Hf as (Hi & Hp & _).
    apply list_elem_of_In, in_map_iff. exists p. split; [done|].
    apply list_elem_of_In. by eapply list_elem_of_lookup_2.
  - intros (p & Hp & Hin)%list_elem_of_In%in_map_iff. apply list_elem_of_In in Hin.
    apply list_find_elem_of with p; done.
Qed.

Section Count.
Variable LocalTZA : Z -> Z.
Variable otherFormats : string -> option Z.

#[local] Abbreviation yearOfItem :=
  (fun item : RawItem.t => yearOf LocalTZA otherFormats (RawItem.watched_at item)).

(** After the first loop [yearCount.get(k)] is the number of records of
    year [k], and undefined when there is none. *)
Lemma countYears_get history k :
  yearCountGet (countYears LocalTZA otherFormats history) k =
  match length (filter (fun item => yearOfItem item = k) history) with
  | O => None
  | S n => Some (S n)
  end.
Proof.
  unfold countYears. induction history as [|item history IH] using rev_ind; [done|].
  rewrite foldl_app, filter_app, length_app. cbn [foldl].
  set (yc := foldl _ [] history) in *.
  rewrite yearCountGet_set, filter_cons, filter_nil.
  destruct (decide (yearOfItem item = k)) as [Hk|Hk].
  - rewrite Hk, IH. cbn [length].
    destruct (length (filter _ history)); simpl; f_equal; lia.
  - rewrite IH. cbn [length]. by rewrite Nat.add_0_r.
Qed.

Lemma countYears_keys_NoDup history :
  NoDup (map fst (countYears LocalTZA otherFormats history)).
Proof.
  unfold countYears. induction history as [|item history IH] using rev_ind;
    [constructor|].
  rewrite foldl_app. cbn [foldl]. rewrite yearCountSet_keys.
  case_bool_decide as Hin; [done|].
  apply NoDup_app. split; [done|]. split; [|apply NoDup_singleton].
  intros x Hx ->%list_elem_of_singleton. done.
Qed.

End Count.

End YearCountFacts.

Module SelectYearFacts.
Import Fetcher YearCountFacts.

Section Best.
Variable cnt : option Z -> option nat.

#[local] Abbreviation step :=
  (fun a b : option Z => if gtCount (cnt a) (cnt b) then a else b).
#[local] Abbreviation c := (fun x : option Z => default 0%nat (cnt x)).

(** The [reduce] keeps a year of greatest count, the last of them. *)
Lemma reduce_best (l : list (option Z)) (a : option Z) :
  (forall b, b ∈ l -> is_Some (cnt b)) ->
  (forall b, b ∈ l -> (c b <= c (foldl step a l))%nat) /\
  (c a <= c (foldl step a l))%nat /\
  ((foldl step a l = a /\ forall b, b ∈ l -> (c b < c a)%nat) \/
   exists l1 l2, l = l1 ++ foldl step a l :: l2 /\
                 forall b, b ∈ l2 -> (c b < c (foldl step a l))%nat).
Proof.
  revert a. induction l as [|b l IH]; intros a Hall.
  - simpl. split; [by intros b ?%not_elem_of_nil|]. split; [done|].
    left. split; [done|]. by intros b ?%not_elem_of_nil.
  - cbn [foldl].
    destruct (IH (step a b)) as (Hmax & Hinit & Hlast).
    { intros x Hx. apply Hall. by right. }
    assert (Hstep : (c a <= c (step a b))%nat /\ (c b <= c (step a b))%nat /\
                    ((step a b = a /\ (c b < c a)%nat) \/ step a b = b)).
    { destruct (Hall b ltac:(left)) as [y Hy]. cbn beta. rewrite Hy.
      destruct (cnt a) as [x|] eqn:Ha; simpl.
      - destruct (Nat.ltb_spec y x); rewrite ?Ha, ?Hy; simpl.
        + split; [done|]. split; [lia|]. left. done.
        + split; [lia|]. split; [done|]. by right.
      - rewrite Hy. simpl. split; [lia|]. split; [done|]. by right. }
    destruct Hstep as (Ha & Hb & Hkeep).
    split; [|split].
    + intros x [->|Hx]%elem_of_cons; [lia|by apply Hmax].
    + lia.
    + destruct Hlast as [[Hr Hlt]|(l1 & l2 & Hl & Hlt)].
      * destruct Hkeep as [[Hk Hltb]|Hk].
        -- left. rewrite Hr, Hk. split; [done|].
           intros x [->|Hx]%elem_of_cons; [done|].
           specialize (Hlt x Hx). by rewrite Hk in Hlt.
        -- right. exists [], l. rewrite Hr, Hk. split; [done|].
           intros x Hx. specialize (Hlt x Hx). by rewrite Hk in Hlt.
      * right. exists (b :: l1), l2. split; [by rewrite Hl at 1|done].
Qed.

End Best.

End SelectYearFacts.

Module ProcessFacts.
Import Fetcher YearCountFacts HistoryErrors.

Section Process.
Variable LocalTZA : Z -> Z.
Variable otherFormats : string -> option Z.

#[local] Abbreviation unreadable := (HistoryErrors.unreadable LocalTZA otherFormats).

Lemma processEntry_cases selectedYear acc item :
  (unreadable selectedYear item /\
   processEntry LocalTZA otherFormats selectedYear acc item = TypeError) \/
  (~ unreadable selectedYear item /\
   processEntry LocalTZA otherFormats selectedYear acc item =
   match normalized LocalTZA otherFormats selectedYear item with
   | Some e =>
       Return (Processed (entries acc ++ [e]) (year acc) (S (totalItemsWatched acc))
                 (if String.eqb (Entry.type e) "movie" then S (moviesCount acc)
                  else moviesCount acc)
                 (if String.eqb (Entry.type e) "movie" then episodesCount acc
                  else S (episodesCount acc)))
   | None => Return acc
   end).
Proof.
  unfold HistoryErrors.unreadable, processEntry, normalized.
  destruct (JS.Date_parse _ _) as [date|]; cbn [mbind option_bind];
    [|right; split; [by intros (? & ? & _)|done]].
  case_bool_decide as Hy;
    [|right; split; [intros (? & [= <-] & ? & _); done|done]].
  destruct (String.eqb_spec (RawItem.type item) "episode") as [He|He].
  - destruct (RawItem.episode item) as [ep|] eqn:Eep;
      [destruct (RawItem.show item) as [sh|] eqn:Esh|].
    + right. split; [|done].
      intros (? & _ & _ & [[_ [?|?]]|[Hm _]]); try done. by rewrite He in Hm.
    + left. split; [|done]. exists date. split; [done|]. split; [done|]. left. auto.
    + left. split; [|done]. exists date. split; [done|]. split; [done|]. left. auto.
  - destruct (String.eqb_spec (RawItem.type item) "movie") as [Hm|Hm].
    + destruct (RawItem.movie item) as [mv|] eqn:Emv.
      * right. split; [|done]. intros (? & _ & _ & [[? _]|[_ ?]]); done.
      * left. split; [|done]. exists date. split; [done|]. split; [done|]. right. auto.
    + right. split; [|done]. intros (? & _ & _ & [[? _]|[? _]]); done.
Qed.

Lemma forEachEntry_TypeError selectedYear history acc :
  forEachEntry LocalTZA otherFormats selectedYear history acc = TypeError <->
  Exists (unreadable selectedYear) history.
Proof.
  revert acc. induction history as [|item history IH]; intros acc.
  - simpl. split; [done|]. by intros ?%Exists_nil.
  - cbn [forEachEntry]. rewrite Exists_cons.
    destruct (processEntry_cases selectedYear acc item) as [[Hu ->]|[Hu ->]].
    + split; [by left|done].
    + destruct (normalized _ _ _ item); rewrite IH; tauto.
Qed.

Lemma forEachEntry_Return selectedYear history acc r :
  forEachEntry LocalTZA otherFormats selectedYear history acc = Return r ->
  entries r = entries acc ++ omap (normalized LocalTZA otherFormats selectedYear) history /\
  year r = year acc /\
  (moviesCount r = moviesCount acc +
     length (filter (fun e => Entry.type e = "movie")
               (omap (normalized LocalTZA otherFormats selectedYear) history)))%nat /\
  (episodesCount r = episodesCount acc +
     length (filter (fun e => Entry.type e = "episode")
               (omap (normalized LocalTZA otherFormats selectedYear) history)))%nat /\
  (totalItemsWatched r = totalItemsWatched acc +
     length (omap (normalized LocalTZA otherFormats selectedYear) history))%nat.
Proof.
  revert acc. induction history as [|item history IH]; intros acc.
  - simpl. intros [= <-]. rewrite app_nil_r. repeat split; lia.
  - cbn [forEachEntry].
    destruct (processEntry_cases selectedYear acc item) as [[Hu ->]|[Hu ->]]; [done|].
    change (omap ?f (item :: history))
      with (match f item with Some y => y :: omap f history | None => omap f history end).
    destruct (normalized _ _ _ item) as [e|] eqn:En; [|apply IH].
    intros Hr. apply IH in Hr as (He & Hy & Hm & Hep & Ht).
    cbn [entries year totalItemsWatched moviesCount episodesCount] in *.
    assert (Hty : Entry.type e = "movie" \/ Entry.type e = "episode").
    { revert En. unfold normalized. destruct (JS.Date_parse _ _); simpl; [|done].
      case_bool_decide; [|done].
      destruct (String.eqb (RawItem.type item) "episode").
      - destruct (RawItem.episode item); simpl; [|done].
        destruct (RawItem.show item); simpl; [|done]. intros [= <-]. auto.
      - destruct (String.eqb (RawItem.type item) "movie"); [|done].
        destruct (RawItem.movie item); simpl; [|done]. intros [= <-]. auto. }
    rewrite He, <- app_assoc. split; [done|]. split; [done|].
    rewrite !filter_cons.
    destruct Hty as [Hty|Hty]; rewrite Hty in *; cbn [String.eqb Ascii.eqb Bool.eqb] in *.
    + rewrite decide_True by done. rewrite decide_False by done.
      cbn [length]. repeat split; lia.
    + rewrite decide_False by done. rewrite decide_True by done.
      cbn [length]. repeat split; lia.
Qed.

End Process.

End ProcessFacts.

Section HistoryProperties.
Import Fetcher YearCountFacts SelectYearFacts ProcessFacts.
Variable LocalTZA : Z -> Z.
Variable otherFormats : string -> option Z.
Variable now : Z.

#[local] Abbreviation yearOfItem :=
  (fun item : RawItem.t => yearOf LocalTZA otherFormats (RawItem.watched_at item)).
#[local] Abbreviation unreadable := (HistoryErrors.unreadable LocalTZA otherFormats).

(** X5.  A target year other than 0 is the selected year.  Without one (or with
    0) the selected year of an empty history is the current year, and
    otherwise a year (possibly [NaN], the year of unparseable dates) with the
    greatest number of records; among several such years it is the one that
    entered [yearCount] last. *)
Theorem selectYear_spec (history : list RawItem.t) (targetYear : option Z) :
  let yearCount := countYears LocalTZA otherFormats history in
  let n k := length (filter (fun item => yearOfItem item = k) history) in
  let selected := selectYear LocalTZA now targetYear yearCount in
  (forall y, targetYear = Some y -> y <> 0 -> selected = Some y) /\
  (targetYear = None \/ targetYear = Some 0 ->
   (history = [] -> selected = Some (JSDate.getFullYear LocalTZA now)) /\
   (history <> [] ->
    (0 < n selected)%nat /\ (forall k, (n k <= n selected)%nat) /\
    exists l1 l2, map fst yearCount = l1 ++ selected :: l2 /\
                  forall k, k ∈ l2 -> (n k < n selected)%nat)).
Proof.
  cbn zeta. split.
  - intros y -> Hy. unfold selectYear. destruct (Z.eqb_spec y 0); done.
  - intros Hnone.
    assert (Hsel : selectYear LocalTZA now targetYear (countYears LocalTZA otherFormats history)
                   = mostActiveYear LocalTZA now (countYears LocalTZA otherFormats history)).
    { by destruct Hnone as [->| ->]. }
    rewrite Hsel. clear Hsel Hnone. split; [by intros ->|]. intros Hne.
    set (yc := countYears LocalTZA otherFormats history).
    assert (Hc : forall k, default 0%nat (yearCountGet yc k)
                           = length (filter (fun item => yearOfItem item = k) history)).
    { intros k. unfold yc. rewrite countYears_get. by destruct (length _). }
    unfold mostActiveYear.
    destruct (reduce_best (yearCountGet yc) (map fst yc)
                (Some (JSDate.getFullYear LocalTZA now))) as (Hmax & _ & Hlast).
    { intros b Hb. by apply yearCountGet_keys. }
    set (r := foldl _ _ (map fst yc)) in *.
    assert (Hpos : (0 < length (filter (fun item => yearOfItem item = r) history))%nat).
    { destruct history as [|item history']; [done|].
      assert (Hk : yearOfItem item ∈ map fst yc).
      { apply yearCountGet_keys. unfold yc. rewrite countYears_get, filter_cons.
        rewrite decide_True by done. by eexists. }
      specialize (Hmax _ Hk). rewrite !Hc in Hmax.
      rewrite filter_cons, decide_True in Hmax by done. simpl in Hmax. lia. }
    assert (Hkey : r ∈ map fst yc).
    { apply yearCountGet_keys. unfold yc. rewrite countYears_get.
      destruct (length _); [lia|by eexists]. }
    split; [done|]. split.
    + intros k. destruct (decide (k ∈ map fst yc)) as [Hk|Hk].
      * specialize (Hmax _ Hk). by rewrite !Hc in Hmax.
      * assert (Hz : yearCountGet yc k = None).
        { apply eq_None_not_Some. by rewrite yearCountGet_keys. }
        pose proof (Hc k) as Hck. rewrite Hz in Hck. simpl in Hck. lia.
    + destruct Hlast as [[_ Hlt]|(l1 & l2 & Hl & Hlt)].
      * exfalso. specialize (Hlt r Hkey).
        assert (r = Some (JSDate.getFullYear LocalTZA now)) as Hr; [|rewrite Hr in Hlt; lia].
        destruct (reduce_best (yearCountGet yc) (map fst yc)
                    (Some (JSDate.getFullYear LocalTZA now)))
          as (_ & Hinit & _); [intros b Hb; by apply yearCountGet_keys|].
        fold r in Hinit. cbn beta in *. lia.
      * exists l1, l2. split; [done|]. intros k Hk. specialize (Hlt k Hk).
        by rewrite !Hc in Hlt.
Qed.

(** X6.  When [processTraktHistory] returns, [moviesCount] and [episodesCount]
    are the numbers of returned entries of type ['movie'] and ['episode'],
    and [totalItemsWatched] is their sum, the number of entries. *)
Theorem processTraktHistory_counters (history : list RawItem.t) (targetYear : option Z)
    (r : processed) :
  processTraktHistory LocalTZA otherFormats now history targetYear = Return r ->
  year r = selectYear LocalTZA now targetYear (countYears LocalTZA otherFormats history) /\
  entries r = omap (normalized LocalTZA otherFormats (year r)) history /\
  moviesCount r = length (filter (fun e => Entry.type e = "movie") (entries r)) /\
  episodesCount r = length (filter (fun e => Entry.type e = "episode") (entries r)) /\
  totalItemsWatched r = length (entries r) /\
  totalItemsWatched r = (moviesCount r + episodesCount r)%nat.
Proof.
  unfold processTraktHistory. cbv zeta. intros Hr.
  apply forEachEntry_Return in Hr as (He & Hy & Hm & Hep & Ht).
  cbn [entries year totalItemsWatched moviesCount episodesCount app] in *.
  rewrite Hy. split; [done|]. rewrite He, Hm, Hep, Ht. split; [done|].
  split; [done|]. split; [done|]. split; [done|].
  set (l := omap _ history).
  assert (Hty : Forall (fun e => Entry.type e = "movie" \/ Entry.type e = "episode") l).
  { apply Forall_forall. intros e (item & _ & Hn)%list_elem_of_omap.
    revert Hn. unfold normalized. destruct (JS.Date_parse _ _); simpl; [|done].
    case_bool_decide; [|done].
    destruct (String.eqb (RawItem.type item) "episode").
    - destruct (RawItem.episode item); simpl; [|done].
      destruct (RawItem.show item); simpl; [|done]. intros [= <-]. auto.
    - destruct (String.eqb (RawItem.type item) "movie"); [|done].
      destruct (RawItem.movie item); simpl; [|done]. intros [= <-]. auto. }
  induction Hty as [|e l' [Hty|Hty] _ IH]; [done|..];
    rewrite !filter_cons, Hty; cbn [length].
  - rewrite decide_True by done. rewrite decide_False by done. cbn [length]. lia.
  - rewrite decide_False by done. rewrite decide_True by done. cbn [length]. lia.
Qed.

(** X7.  [processTraktHistory] throws exactly when the history holds a record of
    the selected year whose type is ['episode'] or ['movie'] and which
    lacks the nested object that the type names; otherwise it returns. *)
Theorem processTraktHistory_throws (history : list RawItem.t) (targetYear : option Z) :
  let selected :=
    selectYear LocalTZA now targetYear (countYears LocalTZA otherFormats history) in
  (processTraktHistory LocalTZA otherFormats now history targetYear = TypeError <->
   Exists (unreadable selected) history) /\
  ((exists r, processTraktHistory LocalTZA otherFormats now history targetYear = Return r) <->
   Forall (fun item => ~ unreadable selected item) history).
Proof.
  cbn zeta. unfold processTraktHistory. cbv zeta.
  set (selected := selectYear _ _ _ _).
  pose proof (forEachEntry_TypeError LocalTZA otherFormats selected history
                (Processed [] selected 0 0 0)) as Hthrow.
  split; [exact Hthrow|].
  destruct (forEachEntry _ _ _ _ _) as [r|] eqn:E.
  - split; [intros _|intros _; by eexists].
    apply Forall_forall. intros item Hin Hu.
    assert (Hex : Exists (unreadable selected) history) by (apply Exists_exists; eauto).
    by apply Hthrow in Hex.
  - split; [by intros [r ?]|]. intros Hall. exfalso.
    destruct Hthrow as [Hthrow _]. specialize (Hthrow eq_refl).
    apply Exists_exists in Hthrow as (item & Hin & Hu).
    rewrite Forall_forall in Hall. by apply (Hall item).
Qed.

End HistoryProperties.

Lemma processTraktHistory_counters_witness :
  exists r,
    Fetcher.processTraktHistory JSDate.tzUTC Fetcher.parseMarch1st 0
      [RawItem.Build Fetcher.march1st2024 "movie" None None
         (Some (RawMovie.Build "Dune" (Some 2021) None));
       RawItem.Build Fetcher.march1st2024 "person" None None None]
      None = Fetcher.Return r /\
    Fetcher.totalItemsWatched r = (Fetcher.moviesCount r + Fetcher.episodesCount r)%nat.
Proof.
  destruct (Fetcher.processTraktHistory JSDate.tzUTC Fetcher.parseMarch1st 0
      [RawItem.Build Fetcher.march1st2024 "movie" None None
         (Some (RawMovie.Build "Dune" (Some 2021) None));
       RawItem.Build Fetcher.march1st2024 "person" None None None]
      None) as [r|] eqn:E; [|vm_compute in E; discriminate].
  exists r. split; [reflexivity|].
  destruct (processTraktHistory_counters JSDate.tzUTC Fetcher.parseMarch1st 0 _ _ r E)
    as (_ & _ & _ & _ & _ & H).
  exact H.
Defined.

(** ** The pagination loop *)

Module PagingFacts.
Import Paging.

Section Paging.
Variable LocalTZA : Z -> Z.
Variable otherFormats : string -> option Z.
Variable server : Z -> response.
Variable targetYear : option Z.

#[local] Abbreviation fetchLoop := (Paging.fetchLoop LocalTZA otherFormats server targetYear).
#[local] Abbreviation continues := (Paging.continues LocalTZA otherFormats server targetYear).
#[local] Abbreviation includedLast :=
  (Paging.includedLast LocalTZA otherFormats server targetYear).
#[local] Abbreviation dataOf := (Paging.dataOf server).

(** The pages [page], ..., [page + n - 1], in order. *)
Lemma pages_snoc page (n : nat) :
  concat (map dataOf (seqZ page (Z.of_nat (S n)))) =
  concat (map dataOf (seqZ page (Z.of_nat n))) ++ dataOf (page + Z.of_nat n).
Proof.
  replace (Z.of_nat (S n)) with (Z.of_nat n + 1) by lia.
  rewrite seqZ_app by lia. rewrite map_app, concat_app.
  rewrite (seqZ_cons (page + Z.of_nat n) 1) by lia.
  rewrite (seqZ_nil _ (Z.pred 1)) by lia.
  simpl. by rewrite app_nil_r.
Qed.

Lemma pages_cons page (n : nat) :
  concat (map dataOf (seqZ page (Z.of_nat (S n)))) =
  dataOf page ++ concat (map dataOf (seqZ (page + 1) (Z.of_nat n))).
Proof.
  replace (Z.of_nat (S n)) with (Z.succ (Z.of_nat n)) by lia.
  rewrite seqZ_cons by lia. simpl. by rewrite Z.pred_succ.
Qed.

Lemma server_Failed page :
  server page = Failed ->
  ~ continues page /\ ~ includedLast page /\ dataOf page = [].
Proof.
  intros Es. unfold Paging.continues, Paging.includedLast, Paging.dataOf. rewrite Es. tauto.
Qed.

Lemma server_Page page data pageCount :
  server page = Page data pageCount ->
  dataOf page = data /\
  (continues page <->
   allBefore LocalTZA otherFormats targetYear data = false /\
   lastPage page data pageCount = false) /\
  (includedLast page <->
   allBefore LocalTZA otherFormats targetYear data = false /\
   lastPage page data pageCount = true).
Proof.
  intros Es. unfold Paging.continues, Paging.includedLast, Paging.dataOf. rewrite Es. tauto.
Qed.

(** The loop ends after [n] pages that continue and one that does not; the
    result is what it had, the records of those [n] pages and, unless the
    loop ended on a failure or on a page of older records only, those of the
    last page. *)
Lemma fetchLoop_Some fuel page allHistory result :
  fetchLoop fuel page allHistory = Some result <->
  exists n : nat,
    (n < fuel)%nat /\
    (forall i : nat, (i < n)%nat -> continues (page + Z.of_nat i)) /\
    ~ continues (page + Z.of_nat n) /\
    result = allHistory ++ concat (map dataOf (seqZ page (Z.of_nat n))) ++
             (if decide (includedLast (page + Z.of_nat n))
              then dataOf (page + Z.of_nat n) else []).
Proof.
  revert page allHistory. induction fuel as [|fuel IH]; intros page allHistory.
  - simpl. split; [done|]. intros (n & ? & _). lia.
  - cbn [Paging.fetchLoop]. split.
    + destruct (server page) as [|data pageCount] eqn:Es.
      { destruct (server_Failed page Es) as (Hc & Hi & Hd).
        intros [= <-]. exists 0%nat. rewrite Z.add_0_r.
        split; [lia|]. split; [intros; lia|]. split; [done|].
        rewrite decide_False by done. simpl. by rewrite app_nil_r. }
      destruct (server_Page page data pageCount Es) as (Hd & Hc & Hi).
      destruct (allBefore _ _ _ data) eqn:Eb.
      { intros [= <-]. exists 0%nat. rewrite Z.add_0_r.
        split; [lia|]. split; [intros; lia|]. split; [rewrite Hc; intros [? _]; congruence|].
        rewrite decide_False by (rewrite Hi; intros [? _]; congruence).
        simpl. by rewrite app_nil_r. }
      destruct (lastPage page data pageCount) eqn:El.
      { intros [= <-]. exists 0%nat. rewrite Z.add_0_r.
        split; [lia|]. split; [intros; lia|]. split; [rewrite Hc; intros [_ ?]; congruence|].
        rewrite decide_True by (by rewrite Hi). by rewrite Hd. }
      intros (n & Hn & Hcont & Hstop & ->)%IH. exists (S n).
      split; [lia|]. split; [|split].
      * intros [|i] Hi'.
        -- rewrite Z.add_0_r. by apply Hc.
        -- replace (page + Z.of_nat (S i)) with (page + 1 + Z.of_nat i) by lia.
           apply Hcont. lia.
      * by replace (page + Z.of_nat (S n)) with (page + 1 + Z.of_nat n) by lia.
      * replace (page + Z.of_nat (S n)) with (page + 1 + Z.of_nat n) by lia.
        rewrite pages_cons, Hd. by rewrite <- !app_assoc.
    + intros ([|n] & Hn & Hcont & Hstop & ->).
      * rewrite Z.add_0_r in *. simpl.
        destruct (server page) as [|data pageCount] eqn:Es.
        { destruct (server_Failed page Es) as (Hc & Hi & Hd).
          rewrite decide_False by done. by rewrite !app_nil_r. }
        destruct (server_Page page data pageCount Es) as (Hd & Hc & Hi).
        destruct (allBefore _ _ _ data) eqn:Eb.
        { rewrite decide_False by (rewrite Hi; intros [? _]; congruence).
          by rewrite !app_nil_r. }
        destruct (lastPage page data pageCount) eqn:El; [|exfalso; apply Hstop, Hc; done].
        rewrite decide_True by (by rewrite Hi). by rewrite Hd.
      * pose proof (Hcont 0%nat ltac:(lia)) as H0. rewrite Z.add_0_r in H0.
        destruct (server page) as [|data pageCount] eqn:Es;
          [by apply (server_Failed page Es) in H0|].
        destruct (server_Page page data pageCount Es) as (Hd & Hc & Hi).
        destruct (proj1 Hc H0) as [Eb El]. rewrite Eb, El. apply IH. exists n.
        split; [lia|]. split; [|split].
        -- intros i Hi'. specialize (Hcont (S i) ltac:(lia)).
           by replace (page + Z.of_nat (S i)) with (page + 1 + Z.of_nat i) in Hcont by lia.
        -- by replace (page + Z.of_nat (S n)) with (page + 1 + Z.of_nat n) in Hstop by lia.
        -- replace (page + Z.of_nat (S n)) with (page + 1 + Z.of_nat n) by lia.
           rewrite pages_cons, Hd. by rewrite <- !app_assoc.
Qed.

End Paging.

End PagingFacts.

Section PagingProperties.
Import Paging PagingFacts.
Variable LocalTZA : Z -> Z.
Variable otherFormats : string -> option Z.
Variable server : Z -> response.
Variable targetYear : option Z.

#[local] Abbreviation fetchTraktHistory :=
  (Paging.fetchTraktHistory LocalTZA otherFormats server targetYear).
#[local] Abbreviation continues := (Paging.continues LocalTZA otherFormats server targetYear).
#[local] Abbreviation includedLast :=
  (Paging.includedLast LocalTZA otherFormats server targetYear).
#[local] Abbreviation allBefore := (Paging.allBefore LocalTZA otherFormats targetYear).
#[local] Abbreviation dataOf := (Paging.dataOf server).

Lemma least_stop (P : nat -> Prop) `{!forall n, Decision (P n)} (m : nat) :
  ~ P m -> exists n, (n <= m)%nat /\ ~ P n /\ forall i, (i < n)%nat -> P i.
Proof.
  induction m as [m IH] using lt_wf_ind. intros Hm.
  destruct (decide (Forall P (seq 0 m))) as [Hall|Hex].
  - exists m. split; [lia|]. split; [done|]. intros i Hi.
    rewrite Forall_forall in Hall. apply Hall, elem_of_seq. lia.
  - apply not_Forall_Exists in Hex; [|apply _].
    apply Exists_exists in Hex as (i & [_ Hi]%elem_of_seq & Hn).
    destruct (IH i ltac:(lia) Hn) as (n & ? & ? & ?). exists n. split; [lia|done].
Qed.

Lemma continues_Page page :
  continues page -> exists data pageCount, server page = Page data pageCount.
Proof.
  unfold Paging.continues. destruct (server page) as [|data pageCount]; [done|]. eauto.
Qed.

Lemma includedLast_Page page :
  includedLast page -> exists data pageCount, server page = Page data pageCount.
Proof.
  unfold Paging.includedLast. destruct (server page) as [|data pageCount]; [done|]. eauto.
Qed.

(** X8.  Whatever the server answers, a result of [fetchTraktHistory] is the
    records of the pages 1, ..., k in page order, for some k that is at most
    the number of requests made; each of these pages was delivered, and a
    failed request only cuts the history short, it is not reported to the
    caller. *)
Theorem fetchTraktHistory_prefix (fuel : nat) (result : list RawItem.t) :
  fetchTraktHistory fuel = Some result ->
  exists k : nat,
    (k <= fuel)%nat /\
    result = concat (map dataOf (seqZ 1 (Z.of_nat k))) /\
    forall page, 1 <= page <= Z.of_nat k ->
      exists data pageCount, server page = Page data pageCount.
Proof.
  intros (n & Hn & Hcont & Hstop & ->)%fetchLoop_Some.
  destruct (decide (includedLast (1 + Z.of_nat n))) as [Hi|Hi].
  - exists (S n). split; [lia|]. split; [by rewrite pages_snoc|].
    intros page Hp. destruct (decide (page = 1 + Z.of_nat n)) as [->|Hne].
    + by apply includedLast_Page.
    + apply continues_Page. replace page with (1 + Z.of_nat (Z.to_nat (page - 1))) by lia.
      apply Hcont. lia.
  - exists n. split; [lia|]. split; [by rewrite app_nil_r|].
    intros page Hp. apply continues_Page.
    replace page with (1 + Z.of_nat (Z.to_nat (page - 1))) by lia. apply Hcont. lia.
Qed.

(** X9.  When the server has [n] pages, announces that count with each of them,
    sends no empty page before the last and no page that the target year
    ends the loop on, then [fetchTraktHistory] returns the records of all [n]
    pages in order, after [n] requests. *)
Theorem fetchTraktHistory_complete (n fuel : nat) :
  (1 <= n <= fuel)%nat ->
  (forall page, 1 <= page <= Z.of_nat n ->
     exists data, server page = Page data (Some (Z.of_nat n)) /\
                  allBefore data = false /\
                  (page < Z.of_nat n -> data <> [])) ->
  fetchTraktHistory fuel = Some (concat (map dataOf (seqZ 1 (Z.of_nat n)))).
Proof.
  intros Hn Hpages. apply fetchLoop_Some. destruct n as [|n]; [lia|]. exists n.
  split; [lia|]. split; [|split].
  - intros i Hi. destruct (Hpages (1 + Z.of_nat i) ltac:(lia)) as (data & Es & Eb & Hne).
    apply (server_Page LocalTZA otherFormats server targetYear _ _ _ Es). split; [done|]. unfold lastPage.
    apply orb_false_intro; [apply Z.leb_gt; lia|].
    destruct data; [by destruct Hne; [lia|]|done].
  - destruct (Hpages (1 + Z.of_nat n) ltac:(lia)) as (data & Es & Eb & Hne).
    rewrite (proj1 (proj2 (server_Page LocalTZA otherFormats server targetYear _ _ _ Es))). intros [_ El].
    unfold lastPage in El. apply orb_false_elim in El as [El _]. apply Z.leb_gt in El. lia.
  - destruct (Hpages (1 + Z.of_nat n) ltac:(lia)) as (data & Es & Eb & Hne).
    rewrite decide_True.
    + by rewrite pages_snoc.
    + apply (server_Page LocalTZA otherFormats server targetYear _ _ _ Es). split; [done|]. unfold lastPage.
      apply orb_true_intro. left. apply Z.leb_le. lia.
Qed.

(** X10.  With a target year, the loop ends at the first page all of whose
    records are dated before that year: the result is the records of the
    pages before it, and neither that page nor any later one contributes,
    whatever they hold. *)
Theorem fetchTraktHistory_older_page (y : Z) (n fuel : nat) data pageCount :
  targetYear = Some y -> y <> 0 ->
  (n < fuel)%nat ->
  (forall page, 1 <= page <= Z.of_nat n -> continues page) ->
  server (1 + Z.of_nat n) = Page data pageCount ->
  Forall (fun item => exists entryYear,
            Fetcher.yearOf LocalTZA otherFormats (RawItem.watched_at item) = Some entryYear /\
            entryYear < y) data ->
  fetchTraktHistory fuel = Some (concat (map dataOf (seqZ 1 (Z.of_nat n)))).
Proof.
  intros Ey Hy Hn Hcont Es Hold.
  assert (Eb : allBefore data = true).
  { unfold Paging.allBefore. rewrite Ey. destruct (Z.eqb_spec y 0) as [|_]; [done|].
    apply forallb_forall. intros item Hin. rewrite Forall_forall in Hold.
    destruct (Hold item) as (entryYear & Eyr & Hlt); [by apply list_elem_of_In|].
    unfold before. rewrite Eyr. by apply Z.ltb_lt. }
  destruct (server_Page LocalTZA otherFormats server targetYear _ _ _ Es) as (Hd & Hc & Hi).
  apply fetchLoop_Some. exists n. split; [done|]. split; [|split].
  - intros i Hi'. apply Hcont. lia.
  - rewrite Hc. intros [? _]. congruence.
  - rewrite decide_False by (rewrite Hi; intros [? _]; congruence). by rewrite app_nil_r.
Qed.

(** X11.  The loop of [fetchTraktHistory] comes to an end exactly when some
    page does not let it continue: the request fails, the page holds only
    records older than the target year, its number has reached the announced
    page count, or it is empty.  When the page count is missing and no page
    is empty, it asks for pages for ever. *)
Theorem fetchTraktHistory_terminates :
  (exists fuel result, fetchTraktHistory fuel = Some result) <->
  (exists page, 1 <= page /\
     match server page with
     | Failed => True
     | Page data pageCount =>
         allBefore data = true \/
         match pageCount with Some count => count <= page | None => False end \/
         data = []
     end).
Proof.
  assert (Hstop : forall page,
    ~ continues page <->
    match server page with
    | Failed => True
    | Page data pageCount =>
        allBefore data = true \/
        match pageCount with Some count => count <= page | None => False end \/
        data = []
    end).
  { intros page. unfold Paging.continues.
    destruct (server page) as [|data pageCount]; [tauto|].
    unfold lastPage. destruct (allBefore data); [intuition congruence|].
    destruct pageCount as [count|]; simpl.
    - destruct (Z.leb_spec count page); simpl; [intuition (auto; lia)|].
      destruct data; simpl; intuition (try congruence; try lia).
    - destruct data; simpl; intuition congruence. }
  split.
  - intros (fuel & result & (n & _ & _ & Hn & _)%fetchLoop_Some).
    exists (1 + Z.of_nat n). split; [lia|]. by apply Hstop.
  - intros (page & Hp & Hn%Hstop).
    destruct (least_stop (fun i => continues (1 + Z.of_nat i)) (Z.to_nat (page - 1)))
      as (n & _ & Hn' & Hcont).
    { by replace (1 + Z.of_nat (Z.to_nat (page - 1))) with page by lia. }
    exists (S n), (concat (map dataOf (seqZ 1 (Z.of_nat n))) ++
                   (if decide (includedLast (1 + Z.of_nat n))
                    then dataOf (1 + Z.of_nat n) else [])).
    apply fetchLoop_Some. exists n. split; [lia|]. done.
Qed.

End PagingProperties.

Lemma fetchTraktHistory_prefix_witness :
  exists k : nat,
    (k <= 5)%nat /\
    [Paging.watchedOn "2024-03-01"; Paging.watchedOn "2024-01-15";
     Paging.watchedOn "2023-12-31"] =
      concat (map (Paging.dataOf Paging.twoPages) (seqZ 1 (Z.of_nat k))) /\
    forall page, 1 <= page <= Z.of_nat k ->
      exists data pageCount, Paging.twoPages page = Paging.Page data pageCount.
Proof.
  assert (E : Paging.fetchTraktHistory JSDate.tzUTC Paging.noOtherFormats
                Paging.twoPages None 5 =
              Some [Paging.watchedOn "2024-03-01"; Paging.watchedOn "2024-01-15";
                    Paging.watchedOn "2023-12-31"]) by (vm_compute; reflexivity).
  exact (fetchTraktHistory_prefix JSDate.tzUTC Paging.noOtherFormats
           Paging.twoPages None 5 _ E).
Defined.

Lemma fetchTraktHistory_complete_witness :
  Paging.fetchTraktHistory JSDate.tzUTC Paging.noOtherFormats Paging.twoPages None 2 =
  Some (concat (map (Paging.dataOf Paging.twoPages) (seqZ 1 (Z.of_nat 2)))).
Proof.
  apply (fetchTraktHistory_complete JSDate.tzUTC Paging.noOtherFormats
           Paging.twoPages None 2 2).
  - lia.
  - intros page Hp. assert (page = 1 \/ page = 2) as [->| ->] by lia.
    + eexists. split; [reflexivity|]. split; [reflexivity|]. discriminate.
    + eexists. split; [reflexivity|]. split; [reflexivity|]. lia.
Defined.

Lemma fetchTraktHistory_older_page_witness :
  Paging.fetchTraktHistory JSDate.tzUTC Paging.noOtherFormats Paging.twoPages
    (Some 2024) 2 =
  Some (concat (map (Paging.dataOf Paging.twoPages) (seqZ 1 (Z.of_nat 1)))).
Proof.
  apply (fetchTraktHistory_older_page JSDate.tzUTC Paging.noOtherFormats
           Paging.twoPages (Some 2024) 2024 1 2
           [Paging.watchedOn "2023-12-31"] (Some 2)).
  - reflexivity.
  - lia.
  - lia.
  - intros page Hp. assert (page = 1) as -> by lia. vm_compute. split; reflexivity.
  - reflexivity.
  - constructor; [|constructor]. exists 2023. split; [vm_compute; reflexivity|lia].
Defined.

(** ** The cells of the grid and the days of the year *)

Module CellFacts.
Import JSDate JSDateFacts LayoutFacts Generator GridRead Calendar CalendarRead.

Lemma startDate_day year weekStart :
  startDate year weekStart = (firstDay year - dayShift year weekStart) * msPerDay.
Proof. rewrite startDate_eq, jan1_eq. lia. Qed.

Lemma cellDateOf_eq year weekStart day week :
  cellDateOf year weekStart day week =
  (firstDay year - dayShift year weekStart + week * 7 + day) * msPerDay.
Proof.
  unfold cellDateOf. cbn zeta. rewrite withUTCDate_shift, startDate_day. lia.
Qed.

(** The first column starts on the first day of the week. *)
Lemma startDate_weekday year weekStart :
  (firstDay year - dayShift year weekStart + 4) mod 7 =
  if String.eqb weekStart "monday" then 1 else 0.
Proof.
  rewrite dayShift_eq. unfold startDay, getUTCDay, WeekDay. rewrite jan1_eq, Day_mul.
  destruct (String.eqb weekStart "monday"); Z.div_mod_to_equations; lia.
Qed.

Lemma dayIndex_eq weekStart t :
  dayIndex weekStart t =
  (Day t + 4 - (if String.eqb weekStart "monday" then 1 else 0)) mod 7.
Proof.
  unfold dayIndex, getUTCDay. pose proof (WeekDay_range t) as H. unfold WeekDay in *.
  destruct (String.eqb weekStart "monday").
  - rewrite rem_mod_nonneg by lia. Z.div_mod_to_equations; lia.
  - Z.div_mod_to_equations; lia.
Qed.

Lemma daysSinceStart_eq year weekStart t :
  daysSinceStart year weekStart t = Day t - (firstDay year - dayShift year weekStart).
Proof.
  unfold daysSinceStart, JS.floorDiv, getTime. rewrite startDate_day.
  change (1000 * 60 * 60 * 24) with msPerDay. unfold Day, msPerDay.
  Z.div_mod_to_equations; lia.
Qed.

(** Row and column of a time value are the remainder and the quotient of
    its distance in days from the first cell. *)
Lemma position_eq year weekStart t :
  weekIndex year weekStart t * 7 + dayIndex weekStart t =
  Day t - (firstDay year - dayShift year weekStart).
Proof.
  unfold weekIndex, JS.floorDiv. rewrite daysSinceStart_eq, dayIndex_eq.
  pose proof (startDate_weekday year weekStart) as Hw.
  destruct (String.eqb weekStart "monday"); Z.div_mod_to_equations; lia.
Qed.

Lemma position_unique year weekStart t day week :
  0 <= day < 7 ->
  (week * 7 + day = Day t - (firstDay year - dayShift year weekStart) <->
   day = dayIndex weekStart t /\ week = weekIndex year weekStart t).
Proof.
  intros Hd. pose proof (position_eq year weekStart t) as Hp.
  pose proof (dayIndex_range weekStart t) as Hr. lia.
Qed.

Lemma cellDateOf_position year weekStart t day week :
  0 <= day < 7 ->
  (cellDateOf year weekStart day week = utcMidnight t <->
   day = dayIndex weekStart t /\ week = weekIndex year weekStart t).
Proof.
  intros Hd. rewrite <- position_unique by done. rewrite cellDateOf_eq.
  unfold utcMidnight, msPerDay. lia.
Qed.

End CellFacts.

Module GridCellFacts.
Import JSDate JSDateFacts LayoutFacts Generator GridRead Calendar CalendarRead CellFacts.

Lemma cellAt_Some grid day week c :
  cellAt grid day week = Some c -> 0 <= day /\ 0 <= week.
Proof.
  unfold cellAt. destruct (0 <=? day) eqn:E1; [|done]. destruct (0 <=? week) eqn:E2; [|done].
  intros _. split; by apply Z.leb_le.
Qed.

Lemma cellAt_range grid day week :
  0 <= day -> 0 <= week ->
  cellAt grid day week = grid !! Z.to_nat day ≫= (fun row => row !! Z.to_nat week).
Proof.
  intros Hd Hw. unfold cellAt.
  by rewrite (proj2 (Z.leb_le 0 day) Hd), (proj2 (Z.leb_le 0 week) Hw).
Qed.

(** Writing one cell changes that cell only. *)
Lemma cellAt_bump grid d w row c x day week :
  0 <= d -> 0 <= w ->
  grid !! Z.to_nat d = Some row -> row !! Z.to_nat w = Some c ->
  cellAt (<[Z.to_nat d := <[Z.to_nat w := x]> row]> grid) day week =
  if decide (day = d /\ week = w) then Some x else cellAt grid day week.
Proof.
  intros Hd Hw Hrow Hc. unfold cellAt.
  destruct (0 <=? day) eqn:E1; [apply Z.leb_le in E1|apply Z.leb_gt in E1];
    [|rewrite decide_False by lia; done].
  destruct (0 <=? week) eqn:E2; [apply Z.leb_le in E2|apply Z.leb_gt in E2];
    [|rewrite decide_False by lia; done].
  cbn [andb].
  destruct (decide (day = d)) as [->|Hne].
  - rewrite list_lookup_insert_eq by (by eapply lookup_lt_Some).
    cbn [mbind option_bind]. rewrite Hrow. cbn [mbind option_bind].
    destruct (decide (week = w)) as [->|Hnw].
    + rewrite decide_True by done. apply list_lookup_insert_eq. by eapply lookup_lt_Some.
    + rewrite decide_False by lia. apply list_lookup_insert_ne. lia.
  - rewrite decide_False by lia. rewrite list_lookup_insert_ne by lia. done.
Qed.

Lemma cellAt_shape weeks grid day week :
  gridShape weeks grid -> 0 <= day < 7 -> 0 <= week < weeks ->
  exists row c, grid !! Z.to_nat day = Some row /\ row !! Z.to_nat week = Some c /\
                cellAt grid day week = Some c.
Proof.
  intros [Hlen Hrows] Hd Hw.
  destruct (lookup_lt_is_Some_2 grid (Z.to_nat day)) as [row Hrow]; [lia|].
  pose proof (proj1 (Forall_lookup _ _) Hrows _ _ Hrow) as Hrl. cbn beta in Hrl.
  destruct (lookup_lt_is_Some_2 row (Z.to_nat week)) as [c Hc]; [lia|].
  exists row, c. split; [done|]. split; [done|].
  rewrite cellAt_range by lia. by rewrite Hrow.
Qed.

Lemma cellAt_emptyGrid year weekStart day week c :
  cellAt (emptyGrid year weekStart) day week = Some c -> c = 0%nat.
Proof.
  intros H. pose proof (cellAt_Some _ _ _ _ H) as [Hd Hw].
  rewrite cellAt_range in H by done. unfold emptyGrid in H.
  destruct (replicate 7 _ !! Z.to_nat day) as [row|] eqn:Hrow; [|done].
  apply lookup_replicate in Hrow as [-> _]. cbn [mbind option_bind] in H.
  by apply lookup_replicate in H as [-> _].
Qed.

Lemma place_cells year weekStart grid maxCount e :
  gridShape (totalWeeks year weekStart) grid -> maxInv grid maxCount ->
  exists grid' maxCount',
    place year weekStart (Grid grid maxCount) e = Grid grid' maxCount' /\
    gridShape (totalWeeks year weekStart) grid' /\ maxInv grid' maxCount' /\
    forall day week,
      cellAt grid' day week =
      (fun c => if decide (placedAt year weekStart day week e) then S c else c)
        <$> cellAt grid day week.
Proof.
  intros Hshape [Hle Hmax]. rewrite place_Grid.
  destruct (decide (inGrid year weekStart e)) as [Hin|Hout].
  - rewrite bool_decide_eq_true_2 by done.
    set (d := dayIndex weekStart (getTime (Entry.date e))).
    set (w := weekIndex year weekStart (getTime (Entry.date e))).
    pose proof (dayIndex_range weekStart (getTime (Entry.date e))) as Hd. fold d in Hd.
    assert (Hw : 0 <= w < totalWeeks year weekStart) by exact Hin.
    destruct (cellAt_shape _ grid d w Hshape Hd Hw) as (row & c & Hrow & Hc & Hcell).
    unfold increment.
    destruct (d <? 0) eqn:E; [apply Z.ltb_lt in E; lia|]. clear E. rewrite Hrow.
    destruct (w <? 0) eqn:E; [apply Z.ltb_lt in E; lia|]. clear E. rewrite Hc.
    eexists _, _. split; [reflexivity|].
    assert (Hcells : forall day week,
      cellAt (<[Z.to_nat d := <[Z.to_nat w := S c]> row]> grid) day week =
      (fun c => if decide (placedAt year weekStart day week e) then S c else c)
        <$> cellAt grid day week).
    { intros day week. rewrite (cellAt_bump grid d w row c) by (done || lia).
      destruct (decide (day = d /\ week = w)) as [[-> ->]|Hne].
      - rewrite Hcell. simpl. rewrite decide_True; [done|]. by split.
      - destruct (cellAt grid day week) as [c'|]; [|done]. simpl.
        rewrite decide_False; [done|]. intros (_ & H1 & H2). apply Hne.
        fold d in H1. fold w in H2. done. }
    split; [|split; [|exact Hcells]].
    + eapply gridShape_bump; [done|done|]. by rewrite length_insert.
    + split.
      * intros day week c'. rewrite (cellAt_bump grid d w row c) by (done || lia).
        destruct (decide _); [intros [= <-]; lia|]. intros H%Hle. lia.
      * right. destruct (decide (maxCount <= S c)%nat) as [Hm|Hm].
        -- exists d, w. rewrite (cellAt_bump grid d w row c) by (done || lia).
           rewrite decide_True by done. f_equal. lia.
        -- destruct Hmax as [->|(day & week & Hmc)]; [lia|].
           exists day, week. rewrite (cellAt_bump grid d w row c) by (done || lia).
           rewrite decide_False; [rewrite Hmc; f_equal; lia|].
           intros [-> ->]. rewrite Hcell in Hmc. injection Hmc as ->. lia.
  - rewrite bool_decide_eq_false_2 by done. exists grid, maxCount.
    split; [done|]. split; [done|]. split; [done|]. intros day week.
    destruct (cellAt grid day week) as [c|]; [|done]. simpl.
    rewrite decide_False; [done|]. by intros [? _].
Qed.

Lemma foldl_place_cells year weekStart entries grid maxCount :
  gridShape (totalWeeks year weekStart) grid -> maxInv grid maxCount ->
  exists grid' maxCount',
    foldl (place year weekStart) (Grid grid maxCount) entries = Grid grid' maxCount' /\
    gridShape (totalWeeks year weekStart) grid' /\ maxInv grid' maxCount' /\
    forall day week,
      cellAt grid' day week =
      (fun c => (c + length (filter (placedAt year weekStart day week) entries))%nat)
        <$> cellAt grid day week.
Proof.
  revert grid maxCount. induction entries as [|e entries IH]; intros grid maxCount Hshape Hinv.
  - exists grid, maxCount. split; [done|]. split; [done|]. split; [done|].
    intros day week. destruct (cellAt grid day week); [|done]. simpl. f_equal. lia.
  - rewrite foldl_cons.
    destruct (place_cells year weekStart grid maxCount e Hshape Hinv)
      as (g1 & m1 & -> & Hs1 & Hi1 & Hc1).
    destruct (IH g1 m1 Hs1 Hi1) as (g2 & m2 & -> & Hs2 & Hi2 & Hc2).
    exists g2, m2. split; [done|]. split; [done|]. split; [done|].
    intros day week. rewrite Hc2, Hc1, filter_cons.
    destruct (cellAt grid day week) as [c|]; [|done]. simpl. f_equal.
    destruct (decide (placedAt year weekStart day week e)); simpl; lia.
Qed.

Lemma placedAt_iff year weekStart day week e :
  0 <= day < 7 -> 0 <= week < totalWeeks year weekStart ->
  placedAt year weekStart day week e <->
  utcMidnight (Entry.date e) = cellDateOf year weekStart day week.
Proof.
  intros Hd Hw. unfold placedAt, inGrid, getTime.
  pose proof (cellDateOf_position year weekStart (Entry.date e) day week Hd) as Hp.
  split.
  - intros (_ & <- & <-). symmetry. apply cellDateOf_position; [apply dayIndex_range|done].
  - intros H. symmetry in H. apply Hp in H as [-> ->]. done.
Qed.

(** The loop and the cells in the numbers of the layout. *)
Lemma cellDateOf_clip year weekStart day week :
  Generator.cellDateOf (startDate year weekStart) day week =
  TimeClip (cellDateOf year weekStart day week).
Proof. unfold Generator.cellDateOf, cellDateOf, setUTCDate. reflexivity. Qed.

Lemma placedAt_valid year weekStart day week e :
  GridRead.placedAt weekStart (startDate year weekStart) (totalWeeks year weekStart)
    day week e <->
  placedAt year weekStart day week e.
Proof.
  unfold GridRead.placedAt, placedAt, Generator.inGrid, inGrid, weekIndex, daysSinceStart.
  reflexivity.
Qed.

(** The grid of the accumulation loop, cell by cell. *)
Lemma calendar_buildGrid_cells (year : Z) (weekStart : string) (entries : list Entry.t) :
  exists grid maxCount,
    buildGrid year weekStart entries = Grid grid maxCount /\
    gridShape (totalWeeks year weekStart) grid /\
    (forall day week,
       0 <= day < 7 -> 0 <= week < totalWeeks year weekStart ->
       cellAt grid day week =
       Some (length (filter (placedAt year weekStart day week) entries))) /\
    maxInv grid maxCount.
Proof.
  destruct (foldl_place_cells year weekStart entries (emptyGrid year weekStart) 0%nat)
    as (grid & maxCount & Hgrid & Hshape & Hinv & Hcells).
  - apply emptyGrid_shape.
  - split; [|by left]. intros day week c Hc. apply cellAt_emptyGrid in Hc. lia.
  - exists grid, maxCount. split; [exact Hgrid|]. split; [exact Hshape|].
    split; [|exact Hinv].
    intros day week Hd Hw. rewrite Hcells.
    destruct (cellAt_shape _ _ day week (emptyGrid_shape year weekStart) Hd Hw)
      as (row & c & _ & _ & Hc).
    rewrite Hc. simpl. apply cellAt_emptyGrid in Hc as ->. done.
Qed.

End GridCellFacts.

Section GridProperties.
Import JSDate JSDateFacts LayoutFacts RangeFacts Generator GridRead CellFacts GridCellFacts.

(** X12.  For a year in the Date range, the grid that the accumulation loop
    of [generateSvg] and [generateMultiYearSvg] builds from a list of
    entries: the cell in row [day] and column [week] holds the number of
    entries whose UTC day is the date of that cell, no cell exceeds
    [maxCount], and [maxCount] is 0 or the count of some cell. *)
Theorem buildGrid_cells (year : Z) (weekStart : string) (entries : list Entry.t) :
  validYear year ->
  exists startDate totalWeeks grid maxCount,
    layout year weekStart = Some (startDate, totalWeeks) /\
    buildGrid year weekStart entries = Grid grid maxCount /\
    (forall day week,
       0 <= day < 7 -> 0 <= week < totalWeeks ->
       cellAt grid day week =
       Some (length (filter (fun e => Some (utcMidnight (Entry.date e))
                                      = cellDateOf startDate day week) entries))) /\
    (forall day week c, cellAt grid day week = Some c -> (c <= maxCount)%nat) /\
    (maxCount = 0%nat \/ exists day week, cellAt grid day week = Some maxCount).
Proof.
  intros Hy.
  destruct (calendar_buildGrid_cells year weekStart entries)
    as (grid & maxCount & Hgrid & _ & Hcells & [Hle Hmax]).
  exists (Calendar.startDate year weekStart), (Calendar.totalWeeks year weekStart),
         grid, maxCount.
  split; [apply (layout_valid _ _ Hy)|].
  split; [rewrite (buildGrid_valid _ _ _ Hy); exact Hgrid|].
  split; [|split; [exact Hle|exact Hmax]].
  intros day week Hd Hw. rewrite (Hcells day week Hd Hw). do 2 f_equal.
  apply list_filter_iff. intros e.
  rewrite (cellDateOf_valid _ _ _ _ Hy Hd Hw), (placedAt_iff _ _ _ _ _ Hd Hw).
  split; [by intros -> | by intros [= ->]].
Qed.

(** X13.  For a year in the Date range, an entry is counted in the cell
    that is drawn for its UTC day: the date of the cell in row [dayIndex]
    and column [weekIndex] of a time is the midnight that begins the UTC day
    of that time, where this is a time value, and no other cell has this
    date. *)
Theorem entry_cell (year : Z) (weekStart : string) (t : Z) :
  validYear year ->
  exists startDate totalWeeks,
    layout year weekStart = Some (startDate, totalWeeks) /\
    cellDateOf startDate (dayIndex weekStart t) (weekIndex startDate t)
      = TimeClip (utcMidnight t) /\
    forall day week,
      0 <= day < 7 -> cellDateOf startDate day week = Some (utcMidnight t) ->
      day = dayIndex weekStart t /\ week = weekIndex startDate t.
Proof.
  intros Hy.
  exists (Calendar.startDate year weekStart), (Calendar.totalWeeks year weekStart).
  split; [apply (layout_valid _ _ Hy)|]. split.
  - rewrite cellDateOf_clip. f_equal.
    apply cellDateOf_position; [apply dayIndex_range|done].
  - intros day week Hd Hc. rewrite cellDateOf_clip in Hc.
    apply TimeClip_inv in Hc as [Hc _]. symmetry in Hc.
    by apply (cellDateOf_position year weekStart t day week Hd).
Qed.

(** X14.  For a year in the Date range, every day of the year laid out has
    exactly one cell of the grid, which [isOutsideYear] lets through; and a
    cell that [isOutsideYear] lets through is the cell of a day of that
    year. *)
Theorem year_cells (year : Z) (weekStart : string) :
  validYear year ->
  exists startDate totalWeeks,
    layout year weekStart = Some (startDate, totalWeeks) /\
    (forall D, firstDay year <= D <= lastDay year ->
       exists day week,
         (0 <= day < 7 /\ 0 <= week < totalWeeks) /\
         cellDateOf startDate day week = Some (D * msPerDay) /\
         isOutsideYear year (cellDateOf startDate day week) = false /\
         forall day' week',
           0 <= day' < 7 -> cellDateOf startDate day' week' = Some (D * msPerDay) ->
           day' = day /\ week' = week) /\
    (forall day week cellDate,
       cellDateOf startDate day week = Some cellDate ->
       isOutsideYear year (Some cellDate) = false ->
       exists D, firstDay year <= D <= lastDay year /\ cellDate = D * msPerDay).
Proof.
  intros Hy.
  assert (Hout : forall c,
    isOutsideYear year (Some (c * msPerDay)) = false <->
    firstDay year <= c <= lastDay year).
  { intros c. rewrite (isOutsideYear_valid _ _ Hy). unfold Calendar.isOutsideYear.
    fold (Calendar.jan1 year). fold (Calendar.endDate year).
    rewrite jan1_eq, endDate_eq, orb_false_iff, !Z.ltb_ge. unfold msPerDay. lia. }
  exists (Calendar.startDate year weekStart), (Calendar.totalWeeks year weekStart).
  split; [apply (layout_valid _ _ Hy)|]. split.
  - intros D HD. set (t := D * msPerDay).
    assert (Hm : utcMidnight t = D * msPerDay).
    { unfold utcMidnight, t. by rewrite Day_mul. }
    pose proof (dayIndex_range weekStart t) as Hd.
    assert (Hw : 0 <= Calendar.weekIndex year weekStart t < Calendar.totalWeeks year weekStart).
    { apply year_inGrid. unfold t, msPerDay. lia. }
    exists (dayIndex weekStart t), (Calendar.weekIndex year weekStart t).
    assert (Hcell : cellDateOf (Calendar.startDate year weekStart) (dayIndex weekStart t)
                      (Calendar.weekIndex year weekStart t) = Some (D * msPerDay)).
    { rewrite (cellDateOf_valid _ _ _ _ Hy Hd Hw). f_equal. rewrite <- Hm.
      apply cellDateOf_position; [apply dayIndex_range|done]. }
    split; [done|]. split; [exact Hcell|]. split.
    + rewrite Hcell. by apply Hout.
    + intros day' week' Hd' Hc. rewrite cellDateOf_clip in Hc.
      apply TimeClip_inv in Hc as [Hc _]. symmetry in Hc.
      apply (cellDateOf_position year weekStart t day' week' Hd'). rewrite Hm. exact Hc.
  - intros day week c Hc H. rewrite cellDateOf_clip in Hc.
    apply TimeClip_inv in Hc as [-> _]. rewrite cellDateOf_eq in *.
    apply Hout in H. eauto.
Qed.

End GridProperties.

Lemma year_cells_witness :
  validYear 2024 /\
  exists startDate totalWeeks,
    Generator.layout 2024 "monday" = Some (startDate, totalWeeks) /\
    exists day week,
      (0 <= day < 7 /\ 0 <= week < totalWeeks) /\
      Generator.cellDateOf startDate day week
        = Some (Generator.firstDay 2024 * JSDate.msPerDay) /\
      Generator.isOutsideYear 2024 (Generator.cellDateOf startDate day week) = false /\
      forall day' week',
        0 <= day' < 7 ->
        Generator.cellDateOf startDate day' week'
          = Some (Generator.firstDay 2024 * JSDate.msPerDay) ->
        day' = day /\ week' = week.
Proof.
  assert (Hy : validYear 2024) by (unfold validYear; lia).
  split; [exact Hy|].
  assert (H : Generator.firstDay 2024 <= Generator.firstDay 2024 <= Generator.lastDay 2024)
    by (vm_compute; split; discriminate).
  destruct (year_cells 2024 "monday" Hy) as (s & w & Hl & Hcells & _).
  exists s, w. split; [exact Hl|]. exact (Hcells (Generator.firstDay 2024) H).
Defined.

Lemma buildGrid_cells_witness :
  validYear 2024 /\
  exists startDate totalWeeks grid maxCount,
    Generator.layout 2024 "monday" = Some (startDate, totalWeeks) /\
    Generator.buildGrid 2024 "monday" Stats.januaryEntries = Generator.Grid grid maxCount /\
    GridRead.cellAt grid 0 0 =
      Some (length (filter (fun e => Some (GridRead.utcMidnight (Entry.date e))
                                     = Generator.cellDateOf startDate 0 0)
                           Stats.januaryEntries)).
Proof.
  assert (Hy : validYear 2024) by (unfold validYear; lia).
  split; [exact Hy|].
  destruct (buildGrid_cells 2024 "monday" Stats.januaryEntries Hy)
    as (s & w & grid & maxCount & Hl & Hg & Hc & _).
  exists s, w, grid, maxCount. split; [exact Hl|]. split; [exact Hg|]. apply Hc; [lia|].
  assert (E : Generator.layout 2024 "monday" = Some (1704067200000, 53))
    by (vm_compute; reflexivity).
  rewrite E in Hl. injection Hl as _ <-. lia.
Defined.

Lemma entry_cell_witness :
  validYear 2024 /\
  exists startDate totalWeeks,
    Generator.layout 2024 "sunday" = Some (startDate, totalWeeks) /\
    3 = Generator.dayIndex "sunday" (JSDate.utcTime 2024 1 28 20 0 0) /\
    8 = Generator.weekIndex startDate (JSDate.utcTime 2024 1 28 20 0 0).
Proof.
  assert (Hy : validYear 2024) by (unfold validYear; lia).
  split; [exact Hy|].
  destruct (entry_cell 2024 "sunday" (JSDate.utcTime 2024 1 28 20 0 0) Hy)
    as (s & w & Hl & _ & Hu).
  exists s, w. split; [exact Hl|].
  assert (E : Generator.layout 2024 "sunday" = Some (1703980800000, 53))
    by (vm_compute; reflexivity).
  rewrite E in Hl. injection Hl as <- <-.
  apply Hu; [lia|]. vm_compute. reflexivity.
Defined.

(** ** Columns of the grid and month labels *)

Module ColumnFacts.
Import JSDate JSDateFacts LayoutFacts RangeFacts Generator GridRead Calendar CalendarRead CellFacts.

Lemma days_from_civil_first y m :
  days_from_civil y m 1 =
  daysBeforeMarchYear (if m <=? 2 then y - 1 else y) + (153 * ((m + 9) mod 12) + 2) / 5 - 719468.
Proof.
  unfold days_from_civil. cbn zeta. set (Y := if m <=? 2 then y - 1 else y).
  assert (HF : Y / 400 * 146097 + (Y mod 400 * 365 + Y mod 400 / 4 - Y mod 400 / 100)
               = daysBeforeMarchYear Y).
  { unfold daysBeforeMarchYear. Z.div_mod_to_equations; lia. }
  lia.
Qed.

(** The day number of the first of month [i] (0 .. 11) of the year laid
    out. *)
Lemma monthStart_eq year i :
  0 <= i < 12 -> utcDate year i 1 = days_from_civil (fullYear year) (i + 1) 1 * msPerDay.
Proof.
  intros Hi. unfold utcDate, utcTime, MakeDate, MakeTime, MakeDay.
  rewrite Z.div_small, Z.mod_small by lia.
  replace (fullYear year + 0) with (fullYear year) by lia. lia.
Qed.

Lemma monthStart_step y i :
  0 <= i < 11 ->
  28 <= days_from_civil y (i + 2) 1 - days_from_civil y (i + 1) 1 <= 31.
Proof.
  intros Hi. rewrite !days_from_civil_first.
  pose proof (daysBeforeMarchYear_succ (y - 1)) as Hs.
  replace (y - 1 + 1) with y in Hs by lia.
  assert (i = 0 \/ i = 1 \/ i = 2 \/ i = 3 \/ i = 4 \/ i = 5 \/ i = 6 \/ i = 7 \/
          i = 8 \/ i = 9 \/ i = 10) as Hcases by lia.
  repeat destruct Hcases as [->|Hcases]; try subst i;
    repeat match goal with
    | |- context [if ?b then _ else _] =>
        let v := eval vm_compute in b in progress change b with v; cbv iota
    | |- context [?a / 5] =>
        let v := eval vm_compute in (a / 5) in progress change (a / 5) with v
    end; lia.
Qed.

Lemma monthStart_mono y i j :
  0 <= i -> i <= j -> j < 12 ->
  28 * (j - i) <= days_from_civil y (j + 1) 1 - days_from_civil y (i + 1) 1.
Proof.
  intros Hi Hij Hj. replace j with (i + Z.of_nat (Z.to_nat (j - i))) in * by lia.
  induction (Z.to_nat (j - i)) as [|n IH].
  - rewrite Z.add_0_r. lia.
  - pose proof (monthStart_step y (i + Z.of_nat n) ltac:(lia)) as Hs.
    replace (i + Z.of_nat (S n) + 1) with (i + Z.of_nat n + 2) by lia.
    specialize (IH ltac:(lia) ltac:(lia)). lia.
Qed.

Lemma monthStart_range year i :
  0 <= i < 12 ->
  firstDay year <= days_from_civil (fullYear year) (i + 1) 1 <= lastDay year.
Proof.
  intros Hi. unfold firstDay, lastDay. rewrite MakeDay_jan1.
  pose proof (monthStart_mono (fullYear year) 0 i ltac:(lia) ltac:(lia) ltac:(lia)) as H0.
  pose proof (monthStart_mono (fullYear year) i 11 ltac:(lia) ltac:(lia) ltac:(lia)) as H1.
  unfold MakeDay. change (11 / 12) with 0. change (11 mod 12 + 1) with (11 + 1).
  change (0 + 1) with 1 in H0. rewrite Z.add_0_r. lia.
Qed.

(** The first of each month of a year in the Date range is a date. *)
Lemma monthStart_valid year i :
  validYear year -> 0 <= i < 12 -> Date_UTC year i 1 = Some (utcDate year i 1).
Proof.
  intros Hy Hi. unfold Date_UTC, Date_UTC6. fold (utcDate year i 1).
  rewrite monthStart_eq by done. pose proof (monthStart_range year i Hi).
  apply (TimeClip_near_day year); [done|lia].
Qed.

Lemma standalone_cellDateOf year weekStart day week :
  StandaloneCalendar.cellDateOf year weekStart day week = cellDateOf year weekStart day week.
Proof.
  unfold StandaloneCalendar.cellDateOf, cellDateOf.
  rewrite StandaloneRangeFacts.standalone_startDate_eq. reflexivity.
Qed.

Lemma standalone_isOutsideYear year c :
  StandaloneCalendar.isOutsideYear year c = isOutsideYear year c.
Proof. unfold StandaloneCalendar.isOutsideYear, isOutsideYear. reflexivity. Qed.

(** No column of the grid is without a day of the year. *)
Lemma calendar_grid_columns (year : Z) (weekStart : string) week :
  0 <= week < totalWeeks year weekStart ->
  exists day, 0 <= day < 7 /\
              isOutsideYear year (cellDateOf year weekStart day week) = false.
Proof.
  intros Hw.
  pose proof (dayShift_range year weekStart) as Hs.
  pose proof (totalWeeks_bounds year weekStart) as Hb. rewrite totalDays_eq in Hb.
  pose proof (year_length year) as Hy.
  assert (Hout : forall day,
    firstDay year <= firstDay year - dayShift year weekStart + week * 7 + day <= lastDay year ->
    isOutsideYear year (cellDateOf year weekStart day week) = false).
  { intros day Hd. rewrite cellDateOf_eq. unfold isOutsideYear.
    fold (jan1 year). fold (endDate year).
    rewrite jan1_eq, endDate_eq, orb_false_iff, !Z.ltb_ge. unfold msPerDay. lia. }
  destruct (decide (week = 0)) as [->|Hne].
  - exists (dayShift year weekStart). split; [done|]. apply Hout. lia.
  - exists 0. split; [lia|]. apply Hout. lia.
Qed.

(** The column counts of the two programs. *)
Lemma calendar_extra_column (year : Z) (weekStart : string) :
  (StandaloneCalendar.totalWeeks year weekStart = totalWeeks year weekStart \/
   StandaloneCalendar.totalWeeks year weekStart = totalWeeks year weekStart + 1) /\
  (StandaloneCalendar.totalWeeks year weekStart = totalWeeks year weekStart + 1 <->
   totalDays year weekStart = 371) /\
  (StandaloneCalendar.totalWeeks year weekStart = totalWeeks year weekStart + 1 ->
   forall day, 0 <= day < 7 ->
     isOutsideYear year (cellDateOf year weekStart day (totalWeeks year weekStart)) = true).
Proof.
  pose proof (StandaloneRangeFacts.standalone_totalDays_eq year weekStart) as Hd.
  pose proof (totalWeeks_bounds year weekStart) as Hb.
  pose proof (StandaloneRangeFacts.standalone_totalWeeks_bounds year weekStart) as Hbs.
  pose proof (totalWeeks_pos year weekStart) as Hw.
  assert (Hrange : 365 <= totalDays year weekStart <= 372).
  { rewrite totalDays_eq. pose proof (year_length year).
    pose proof (dayShift_range year weekStart). lia. }
  split; [lia|]. split; [lia|].
  intros Hx day Hday.
  rewrite cellDateOf_eq. unfold isOutsideYear.
  fold (jan1 year). fold (endDate year). rewrite jan1_eq, endDate_eq.
  apply orb_true_intro. right. apply Z.ltb_lt.
  assert (totalDays year weekStart = 371) as H371 by lia.
  rewrite totalDays_eq in H371. unfold msPerDay. lia.
Qed.

(** The columns of the month labels. *)
Lemma calendar_month_labels (year : Z) (weekStart : string) (i : Z) :
  0 <= i < 12 ->
  exists w,
    monthLabelColumn year weekStart i = Some w /\
    0 <= w < totalWeeks year weekStart /\
    w = weekIndex year weekStart (utcDate year i 1) /\
    (exists day, 0 <= day < 7 /\ cellDateOf year weekStart day w = utcDate year i 1) /\
    forall j w', i <= j < 12 -> monthLabelColumn year weekStart j = Some w' ->
                 w + 4 * (j - i) <= w'.
Proof.
  intros Hi.
  pose proof (dayShift_range year weekStart) as Hs.
  assert (Hcol : forall k, 0 <= k < 12 ->
    monthLabelColumn year weekStart k =
    Some ((days_from_civil (fullYear year) (k + 1) 1
           - (firstDay year - dayShift year weekStart)) / 7) /\
    weekIndex year weekStart (utcDate year k 1) =
      (days_from_civil (fullYear year) (k + 1) 1
       - (firstDay year - dayShift year weekStart)) / 7).
  { intros k Hk. pose proof (monthStart_range year k Hk) as Hr.
    assert (Hds : daysSinceStart year weekStart (utcDate year k 1) =
                  days_from_civil (fullYear year) (k + 1) 1
                  - (firstDay year - dayShift year weekStart)).
    { rewrite daysSinceStart_eq, monthStart_eq, Day_mul by done. done. }
    unfold monthLabelColumn, weekIndex. cbn zeta.
    change (JS.floorDiv (getTime (utcDate year k 1) - getTime (startDate year weekStart))
                        (1000 * 60 * 60 * 24))
      with (daysSinceStart year weekStart (utcDate year k 1)).
    rewrite Hds.
    destruct (Z.ltb_spec (days_from_civil (fullYear year) (k + 1) 1
                          - (firstDay year - dayShift year weekStart)) 0); [lia|].
    done. }
  destruct (Hcol i Hi) as [Hl Hw].
  eexists. split; [exact Hl|]. rewrite <- Hw.
  pose proof (monthStart_range year i Hi) as Hr.
  split; [|split; [done|split]].
  - apply year_inGrid. rewrite monthStart_eq by done. unfold msPerDay. lia.
  - exists (dayIndex weekStart (utcDate year i 1)). split; [apply dayIndex_range|].
    pose proof (proj2 (cellDateOf_position year weekStart (utcDate year i 1)
                         (dayIndex weekStart (utcDate year i 1))
                         (weekIndex year weekStart (utcDate year i 1))
                         (dayIndex_range _ _)) (conj eq_refl eq_refl)) as Hc.
    rewrite Hc. unfold utcMidnight. rewrite monthStart_eq by done. by rewrite Day_mul.
  - intros j w' Hj Hj'. destruct (Hcol j ltac:(lia)) as [Hlj _].
    rewrite Hlj in Hj'. injection Hj' as <-. rewrite Hw.
    pose proof (monthStart_mono (fullYear year) i j ltac:(lia) ltac:(lia) ltac:(lia)) as Hm.
    Z.div_mod_to_equations; lia.
Qed.

(** The loop over the months in the numbers of the layout. *)
Lemma monthLabelColumn_valid year weekStart i :
  validYear year -> 0 <= i < 12 ->
  Labels.monthLabelColumn year (startDate year weekStart) i =
  Some <$> monthLabelColumn year weekStart i.
Proof.
  intros Hy Hi. unfold Labels.monthLabelColumn, monthLabelColumn.
  rewrite (monthStart_valid _ _ Hy Hi). cbn [fmap option_fmap option_map ltNaN getTime].
  destruct (_ <? 0); reflexivity.
Qed.

End ColumnFacts.

Section ColumnProperties.
Import JSDate JSDateFacts LayoutFacts RangeFacts StandaloneRangeFacts.
Import Generator GridRead CellFacts GridCellFacts ColumnFacts Labels.

(** X15.  For a year in the Date range, the grid of [src/generator.js] has
    53 or 54 columns, and each of them holds at least one day of the year
    laid out: no column is left without a visible cell. *)
Theorem grid_columns (year : Z) (weekStart : string) :
  validYear year ->
  exists startDate totalWeeks,
    layout year weekStart = Some (startDate, totalWeeks) /\
    53 <= totalWeeks <= 54 /\
    forall week, 0 <= week < totalWeeks ->
      exists day cellDate,
        0 <= day < 7 /\
        cellDateOf startDate day week = Some cellDate /\
        isOutsideYear year (Some cellDate) = false.
Proof.
  intros Hy.
  exists (Calendar.startDate year weekStart), (Calendar.totalWeeks year weekStart).
  split; [apply (layout_valid _ _ Hy)|]. split; [apply totalWeeks_pos|].
  intros week Hw. destruct (calendar_grid_columns year weekStart week Hw) as (day & Hd & Hout).
  exists day, (Calendar.cellDateOf year weekStart day week).
  split; [done|]. split; [apply (cellDateOf_valid _ _ _ _ Hy Hd Hw)|].
  by rewrite (isOutsideYear_valid _ _ Hy).
Qed.

(** X16.  For a year in the Date range, the grid of [standalone.js] starts
    on the same day as that of [src/generator.js] and counts one day more,
    because its end date is the last second of December 31.  It has the
    same number of columns, or one column more; the latter happens exactly
    when the days from the first cell to December 31 fill 53 whole weeks,
    and then every cell of the last column lies outside the year.  The year
    2022 with a Sunday week start is such a case. *)
Theorem standalone_extra_column (year : Z) (weekStart : string) :
  validYear year ->
  exists startDate totalDays totalWeeks standaloneDays standaloneWeeks,
    Generator.totalDays year weekStart = Some totalDays /\
    layout year weekStart = Some (startDate, totalWeeks) /\
    Standalone.totalDays year weekStart = Some standaloneDays /\
    Standalone.layout year weekStart = Some (startDate, standaloneWeeks) /\
    standaloneDays = totalDays + 1 /\
    (standaloneWeeks = totalWeeks \/ standaloneWeeks = totalWeeks + 1) /\
    (standaloneWeeks = totalWeeks + 1 <-> totalDays = 371) /\
    (standaloneWeeks = totalWeeks + 1 ->
     forall day, 0 <= day < 7 ->
       exists cellDate,
         Standalone.cellDateOf startDate day totalWeeks = Some cellDate /\
         Standalone.isOutsideYear year (Some cellDate) = true) /\
    (layout 2022 "sunday" = Some (1640476800000, 53) /\
     Standalone.layout 2022 "sunday" = Some (1640476800000, 54)).
Proof.
  intros Hy.
  exists (Calendar.startDate year weekStart), (Calendar.totalDays year weekStart),
         (Calendar.totalWeeks year weekStart),
         (StandaloneCalendar.totalDays year weekStart),
         (StandaloneCalendar.totalWeeks year weekStart).
  destruct (calendar_extra_column year weekStart) as (H1 & H2 & H3).
  split; [apply (totalDays_valid _ _ Hy)|].
  split; [apply (layout_valid _ _ Hy)|].
  split; [apply (standalone_totalDays_valid _ _ Hy)|].
  split; [rewrite <- standalone_startDate_eq; apply (standalone_layout_valid _ _ Hy)|].
  split; [apply standalone_totalDays_eq|].
  split; [exact H1|]. split; [exact H2|]. split.
  - intros Hx day Hd.
    exists (StandaloneCalendar.cellDateOf year weekStart day (Calendar.totalWeeks year weekStart)).
    split.
    + rewrite <- standalone_startDate_eq.
      apply (standalone_cellDateOf_valid _ _ _ _ Hy Hd).
      pose proof (totalWeeks_pos year weekStart). lia.
    + rewrite (standalone_isOutsideYear_valid _ _ Hy), standalone_cellDateOf,
        standalone_isOutsideYear.
      exact (H3 Hx day Hd).
  - split; vm_compute; reflexivity.
Qed.

(** X17.  For a year in the Date range, a label is drawn for each of the
    twelve months: the [continue] of the loop never happens, and no column is
    [NaN].  The label of a month stands at the column of the cell of the
    month's first day, which is inside the grid, and the labels of two
    months are at least four columns apart for each month between them. *)
Theorem month_labels (year : Z) (weekStart : string) (i : Z) :
  validYear year ->
  0 <= i < 12 ->
  exists startDate totalWeeks firstDayOfMonth w,
    layout year weekStart = Some (startDate, totalWeeks) /\
    (exists standaloneWeeks,
       Standalone.layout year weekStart = Some (startDate, standaloneWeeks)) /\
    Date_UTC year i 1 = Some firstDayOfMonth /\
    monthLabelColumn year startDate i = Some (Some w) /\
    0 <= w < totalWeeks /\
    w = weekIndex startDate firstDayOfMonth /\
    (exists day, 0 <= day < 7 /\ cellDateOf startDate day w = Some firstDayOfMonth) /\
    forall j w', i <= j < 12 -> monthLabelColumn year startDate j = Some (Some w') ->
                 w + 4 * (j - i) <= w'.
Proof.
  intros Hy Hi.
  destruct (calendar_month_labels year weekStart i Hi)
    as (w & Hl & Hw & Hwi & (day & Hd & Hc) & Hsep).
  exists (Calendar.startDate year weekStart), (Calendar.totalWeeks year weekStart),
         (utcDate year i 1), w.
  split; [apply (layout_valid _ _ Hy)|]. split.
  { eexists. rewrite <- standalone_startDate_eq. apply (standalone_layout_valid _ _ Hy). }
  split; [apply (monthStart_valid _ _ Hy Hi)|].
  split; [rewrite (monthLabelColumn_valid _ _ _ Hy Hi), Hl; reflexivity|].
  split; [exact Hw|]. split; [exact Hwi|]. split.
  - exists day. split; [done|]. rewrite (cellDateOf_valid _ _ _ _ Hy Hd Hw). by f_equal.
  - intros j w' Hj Hj'. rewrite (monthLabelColumn_valid _ _ _ Hy) in Hj' by lia.
    destruct (CalendarRead.monthLabelColumn year weekStart j) as [w''|] eqn:E; [|done].
    injection Hj' as <-. by apply (Hsep j).
Qed.

End ColumnProperties.

Lemma month_labels_witness :
  validYear 2024 /\
  exists startDate totalWeeks firstDayOfMonth w,
    Generator.layout 2024 "monday" = Some (startDate, totalWeeks) /\
    JSDate.Date_UTC 2024 11 1 = Some firstDayOfMonth /\
    Labels.monthLabelColumn 2024 startDate 11 = Some (Some w) /\
    0 <= w < totalWeeks /\
    w = Generator.weekIndex startDate firstDayOfMonth.
Proof.
  assert (Hy : validYear 2024) by (unfold validYear; lia).
  split; [exact Hy|].
  assert (H : 0 <= 11 < 12) by lia.
  destruct (month_labels 2024 "monday" 11 Hy H)
    as (s & W & f & w & H1 & _ & H2 & H3 & H4 & H5 & _).
  exists s, W, f, w. repeat split; try assumption; apply H4.
Defined.

Lemma grid_columns_witness :
  validYear 2024 /\
  exists startDate totalWeeks,
    Generator.layout 2024 "sunday" = Some (startDate, totalWeeks) /\
    exists day cellDate,
      0 <= day < 7 /\
      Generator.cellDateOf startDate day 52 = Some cellDate /\
      Generator.isOutsideYear 2024 (Some cellDate) = false.
Proof.
  assert (Hy : validYear 2024) by (unfold validYear; lia).
  split; [exact Hy|].
  destruct (grid_columns 2024 "sunday" Hy) as (s & W & Hl & _ & Hc).
  exists s, W. split; [exact Hl|]. apply Hc.
  assert (E : Generator.layout 2024 "sunday" = Some (1703980800000, 53))
    by (vm_compute; reflexivity).
  rewrite E in Hl. injection Hl as _ <-. lia.
Defined.

Lemma standalone_extra_column_witness :
  validYear 2022 /\
  exists cellDate,
    Standalone.cellDateOf 1640476800000 6 53 = Some cellDate /\
    Standalone.isOutsideYear 2022 (Some cellDate) = true.
Proof.
  assert (Hy : validYear 2022) by (unfold validYear; lia).
  split; [exact Hy|].
  destruct (standalone_extra_column 2022 "sunday" Hy)
    as (s & d & w & sd & sw & _ & Hl & _ & Hsl & _ & _ & _ & Hx & _).
  assert (E : Generator.layout 2022 "sunday" = Some (1640476800000, 53))
    by (vm_compute; reflexivity).
  rewrite E in Hl. injection Hl as <- <-.
  assert (E' : Standalone.layout 2022 "sunday" = Some (1640476800000, 54))
    by (vm_compute; reflexivity).
  rewrite E' in Hsl. injection Hsl as <-.
  apply Hx; lia.
Defined.

(** ** Colour levels and percentiles *)

Module ColorFacts.
Import JS Generator Standalone.

Lemma colorLevel_pos maxCount count :
  (0 < count)%nat -> (0 < maxCount)%nat ->
  colorLevel maxCount count = Z.min (JS.ceilDiv (4 * Z.of_nat count) (Z.of_nat maxCount)) 4.
Proof.
  intros Hc Hm. unfold colorLevel.
  destruct (Nat.eqb_spec count 0); [lia|]. destruct (Nat.eqb_spec maxCount 0); [lia|].
  f_equal. destruct (Z.of_nat maxCount) as [|p|p] eqn:E; try lia.
  unfold JS.ceilDiv, Qceiling, Qfloor, Qdiv, Qmult, Qinv, Qopp, inject_Z. simpl.
  rewrite Pos.mul_1_r. f_equal. f_equal; lia.
Qed.

Lemma ceilDiv_mono a b m : 0 < m -> a <= b -> JS.ceilDiv a m <= JS.ceilDiv b m.
Proof. intros Hm Hab. unfold JS.ceilDiv. Z.div_mod_to_equations; nia. Qed.

Lemma ceilDiv_gt a m k : 0 < m -> (k < JS.ceilDiv a m <-> k * m < a).
Proof. intros Hm. unfold JS.ceilDiv. Z.div_mod_to_equations; nia. Qed.

Lemma Sorted_weaken {A} (R R' : A -> A -> Prop) (l : list A) :
  (forall a b, R a b -> R' a b) -> Sorted R l -> Sorted R' l.
Proof.
  intros HR. induction 1 as [|x l Hl IH Hhd]; constructor; [done|].
  destruct Hhd; constructor. by apply HR.
Qed.

Lemma sortBy_leb_StronglySorted (l : list nat) : StronglySorted le (sortBy Nat.leb l).
Proof.
  apply Sorted_StronglySorted; [intros a b c; lia|].
  apply (Sorted_weaken (fun a b => Nat.leb a b = true)); [intros a b H; by apply Nat.leb_le|].
  apply StringFacts.sortBy_Sorted.
  intros a b. destruct (Nat.leb_spec a b); [by left|right]. apply Nat.leb_le. lia.
Qed.

Lemma StronglySorted_le_lookup (l : list nat) i j a b :
  StronglySorted le l -> (i <= j)%nat -> l !! i = Some a -> l !! j = Some b -> (a <= b)%nat.
Proof.
  intros Hs. revert i j. induction Hs as [|x l Hs IH Hall]; intros i j Hij Hi Hj; [done|].
  destruct i as [|i], j as [|j]; simpl in *.
  - injection Hi as <-. injection Hj as <-. done.
  - injection Hi as <-. rewrite Forall_forall in Hall. apply Hall.
    by eapply list_elem_of_lookup_2.
  - lia.
  - eapply IH; [|done|done]. lia.
Qed.

(** [countAt] reads an element of a non-empty list for a fraction below 1. *)
Lemma countAt_lookup (l : list nat) n d :
  l <> [] -> (n < d)%nat ->
  l !! (length l * n / d)%nat = Some (countAt l n d).
Proof.
  intros Hl Hnd. unfold countAt.
  assert (Hlen : (0 < length l)%nat) by (destruct l; [done|simpl; lia]).
  destruct (lookup_lt_is_Some_2 l (length l * n / d)%nat) as [x Hx]; [|by rewrite Hx].
  apply Nat.Div0.div_lt_upper_bound. nia.
Qed.

End ColorFacts.

Section ColorProperties.
Import JS Generator Standalone ColorFacts.

(** X18.  More items never give a lighter colour, in either scheme.  In the
    linear scheme of [src/generator.js] a positive count gets the darkest
    level exactly when it is more than three quarters of [maxCount]. *)
Theorem color_levels_monotone :
  (forall stats a b, (a <= b)%nat ->
     (calculateColorIntensity a stats <= calculateColorIntensity b stats)%nat) /\
  (forall maxCount a b, (a <= b)%nat -> colorLevel maxCount a <= colorLevel maxCount b) /\
  (forall maxCount count, (0 < count)%nat -> (0 < maxCount)%nat ->
     (colorLevel maxCount count = 4 <-> 3 * Z.of_nat maxCount < 4 * Z.of_nat count)).
Proof.
  split; [|split].
  - intros stats a b Hab. unfold calculateColorIntensity.
    repeat match goal with
    | |- context [(?a =? ?b)%nat] => destruct (Nat.eqb_spec a b)
    | |- context [(?a <=? ?b)%nat] => destruct (Nat.leb_spec a b)
    end; lia.
  - intros maxCount a b Hab.
    destruct (Nat.eq_dec a 0%nat) as [->|Ha].
    { assert (colorLevel maxCount 0 = 0) as -> by reflexivity.
      destruct (Nat.eq_dec b 0%nat) as [->|Hb]; [reflexivity|].
      destruct (Nat.eq_dec maxCount 0%nat) as [->|Hm]; [by destruct b|].
      rewrite colorLevel_pos by lia.
      pose proof (proj2 (ceilDiv_gt (4 * Z.of_nat b) (Z.of_nat maxCount) (-1) ltac:(lia))
                        ltac:(lia)).
      lia. }
    destruct (Nat.eq_dec maxCount 0%nat) as [->|Hm]; [by destruct a, b|].
    rewrite !colorLevel_pos by lia.
    pose proof (ceilDiv_mono (4 * Z.of_nat a) (4 * Z.of_nat b) (Z.of_nat maxCount)
                  ltac:(lia) ltac:(lia)).
    lia.
  - intros maxCount count Hc Hm. rewrite colorLevel_pos by lia.
    pose proof (ceilDiv_gt (4 * Z.of_nat count) (Z.of_nat maxCount) 3 ltac:(lia)) as H.
    lia.
Qed.

(** X19.  The percentiles that [calculateDayCountStats] returns are in ascending
    order.  They are all 0 when there is no day, and otherwise each of them
    is the number of items of some day. *)
Theorem calculateDayCountStats_ordered (itemsPerDay : list (string * list DayItem.t)) :
  let stats := calculateDayCountStats itemsPerDay in
  ((p25 stats <= p50 stats)%nat /\ (p50 stats <= p75 stats)%nat /\
   (p75 stats <= p90 stats)%nat) /\
  (itemsPerDay = [] -> stats = DayCountStats 0 0 0 0) /\
  (itemsPerDay <> [] ->
   forall p, p ∈ [p25 stats; p50 stats; p75 stats; p90 stats] ->
             exists day, day ∈ itemsPerDay /\ length (snd day) = p).
Proof.
  cbn zeta. unfold calculateDayCountStats. cbn zeta.
  set (dayCounts := map (fun p : string * list DayItem.t => length (snd p)) itemsPerDay).
  set (sortedCounts := sortBy Nat.leb dayCounts).
  cbn [p25 p50 p75 p90].
  destruct (decide (itemsPerDay = [])) as [E|E].
  { subst itemsPerDay. split; [|split; [done|done]]. vm_compute. lia. }
  assert (Hne : sortedCounts <> []).
  { intros H. pose proof (SortFacts.sortBy_Permutation Nat.leb dayCounts) as Hp.
    fold sortedCounts in Hp. rewrite H in Hp. apply Permutation_nil_l in Hp.
    unfold dayCounts in Hp. by destruct itemsPerDay. }
  pose proof (sortBy_leb_StronglySorted dayCounts) as Hs. fold sortedCounts in Hs.
  pose proof (countAt_lookup sortedCounts 1 4 Hne ltac:(lia)) as H25.
  pose proof (countAt_lookup sortedCounts 1 2 Hne ltac:(lia)) as H50.
  pose proof (countAt_lookup sortedCounts 3 4 Hne ltac:(lia)) as H75.
  pose proof (countAt_lookup sortedCounts 9 10 Hne ltac:(lia)) as H90.
  assert (Hidx : forall n d n' d' : nat, (0 < d)%nat -> (0 < d')%nat -> (n * d' <= n' * d)%nat ->
                   (length sortedCounts * n / d <= length sortedCounts * n' / d')%nat).
  { intros n d n' d' Hd Hd' Hle. apply Nat.div_le_lower_bound; [lia|].
    pose proof (Nat.Div0.mul_div_le (length sortedCounts * n) d). nia. }
  split; [|split; [done|]].
  - split; [|split].
    + eapply (StronglySorted_le_lookup sortedCounts); [done| |exact H25|exact H50].
      apply Hidx; lia.
    + eapply (StronglySorted_le_lookup sortedCounts); [done| |exact H50|exact H75].
      apply Hidx; lia.
    + eapply (StronglySorted_le_lookup sortedCounts); [done| |exact H75|exact H90].
      apply Hidx; lia.
  - intros _ p Hp.
    assert (Hin : p ∈ sortedCounts).
    { rewrite !elem_of_cons in Hp.
      destruct Hp as [->|[->|[->|[->|Hp]]]];
        [by eapply list_elem_of_lookup_2 ..|by apply elem_of_nil in Hp]. }
    unfold sortedCounts in Hin. rewrite (SortFacts.sortBy_Permutation Nat.leb dayCounts) in Hin.
    unfold dayCounts in Hin. apply list_elem_of_fmap in Hin as (day & -> & Hday). eauto.
Qed.

End ColorProperties.

Lemma color_levels_monotone_witness :
  Generator.colorLevel 8 3 <= Generator.colorLevel 8 7 /\
  (Generator.colorLevel 8 7 = 4 <-> 3 * Z.of_nat 8 < 4 * Z.of_nat 7).
Proof.
  split.
  - apply (proj1 (proj2 color_levels_monotone) 8%nat 3%nat 7%nat). lia.
  - apply (proj2 (proj2 color_levels_monotone) 8%nat 7%nat); lia.
Defined.

Lemma calculateDayCountStats_ordered_witness :
  exists day,
    day ∈ [("2024-01-01", [DayItem.Build "Dune" None (Some 2021)]);
           ("2024-01-02", @nil DayItem.t)] /\
    length (snd day) =
      Standalone.p75 (Standalone.calculateDayCountStats
                        [("2024-01-01", [DayItem.Build "Dune" None (Some 2021)]);
                         ("2024-01-02", [])]).
Proof.
  apply (proj2 (proj2 (calculateDayCountStats_ordered
                         [("2024-01-01", [DayItem.Build "Dune" None (Some 2021)]);
                          ("2024-01-02", [])]))).
  - discriminate.
  - apply list_elem_of_In. simpl. tauto.
Defined.

(** ** [escapeXml]: what can be read back *)

Module EscapeFacts.
Import Template.

Lemma append_String c s t : String c s +:+ t = String c (s +:+ t).
Proof. reflexivity. Qed.

Lemma append_empty_l t : EmptyString +:+ t = t.
Proof. reflexivity. Qed.

Section Generic.
Variable esc : ascii -> string.
Hypothesis esc_cancel : forall c c' x y, esc c +:+ x = esc c' +:+ y -> c = c' /\ x = y.
Hypothesis esc_nonempty : forall c x, esc c +:+ x <> EmptyString.
Hypothesis esc_clean : forall c, isReserved c = false -> esc c = String c EmptyString.

Lemma replaceEach_inj a b : replaceEach esc a = replaceEach esc b -> a = b.
Proof.
  revert b. induction a as [|c a IH]; intros [|c' b] H; simpl in H.
  - done.
  - symmetry in H. by apply esc_nonempty in H.
  - by apply esc_nonempty in H.
  - apply esc_cancel in H as [-> H]. f_equal. by apply IH.
Qed.

Lemma replaceEach_app a b : replaceEach esc (a +:+ b) = replaceEach esc a +:+ replaceEach esc b.
Proof.
  induction a as [|c a IH]; [done|].
  rewrite append_String. cbn [replaceEach]. rewrite IH.
  symmetry. apply ContainsFacts.append_assoc.
Qed.

Lemma replaceEach_id s :
  (forall c, isReserved c = true -> hasChar c s = false) -> replaceEach esc s = s.
Proof.
  induction s as [|c s IH]; intros H; [done|]. cbn [replaceEach].
  assert (Hc : isReserved c = false).
  { destruct (isReserved c) eqn:E; [|done]. specialize (H c E). cbn [hasChar] in H.
    by rewrite Ascii.eqb_refl in H. }
  rewrite (esc_clean c Hc), IH; [done|].
  intros c' Hc'. specialize (H c' Hc'). cbn [hasChar] in H.
  by apply orb_false_elim in H as [_ ?].
Qed.

End Generic.

Lemma generator_esc_cancel c c' x y :
  Generator.escapeChar c +:+ x = Generator.escapeChar c' +:+ y -> c = c' /\ x = y.
Proof.
  intros H.
  destruct (generator_escapeChar_cases c) as [[Hr _]|[Hr Hc]],
           (generator_escapeChar_cases c') as [[Hr' _]|[Hr' Hc']].
  - apply isReserved_cases in Hr, Hr'.
    destruct Hr as [->|[->|[->|[->| ->]]]], Hr' as [->|[->|[->|[->| ->]]]];
      vm_compute in H; first [discriminate | by injection H as ->].
  - rewrite Hc' in H. apply isReserved_cases in Hr.
    destruct Hr as [->|[->|[->|[->| ->]]]];
      vm_compute in H; injection H as <- _; discriminate.
  - rewrite Hc in H. apply isReserved_cases in Hr'.
    destruct Hr' as [->|[->|[->|[->| ->]]]];
      vm_compute in H; injection H as -> _; discriminate.
  - rewrite Hc, Hc' in H. rewrite !append_String, !append_empty_l in H.
    by injection H as -> ->.
Qed.

Lemma standalone_esc_cancel c c' x y :
  Standalone.escapeChar c +:+ x = Standalone.escapeChar c' +:+ y -> c = c' /\ x = y.
Proof.
  intros H.
  destruct (standalone_escapeChar_cases c) as [[Hr _]|[Hr Hc]],
           (standalone_escapeChar_cases c') as [[Hr' _]|[Hr' Hc']].
  - apply isReserved_cases in Hr, Hr'.
    destruct Hr as [->|[->|[->|[->| ->]]]], Hr' as [->|[->|[->|[->| ->]]]];
      vm_compute in H; first [discriminate | by injection H as ->].
  - rewrite Hc' in H. apply isReserved_cases in Hr.
    destruct Hr as [->|[->|[->|[->| ->]]]];
      vm_compute in H; injection H as <- _; discriminate.
  - rewrite Hc in H. apply isReserved_cases in Hr'.
    destruct Hr' as [->|[->|[->|[->| ->]]]];
      vm_compute in H; injection H as -> _; discriminate.
  - rewrite Hc, Hc' in H. rewrite !append_String, !append_empty_l in H.
    by injection H as -> ->.
Qed.

Lemma generator_esc_nonempty c x : Generator.escapeChar c +:+ x <> EmptyString.
Proof.
  destruct (generator_escapeChar_cases c) as [[_ (n & _ & ->)]|[_ ->]]; discriminate.
Qed.

Lemma standalone_esc_nonempty c x : Standalone.escapeChar c +:+ x <> EmptyString.
Proof.
  destruct (standalone_escapeChar_cases c) as [[_ (n & _ & ->)]|[_ ->]]; discriminate.
Qed.

Lemma generator_esc_clean c :
  isReserved c = false -> Generator.escapeChar c = String c EmptyString.
Proof.
  intros Hc. destruct (generator_escapeChar_cases c) as [[? _]|[_ ?]]; [congruence|done].
Qed.

Lemma standalone_esc_clean c :
  isReserved c = false -> Standalone.escapeChar c = String c EmptyString.
Proof.
  intros Hc. destruct (standalone_escapeChar_cases c) as [[? _]|[_ ?]]; [congruence|done].
Qed.

End EscapeFacts.

Section EscapeProperties.
Import Template EscapeFacts.

(** X20.  [escapeXml] loses nothing: two different strings have different
    escaped texts.  It works piece by piece (the escaped text of a
    concatenation is the concatenation of the escaped texts), it leaves a
    string without reserved characters as it is, and [null] and [undefined]
    give the empty text, like the empty string.  This holds of the function
    of [src/generator.js] and of that of [standalone.js]. *)
Theorem escapeXml_injective (a b : string) :
  ((Generator.escapeXml (Some a) = Generator.escapeXml (Some b) -> a = b) /\
   Generator.escapeXml (Some (a +:+ b))
     = Generator.escapeXml (Some a) +:+ Generator.escapeXml (Some b) /\
   ((forall c, isReserved c = true -> hasChar c a = false) ->
    Generator.escapeXml (Some a) = a) /\
   Generator.escapeXml None = Generator.escapeXml (Some EmptyString)) /\
  ((Standalone.escapeXml (Some a) = Standalone.escapeXml (Some b) -> a = b) /\
   Standalone.escapeXml (Some (a +:+ b))
     = Standalone.escapeXml (Some a) +:+ Standalone.escapeXml (Some b) /\
   ((forall c, isReserved c = true -> hasChar c a = false) ->
    Standalone.escapeXml (Some a) = a) /\
   Standalone.escapeXml None = Standalone.escapeXml (Some EmptyString)).
Proof.
  split; (split; [|split; [|split]]).
  - apply (replaceEach_inj _ generator_esc_cancel generator_esc_nonempty).
  - apply replaceEach_app.
  - apply (replaceEach_id _ generator_esc_clean).
  - reflexivity.
  - apply (replaceEach_inj _ standalone_esc_cancel standalone_esc_nonempty).
  - apply (replaceEach_app Standalone.escapeChar).
  - apply (replaceEach_id _ standalone_esc_clean).
  - reflexivity.
Qed.

End EscapeProperties.

Lemma escapeXml_injective_witness :
  Generator.escapeXml (Some "Dune: Part Two") = "Dune: Part Two" /\
  Standalone.escapeXml (Some "Dune: Part Two") = "Dune: Part Two".
Proof.
  assert (Hclean : forall c, Template.isReserved c = true ->
                             Template.hasChar c "Dune: Part Two" = false).
  { intros c Hc. apply isReserved_cases in Hc.
    destruct Hc as [->|[->|[->|[->| ->]]]]; reflexivity. }
  destruct (escapeXml_injective "Dune: Part Two" EmptyString)
    as [(_ & _ & Hg & _) (_ & _ & Hs & _)].
  split; [exact (Hg Hclean)|exact (Hs Hclean)].
Defined.

(** ** The cells of the grid of [standalone.js] *)

Module StandaloneCellFacts.
Import JSDate JSDateFacts LayoutFacts GridRead CellFacts GridCellFacts ColumnFacts.
Import StandaloneGridFacts StandaloneRangeFacts.

(** [entryDate] is the midnight that begins the UTC day, unless [Date.UTC]
    reads the year as 19xx. *)
Lemma entryDate_eq t :
  ~ (0 <= getUTCFullYear t <= 99) -> StandaloneCalendar.entryDate t = utcMidnight t.
Proof.
  intros Hy. unfold StandaloneCalendar.entryDate, utcDate, utcTime, MakeDate, MakeTime, utcMidnight.
  unfold getUTCFullYear, getUTCMonth, getUTCDate, YearFromTime, MonthFromTime, DateFromTime in *.
  assert (Hf : fullYear (c_year (civil_from_days (Day t))) = c_year (civil_from_days (Day t))).
  { unfold fullYear. destruct (0 <=? _) eqn:E1; [|done]. destruct (_ <=? 99) eqn:E2; [|done].
    apply Z.leb_le in E1, E2. lia. }
  rewrite Hf. pose proof (MakeDay_fields (Day t) (c_date (civil_from_days (Day t)))) as Hm.
  cbn zeta in Hm. rewrite Hm. lia.
Qed.

Lemma utcMidnight_idem t : utcMidnight (utcMidnight t) = utcMidnight t.
Proof. unfold utcMidnight. by rewrite Day_mul. Qed.

Lemma standalone_position year weekStart t :
  StandaloneCalendar.dayIndex weekStart t = Generator.dayIndex weekStart (StandaloneCalendar.entryDate t) /\
  StandaloneCalendar.weekIndex year weekStart t
    = Calendar.weekIndex year weekStart (StandaloneCalendar.entryDate t).
Proof.
  split.
  - unfold StandaloneCalendar.dayIndex, Generator.dayIndex. reflexivity.
  - unfold StandaloneCalendar.weekIndex, Calendar.weekIndex,
      StandaloneCalendar.daysSinceStart, Calendar.daysSinceStart.
    rewrite StandaloneRangeFacts.standalone_startDate_eq. reflexivity.
Qed.

Lemma filter_ext_elem_of {A} (P Q : A -> Prop) `{!forall x, Decision (P x)}
    `{!forall x, Decision (Q x)} (l : list A) :
  (forall x, x ∈ l -> (P x <-> Q x)) -> filter P l = filter Q l.
Proof.
  induction l as [|x l IH]; intros Hext; [done|]. rewrite !filter_cons.
  rewrite IH by (intros y Hy; apply Hext; by right).
  destruct (decide (P x)) as [HP|HP], (decide (Q x)) as [HQ|HQ]; try done.
  - exfalso. apply HQ, Hext; [by left|done].
  - exfalso. apply HP, Hext; [by left|done].
Qed.

Lemma standalone_placedAt_iff year weekStart day week e :
  StandaloneRead.plainYear e ->
  0 <= day < 7 -> 0 <= week < StandaloneCalendar.totalWeeks year weekStart ->
  CalendarRead.standalone_placedAt year weekStart day week e <->
  utcMidnight (Entry.date e) = StandaloneCalendar.cellDateOf year weekStart day week.
Proof.
  intros Hy Hd Hw. unfold CalendarRead.standalone_placedAt, StandaloneCalendar.inGrid.
  destruct (standalone_position year weekStart (Entry.date e)) as [-> ->].
  rewrite (entryDate_eq _ Hy), standalone_cellDateOf.
  pose proof (cellDateOf_position year weekStart (utcMidnight (Entry.date e)) day week Hd) as Hp.
  rewrite utcMidnight_idem in Hp.
  pose proof (dayIndex_range weekStart (utcMidnight (Entry.date e))) as Hr.
  split.
  - intros (_ & Hd' & Hw'). symmetry. apply Hp. by split.
  - intros H. symmetry in H. apply Hp in H as [-> ->]. done.
Qed.

Lemma standalone_place_cells year weekStart weeks grid e :
  weeks = Z.of_nat (Z.to_nat (StandaloneCalendar.totalWeeks year weekStart)) ->
  Generator.gridShape weeks grid ->
  exists grid',
    StandaloneCalendar.place year weekStart (Some grid) e = Some grid' /\
    Generator.gridShape weeks grid' /\
    forall day week,
      cellAt grid' day week =
      (fun c => if decide (CalendarRead.standalone_placedAt year weekStart day week e) then S c else c)
        <$> cellAt grid day week.
Proof.
  intros Hweeks Hshape. unfold StandaloneCalendar.place. cbn [mbind option_bind].
  set (d := StandaloneCalendar.dayIndex weekStart (Entry.date e)).
  set (w := StandaloneCalendar.weekIndex year weekStart (Entry.date e)).
  destruct (_ && _) eqn:E.
  - apply andb_prop in E as [E E4]. apply andb_prop in E as [E E3].
    apply andb_prop in E as [E1 E2].
    apply Z.leb_le in E1, E3. apply Z.ltb_lt in E2, E4.
    destruct (cellAt_shape weeks grid d w Hshape ltac:(lia) ltac:(lia))
      as (row & c & Hrow & Hc & Hcell).
    rewrite Hrow. cbn [mbind option_bind]. rewrite Hc. cbn [mbind option_bind].
    eexists. split; [reflexivity|]. split.
    + eapply gridShape_bump; [done|done|]. by rewrite length_insert.
    + intros day week. rewrite (cellAt_bump grid d w row c) by (done || lia).
      destruct (decide (day = d /\ week = w)) as [[-> ->]|Hne].
      * rewrite Hcell. cbn [fmap option_fmap option_map]. rewrite decide_True; [done|].
        split; [|done]. unfold StandaloneCalendar.inGrid. fold d w. lia.
      * destruct (cellAt grid day week) as [c'|]; [|done]. cbn [fmap option_fmap option_map].
        rewrite decide_False; [done|]. intros (_ & H1 & H2). apply Hne.
        fold d in H1. fold w in H2. done.
  - exists grid. split; [done|]. split; [done|]. intros day week.
    destruct (cellAt grid day week) as [c|]; [|done]. cbn [fmap option_fmap option_map].
    rewrite decide_False; [done|]. intros [[[H1 H2] [H3 H4]] _].
    apply Z.leb_le in H1, H3. apply Z.ltb_lt in H2, H4. fold d w in H1, H2, H3, H4.
    by rewrite H1, H2, H3, H4 in E.
Qed.

Lemma standalone_foldl_place_cells year weekStart weeks entries grid :
  weeks = Z.of_nat (Z.to_nat (StandaloneCalendar.totalWeeks year weekStart)) ->
  Generator.gridShape weeks grid ->
  exists grid',
    foldl (StandaloneCalendar.place year weekStart) (Some grid) entries = Some grid' /\
    Generator.gridShape weeks grid' /\
    forall day week,
      cellAt grid' day week =
      (fun c => (c + length (filter (CalendarRead.standalone_placedAt year weekStart day week)
                                    entries))%nat)
        <$> cellAt grid day week.
Proof.
  intros Hweeks. revert grid. induction entries as [|e entries IH]; intros grid Hshape.
  - exists grid. split; [done|]. split; [done|].
    intros day week. rewrite filter_nil. destruct (cellAt grid day week); [|done].
    cbn [fmap option_fmap option_map length]. f_equal. lia.
  - rewrite foldl_cons.
    destruct (standalone_place_cells year weekStart weeks grid e Hweeks Hshape)
      as (g1 & -> & Hs1 & Hc1).
    destruct (IH g1 Hs1) as (g2 & -> & Hs2 & Hc2).
    exists g2. split; [done|]. split; [done|].
    intros day week. rewrite Hc2, Hc1, filter_cons.
    destruct (cellAt grid day week) as [c|]; [|done]. cbn [fmap option_fmap option_map]. f_equal.
    destruct (decide (CalendarRead.standalone_placedAt year weekStart day week e)); cbn [fmap option_fmap option_map length]; lia.
Qed.

(** The grid of the loop of [standalone.js], cell by cell. *)
Lemma calendar_standalone_buildGrid_cells (year : Z) (weekStart : string)
    (entries : list Entry.t) :
  Forall StandaloneRead.plainYear entries ->
  exists grid,
    StandaloneCalendar.buildGrid year weekStart entries = Some grid /\
    forall day week,
      0 <= day < 7 -> 0 <= week < StandaloneCalendar.totalWeeks year weekStart ->
      cellAt grid day week =
      Some (length (filter (fun e => utcMidnight (Entry.date e)
                                     = StandaloneCalendar.cellDateOf year weekStart day week)
                           entries)).
Proof.
  intros Hplain. unfold StandaloneCalendar.buildGrid.
  set (sorted := JS.sortBy (fun a b => Entry.date a <=? Entry.date b) entries).
  assert (Hperm : sorted ≡ₚ entries) by apply SortFacts.sortBy_Permutation.
  assert (Hshape0 : Generator.gridShape
                      (Z.of_nat (Z.to_nat (StandaloneCalendar.totalWeeks year weekStart)))
                      (StandaloneCalendar.emptyGrid year weekStart)).
  { unfold StandaloneCalendar.emptyGrid. split; [by rewrite length_replicate|].
    apply Forall_replicate. by rewrite length_replicate. }
  destruct (standalone_foldl_place_cells year weekStart _ sorted
              (StandaloneCalendar.emptyGrid year weekStart) eq_refl Hshape0)
    as (grid & Hgrid & Hshape & Hcells).
  exists grid. split; [exact Hgrid|]. intros day week Hd Hw. rewrite Hcells.
  destruct (cellAt_shape _ _ day week Hshape0 Hd ltac:(lia)) as (row & c & Hrow & Hc & Hcell).
  rewrite Hcell. cbn [fmap option_fmap option_map]. f_equal.
  assert (c = 0%nat) as ->.
  { unfold StandaloneCalendar.emptyGrid in Hrow. apply lookup_replicate in Hrow as [-> _].
    by apply lookup_replicate in Hc as [-> _]. }
  rewrite Nat.add_0_l, (filter_length_Permutation _ sorted entries Hperm).
  f_equal. apply filter_ext_elem_of. intros e He.
  apply standalone_placedAt_iff; [|done|done].
  rewrite Forall_forall in Hplain. by apply Hplain.
Qed.

End StandaloneCellFacts.

Section StandaloneGridProperties.
Import JSDate JSDateFacts LayoutFacts GridRead CellFacts GridCellFacts ColumnFacts.
Import StandaloneGridFacts StandaloneRangeFacts StandaloneCellFacts.

(** X21.  The grid of [standalone.js], for a year in the Date range: for
    entries whose UTC year is not one of 0 .. 99, the cell in row [day] and
    column [week] holds the number of entries whose UTC day is the date of
    that cell; this is the number written to [data-count] and coloured. *)
Theorem standalone_buildGrid_cells (year : Z) (weekStart : string) (entries : list Entry.t) :
  validYear year ->
  Forall StandaloneRead.plainYear entries ->
  exists startDate totalWeeks grid,
    Standalone.layout year weekStart = Some (startDate, totalWeeks) /\
    Standalone.buildGrid year weekStart entries = Standalone.Built grid /\
    forall day week,
      0 <= day < 7 -> 0 <= week < totalWeeks ->
      cellAt grid day week =
      Some (length (filter (fun e => Some (utcMidnight (Entry.date e))
                                     = Standalone.cellDateOf startDate day week)
                           entries)).
Proof.
  intros Hy Hplain.
  destruct (standalone_buildGrid_valid year weekStart entries Hy) as (grid & Hb & Hc).
  destruct (calendar_standalone_buildGrid_cells year weekStart entries Hplain)
    as (grid' & Hc' & Hcells).
  rewrite Hc in Hc'. injection Hc' as <-.
  exists (StandaloneCalendar.startDate year weekStart),
         (StandaloneCalendar.totalWeeks year weekStart), grid.
  split; [apply (standalone_layout_valid _ _ Hy)|]. split; [exact Hb|].
  intros day week Hd Hw. rewrite (Hcells day week Hd Hw). do 2 f_equal.
  apply list_filter_iff. intros e.
  rewrite (standalone_cellDateOf_valid _ _ _ _ Hy Hd Hw).
  split; [by intros -> | by intros [= ->]].
Qed.

End StandaloneGridProperties.

Lemma standalone_buildGrid_cells_witness :
  validYear 2024 /\
  exists startDate totalWeeks grid,
    Standalone.layout 2024 "sunday" = Some (startDate, totalWeeks) /\
    Standalone.buildGrid 2024 "sunday" Stats.januaryEntries = Standalone.Built grid /\
    GridRead.cellAt grid 1 0 =
      Some (length (filter (fun e => Some (GridRead.utcMidnight (Entry.date e))
                                     = Standalone.cellDateOf startDate 1 0)
                           Stats.januaryEntries)).
Proof.
  assert (Hy : validYear 2024) by (unfold validYear; lia).
  split; [exact Hy|].
  assert (Hplain : Forall StandaloneRead.plainYear Stats.januaryEntries).
  { repeat constructor; intros [_ H]; vm_compute in H; apply H; reflexivity. }
  destruct (standalone_buildGrid_cells 2024 "sunday" Stats.januaryEntries Hy Hplain)
    as (s & w & grid & Hl & Hg & Hc).
  exists s, w, grid. split; [exact Hl|]. split; [exact Hg|]. apply Hc; [lia|].
  assert (E : Standalone.layout 2024 "sunday" = Some (1703980800000, 53))
    by (vm_compute; reflexivity).
  rewrite E in Hl. injection Hl as _ <-. lia.
Defined.

(** ** The days of [processTraktHistory] in [standalone.js] *)

Module StandaloneDayFacts.
Import Standalone StandaloneDays.

Lemma getDay_hasDay ipd k : hasDay ipd k = bool_decide (is_Some (getDay ipd k)).
Proof.
  unfold hasDay. induction ipd as [|[k' v] ipd IH]; cbn [existsb getDay fst].
  - symmetry. apply bool_decide_eq_false_2. by intros [? ?].
  - destruct (String.eqb k' k); cbn [orb]; [|done].
    symmetry. apply bool_decide_eq_true_2. by eexists.
Qed.

Lemma getDay_snoc ipd k v k' :
  getDay (ipd ++ [(k, v)]) k' =
  match getDay ipd k' with
  | Some v' => Some v'
  | None => if String.eqb k k' then Some v else None
  end.
Proof.
  induction ipd as [|[k0 v0] ipd IH]; simpl; [done|].
  destruct (String.eqb k0 k'); [done|]. exact IH.
Qed.

Lemma getDay_ensureDay ipd k k' :
  getDay (ensureDay ipd k) k' =
  if String.eqb k k' then Some (default [] (getDay ipd k)) else getDay ipd k'.
Proof.
  unfold ensureDay. rewrite getDay_hasDay. case_bool_decide as Hk.
  - destruct (String.eqb_spec k k') as [<-|Hne]; [|done]. by destruct Hk as [v ->].
  - rewrite getDay_snoc. apply eq_None_not_Some in Hk.
    destruct (String.eqb_spec k k') as [<-|Hne].
    + by rewrite Hk.
    + by destruct (getDay ipd k').
Qed.

Lemma getDay_pushItem ipd k item k' :
  getDay (pushItem ipd k item) k' =
  if String.eqb k k' then (fun v => v ++ [item]) <$> getDay ipd k else getDay ipd k'.
Proof.
  induction ipd as [|[k0 v0] ipd IH]; cbn [pushItem getDay].
  - by destruct (String.eqb k k').
  - destruct (String.eqb k0 k) eqn:E0; cbn [getDay].
    + apply String.eqb_eq in E0 as ->. by destruct (String.eqb k k').
    + destruct (String.eqb k0 k') eqn:E1; [|exact IH].
      apply String.eqb_eq in E1 as ->. by rewrite String.eqb_sym, E0.
Qed.

Lemma extended_nil o : extended o [] = o.
Proof. destruct o as [v|]; simpl; [|done]. by rewrite app_nil_r. Qed.

Lemma extended_Some v l : extended (Some v) l = Some (v ++ omap dayItemOf l).
Proof. unfold extended. by destruct l. Qed.

Section Days.
Variable LocalTZA : Z -> Z.
Variable otherFormats : string -> option Z.

#[local] Abbreviation dayOf := (StandaloneDays.dayOf LocalTZA otherFormats).
#[local] Abbreviation processEntry := (Standalone.processEntry LocalTZA otherFormats).
#[local] Abbreviation forEachEntry := (Standalone.forEachEntry LocalTZA otherFormats).

(** One step of the loop: a record of the selected year makes sure that its
    day exists and adds its item, if it has one; any other record changes
    nothing. *)
Lemma processEntry_day selectedYear acc entry acc' k :
  processEntry selectedYear acc entry = Fetcher.Return acc' ->
  getDay (Loop.itemsPerDay acc') k =
  if decide (dayOf selectedYear entry = Some k)
  then Some (default [] (getDay (Loop.itemsPerDay acc) k) ++
             option_list (dayItemOf entry))
  else getDay (Loop.itemsPerDay acc) k.
Proof.
  unfold Standalone.processEntry, StandaloneDays.dayOf, dayItemOf.
  destruct (JS.Date_parse otherFormats (RawItem.watched_at entry)) as [date|];
    cbn [mbind option_bind]; [|intros [= <-]; by rewrite decide_False].
  case_bool_decide as Hy; [|intros [= <-]; by rewrite decide_False].
  assert (Hk : forall ipd : option (list DayItem.t),
    (if decide (Some (isoDate date) = Some k) then ipd
     else getDay (Loop.itemsPerDay acc) k) =
    (if String.eqb (isoDate date) k then ipd else getDay (Loop.itemsPerDay acc) k)).
  { intros ipd. destruct (String.eqb_spec (isoDate date) k) as [->|Hne].
    - by rewrite decide_True.
    - rewrite decide_False; [done|]. by intros [= ?]. }
  rewrite Hk.
  destruct (String.eqb (RawItem.type entry) "episode").
  - destruct (RawItem.episode entry) as [episode|]; [|done].
    destruct (RawItem.show entry) as [show|]; [|done].
    intros [= <-]. cbn [Loop.itemsPerDay mbind option_bind option_list].
    rewrite getDay_pushItem, !getDay_ensureDay, String.eqb_refl.
    destruct (String.eqb_spec (isoDate date) k) as [<-|Hne]; [done|done].
  - destruct (String.eqb (RawItem.type entry) "movie").
    + destruct (RawItem.movie entry) as [movie|]; [|done].
      intros [= <-]. cbn [Loop.itemsPerDay mbind option_bind option_list].
      rewrite getDay_pushItem, !getDay_ensureDay, String.eqb_refl.
      destruct (String.eqb_spec (isoDate date) k) as [<-|Hne]; [done|done].
    + intros [= <-]. cbn [Loop.itemsPerDay option_list].
      rewrite getDay_ensureDay, app_nil_r.
      destruct (String.eqb_spec (isoDate date) k) as [->|Hne]; [done|done].
Qed.

Lemma forEachEntry_days selectedYear history acc acc' k :
  forEachEntry selectedYear history acc = Fetcher.Return acc' ->
  getDay (Loop.itemsPerDay acc') k =
  extended (getDay (Loop.itemsPerDay acc) k)
           (filter (fun entry => dayOf selectedYear entry = Some k) history).
Proof.
  revert acc. induction history as [|entry history IH]; intros acc; simpl.
  - intros [= <-]. by rewrite filter_nil, extended_nil.
  - destruct (processEntry selectedYear acc entry) as [acc1|] eqn:E; [|done].
    intros H. rewrite (IH _ H), (processEntry_day _ _ _ _ k E), filter_cons.
    destruct (decide (dayOf selectedYear entry = Some k)) as [Hd|Hd].
    + rewrite extended_Some. unfold extended.
      assert (Ho : omap dayItemOf (entry :: filter (fun entry => dayOf selectedYear entry = Some k)
                                               history)
                   = option_list (dayItemOf entry) ++
                     omap dayItemOf (filter (fun entry => dayOf selectedYear entry = Some k)
                                            history)).
      { cbn [omap list_omap]. by destruct (dayItemOf entry). }
      rewrite Ho, app_assoc. by destruct (getDay (Loop.itemsPerDay acc) k).
    + done.
Qed.

End Days.

End StandaloneDayFacts.

Section StandaloneDayProperties.
Import Standalone StandaloneDays StandaloneDayFacts.
Variable LocalTZA : Z -> Z.
Variable otherFormats : string -> option Z.
Variable now : Z.

(** X22.  When [processTraktHistory] of [standalone.js] returns, [itemsPerDay]
    has a day exactly for the UTC days of the records whose local year is
    the selected year, and the day holds the items of these records that are
    episodes or movies, in the order of the history; a day of records of
    other types only is there, and empty. *)
Theorem standalone_itemsPerDay (history : list RawItem.t) (targetYear : option Z)
    (r : Processed.t) (k : string) :
  processTraktHistory LocalTZA otherFormats now history targetYear = Fetcher.Return r ->
  getDay (Processed.itemsPerDay r) k =
  match filter (fun entry => dayOf LocalTZA otherFormats (Processed.year r) entry = Some k)
               history with
  | [] => None
  | records => Some (omap dayItemOf records)
  end.
Proof.
  unfold processTraktHistory. cbn zeta.
  destruct (forEachEntry _ _ _ _ _) as [acc|] eqn:E; [|done].
  intros [= <-]. cbn [Processed.itemsPerDay Processed.year].
  rewrite (forEachEntry_days _ _ _ _ _ _ k E). cbn [Loop.itemsPerDay getDay].
  unfold extended. by destruct (filter _ history).
Qed.

End StandaloneDayProperties.

Lemma standalone_itemsPerDay_witness :
  exists r,
    Standalone.processTraktHistory JSDate.tzUTC Paging.noOtherFormats 0
      [RawItem.Build "2024-03-01" "movie" None None
         (Some (RawMovie.Build "Dune" (Some 2021) None));
       RawItem.Build "2024-03-02" "person" None None None]
      (Some 2024) = Fetcher.Return r /\
    StandaloneDays.getDay (Standalone.Processed.itemsPerDay r) "2024-03-02" = Some [].
Proof.
  destruct (Standalone.processTraktHistory JSDate.tzUTC Paging.noOtherFormats 0
      [RawItem.Build "2024-03-01" "movie" None None
         (Some (RawMovie.Build "Dune" (Some 2021) None));
       RawItem.Build "2024-03-02" "person" None None None]
      (Some 2024)) as [r|] eqn:E; [|vm_compute in E; discriminate].
  exists r. split; [reflexivity|].
  rewrite (standalone_itemsPerDay JSDate.tzUTC Paging.noOtherFormats 0 _ _ r "2024-03-02" E).
  assert (Hy : Standalone.Processed.year r = Some 2024).
  { vm_compute in E. by injection E as <-. }
  rewrite Hy. vm_compute. reflexivity.
Defined.

(** ** What [generateSvg] returns *)

Module OutcomeFacts.
Import Template.

Lemma dark_light_own name :
  name = "dark" \/ name = "light" -> name ∉ Generator.inheritedKeys.
Proof.
  intros Hn Hin. apply list_elem_of_In in Hin. simpl in Hin.
  destruct Hn as [-> | ->]; intuition discriminate.
Qed.

Lemma generator_selectTheme_None name :
  Generator.selectTheme name = None <-> name ∈ Generator.inheritedKeys.
Proof.
  unfold Generator.selectTheme.
  destruct (String.eqb_spec name "dark") as [Hd|_].
  { split; [done|]. intros Hin. by apply dark_light_own in Hin; [|left]. }
  destruct (String.eqb_spec name "light") as [Hl|_].
  { split; [done|]. intros Hin. by apply dark_light_own in Hin; [|right]. }
  case_bool_decide; split; done.
Qed.

Lemma standalone_selectTheme_None name :
  Standalone.selectTheme name = None <-> name ∈ Generator.inheritedKeys.
Proof.
  unfold Standalone.selectTheme.
  destruct (String.eqb_spec name "dark") as [Hd|_].
  { split; [done|]. intros Hin. by apply dark_light_own in Hin; [|left]. }
  destruct (String.eqb_spec name "light") as [Hl|_].
  { split; [done|]. intros Hin. by apply dark_light_own in Hin; [|right]. }
  case_bool_decide; split; done.
Qed.

End OutcomeFacts.

Section OutcomeProperties.
Import Template OutcomeFacts.
Variable LocalTZA : Z -> Z.
Variable otherFormats : string -> option Z.
Variable barHeightOf : nat -> nat -> Z.

(** X23.  [generateSvg] of [src/generator.js] throws a [RangeError] exactly
    when the year is outside the Date range (-271820 .. 275759), at
    [Array(totalWeeks)], before anything else is looked at.  For a year in
    the range it throws exactly when the theme name is a property that every
    object literal inherits (such as ['constructor'] or ['toString']), the
    value found under it having no colours; in every other case it returns
    a document, whatever the entries and the other options are, and the grid
    never gets a [NaN]. *)
Theorem generateSvg_outcome (entries : list Entry.t) (options : Generator.Options.t)
    (w : Generator.world) :
  let theme := default "dark" (Generator.Options.theme options) in
  let year := default (JSDate.getFullYear LocalTZA (Generator.clock w))
                      (Generator.Options.year options) in
  let result := fst (Generator.generateSvg LocalTZA otherFormats barHeightOf entries options w) in
  (result = RangeError <-> ~ validYear year) /\
  (result = Thrown <-> validYear year /\ theme ∈ Generator.inheritedKeys) /\
  (validYear year -> theme ∉ Generator.inheritedKeys -> exists svg, result = Document svg) /\
  result <> GridNaN.
Proof.
  cbn zeta. unfold Generator.generateSvg. cbv zeta.
  set (year := default (JSDate.getFullYear LocalTZA (Generator.clock w))
                       (Generator.Options.year options)).
  destruct (decide (validYear year)) as [Hy|Hy].
  - rewrite (RangeFacts.layout_valid _ _ Hy), (RangeFacts.buildGrid_valid _ _ _ Hy).
    match goal with
    | |- context [Calendar.buildGrid ?y ?ws ?es] =>
        destruct (LayoutFacts.buildGrid_ok y ws es) as (g & m & Hg & _); rewrite Hg
    end.
    destruct (Generator.generateFontFaceCSS w) as [css w'].
    pose proof (generator_selectTheme_None (default "dark" (Generator.Options.theme options)))
      as Hsel.
    destruct (Generator.selectTheme _) as [t|]; cbn [fst].
    + split; [done|]. split; [|split; [|done]].
      * split; [done|]. intros [_ Hin]. by apply Hsel in Hin.
      * intros _ _. by eexists.
    + split; [done|]. split; [|split; [|done]].
      * split; [intros _; split; [done|by apply Hsel]|done].
      * intros _ Hn. exfalso. by apply Hn, Hsel.
  - rewrite (RangeFacts.layout_invalid _ _ Hy). cbn [fst].
    split; [done|]. split; [|split; [|done]].
    + split; [done|]. by intros [? _].
    + intros ?. done.
Qed.

(** X24.  [generateSvg] of [standalone.js] throws a [RangeError] exactly
    when the year is outside the Date range, at [Array(totalWeeks)].  For a
    year in the range it throws exactly when the theme name is a property
    that every object literal inherits, or when the options give neither
    [displayName] nor [username]; in every other case it returns a
    document. *)
Theorem standalone_generateSvg_outcome (entries : list Entry.t)
    (itemsPerDay : gmap string (list DayItem.t)) (options : Standalone.Options.t) (clock : Z) :
  let theme := default "dark" (Standalone.Options.theme options) in
  let year := default (JSDate.getFullYear LocalTZA clock) (Standalone.Options.year options) in
  let unnamed := Standalone.Options.displayName options = None /\
                 Standalone.Options.username options = None in
  let result := Standalone.generateSvg LocalTZA entries itemsPerDay options clock in
  (result = RangeError <-> ~ validYear year) /\
  (result = Thrown <-> validYear year /\ (theme ∈ Generator.inheritedKeys \/ unnamed)) /\
  (validYear year -> theme ∉ Generator.inheritedKeys -> ~ unnamed ->
   exists svg, result = Document svg) /\
  result <> GridNaN.
Proof.
  cbn zeta. unfold Standalone.generateSvg. cbv zeta.
  set (year := default (JSDate.getFullYear LocalTZA clock) (Standalone.Options.year options)).
  set (weekStart := default "sunday" (Standalone.Options.weekStart options)).
  destruct (decide (validYear year)) as [Hy|Hy].
  - rewrite (StandaloneRangeFacts.standalone_layout_valid _ _ Hy).
    destruct (StandaloneRangeFacts.standalone_buildGrid_valid year weekStart entries Hy)
      as (g & Hg & _).
    rewrite Hg.
    pose proof (standalone_selectTheme_None (default "dark" (Standalone.Options.theme options)))
      as Hsel.
    destruct (Standalone.selectTheme _) as [t|].
    + destruct (StandaloneFacts.cellsMarkup_contains t year
                  (StandaloneCalendar.startDate year weekStart)
                  (StandaloneCalendar.totalWeeks year weekStart) itemsPerDay
                  (Standalone.Options.dayCountStats options) g) as (cells & Hcells & _).
      { intros day week Hd Hw.
        rewrite (StandaloneRangeFacts.standalone_cellDateOf_valid _ _ _ _ Hy Hd Hw).
        by eexists. }
      rewrite Hcells.
      destruct (Standalone.Options.displayName options) as [dn|].
      * split; [done|]. split; [|split; [|done]].
        -- split; [done|]. intros [_ [Hin|[? _]]]; [by apply Hsel in Hin|done].
        -- intros _ _ _. by eexists.
      * destruct (Standalone.Options.username options) as [un|].
        -- split; [done|]. split; [|split; [|done]].
           ++ split; [done|]. intros [_ [Hin|[_ ?]]]; [by apply Hsel in Hin|done].
           ++ intros _ _ _. by eexists.
        -- split; [done|]. split; [|split; [|done]].
           ++ split; [intros _; split; [done|by right]|done].
           ++ intros _ _ Hn. exfalso. by apply Hn.
    + split; [done|]. split; [|split; [|done]].
      * split; [intros _; split; [done|left; by apply Hsel]|done].
      * intros _ Hn. exfalso. by apply Hn, Hsel.
  - rewrite (StandaloneRangeFacts.standalone_layout_invalid _ _ Hy).
    split; [done|]. split; [|split; [|done]].
    + split; [done|]. by intros [? _].
    + intros ?. done.
Qed.

End OutcomeProperties.

Lemma generateSvg_outcome_witness :
  validYear 2024 /\
  exists svg,
    fst (Generator.generateSvg JSDate.tzUTC (fun _ => None) (fun _ _ => 0)
           Stats.januaryEntries (Generator.yearOnly 2024)
           (Generator.firstStart 1704067200000)) = Template.Document svg.
Proof.
  assert (Hy : validYear 2024) by (unfold validYear; lia).
  split; [exact Hy|].
  apply (proj1 (proj2 (proj2 (generateSvg_outcome JSDate.tzUTC (fun _ => None) (fun _ _ => 0)
                         Stats.januaryEntries (Generator.yearOnly 2024)
                         (Generator.firstStart 1704067200000))))).
  - exact Hy.
  - apply OutcomeFacts.dark_light_own. by left.
Defined.

Lemma standalone_generateSvg_outcome_witness :
  validYear 2024 /\
  exists svg,
    Standalone.generateSvg JSDate.tzUTC Stats.januaryEntries ∅
      (Standalone.forUser "sean" 2024) 1704067200000 = Template.Document svg.
Proof.
  assert (Hy : validYear 2024) by (unfold validYear; lia).
  split; [exact Hy|].
  apply (proj1 (proj2 (proj2 (standalone_generateSvg_outcome JSDate.tzUTC
                         Stats.januaryEntries ∅
                         (Standalone.forUser "sean" 2024) 1704067200000)))).
  - exact Hy.
  - apply OutcomeFacts.dark_light_own. by left.
  - intros [_ H]. discriminate H.
Defined.

(** ** The grids of [generateMultiYearSvg] *)

Module MultiYearFacts.
Import JSDate LayoutFacts RangeFacts Generator GridRead Calendar CalendarRead CellFacts GridCellFacts.

(** Two grids of the same shape with the same cells are the same grid. *)
Lemma grid_ext weeks g1 g2 :
  gridShape weeks g1 -> gridShape weeks g2 ->
  (forall day week, cellAt g1 day week = cellAt g2 day week) -> g1 = g2.
Proof.
  intros [Hl1 Hr1] [Hl2 Hr2] Hcells. apply list_eq. intros i.
  destruct (g1 !! i) as [r1|] eqn:E1, (g2 !! i) as [r2|] eqn:E2.
  - f_equal. apply list_eq. intros j.
    specialize (Hcells (Z.of_nat i) (Z.of_nat j)).
    rewrite !cellAt_range, !Nat2Z.id, E1, E2 in Hcells by lia. exact Hcells.
  - apply lookup_lt_Some in E1. apply lookup_ge_None in E2. lia.
  - apply lookup_ge_None in E1. apply lookup_lt_Some in E2. lia.
  - done.
Qed.

Lemma maxInv_unique grid m1 m2 : maxInv grid m1 -> maxInv grid m2 -> m1 = m2.
Proof.
  intros [Hle1 Hmax1] [Hle2 Hmax2].
  assert (m1 <= m2)%nat.
  { destruct Hmax1 as [->|(d & w & Hc)]; [lia|]. by apply Hle2 in Hc. }
  assert (m2 <= m1)%nat.
  { destruct Hmax2 as [->|(d & w & Hc)]; [lia|]. by apply Hle1 in Hc. }
  lia.
Qed.

Lemma calendar_buildGrid_Permutation year weekStart l k :
  l ≡ₚ k -> buildGrid year weekStart l = buildGrid year weekStart k.
Proof.
  intros Hp. unfold buildGrid.
  assert (Hinit : maxInv (emptyGrid year weekStart) 0).
  { split; [|by left]. intros day week c Hc. apply cellAt_emptyGrid in Hc. lia. }
  destruct (foldl_place_cells year weekStart l (emptyGrid year weekStart) 0%nat
              (emptyGrid_shape _ _) Hinit) as (g1 & m1 & -> & Hs1 & Hi1 & Hc1).
  destruct (foldl_place_cells year weekStart k (emptyGrid year weekStart) 0%nat
              (emptyGrid_shape _ _) Hinit) as (g2 & m2 & -> & Hs2 & Hi2 & Hc2).
  assert (g1 = g2) as ->.
  { apply (grid_ext _ _ _ Hs1 Hs2). intros day week. rewrite Hc1, Hc2.
    by rewrite (filter_length_Permutation _ l k Hp). }
  f_equal. by eapply maxInv_unique.
Qed.

(** The grid does not depend on the order of the entries. *)
Lemma buildGrid_Permutation year weekStart l k :
  l ≡ₚ k -> Generator.buildGrid year weekStart l = Generator.buildGrid year weekStart k.
Proof.
  intros Hp. destruct (decide (validYear year)) as [Hy|Hy].
  - rewrite !(buildGrid_valid _ _ _ Hy). by apply calendar_buildGrid_Permutation.
  - by rewrite !(buildGrid_invalid _ _ _ Hy).
Qed.

End MultiYearFacts.

Section MultiYearProperties.
Import JSDate LayoutFacts Generator GridRead MultiYearFacts.

(** X25.  [generateMultiYearSvg] builds, for each of its years from the latest
    to the earliest, the grid and the [maxCount] that [generateSvg] builds
    for that year from the same entries: the grid does not depend on the
    order in which the entries are counted. *)
Theorem generateMultiYearSvg_grids_spec (LocalTZA : Z -> Z) (entries : list Entry.t)
    (years : list Z) (weekStart : string) :
  generateMultiYearSvg_grids LocalTZA entries years weekStart =
  map (fun year => generateSvg_grid LocalTZA entries year weekStart)
      (JS.sortBy (fun a b => b <=? a) years) /\
  forall entries', entries' ≡ₚ entries ->
    generateMultiYearSvg_grids LocalTZA entries' years weekStart =
    generateMultiYearSvg_grids LocalTZA entries years weekStart.
Proof.
  split.
  - unfold generateMultiYearSvg_grids, generateSvg_grid. apply map_ext. intros year.
    apply buildGrid_Permutation. unfold sortedEntries, yearEntries.
    symmetry. apply SortFacts.sortBy_Permutation.
  - intros entries' Hp. unfold generateMultiYearSvg_grids. apply map_ext. intros year.
    apply buildGrid_Permutation. unfold yearEntries. by rewrite Hp.
Qed.

End MultiYearProperties.

Lemma generateMultiYearSvg_grids_spec_witness :
  Generator.generateMultiYearSvg_grids JSDate.tzUTC (rev Stats.januaryEntries) [2023; 2024]
    "monday" =
  Generator.generateMultiYearSvg_grids JSDate.tzUTC Stats.januaryEntries [2023; 2024]
    "monday".
Proof.
  apply (proj2 (generateMultiYearSvg_grids_spec JSDate.tzUTC Stats.januaryEntries
                  [2023; 2024] "monday")).
  symmetry. apply Permutation_rev.
Defined.

(** ** The items of a cell and the time zone *)

Section CellItemProperties.
Import JSDate JS Stats StatsFacts DayStringFacts CellItems CellFacts.
Variable LocalTZA : Z -> Z.

(** X26.  The cell loop of [generateSvg] looks up the items of a cell under the
    local date of the cell's UTC midnight.  Where local time is UTC or ahead
    of it by less than a day, the cell of a day shows the entries watched on
    that local day; where local time is behind UTC, it shows the entries
    watched on the local day before.  (Days whose years have four digits.) *)
Theorem cell_items_zone (entries : list Entry.t) (D : Z) :
  let cellDate := D * msPerDay in
  let itemsPerDay := groupEntriesByDate LocalTZA entries in
  Forall (fun e => fourDigitDay (localDay LocalTZA (Entry.date e))) entries ->
  tooltipDateOf LocalTZA cellDate = getLocalDateString LocalTZA cellDate /\
  (0 <= LocalTZA cellDate < msPerDay -> fourDigitDay D ->
   itemsForDay LocalTZA itemsPerDay cellDate
     = map itemOf (watchedOnLocalDay LocalTZA entries D)) /\
  (- msPerDay <= LocalTZA cellDate < 0 -> fourDigitDay (D - 1) ->
   itemsForDay LocalTZA itemsPerDay cellDate
     = map itemOf (watchedOnLocalDay LocalTZA entries (D - 1))).
Proof.
  cbn zeta. intros Hfour.
  assert (Hkey : tooltipDateOf LocalTZA (D * msPerDay)
                 = getLocalDateString LocalTZA (D * msPerDay)) by reflexivity.
  assert (Hitems : forall z, fourDigitDay z ->
    localDay LocalTZA (D * msPerDay) = z ->
    itemsForDay LocalTZA (groupEntriesByDate LocalTZA entries) (D * msPerDay)
      = map itemOf (watchedOnLocalDay LocalTZA entries z)).
  { intros z Hz Hday. unfold itemsForDay, watchedOnLocalDay.
    rewrite Hkey, groupEntriesByDate_get, getLocalDateString_dayString, Hday.
    transitivity (map itemOf (filter (fun e => getLocalDateString LocalTZA (Entry.date e)
                                               = dayString z) entries)).
    { by destruct (filter _ entries). }
    f_equal. apply StandaloneCellFacts.filter_ext_elem_of. intros e He.
    rewrite Forall_forall in Hfour. specialize (Hfour e He). cbn beta in Hfour.
    rewrite getLocalDateString_dayString. split.
    - intros Hs. by apply dayString_inj in Hs.
    - by intros ->. }
  split; [exact Hkey|]. split.
  - intros Htz Hd. apply Hitems; [done|]. unfold localDay, LocalTime, Day, msPerDay in *.
    Z.div_mod_to_equations; lia.
  - intros Htz Hd. apply Hitems; [done|]. unfold localDay, LocalTime, Day, msPerDay in *.
    Z.div_mod_to_equations; lia.
Qed.

End CellItemProperties.

Lemma cell_items_zone_witness :
  CellItems.itemsForDay (JSDate.tzFixed (-5))
    (Stats.groupEntriesByDate (JSDate.tzFixed (-5)) Stats.januaryEntries)
    (19724 * JSDate.msPerDay)
  = map Stats.itemOf (CellItems.watchedOnLocalDay (JSDate.tzFixed (-5)) Stats.januaryEntries
                        (19724 - 1)).
Proof.
  assert (Hfour : Forall (fun e => Stats.fourDigitDay
                                     (Stats.localDay (JSDate.tzFixed (-5)) (Entry.date e)))
                         Stats.januaryEntries).
  { repeat constructor; vm_compute; discriminate. }
  assert (Htz : - JSDate.msPerDay <= JSDate.tzFixed (-5) (19724 * JSDate.msPerDay) < 0).
  { vm_compute. split; [discriminate|reflexivity]. }
  assert (Hd : Stats.fourDigitDay (19724 - 1)).
  { vm_compute. split; discriminate. }
  exact (proj2 (proj2 (cell_items_zone (JSDate.tzFixed (-5)) Stats.januaryEntries 19724 Hfour))
               Htz Hd).
Defined.

